(** * Knot DNS: zone lifecycle core (zones.c) and binary zone dump (zone-dump.c)

    A shallow embedding of the parts of [src/knot/server/zones.c] and
    [src/dnslib/zone-dump.c] that the specification talks about, followed by
    the properties established for them.

    Conventions.
    - C unsigned integers are [Z] values with the wrap-around written out
      ([uint32], [uint64]); the conversion to [int] is [to_int].
    - A pointer that may be NULL is an [option].
    - Stateful code is written in state-passing style.
    - A function that can stop at a failed [assert] or at a read through a
      NULL pointer returns an [option]: [None] where it stops.  *)

From Stdlib Require Import String ZArith List Bool Lia.
Import ListNotations.
Local Open Scope Z_scope.

(* ================================================================== *)
(** ** Machine integers *)
(* ================================================================== *)

Definition uint8  (x : Z) : Z := x mod 2 ^ 8.
Definition uint16 (x : Z) : Z := x mod 2 ^ 16.
Definition uint32 (x : Z) : Z := x mod 2 ^ 32.
Definition uint64 (x : Z) : Z := x mod 2 ^ 64.

(** Conversion of an integer value to C [int] (32 bits, two's complement). *)
Definition to_int (x : Z) : Z :=
  let m := x mod 2 ^ 32 in
  if m <? 2 ^ 31 then m else m - 2 ^ 32.

Definition is_uint32 (x : Z) : Prop := 0 <= x < 2 ^ 32.
Definition is_uint64 (x : Z) : Prop := 0 <= x < 2 ^ 64.

(* ================================================================== *)
(** ** Assertions *)
(* ================================================================== *)

(** Functions that stop at a failed [assert], or at a read through a NULL
    pointer or through the wrong member of a union, have no result:
    [None]. *)
Definition obind {A B : Type} (o : option A) (k : A -> option B) : option B :=
  match o with
  | Some a => k a
  | None => None
  end.

Notation "'let?' x := e 'in' k" := (obind e (fun x => k))
  (at level 10, x name, e at level 200, k at level 200, only parsing).
Notation "'let?' ' p := e 'in' k" := (obind e (fun p => k))
  (at level 10, p strict pattern, e at level 200, k at level 200,
   only parsing).

(* ================================================================== *)
(** ** zones.c: journal keys *)
(* ================================================================== *)

(** [ixfrdb_key_from]: least significant 32 bits of the key. *)
Definition ixfrdb_key_from (k : Z) : Z :=
  uint32 (Z.land k (uint64 4294967295)).

(** [ixfrdb_key_to]: most significant 32 bits of the key. *)
Definition ixfrdb_key_to (k : Z) : Z :=
  uint32 (Z.shiftr k (uint64 32)).

(** [ixfrdb_key_to_cmp]: a 64-bit unsigned difference returned as [int]. *)
Definition ixfrdb_key_to_cmp (k to : Z) : Z :=
  to_int (uint64 (uint64 (ixfrdb_key_to k) - to)).

(** [ixfrdb_key_from_cmp]: a 64-bit unsigned difference returned as [int]. *)
Definition ixfrdb_key_from_cmp (k from : Z) : Z :=
  to_int (uint64 (uint64 (ixfrdb_key_from k) - from)).

(** [ixfrdb_key_make]: key = [TO | FROM]. *)
Definition ixfrdb_key_make (from to : Z) : Z :=
  Z.lor (uint64 (Z.shiftl (uint64 to) (uint64 32))) (uint64 from).

(** What it means for the sign of a comparator result [c] to order the key
    part [a] relative to the serial [s]. *)
Definition sign_orders (c a s : Z) : Prop :=
  (c < 0 <-> a < s) /\ (c = 0 <-> a = s) /\ (c > 0 <-> a > s).

(* ================================================================== *)
(** ** zones.c: data model *)
(* ================================================================== *)

(** An RRSet as far as zones.c looks at it: its type and its serialized
    form. *)
Record knot_rrset_t : Set := mkRRSet {
  rr_type : Z;
  rr_wire : list Z
}.

(** Modelled from the spec: [rrset_binary_size] of libknot, the length of
    the serialized form of an RRSet. *)
Definition rrset_binary_size (rr : option knot_rrset_t) : Z :=
  match rr with
  | None => 0
  | Some r => Z.of_nat (length (rr_wire r))
  end.

(** Modelled from the spec: [knot_rrset_equal] of libknot with
    [KNOT_RRSET_COMPARE_WHOLE]. *)
Definition knot_rrset_equal (a b : knot_rrset_t) : bool :=
  (rr_type a =? rr_type b) &&
  (if list_eq_dec Z.eq_dec (rr_wire a) (rr_wire b) then true else false).

(** RDATA of the apex SOA: 32-bit fields read from the wire. *)
Record soa_rdata : Set := mkSoa {
  soa_serial : Z;
  soa_refresh : Z;
  soa_retry : Z;
  soa_expire : Z;
  soa_minimum : Z
}.

(** Modelled from the spec: the SOA RDATA accessors of libknot; each reads
    a 32-bit field. *)
Definition knot_rdata_soa_serial (soa : soa_rdata) : Z := uint32 (soa_serial soa).
Definition knot_rdata_soa_refresh (soa : soa_rdata) : Z := uint32 (soa_refresh soa).
Definition knot_rdata_soa_retry (soa : soa_rdata) : Z := uint32 (soa_retry soa).
Definition knot_rdata_soa_expire (soa : soa_rdata) : Z := uint32 (soa_expire soa).

(** A contents snapshot.  The apex SOA RRSet is a field: every use in
    zones.c is preceded by [assert(soa_rrs != NULL)].  The apex DNSKEY and
    NSEC3PARAM RRSets may be absent. *)
Record knot_zone_contents_t : Set := mkContents {
  apex_soa : soa_rdata;
  apex_dnskey : option knot_rrset_t;
  apex_nsec3param : option knot_rrset_t;
  zc_rrsets : list knot_rrset_t
}.

(** Modelled from the spec: [knot_zone_serial], the serial of the apex SOA
    (0 without contents). *)
Definition knot_zone_serial (zc : option knot_zone_contents_t) : Z :=
  match zc with
  | None => 0
  | Some c => knot_rdata_soa_serial (apex_soa c)
  end.

Record knot_changeset_t : Set := mkChangeset {
  serial_from : Z;
  serial_to : Z;
  soa_from : option knot_rrset_t;
  soa_to : option knot_rrset_t;
  remove : list knot_rrset_t;
  add : list knot_rrset_t;
  flags : Z
}.

(** A changesets envelope: the list [sets]. *)
Record knot_changesets_t : Set := mkChangesets {
  sets : list knot_changeset_t
}.

(** Modelled from the spec: [knot_changeset_is_empty] of the changeset
    engine: no ending SOA, nothing to add, nothing to remove. *)
Definition knot_changeset_is_empty (ch : option knot_changeset_t) : bool :=
  match ch with
  | None => true
  | Some c =>
      match soa_to c, add c, remove c with
      | None, [], [] => true
      | _, _, _ => false
      end
  end.

Inductive serial_policy_t : Set :=
| CONF_SERIAL_INCREMENT
| CONF_SERIAL_UNIXTIME.

Record conf_zone_t : Set := mkConf {
  name : string;
  file : string;
  serial_policy : serial_policy_t;
  dbsync_timeout : Z;
  dnssec_enable : bool
}.

(** *** The change journal *)

(** Modelled from the spec: the journal of section 4.2, which is not part of
    zones.c.  An entry is a 64-bit key with flags from {VALID, DIRTY, TRANS};
    the journal holds at most [j_max_nodes] entries, in insertion order. *)
Record journal_node_t : Set := mkNode {
  jn_id : Z;
  jn_flags : Z
}.

Definition JOURNAL_VALID : Z := 2.
Definition JOURNAL_DIRTY : Z := 4.
Definition JOURNAL_TRANS : Z := 8.

Definition has_flag (fl bit : Z) : bool := negb (Z.land fl bit =? 0).

Record journal_t : Set := mkJournal {
  j_nodes : list journal_node_t;
  j_max_nodes : nat;
  j_trans : bool;
  j_refs : Z
}.

Definition set_nodes (j : journal_t) (ns : list journal_node_t) : journal_t :=
  mkJournal ns (j_max_nodes j) (j_trans j) (j_refs j).
Definition set_trans (j : journal_t) (t : bool) : journal_t :=
  mkJournal (j_nodes j) (j_max_nodes j) t (j_refs j).
Definition set_refs (j : journal_t) (r : Z) : journal_t :=
  mkJournal (j_nodes j) (j_max_nodes j) (j_trans j) r.

(** Entries visible to [fetch]: VALID and not TRANS. *)
Definition node_visible (n : journal_node_t) : bool :=
  has_flag (jn_flags n) JOURNAL_VALID && negb (has_flag (jn_flags n) JOURNAL_TRANS).

Definition journal_committed (j : option journal_t) : list Z :=
  match j with
  | None => []
  | Some j => map jn_id (filter node_visible (j_nodes j))
  end.

Record zone_t : Set := mkZone {
  conf : conf_zone_t;
  contents : option knot_zone_contents_t;
  ixfr_db : option journal_t;
  zonefile_serial : Z;
  zonefile_mtime : Z;
  dnssec_timer : option Z;
  ixfr_dbsync : bool
}.

Definition set_contents (z : zone_t) (c : option knot_zone_contents_t) : zone_t :=
  mkZone (conf z) c (ixfr_db z) (zonefile_serial z) (zonefile_mtime z)
         (dnssec_timer z) (ixfr_dbsync z).
Definition set_ixfr_db (z : zone_t) (j : option journal_t) : zone_t :=
  mkZone (conf z) (contents z) j (zonefile_serial z) (zonefile_mtime z)
         (dnssec_timer z) (ixfr_dbsync z).
Definition set_zonefile_serial (z : zone_t) (s : Z) : zone_t :=
  mkZone (conf z) (contents z) (ixfr_db z) s (zonefile_mtime z)
         (dnssec_timer z) (ixfr_dbsync z).
Definition set_zonefile_mtime (z : zone_t) (t : Z) : zone_t :=
  mkZone (conf z) (contents z) (ixfr_db z) (zonefile_serial z) t
         (dnssec_timer z) (ixfr_dbsync z).
Definition set_dnssec_timer (z : zone_t) (t : option Z) : zone_t :=
  mkZone (conf z) (contents z) (ixfr_db z) (zonefile_serial z)
         (zonefile_mtime z) t (ixfr_dbsync z).

(* ================================================================== *)
(** ** zones.c: return codes, external collaborators, the world *)
(* ================================================================== *)

(** The [KNOT_E*] return codes used by zones.c.  In C every code but
    [KNOT_EOK] is a negative [int]. *)
Inductive knot_error : Set :=
| KNOT_EOK | KNOT_ERROR | KNOT_EINVAL | KNOT_ENOMEM | KNOT_ERANGE
| KNOT_EBUSY | KNOT_EWRITABLE | KNOT_EACCES | KNOT_EAGAIN | KNOT_ENOENT
| KNOT_EMALF | KNOT_ENODIFF.

Scheme Equality for knot_error.

Definition is_ok (r : knot_error) : bool := knot_error_beq r KNOT_EOK.

Inductive knot_rcode_t : Set :=
| KNOT_RCODE_NOERROR | KNOT_RCODE_FORMERR | KNOT_RCODE_SERVFAIL
| KNOT_RCODE_NOTAUTH | KNOT_RCODE_REFUSED.

(** Calls that leave zones.c: the journal, the zonefile writer, the
    changeset and update engines, the signer and the contents switch.  Each
    of them can fail for reasons zones.c does not control. *)
Inductive ext_call : Set :=
| X_journal_retain | X_journal_trans_begin | X_journal_trans_commit
| X_journal_trans_rollback | X_journal_map | X_journal_unmap
| X_rrset_serialize
| X_mkstemp | X_fdopen | X_zone_dump_text | X_rename | X_stat
| X_changesets_create | X_changesets_create_changeset
| X_ns_process_update | X_malloc
| X_dnssec_zone_sign | X_dnssec_sign_changeset | X_changeset_merge
| X_apply_changesets_dnssec | X_adjust_nsec3_pointers | X_switch_zone.

Scheme Equality for ext_call.

Inductive log_msg : Set :=
| LogSerialNotGreater (old_serial new_serial : Z)
| LogJournalFull
| LogSyncFailed
| LogAppliedDiff
| LogFailedApplyDiff (r : knot_error)
| LogSignatureLifetimeLow
| LogNextSigning (unixtime : Z)
| LogUpdate (r : knot_error)
| LogUpdateNoChange
| LogUpdateFinished.

(** What the rest of the system can observe of a run, in order: entries
    into the functions whose calls the statements count ([EvCall]), log
    lines, writes of the zonefile, the fate of a prepared update, the switch
    of the contents and the timers that get scheduled. *)
Inductive event : Set :=
| EvCall (fn : string)
| EvLog (m : log_msg)
| EvTmpfileWrite (fname : string) (serial : Z)
| EvZonefileReplace (fname : string) (serial : Z)
| EvRollbackUpdate
| EvSwitchZone (ok : bool)
| EvCancelDnssec
| EvScheduleDnssec (relative_ms : Z)
| EvScheduleIxfrSync (timeout_ms : Z).

(** The world outside zones.c.  [w_script c] lists the results of the next
    calls of the external function [c] (when exhausted the call succeeds, as
    far as its own model lets it); [w_now] is [time(NULL)]; [w_signatures]
    and [w_refresh_at] are what the signer produces when it is asked to
    sign and the time it wants to be called again; [w_trace] is the sequence
    of observable events (appended at the end). *)
Record world : Type := mkWorld {
  w_script : ext_call -> list knot_error;
  w_now : Z;
  w_signatures : list knot_rrset_t;
  w_refresh_at : Z;
  w_trace : list event
}.

Definition set_script (w : world) (s : ext_call -> list knot_error) : world :=
  mkWorld s (w_now w) (w_signatures w) (w_refresh_at w) (w_trace w).

Definition emit (e : event) (w : world) : world :=
  mkWorld (w_script w) (w_now w) (w_signatures w) (w_refresh_at w)
          (w_trace w ++ [e]).

(** Result of the next call of the external function [c]. *)
Definition next_result (c : ext_call) (w : world) : knot_error * world :=
  match w_script w c with
  | [] => (KNOT_EOK, w)
  | r :: rest =>
      (r, set_script w (fun c' => if ext_call_beq c' c then rest
                                  else w_script w c'))
  end.

(* ================================================================== *)
(** ** The journal interface *)
(* ================================================================== *)

(** The journal operations of section 4.2 of the specification ([retain],
    [release], [trans_begin], [trans_commit], [trans_rollback], [map],
    [unmap], [walk], [is_used]); journal.c is not part of the sources.  Every
    fallible operation first takes its scripted result from the world and,
    when that is [KNOT_EOK], acts on the journal. *)

(** Modelled from the spec: [retain(j)], the reference count of the
    journal. *)
Definition journal_retain (j : journal_t) (w : world)
  : knot_error * journal_t * world :=
  let (r, w1) := next_result X_journal_retain w in
  if is_ok r then (KNOT_EOK, set_refs j (j_refs j + 1), w1) else (r, j, w1).

(** Modelled from the spec: [release(j)]. *)
Definition journal_release (j : journal_t) : journal_t :=
  set_refs j (j_refs j - 1).

(** Modelled from the spec: [trans_begin(j)]; only one transaction may be
    open at a time. *)
Definition journal_trans_begin (j : journal_t) (w : world)
  : knot_error * journal_t * world :=
  let (r, w1) := next_result X_journal_trans_begin w in
  if is_ok r then
    if j_trans j then (KNOT_EBUSY, j, w1) else (KNOT_EOK, set_trans j true, w1)
  else (r, j, w1).

Definition clear_flag (bit : Z) (n : journal_node_t) : journal_node_t :=
  mkNode (jn_id n) (Z.land (jn_flags n) (Z.lnot bit)).

Definition set_flag (bit : Z) (n : journal_node_t) : journal_node_t :=
  mkNode (jn_id n) (Z.lor (jn_flags n) bit).

(** Modelled from the spec: [trans_commit(j)], which makes the entries of
    the transaction visible. *)
Definition journal_trans_commit (j : journal_t) (w : world)
  : knot_error * journal_t * world :=
  let (r, w1) := next_result X_journal_trans_commit w in
  if is_ok r then
    (KNOT_EOK,
     set_trans (set_nodes j (map (clear_flag JOURNAL_TRANS) (j_nodes j))) false,
     w1)
  else (r, j, w1).

(** Modelled from the spec: [trans_rollback(j)], which discards the entries
    of the transaction. *)
Definition journal_trans_rollback (j : journal_t) (w : world)
  : knot_error * journal_t * world :=
  let (r, w1) := next_result X_journal_trans_rollback w in
  if is_ok r then
    (KNOT_EOK,
     set_trans (set_nodes j
       (filter (fun n => negb (has_flag (jn_flags n) JOURNAL_TRANS)) (j_nodes j)))
       false,
     w1)
  else (r, j, w1).

(** Modelled from the spec: [map(j, key, &slot, size)], which reserves a
    slot for [key].  The journal is full when it has no free
    slot and its oldest entry has not been flushed to the zonefile yet (or
    belongs to the open transaction): then [map] fails with [KNOT_EBUSY].
    Otherwise the oldest entry makes room.  The new slot is DIRTY, carries
    TRANS inside a transaction, and is not VALID before [unmap]. *)
Definition journal_map (j : journal_t) (key size : Z) (w : world)
  : knot_error * journal_t * world :=
  let (r, w1) := next_result X_journal_map w in
  if negb (is_ok r) then (r, j, w1) else
  let slot := mkNode key (if j_trans j then Z.lor JOURNAL_DIRTY JOURNAL_TRANS
                          else JOURNAL_DIRTY) in
  if (length (j_nodes j) <? j_max_nodes j)%nat then
    (KNOT_EOK, set_nodes j (j_nodes j ++ [slot]), w1)
  else
    match j_nodes j with
    | [] => (KNOT_EBUSY, j, w1)
    | oldest :: rest =>
        if has_flag (jn_flags oldest) JOURNAL_DIRTY
           || has_flag (jn_flags oldest) JOURNAL_TRANS
        then (KNOT_EBUSY, j, w1)
        else (KNOT_EOK, set_nodes j (rest ++ [slot]), w1)
    end.

(** Modelled from the spec: [unmap(j, key, slot, valid)], which closes the
    slot mapped last: validated when [valid], discarded otherwise. *)
Definition journal_unmap (j : journal_t) (key : Z) (valid : bool) (w : world)
  : knot_error * journal_t * world :=
  let (r, w1) := next_result X_journal_unmap w in
  if negb (is_ok r) then (r, j, w1) else
  match rev (j_nodes j) with
  | [] => (KNOT_ENOENT, j, w1)
  | slot :: before =>
      if jn_id slot =? key then
        if valid
        then (KNOT_EOK,
              set_nodes j (rev before ++ [set_flag JOURNAL_VALID slot]), w1)
        else (KNOT_EOK, set_nodes j (rev before), w1)
      else (KNOT_ENOENT, j, w1)
  end.

(** Modelled from the spec: [journal_update], which writes a node back to
    the journal file. *)
Definition journal_update (j : journal_t) (n : journal_node_t) : knot_error :=
  KNOT_EOK.

(** Modelled from the spec: [walk(j, fn)], which applies [fn] to every
    node. *)
Definition journal_walk (j : journal_t)
    (fn : journal_t -> journal_node_t -> knot_error * journal_node_t)
  : journal_t :=
  set_nodes j (map (fun n => snd (fn j n)) (j_nodes j)).

(** Modelled from the spec: [is_used(j)], the journal holds an entry. *)
Definition journal_is_used (j : option journal_t) : bool :=
  match j with
  | None => false
  | Some j => negb (length (j_nodes j) =? 0)%nat
  end.

(* ================================================================== *)
(** ** zones.c: SOA timers *)
(* ================================================================== *)

(** [zones_soa_timer]: [uint32_t ret = rr_func(soa_rrs); return ret * 1000;]
    in 32-bit unsigned arithmetic. *)
Definition zones_soa_timer (zone : zone_t) (rr_func : soa_rdata -> Z) : Z :=
  match contents zone with
  | None => 0
  | Some zc =>
      let ret := uint32 (rr_func (apex_soa zc)) in
      uint32 (ret * 1000)
  end.

Definition zones_soa_refresh (zone : zone_t) : Z :=
  zones_soa_timer zone knot_rdata_soa_refresh.

Definition zones_soa_retry (zone : zone_t) : Z :=
  zones_soa_timer zone knot_rdata_soa_retry.

Definition zones_soa_expire (zone : zone_t) : Z :=
  zones_soa_timer zone knot_rdata_soa_expire.

(* ================================================================== *)
(** ** zones.c: storing changesets in the journal *)
(* ================================================================== *)

(** [zones_ixfrdb_sync_apply]: mark a node as synced. *)
Definition zones_ixfrdb_sync_apply (j : journal_t) (n : journal_node_t)
  : knot_error * journal_node_t :=
  if negb (Z.land (jn_flags n) JOURNAL_DIRTY =? 0) then
    let n' := mkNode (jn_id n) (Z.land (jn_flags n) (Z.lnot JOURNAL_DIRTY)) in
    let _ := journal_update j n' in
    (KNOT_EOK, n')
  else (KNOT_EOK, n).

Definition zones_changesets_empty (chs : option knot_changesets_t) : bool :=
  match chs with
  | None => true
  | Some c =>
      match sets c with
      | [] => true
      | head :: _ => knot_changeset_is_empty (Some head)
      end
  end.

Definition zones_changeset_binary_size (chgset : knot_changeset_t) : Z :=
  let soa_from_size := rrset_binary_size (soa_from chgset) in
  let soa_to_size := rrset_binary_size (soa_to chgset) in
  let remove_size :=
    fold_left (fun acc rr => acc + rrset_binary_size (Some rr)) (remove chgset) 0 in
  let add_size :=
    fold_left (fun acc rr => acc + rrset_binary_size (Some rr)) (add chgset) 0 in
  soa_from_size + soa_to_size + remove_size + add_size + 4.

Definition zones_rrset_write_to_mem (rr : option knot_rrset_t) (w : world)
  : knot_error * world :=
  next_result X_rrset_serialize w.

(** The two [WALK_LIST] loops of [zones_serialize_and_store_chgset]. *)
Fixpoint serialize_rr_list (rrs : list knot_rrset_t) (w : world)
  : knot_error * world :=
  match rrs with
  | [] => (KNOT_EOK, w)
  | rr :: rest =>
      let (ret, w1) := zones_rrset_write_to_mem (Some rr) w in
      if is_ok ret then serialize_rr_list rest w1 else (KNOT_ERROR, w1)
  end.

Definition zones_serialize_and_store_chgset (chs : knot_changeset_t) (w : world)
  : knot_error * world :=
  let (ret, w1) := zones_rrset_write_to_mem (soa_from chs) w in
  if negb (is_ok ret) then (KNOT_ERROR, w1) else
  let (ret, w2) := serialize_rr_list (remove chs) w1 in
  if negb (is_ok ret) then (KNOT_ERROR, w2) else
  let (ret, w3) := zones_rrset_write_to_mem (soa_to chs) w2 in
  if negb (is_ok ret) then (KNOT_ERROR, w3) else
  let (ret, w4) := serialize_rr_list (add chs) w3 in
  if negb (is_ok ret) then (KNOT_ERROR, w4) else
  (KNOT_EOK, w4).

Definition zones_store_changeset (chs : knot_changeset_t) (j : journal_t)
    (w : world) : knot_error * journal_t * world :=
  let k := ixfrdb_key_make (serial_from chs) (serial_to chs) in
  let entry_size := zones_changeset_binary_size chs in
  let '(ret, j1, w1) := journal_map j k entry_size w in
  if negb (is_ok ret) then (ret, j1, w1) else
  let (ret, w2) := zones_serialize_and_store_chgset chs w1 in
  let '(unmap_ret, j3, w3) := journal_unmap j1 k (is_ok ret) w2 in
  let ret := if is_ok ret && negb (is_ok unmap_ret) then unmap_ret else ret in
  (ret, j3, w3).

(** A [journal_t *transaction] is NULL or points to the zone's journal:
    it is modelled by a [bool] ([true]: points to [zone->ixfr_db]). *)
Definition zones_store_changesets_begin (zone : zone_t) (w : world)
  : bool * zone_t * world :=
  match ixfr_db zone with
  | None => (false, zone, w)
  | Some j =>
      let '(ret, j1, w1) := journal_retain j w in
      if negb (is_ok ret) then (false, set_ixfr_db zone (Some j1), w1) else
      let '(ret, j2, w2) := journal_trans_begin j1 w1 in
      if negb (is_ok ret)
      then (false, set_ixfr_db zone (Some (journal_release j2)), w2)
      else (true, set_ixfr_db zone (Some j2), w2)
  end.

Definition zones_store_changesets_commit (transaction : bool) (zone : zone_t)
    (w : world) : knot_error * zone_t * world :=
  match transaction, ixfr_db zone with
  | true, Some j =>
      let '(ret, j1, w1) := journal_trans_commit j w in
      (ret, set_ixfr_db zone (Some (journal_release j1)), w1)
  | _, _ => (KNOT_EINVAL, zone, w)
  end.

Definition zones_store_changesets_rollback (transaction : bool) (zone : zone_t)
    (w : world) : knot_error * zone_t * world :=
  match transaction, ixfr_db zone with
  | true, Some j =>
      let '(ret, j1, w1) := journal_trans_rollback j w in
      (ret, set_ixfr_db zone (Some (journal_release j1)), w1)
  | _, _ => (KNOT_EINVAL, zone, w)
  end.

(** The [WALK_LIST] loop of [zones_store_changesets]: stop at the first
    changeset that cannot be stored. *)
Fixpoint store_changeset_list (l : list knot_changeset_t) (j : journal_t)
    (w : world) : knot_error * journal_t * world :=
  match l with
  | [] => (KNOT_EOK, j, w)
  | chs :: rest =>
      let '(ret, j1, w1) := zones_store_changeset chs j w in
      if is_ok ret then store_changeset_list rest j1 w1 else (ret, j1, w1)
  end.

Definition zones_store_changesets (zone : zone_t)
    (src : option knot_changesets_t) (w : world)
  : knot_error * zone_t * world :=
  match src, ixfr_db zone with
  | None, _ => (KNOT_EINVAL, zone, w)
  | Some _, None => (KNOT_EINVAL, zone, w)
  | Some chgsets, Some j =>
      let '(ret, j1, w1) := store_changeset_list (sets chgsets) j w in
      (ret, set_ixfr_db zone (Some j1), w1)
  end.

(** [zones_store_chgsets_try_store]: begin, store, and roll back when the
    store fails.  Its entry is recorded in the trace. *)
Definition zones_store_chgsets_try_store (zone : zone_t)
    (chgsets : knot_changesets_t) (w : world)
  : knot_error * bool * zone_t * world :=
  let w := emit (EvCall "zones_store_chgsets_try_store") w in
  let '(transaction, zone, w) := zones_store_changesets_begin zone w in
  if negb transaction then (KNOT_ERROR, false, zone, w) else
  let '(ret, zone, w) := zones_store_changesets zone (Some chgsets) w in
  if negb (is_ok ret) then
    let '(_, zone, w) := zones_store_changesets_rollback transaction zone w in
    (ret, false, zone, w)
  else (KNOT_EOK, transaction, zone, w).

(* ================================================================== *)
(** ** zones.c: flushing the journal to the text zonefile *)
(* ================================================================== *)

(** [zones_dump_zone_text]: dump into a fresh temporary file, then rename it
    over the zonefile.  [zones_open_free_filename] fails when [mkstemp]
    does.  The trace records the temporary file once it is written and the
    zonefile once it is replaced. *)
Definition zones_dump_zone_text (zone : knot_zone_contents_t) (fname : string)
    (w : world) : knot_error * world :=
  let (r, w) := next_result X_mkstemp w in
  if negb (is_ok r) then (KNOT_EWRITABLE, w) else
  let (r, w) := next_result X_fdopen w in
  if negb (is_ok r) then (KNOT_ERROR, w) else
  let (r, w) := next_result X_zone_dump_text w in
  if negb (is_ok r) then (KNOT_ERROR, w) else
  let w := emit (EvTmpfileWrite fname (knot_zone_serial (Some zone))) w in
  let (r, w) := next_result X_rename w in
  if negb (is_ok r) then (KNOT_ERROR, w) else
  (KNOT_EOK, emit (EvZonefileReplace fname (knot_zone_serial (Some zone))) w).

(** [zones_zonefile_sync].  [journal] is the pointer passed by the caller;
    the updated journal is returned next to the updated zone. *)
Definition zones_zonefile_sync (zone : option zone_t)
    (journal : option journal_t) (w : world)
  : knot_error * option zone_t * option journal_t * world :=
  match zone, journal with
  | None, _ => (KNOT_EINVAL, zone, journal, w)
  | Some _, None => (KNOT_EINVAL, zone, journal, w)
  | Some z, Some j =>
      match contents z with
      | None => (KNOT_EINVAL, zone, journal, w)
      | Some zc =>
          let serial_ret := knot_rdata_soa_serial (apex_soa zc) in
          if serial_ret <? 0 then (KNOT_EINVAL, zone, journal, w) else
          let serial_to := uint32 serial_ret in
          if negb (zonefile_serial z =? serial_to) then
            let (ret, w) := zones_dump_zone_text zc (file (conf z)) w in
            if negb (is_ok ret) then (ret, zone, journal, w) else
            let (st, w) := next_result X_stat w in
            if negb (is_ok st) then (KNOT_ERROR, zone, journal, w) else
            let z := set_zonefile_mtime z (w_now w) in
            let j := journal_walk j zones_ixfrdb_sync_apply in
            let z := set_zonefile_serial z serial_to in
            (KNOT_EOK, Some z, Some j, w)
          else
            (KNOT_ERANGE, zone, journal, w)
      end
  end.

(** [zones_zonefile_sync_from_ev]: the journal passed on is [zone->ixfr_db],
    so the walked journal is the zone's.  Its entry is recorded in the
    trace. *)
Definition zones_zonefile_sync_from_ev (zone : zone_t) (w : world)
  : knot_error * zone_t * world :=
  let w := emit (EvCall "zones_zonefile_sync_from_ev") w in
  match contents zone, ixfr_db zone with
  | Some _, Some j =>
      if journal_is_used (Some j) then
        let '(ret, j, w) := journal_retain j w in
        let zone := set_ixfr_db zone (Some j) in
        let '(ret, zone, w) :=
          if is_ok ret then
            let '(ret, oz, oj, w) := zones_zonefile_sync (Some zone) (Some j) w in
            let zone := match oz with Some z => z | None => zone end in
            let j := match oj with Some j => j | None => j end in
            (ret, set_ixfr_db zone (Some (journal_release j)), w)
          else (ret, zone, w) in
        let w :=
          if is_ok ret then emit (EvLog LogAppliedDiff) w
          else if negb (knot_error_beq ret KNOT_ERANGE)
               then emit (EvLog (LogFailedApplyDiff ret)) w
               else w in
        (ret, zone, w)
      else (KNOT_EOK, zone, w)
  | _, _ => (KNOT_EOK, zone, w)
  end.

(** [assert(p != NULL)] in front of code that works on [*p]: with a NULL
    pointer the assertion fails and the program stops there ([None]). *)
Definition assert_nonnull {A B : Type} (p : option A) (body : A -> B)
  : option B :=
  match p with
  | Some a => Some (body a)
  | None => None
  end.

(** [zones_store_changesets_begin_and_store], past its [assert(zone != NULL)]
    and [assert(chgsets != NULL)]: the zone and the envelope are there.
    [transaction] is the value [*transaction] has on entry.  Where the
    source asserts that [*transaction] is NULL, the store has just failed,
    and [zones_store_chgsets_try_store] has set the handle to NULL. *)
Definition zones_store_changesets_begin_and_store (zone : zone_t)
    (chgsets : knot_changesets_t) (transaction : bool) (w : world)
  : knot_error * bool * zone_t * world :=
  if zones_changesets_empty (Some chgsets)
  then (KNOT_EINVAL, transaction, zone, w) else
  let '(ret, transaction, zone, w) :=
    zones_store_chgsets_try_store zone chgsets w in
  if knot_error_beq ret KNOT_EBUSY then
    let w := emit (EvLog LogJournalFull) w in
    let '(ret, zone, w) := zones_zonefile_sync_from_ev zone w in
    if negb (is_ok ret) then
      (ret, transaction, zone, emit (EvLog LogSyncFailed) w)
    else
      zones_store_chgsets_try_store zone chgsets w
  else (ret, transaction, zone, w).

(** A call of [zones_store_changesets_begin_and_store] with a [chgsets]
    pointer that may be NULL: the function with its assertion. *)
Definition begin_and_store_call (zone : zone_t)
    (chgsets : option knot_changesets_t) (transaction : bool) (w : world)
  : option (knot_error * bool * zone_t * world) :=
  assert_nonnull chgsets
    (fun chs => zones_store_changesets_begin_and_store zone chs transaction w).

(* ================================================================== *)
(** ** zones.c: the DDNS UPDATE path *)
(* ================================================================== *)

(** *** Collaborators of the update path *)

Definition KNOT_RRTYPE_SOA : Z := 6.
Definition KNOT_RRTYPE_DNSKEY : Z := 48.
Definition KNOT_RRTYPE_NSEC3PARAM : Z := 51.

(** A parsed UPDATE: the RRSets to remove and to add, and the RCODE the
    applicator answers when it refuses the update. *)
Record knot_pkt_t : Set := mkPkt {
  upd_remove : list knot_rrset_t;
  upd_add : list knot_rrset_t;
  upd_refused_rcode : knot_rcode_t
}.

(** [knot_ns_process_update] returns a negative code on error, 0 when the
    update was applied and a positive value when it changes nothing. *)
Inductive update_result : Set :=
| UPDATE_APPLIED
| UPDATE_NO_CHANGE
| UPDATE_FAILED (e : knot_error).

Definition empty_changeset : knot_changeset_t :=
  mkChangeset 0 0 None None [] [] 0.

Definition soa_rrset (serial : Z) : knot_rrset_t :=
  mkRRSet KNOT_RRTYPE_SOA [serial].

Definition rr_has_type (t : Z) (rr : knot_rrset_t) : bool := rr_type rr =? t.

Definition updated_apex_rr (t : Z) (old : option knot_rrset_t)
    (query : knot_pkt_t) : option knot_rrset_t :=
  match find (rr_has_type t) (upd_add query) with
  | Some rr => Some rr
  | None => if existsb (rr_has_type t) (upd_remove query) then None else old
  end.

(** Modelled from the spec: [create_from_wire] of section 4.4, which applies
    the update to a clone of the contents; the SOA of the result carries the
    chosen serial. *)
Definition updated_contents (old : knot_zone_contents_t) (query : knot_pkt_t)
    (new_serial : Z) : knot_zone_contents_t :=
  mkContents
    (mkSoa new_serial (soa_refresh (apex_soa old)) (soa_retry (apex_soa old))
           (soa_expire (apex_soa old)) (soa_minimum (apex_soa old)))
    (updated_apex_rr KNOT_RRTYPE_DNSKEY (apex_dnskey old) query)
    (updated_apex_rr KNOT_RRTYPE_NSEC3PARAM (apex_nsec3param old) query)
    (filter (fun rr => negb (existsb (knot_rrset_equal rr) (upd_remove query)))
            (zc_rrsets old) ++ upd_add query).

(** Modelled from the spec: [knot_ns_process_update], the update applicator
    ([create_from_wire]); it yields the new contents and fills the
    changeset of the envelope. *)
Definition knot_ns_process_update (query : knot_pkt_t)
    (old_contents : option knot_zone_contents_t) (chgsets : knot_changesets_t)
    (rcode : knot_rcode_t) (new_serial : Z) (w : world)
  : update_result * option knot_zone_contents_t * knot_changesets_t
    * knot_rcode_t * world :=
  let (r, w) := next_result X_ns_process_update w in
  if negb (is_ok r)
  then (UPDATE_FAILED r, None, chgsets, upd_refused_rcode query, w) else
  match old_contents with
  | None => (UPDATE_FAILED KNOT_EINVAL, None, chgsets, rcode, w)
  | Some old =>
      match upd_remove query, upd_add query with
      | [], [] => (UPDATE_NO_CHANGE, None, chgsets, rcode, w)
      | _, _ =>
          let ch := mkChangeset (knot_zone_serial old_contents) new_serial
                      (Some (soa_rrset (knot_zone_serial old_contents)))
                      (Some (soa_rrset new_serial))
                      (upd_remove query) (upd_add query) 0 in
          (UPDATE_APPLIED, Some (updated_contents old query new_serial),
           mkChangesets [ch], rcode, w)
      end
  end.

(** Modelled from the spec: the signer ([knot_dnssec_zone_sign] and
    [knot_dnssec_sign_changeset], called with [KNOT_SOA_SERIAL_KEEP]).  The
    signatures it produces and the next refresh time come from the world;
    without new signatures the DNSSEC changeset stays empty. *)
Definition dnssec_sign (call : ext_call) (sec_ch : knot_changeset_t)
    (new_serial : Z) (w : world) : knot_error * knot_changeset_t * Z * world :=
  let (r, w) := next_result call w in
  if negb (is_ok r) then (r, sec_ch, 0, w) else
  match w_signatures w with
  | [] => (KNOT_EOK, sec_ch, uint32 (w_refresh_at w), w)
  | sigs =>
      (KNOT_EOK,
       mkChangeset new_serial new_serial (Some (soa_rrset new_serial))
                   (Some (soa_rrset new_serial)) [] sigs 0,
       uint32 (w_refresh_at w), w)
  end.

(** Modelled from the spec: [merge(a, b)] of section 4.4; the result ends at
    [b.serial_to] and [b.soa_to]. *)
Definition knot_changeset_merge (a b : knot_changeset_t) (w : world)
  : knot_error * knot_changeset_t * world :=
  let (r, w) := next_result X_changeset_merge w in
  if negb (is_ok r) then (r, a, w) else
  (KNOT_EOK,
   mkChangeset (serial_from a) (serial_to b) (soa_from a) (soa_to b)
               (remove a ++ remove b) (add a ++ add b) (flags a),
   w).

(** Modelled from the spec: [knot_changesets_get_last] of the changeset
    engine, the last changeset of an envelope. *)
Definition knot_changesets_get_last (chs : knot_changesets_t)
  : option knot_changeset_t :=
  match rev (sets chs) with
  | [] => None
  | c :: _ => Some c
  end.

(** The envelope after its last changeset was updated in place. *)
Definition set_last (chs : knot_changesets_t) (c : knot_changeset_t)
  : knot_changesets_t :=
  mkChangesets (removelast (sets chs) ++ [c]).

(** Modelled from the spec: [xfrin_switch_zone], the atomic swap of the
    contents ([replace_contents] of section 4.1); a failed swap leaves the
    old snapshot installed. *)
Definition xfrin_switch_zone (zone : zone_t)
    (new_contents : option knot_zone_contents_t) (w : world)
  : knot_error * zone_t * world :=
  let (r, w) := next_result X_switch_zone w in
  if is_ok r then (KNOT_EOK, set_contents zone new_contents, emit (EvSwitchZone true) w)
  else (r, zone, emit (EvSwitchZone false) w).

(** Modelled from the spec: [xfrin_rollback_update] ([rollback] of section
    4.4), which undoes the update prepared in [new_contents]; the installed
    contents are not touched. *)
Definition xfrin_rollback_update (w : world) : world := emit EvRollbackUpdate w.

(** *** Functions of zones.c *)

(** The test [diff_ch->soa_to == sec_ch->soa_to] compares two pointers;
    RRSets are told apart by what they hold. *)
Definition same_soa (a b : option knot_rrset_t) : bool :=
  match a, b with
  | None, None => true
  | Some x, Some y => knot_rrset_equal x y
  | _, _ => false
  end.

(** [zones_merge_and_store_changesets].  An envelope that is not empty is
    not NULL and has a last changeset ([zones_changesets_empty] answers true
    for NULL and for an envelope without changesets), so the cases that stand
    for a NULL pointer are never reached; the three assertions on the
    serials and on the ending SOA stop the program when they fail. *)
Definition zones_merge_and_store_changesets (zone : zone_t)
    (diff_chs sec_chs : option knot_changesets_t) (transaction : bool)
    (w : world)
  : option (knot_error * option knot_changesets_t * bool * zone_t * world) :=
  if zones_changesets_empty diff_chs && zones_changesets_empty sec_chs
  then Some (KNOT_EOK, diff_chs, transaction, zone, w) else
  if negb (zones_changesets_empty diff_chs) && zones_changesets_empty sec_chs
  then
    let? '(ret, transaction, zone, w) :=
      begin_and_store_call zone diff_chs transaction w in
    Some (ret, diff_chs, transaction, zone, w)
  else
  if zones_changesets_empty diff_chs && negb (zones_changesets_empty sec_chs)
  then
    let? '(ret, transaction, zone, w) :=
      begin_and_store_call zone sec_chs transaction w in
    Some (ret, diff_chs, transaction, zone, w)
  else
  let? dchs := diff_chs in
  let? schs := sec_chs in
  let? diff_ch := knot_changesets_get_last dchs in
  let? sec_ch := knot_changesets_get_last schs in
  (* Beginning SOA of second changeset should be equal to ending SOA of the
     first changeset. *)
  if negb (serial_to diff_ch =? serial_from sec_ch) then None else
  let '(ret, merged, w) := knot_changeset_merge diff_ch sec_ch w in
  if negb (is_ok ret) then Some (ret, diff_chs, transaction, zone, w) else
  (* Now the ending serial of first changeset (the merged one) should be
     equal to the ending serial of second changeset.  Also the SOAs should be
     the same. *)
  if negb (serial_to merged =? serial_to sec_ch) then None else
  if negb (same_soa (soa_to merged) (soa_to sec_ch)) then None else
  let diff_chs := set_last dchs merged in
  (* Store *ALL* changes to disk. *)
  let? '(ret, transaction, zone, w) :=
    begin_and_store_call zone (Some diff_chs) transaction w in
  Some (ret, Some diff_chs, transaction, zone, w).

Definition zones_serial_policy (zone : zone_t) : serial_policy_t :=
  serial_policy (conf zone).

Definition zones_cancel_dnssec (zone : zone_t) (w : world)
  : knot_error * world :=
  match dnssec_timer zone with
  | Some _ => (KNOT_EOK, emit EvCancelDnssec w)
  | None => (KNOT_EOK, w)
  end.

(** [zones_schedule_dnssec]: absolute time to relative time; a target in the
    past is scheduled at once.  [relative] is an [int32_t] and
    [relative * 1000] an [int] product, kept to 32 bits.  Modelled from the
    spec: [evsched_schedule] puts the event that many milliseconds from now.
    [dnssec_timer] is [None] until the event is created and then holds
    its [tv.tv_sec]; a zone without the timer is answered [KNOT_EAGAIN].
    The zone itself is never NULL here. *)
Definition zones_schedule_dnssec (zone : zone_t) (unixtime : Z) (w : world)
  : knot_error * zone_t * world :=
  match dnssec_timer zone with
  | None => (KNOT_EAGAIN, zone, w)
  | Some _ =>
  let now := w_now w in
  let (relative, w) :=
    if unixtime <=? now then (0, emit (EvLog LogSignatureLifetimeLow) w)
    else (to_int (unixtime - now), w) in
  let w := emit (EvLog (LogNextSigning unixtime)) w in
  let dt := to_int (relative * 1000) in
  let w := emit (EvScheduleDnssec dt) w in
  (KNOT_EOK, set_dnssec_timer zone (Some (now + dt / 1000)), w)
  end.

(** [replan_zone_sign_after_ddns] reads [zone->dnssec_timer->tv.tv_sec]
    without a test: no result for a zone without the timer. *)
Definition replan_zone_sign_after_ddns (zone : zone_t) (refresh_at : Z)
    (w : world) : option (knot_error * zone_t * world) :=
  let? tv_sec := dnssec_timer zone in
  if tv_sec <=? refresh_at then Some (KNOT_EOK, zone, w) else
  let (_, w) := zones_cancel_dnssec zone w in
  Some (zones_schedule_dnssec zone refresh_at w).

Definition apex_rr_changed (old_rr new_rr : option knot_rrset_t) : bool :=
  match old_rr, new_rr with
  | None, None => false
  | None, Some _ => true
  | Some _, None => true
  | Some o, Some n => negb (knot_rrset_equal o n)
  end.

Definition zones_dnskey_changed (old_contents new_contents : knot_zone_contents_t)
  : bool :=
  apex_rr_changed (apex_dnskey old_contents) (apex_dnskey new_contents).

Definition zones_nsec3param_changed
    (old_contents new_contents : knot_zone_contents_t) : bool :=
  apex_rr_changed (apex_nsec3param old_contents) (apex_nsec3param new_contents).

Definition zones_schedule_ixfr_sync (zone : zone_t) (dbsync_timeout : Z)
    (w : world) : world :=
  if ixfr_dbsync zone then emit (EvScheduleIxfrSync (dbsync_timeout * 1000)) w
  else w.

Section SerialComparison.

(** [ns_serial_compare] belongs to the name server library, not to the
    sources: the RFC 1982 comparison of two serials, negative when the first
    is lower, 0 when they are equal, positive when the first is higher. *)
Variable ns_serial_compare : Z -> Z -> Z.

Definition zones_next_serial (zone : zone_t) (w : world) : Z * world :=
  let old_serial := knot_zone_serial (contents zone) in
  let new_serial :=
    match zones_serial_policy zone with
    | CONF_SERIAL_INCREMENT => uint32 (uint32 old_serial + 1)
    | CONF_SERIAL_UNIXTIME => uint32 (w_now w)
    end in
  let w :=
    if ns_serial_compare old_serial new_serial >=? 0
    then emit (EvLog (LogSerialNotGreater old_serial new_serial)) w
    else w in
  (new_serial, w).

(** The end of [zones_process_update_auth], from "Commit transaction" on:
    commit, switch the contents, clean up, schedule the flush. *)
Definition update_commit_and_switch (zone : zone_t)
    (new_contents : option knot_zone_contents_t) (transaction : bool)
    (rcode : knot_rcode_t) (w : world)
  : knot_error * knot_rcode_t * zone_t * world :=
  let '(ret, zone, w) :=
    if transaction then zones_store_changesets_commit transaction zone w
    else (KNOT_EOK, zone, w) in
  if negb (is_ok ret) then
    (ret, rcode, zone, xfrin_rollback_update (emit (EvLog (LogUpdate ret)) w))
  else
  let '(ret, zone, w) := xfrin_switch_zone zone new_contents w in
  if negb (is_ok ret) then
    (KNOT_ERROR, rcode, zone, xfrin_rollback_update w)
  else
  let rcode := KNOT_RCODE_NOERROR in
  let w := emit (EvLog LogUpdateFinished) w in
  let sync_timeout := dbsync_timeout (conf zone) in
  let w := if sync_timeout =? 0 then zones_schedule_ixfr_sync zone 0 w else w in
  (ret, rcode, zone, w).

(** [zones_process_update_auth].  [rcode] is the value of [*rcode] on entry;
    the address and the TSIG key only go into the log prefix.  There is no
    result where an assertion of [zones_merge_and_store_changesets] fails,
    or where new signatures are to be planned for a zone without the DNSSEC
    timer. *)
Definition zones_process_update_auth (zone : zone_t) (query : knot_pkt_t)
    (rcode : knot_rcode_t) (w : world)
  : option (knot_error * knot_rcode_t * zone_t * world) :=
  let ret := KNOT_EOK in
  let (r, w) := next_result X_changesets_create w in
  if negb (is_ok r) then Some (ret, KNOT_RCODE_SERVFAIL, zone, w) else
  let (r, w) := next_result X_changesets_create_changeset w in
  if negb (is_ok r) then Some (KNOT_ENOMEM, rcode, zone, w) else
  let chgsets := mkChangesets [empty_changeset] in
  let rcode := KNOT_RCODE_SERVFAIL in
  let (new_serial, w) := zones_next_serial zone w in
  let old_contents := contents zone in
  let '(res, new_contents, chgsets, rcode, w) :=
    knot_ns_process_update query old_contents chgsets rcode new_serial w in
  match res with
  | UPDATE_FAILED e => Some (e, rcode, zone, emit (EvLog (LogUpdate e)) w)
  | UPDATE_NO_CHANGE =>
      Some (KNOT_EOK, KNOT_RCODE_NOERROR, zone,
            emit (EvLog LogUpdateNoChange) w)
  | UPDATE_APPLIED =>
      (* DNSSEC changesets *)
      let '(alloc_failed, sec_chs, w) :=
        if dnssec_enable (conf zone) then
          let (r1, w) := next_result X_changesets_create w in
          let (r2, w) := next_result X_changesets_create_changeset w in
          if is_ok r1 && is_ok r2
          then (false, Some (mkChangesets [empty_changeset]), w)
          else (true, None, w)
        else (false, None, w) in
      if alloc_failed
      then Some (KNOT_ENOMEM, rcode, zone, xfrin_rollback_update w) else
      (* create_fake_zone *)
      let (r, w) := next_result X_malloc w in
      if negb (is_ok r) then
        Some (KNOT_ENOMEM, rcode, zone,
              xfrin_rollback_update (emit (EvLog (LogUpdate KNOT_ENOMEM)) w))
      else
      (* sign: the whole zone when DNSKEY or NSEC3PARAM changed *)
      let '(ret, sec_chs, refresh_at, w) :=
        match dnssec_enable (conf zone), sec_chs, old_contents, new_contents with
        | true, Some schs, Some oldc, Some newc =>
            let sec_ch := match knot_changesets_get_last schs with
                          | Some c => c
                          | None => empty_changeset
                          end in
            let call :=
              if zones_dnskey_changed oldc newc
                 || zones_nsec3param_changed oldc newc
              then X_dnssec_zone_sign else X_dnssec_sign_changeset in
            let '(ret, sec_ch, refresh_at, w) :=
              dnssec_sign call sec_ch new_serial w in
            (ret, Some (set_last schs sec_ch), refresh_at, w)
        | _, _, _, _ => (KNOT_EOK, sec_chs, 0, w)
        end in
      if negb (is_ok ret) then
        Some (ret, rcode, zone,
              xfrin_rollback_update (emit (EvLog (LogUpdate ret)) w))
      else
      (* merge and store *)
      let transaction := false in
      let? '(ret, chgsets, transaction, zone, w) :=
        zones_merge_and_store_changesets zone (Some chgsets) sec_chs
          transaction w in
      if negb (is_ok ret) then
        Some (ret, rcode, zone,
              xfrin_rollback_update (emit (EvLog (LogUpdate ret)) w))
      else
      let sec_ch := match sec_chs with
                    | Some schs => knot_changesets_get_last schs
                    | None => None
                    end in
      let new_signatures := negb (knot_changeset_is_empty sec_ch) in
      if new_signatures then
        (* apply the DNSSEC changeset *)
        let (ret, w) := next_result X_apply_changesets_dnssec w in
        if negb (is_ok ret) then
          let '(_, zone, w) :=
            zones_store_changesets_rollback transaction zone
              (emit (EvLog (LogUpdate ret)) w) in
          Some (ret, rcode, zone, w)
        else
        let new_contents :=
          match new_contents, sec_ch with
          | Some newc, Some sch =>
              Some (mkContents (apex_soa newc) (apex_dnskey newc)
                               (apex_nsec3param newc)
                               (zc_rrsets newc ++ add sch))
          | _, _ => new_contents
          end in
        (* plan zone resign if needed; the timer is asserted first *)
        let? _ := dnssec_timer zone in
        let? '(ret, zone, w) :=
          replan_zone_sign_after_ddns zone refresh_at w in
        if negb (is_ok ret) then
          let '(_, zone, w) :=
            zones_store_changesets_rollback transaction zone
              (emit (EvLog (LogUpdate ret)) w) in
          Some (ret, rcode, zone, w)
        else
        Some (update_commit_and_switch zone new_contents transaction rcode w)
      else
        (* set NSEC3 nodes *)
        let (ret, w) := next_result X_adjust_nsec3_pointers w in
        if negb (is_ok ret) then
          let '(_, zone, w) :=
            zones_store_changesets_rollback transaction zone w in
          Some (ret, rcode, zone, xfrin_rollback_update w)
        else
        Some (update_commit_and_switch zone new_contents transaction rcode w)
  end.

End SerialComparison.

(* ================================================================== *)
(** ** Observations the statements are about *)
(* ================================================================== *)

(** Number of times the zonefile was replaced in a trace. *)
Definition is_zonefile_replace (e : event) : bool :=
  match e with
  | EvZonefileReplace _ _ => true
  | _ => false
  end.

Definition zonefile_writes (tr : list event) : nat :=
  length (filter is_zonefile_replace tr).

Definition node_clean (n : journal_node_t) : Prop :=
  has_flag (jn_flags n) JOURNAL_DIRTY = false.

(** The calls recorded in a trace, in order. *)
Definition is_call (e : event) : bool :=
  match e with
  | EvCall _ => true
  | _ => false
  end.

Definition call_events (tr : list event) : list event := filter is_call tr.

Definition TRY_STORE : event := EvCall "zones_store_chgsets_try_store".
Definition FLUSH : event := EvCall "zones_zonefile_sync_from_ev".

(** Keys of the committed (visible) entries of a journal. *)
Definition visible_ids (j : journal_t) : list Z :=
  map jn_id (filter node_visible (j_nodes j)).


(** [w'] shows the same trace and clock as [w]. *)
Definition same_obs (w w' : world) : Prop :=
  w_trace w' = w_trace w /\ w_now w' = w_now w.

(** What storing and flushing leave alone in a zone: the installed
    contents, the configuration and the DNSSEC timer; and no journal entry
    becomes committed. *)
Definition zone_kept (z z' : zone_t) : Prop :=
  contents z' = contents z /\ conf z' = conf z /\
  dnssec_timer z' = dnssec_timer z /\ ixfr_dbsync z' = ixfr_dbsync z /\
  incl (journal_committed (ixfr_db z')) (journal_committed (ixfr_db z)).

(* ================================================================== *)
(** ** zone-dump.c: data model *)
(* ================================================================== *)

(** A domain name: wire form, label offsets, and the [node] field, which
    carries the dname ID during a dump (0 is NULL). *)
Record dnslib_dname_t : Set := mkDname {
  dname_name : list Z;
  dname_labels : list Z;
  dname_node : Z
}.

(** An RDATA item is a union of two pointers, [dname] and [raw_data]:
    NULL, a domain name, or raw data, a [uint16_t] length followed by the
    bytes.  Which member is meant is decided by the RR-type descriptor, not
    by the item. *)
Inductive dnslib_rdata_item_t : Set :=
| item_null
| item_dname (dname : dnslib_dname_t)
| item_raw (raw_length : Z) (raw_bytes : list Z).

(** RDATA: the array [items]; [count] is its length, and an RDATA without
    items has [items == NULL]. *)
Record dnslib_rdata_t : Set := mkRdata {
  rdata_items : list dnslib_rdata_item_t
}.

(** An RRSIG set attached to an RRSet (itself an RRSet in the source). *)
Record dnslib_rrsig_set_t : Set := mkRrsigSet {
  rrsig_type : Z;
  rrsig_rclass : Z;
  rrsig_ttl : Z;
  rrsig_rdata : list dnslib_rdata_t
}.

(** An RRSet; [rrset_rdata] is the circular list of RDATA, from its head
    (the empty list is [rdata == NULL]). *)
Record dnslib_rrset_t : Set := mkRrset {
  rrset_type : Z;
  rrset_rclass : Z;
  rrset_ttl : Z;
  rrset_rdata : list dnslib_rdata_t;
  rrset_rrsigs : option dnslib_rrsig_set_t
}.

(** A node: owner, the IDs of the owners of its parent and of its NSEC3
    peer (when it has them), flags, RRSets in the order of its skip list.
    The owner is not NULL: [dnslib_node_dump_binary] asserts it. *)
Record dnslib_node_t : Set := mkDnode {
  node_owner : dnslib_dname_t;
  node_parent : option Z;
  node_flags : Z;
  node_non_auth : bool;
  node_nsec3_node : option Z;
  node_rrsets : list dnslib_rrset_t
}.

(** A zone: the nodes of the normal tree and of the NSEC3 tree, each in
    order, and [node_count]. *)
Record dnslib_zone_t : Set := mkDzone {
  zone_nodes : list dnslib_node_t;
  zone_nsec3_nodes : list dnslib_node_t;
  zone_node_count : Z
}.

Definition DNSLIB_RRTYPE_CNAME : Z := 5.
Definition DNSLIB_RRTYPE_RRSIG : Z := 46.
Definition DNSLIB_RRTYPE_NSEC : Z := 47.
Definition DNSLIB_RRTYPE_DNSKEY : Z := 48.

(** The wire format of an RDATA item according to an RR-type descriptor:
    one of the three kinds of domain name, or anything else. *)
Inductive dnslib_rdata_wireformat_t : Set :=
| DNSLIB_RDATA_WF_COMPRESSED_DNAME
| DNSLIB_RDATA_WF_UNCOMPRESSED_DNAME
| DNSLIB_RDATA_WF_LITERAL_DNAME
| DNSLIB_RDATA_WF_OTHER.

(** An RR-type descriptor: the number of items of the type, and the array
    [wireformat]. *)
Record dnslib_rrtype_descriptor_t : Set := mkDescriptor {
  desc_length : nat;
  desc_wireformat : nat -> dnslib_rdata_wireformat_t
}.

(** The test made of [desc->wireformat[i]] in three places. *)
Definition is_dname_wireformat (wf : dnslib_rdata_wireformat_t) : bool :=
  match wf with
  | DNSLIB_RDATA_WF_COMPRESSED_DNAME
  | DNSLIB_RDATA_WF_UNCOMPRESSED_DNAME
  | DNSLIB_RDATA_WF_LITERAL_DNAME => true
  | DNSLIB_RDATA_WF_OTHER => false
  end.

(** Modelled from the spec: the lookups and accessors of dnslib used by the
    dump ([dnslib_zone_get_node], [dnslib_zone_get_nsec3_node],
    [dnslib_node_rrset], [dnslib_rrset_rdata], [dnslib_rdata_item],
    [dnslib_rdata_cname_name]); names are compared by their wire form. *)
Definition dname_eqb (a b : dnslib_dname_t) : bool :=
  if list_eq_dec Z.eq_dec (dname_name a) (dname_name b) then true else false.

Definition dnslib_zone_get_node (zone : dnslib_zone_t) (d : dnslib_dname_t)
  : option dnslib_node_t :=
  find (fun n => dname_eqb (node_owner n) d) (zone_nodes zone).

Definition dnslib_zone_get_nsec3_node (zone : dnslib_zone_t) (d : dnslib_dname_t)
  : option dnslib_node_t :=
  find (fun n => dname_eqb (node_owner n) d) (zone_nsec3_nodes zone).

Definition dnslib_node_rrset (node : dnslib_node_t) (type : Z)
  : option dnslib_rrset_t :=
  find (fun rs => rrset_type rs =? type) (node_rrsets node).

Definition dnslib_rrset_rdata (rrset : dnslib_rrset_t) : option dnslib_rdata_t :=
  hd_error (rrset_rdata rrset).

Definition dnslib_rdata_item (rdata : dnslib_rdata_t) (pos : nat)
  : option dnslib_rdata_item_t :=
  nth_error (rdata_items rdata) pos.

Definition dnslib_rdata_cname_name (rdata : option dnslib_rdata_t)
  : option dnslib_dname_t :=
  match rdata with
  | None => None
  | Some r =>
      match dnslib_rdata_item r 0 with
      | Some (item_dname d) => Some d
      | _ => None
      end
  end.

(** What zone-dump.c takes from the rest of the library and what none of
    its functions decides: the skip list of closest enclosers (keyed by the
    identity of a name, created with [compare_pointers] as its order), the
    table of RR-type descriptors, the list of compressible types, and the
    search [dnslib_zone_find_dname], which yields [exact], the node found
    and the closest encloser. *)
Record dnslib_library : Type := mkLibrary {
  skip_list_t : Type;
  skip_create_list : (Z -> Z -> Z) -> skip_list_t;
  skip_insert : skip_list_t -> dnslib_dname_t -> dnslib_dname_t -> skip_list_t;
  skip_find : skip_list_t -> dnslib_dname_t -> option dnslib_dname_t;
  dnslib_rrtype_descriptor_by_type : Z -> option dnslib_rrtype_descriptor_t;
  dnslib_compressible_types : list Z;
  dnslib_zone_find_dname :
    dnslib_zone_t -> option dnslib_dname_t
    -> Z * option dnslib_node_t * option dnslib_node_t
}.

(** [compare_pointers], the order of the skip list of closest enclosers:
    the two pointers are compared as [size_t] values (64 bits). *)
Definition compare_pointers (p1 p2 : Z) : Z :=
  if uint64 p1 =? uint64 p2 then 0
  else if uint64 p1 <? uint64 p2 then -1 else 1.

(** [n == closest_encloser]: the nodes of a zone are told apart by their
    owners. *)
Definition same_node (a b : option dnslib_node_t) : bool :=
  match a, b with
  | None, None => true
  | Some x, Some y => dname_eqb (node_owner x) (node_owner y)
  | _, _ => false
  end.

(* ================================================================== *)
(** ** zone-dump.c: saving the closest enclosers *)
(* ================================================================== *)

Section ClosestEnclosers.

Variable lib : dnslib_library.

(** [dnslib_zone_save_encloser_rdata_item]: the closest encloser of the
    name at [pos] goes to the skip list when the name is not in the zone. *)
Definition dnslib_zone_save_encloser_rdata_item (rdata : dnslib_rdata_t)
    (zone : dnslib_zone_t) (pos : nat) (encloser_list : skip_list_t lib)
  : option (skip_list_t lib) :=
  match dnslib_rdata_item rdata pos with
  | None => Some encloser_list
  | Some (item_raw _ _) => None (* raw data read as a name *)
  | Some dname_item =>
      let dname := match dname_item with
                   | item_dname d => Some d
                   | _ => None
                   end in
      let '(exact, n, closest_encloser) :=
        dnslib_zone_find_dname lib zone dname in
      (* assert(!exact || n == closest_encloser) *)
      if negb ((exact =? 0) || same_node n closest_encloser) then None else
      match closest_encloser with
      | Some encloser =>
          if exact =? 0 then
            (* save pointer to the closest encloser *)
            match dname with
            | Some d =>
                Some (skip_insert lib encloser_list d (node_owner encloser))
            | None => None (* assert(item->dname != NULL) *)
            end
          else Some encloser_list
      | None => Some encloser_list
      end
  end.

(** The loop [for (int i = 0; i < rdata->count; ++i)] of
    [dnslib_zone_save_enclosers_node]; it reads [desc->wireformat[i]]. *)
Definition save_enclosers_rdata (desc : option dnslib_rrtype_descriptor_t)
    (zone : dnslib_zone_t) (encloser_list : option (skip_list_t lib))
    (rdata : dnslib_rdata_t) : option (skip_list_t lib) :=
  fold_left
    (fun acc i =>
       let? encloser_list := acc in
       let? desc := desc in
       if is_dname_wireformat (desc_wireformat desc i)
       then dnslib_zone_save_encloser_rdata_item rdata zone i encloser_list
       else Some encloser_list)
    (seq 0 (length (rdata_items rdata))) encloser_list.

(** [dnslib_zone_save_enclosers_node]: every RDATA of the RRSet of the
    given type, once. *)
Definition dnslib_zone_save_enclosers_node (node : dnslib_node_t) (type : Z)
    (zone : dnslib_zone_t) (encloser_list : skip_list_t lib)
  : option (skip_list_t lib) :=
  match dnslib_node_rrset node type with
  | None => Some encloser_list
  | Some rrset =>
      let desc := dnslib_rrtype_descriptor_by_type lib type in
      match dnslib_rrset_rdata rrset with
      | None => Some encloser_list
      | Some _ =>
          fold_left (save_enclosers_rdata desc zone) (rrset_rdata rrset)
                    (Some encloser_list)
      end
  end.

(** The loop over [dnslib_compressible_types] at the head of
    [dnslib_zone_save_enclosers_in_tree]. *)
Definition save_enclosers_types (node : dnslib_node_t) (zone : dnslib_zone_t)
    (encloser_list : skip_list_t lib) : option (skip_list_t lib) :=
  fold_left
    (fun acc type =>
       let? encloser_list := acc in
       dnslib_zone_save_enclosers_node node type zone encloser_list)
    (dnslib_compressible_types lib) (Some encloser_list).

End ClosestEnclosers.

(* ================================================================== *)
(** ** zone-dump.c: CNAME chains *)
(* ================================================================== *)

Definition MAX_CNAME_CYCLE_DEPTH : Z := 15.

(** One turn of the loop of [check_cname_cycles_in_zone]: the name the chain
    continues with after [next_dname], NULL when the chain ends there (no
    node in either tree, or a node without CNAME). *)
Definition cname_chain_next (zone : dnslib_zone_t) (next_dname : dnslib_dname_t)
  : option dnslib_dname_t :=
  let next_node := dnslib_zone_get_node zone next_dname in
  let next_node :=
    match next_node with
    | None => dnslib_zone_get_nsec3_node zone next_dname
    | Some _ => next_node
    end in
  match next_node with
  | Some node =>
      match dnslib_node_rrset node DNSLIB_RRTYPE_CNAME with
      | Some next_rrset => dnslib_rdata_cname_name (dnslib_rrset_rdata next_rrset)
      | None => None
      end
  | None => None
  end.

(** The loop [while (i < MAX_CNAME_CYCLE_DEPTH && next_dname != NULL)];
    [fuel] bounds the number of turns. *)
Fixpoint cname_chain_loop (fuel : nat) (zone : dnslib_zone_t) (i : Z)
    (next_dname : option dnslib_dname_t) : Z * option dnslib_dname_t :=
  match fuel with
  | O => (i, next_dname)
  | S fuel' =>
      match next_dname with
      | Some d =>
          if i <? MAX_CNAME_CYCLE_DEPTH
          then cname_chain_loop fuel' zone (i + 1) (cname_chain_next zone d)
          else (i, next_dname)
      | None => (i, next_dname)
      end
  end.

(** [check_cname_cycles_in_zone]: 0 OK, -1 cycle.  It asserts that the RRSet
    has RDATA and that the first RDATA holds a name ([assert(rrset)] holds
    by the type).  The loop starts at [i = 0] and leaves after at most
    [MAX_CNAME_CYCLE_DEPTH] turns. *)
Definition check_cname_cycles_in_zone (zone : dnslib_zone_t)
    (rrset : dnslib_rrset_t) : option Z :=
  let tmp_rdata := dnslib_rrset_rdata rrset in
  match tmp_rdata with
  | None => None (* assert(tmp_rdata) *)
  | Some _ =>
      let next_dname := dnslib_rdata_cname_name tmp_rdata in
      match next_dname with
      | None => None (* assert(next_dname) *)
      | Some _ =>
          let (i, _) :=
            cname_chain_loop (Z.to_nat MAX_CNAME_CYCLE_DEPTH) zone 0
                             next_dname in
          (* even if the length is 0, i will be 1 *)
          Some (if i >=? MAX_CNAME_CYCLE_DEPTH then -1 else 0)
      end
  end.

(** The chain starting with the name [d] ends within [n] lookups: following
    it, one of the first [n] lookups finds no further CNAME. *)
Fixpoint chain_ends_within (n : nat) (zone : dnslib_zone_t)
    (d : option dnslib_dname_t) : bool :=
  match d with
  | None => true
  | Some x =>
      match n with
      | O => false
      | S m => chain_ends_within m zone (cname_chain_next zone x)
      end
  end.

(* ================================================================== *)
(** ** zone-dump.c: RRSIGs of an RRSet *)
(* ================================================================== *)

Section RrsigChecks.

(** [check_rrsig_rdata] reads the raw RDATA items of the RRSIG and of the
    DNSKEY, whose layout belongs to the library: its result (0 or a negative
    code) is taken as given.  [rrsigs_signed] tells whether an RRSIG set has
    RRSIGs of its own ([dnslib_rrset_rrsigs(rrsigs) != NULL]). *)
Variable check_rrsig_rdata :
  dnslib_rdata_t -> dnslib_rdata_t -> dnslib_rrset_t -> dnslib_rrsig_set_t
  -> dnslib_rrset_t -> Z.
Variable rrsigs_signed : dnslib_rrsig_set_t -> bool.

(** The [do ... while] loop of [check_rrsig_in_rrset].  [tmp_rdata] and
    [tmp_rrsig_rdata] are the current elements, [rest_rdata] and
    [rest_rrsig] what [dnslib_rrset_rdata_next] yields after them (NULL at
    the end of a list).  The result is the value returned from inside the
    loop, or the two pointers when the loop is left: the second assignment
    of the condition is not evaluated when the first yields NULL. *)
Fixpoint check_rrsig_loop (rrset : dnslib_rrset_t) (rrsigs : dnslib_rrsig_set_t)
    (dnskey_rrset : dnslib_rrset_t)
    (tmp_rdata : dnslib_rdata_t) (rest_rdata : list dnslib_rdata_t)
    (tmp_rrsig_rdata : dnslib_rdata_t) (rest_rrsig : list dnslib_rdata_t)
  : Z + (option dnslib_rdata_t * option dnslib_rdata_t) :=
  if negb (check_rrsig_rdata tmp_rdata tmp_rrsig_rdata rrset rrsigs
                             dnskey_rrset =? 0)
  then inl (-3)
  else
    match rest_rdata with
    | [] => inr (None, Some tmp_rrsig_rdata)
    | next_rdata :: rest_rdata' =>
        match rest_rrsig with
        | [] => inr (Some next_rdata, None)
        | next_rrsig :: rest_rrsig' =>
            check_rrsig_loop rrset rrsigs dnskey_rrset
              next_rdata rest_rdata' next_rrsig rest_rrsig'
        end
    end.

(** [check_rrsig_in_rrset]; [None] stands for a failed [assert] (an RRSet or
    an RRSIG set without RDATA). *)
Definition check_rrsig_in_rrset (rrset dnskey_rrset : dnslib_rrset_t)
  : option Z :=
  match rrset_rrsigs rrset with
  | None => Some (-1)
  | Some rrsigs =>
      (* signed rrsig - nonsense *)
      if rrsigs_signed rrsigs then Some (-2) else
      match rrset_rdata rrset, rrsig_rdata rrsigs with
      | tmp_rdata :: rest_rdata, tmp_rrsig_rdata :: rest_rrsig =>
          match check_rrsig_loop rrset rrsigs dnskey_rrset
                  tmp_rdata rest_rdata tmp_rrsig_rdata rest_rrsig with
          | inl ret => Some ret
          | inr (Some _, Some _) => Some (-4) (* Not all records are signed *)
          | inr _ => Some 0
          end
      | _, _ => None
      end
  end.

End RrsigChecks.

(* ================================================================== *)
(** ** zone-dump.c: the pass before the dump *)
(* ================================================================== *)

(** The lines [dnslib_zone_save_enclosers_in_tree] logs for a node. *)
Inductive sem_log : Set :=
| SemCnameCycle
| SemMoreThanOneRRSet
| SemOtherRecordsWithCname
| SemMoreThanOneCname.

Section SemanticChecks.

Variable lib : dnslib_library.

(** [dnslib_zone_save_enclosers_in_tree], the callback of the first
    traversal ([do_checks] is a [char]): the closest enclosers of the node
    go to the skip list, then the node is checked.  The last check reads
    [dnslib_rrset_rdata(cname_rrset)->next] whether or not the node has a
    CNAME RRSet.  The loop under [do_checks == 2] has an empty body. *)
Definition dnslib_zone_save_enclosers_in_tree (zone : dnslib_zone_t)
    (encloser_list : skip_list_t lib) (do_checks : Z) (node : dnslib_node_t)
  : option (skip_list_t lib * list sem_log) :=
  let? encloser_list := save_enclosers_types lib node zone encloser_list in
  if do_checks =? 0 then Some (encloser_list, []) else
  let cname_rrset := dnslib_node_rrset node DNSLIB_RRTYPE_CNAME in
  let? cycle :=
    match cname_rrset with
    | Some rs =>
        let? ret := check_cname_cycles_in_zone zone rs in
        Some (if negb (ret =? 0) then [SemCnameCycle] else [])
    | None => Some []
    end in
  let rrset_count := Z.of_nat (length (node_rrsets node)) in
  let others :=
    (* No DNSSEC and yet there is more than one rrset in node *)
    if negb (rrset_count =? 1) && (do_checks =? 1)
    then [SemMoreThanOneRRSet]
    else if negb (rrset_count =? 1) then
      (* With DNSSEC node can contain RRSIG or NSEC *)
      match dnslib_node_rrset node DNSLIB_RRTYPE_RRSIG,
            dnslib_node_rrset node DNSLIB_RRTYPE_NSEC with
      | None, None => [SemOtherRecordsWithCname]
      | _, _ => []
      end
    else [] in
  match cname_rrset with
  | None => None
  | Some rs =>
      match rrset_rdata rs with
      | [] => None
      | [_] => Some (encloser_list, cycle ++ others)
      | _ :: _ :: _ =>
          Some (encloser_list, cycle ++ others ++ [SemMoreThanOneCname])
      end
  end.

(** [zone_save_enclosers_sem_check].  Modelled from the spec:
    [dnslib_zone_tree_apply_inorder] calls the callback on every node of the
    normal tree, in order.  The result is the skip list and what was logged,
    each line with the owner it names. *)
Definition zone_save_enclosers_sem_check (zone : dnslib_zone_t)
    (encloser_list : skip_list_t lib) (do_checks : Z)
  : option (skip_list_t lib * list (dnslib_dname_t * sem_log)) :=
  fold_left
    (fun acc node =>
       let? '(encloser_list, logged) := acc in
       let? '(encloser_list, lines) :=
         dnslib_zone_save_enclosers_in_tree zone encloser_list do_checks node in
       Some (encloser_list,
             logged ++ map (fun l => (node_owner node, l)) lines))
    (zone_nodes zone) (Some (encloser_list, [])).

End SemanticChecks.

(* ================================================================== *)
(** ** zone-dump.c: the binary dump *)
(* ================================================================== *)

(** *** A seekable output file *)

(** The bytes of the file and the position of the stream. *)
Record FILE : Set := mkFile {
  f_data : list Z;
  f_pos : nat
}.

(** [fwrite] of the C library: the bytes overwrite the file from the
    position on and extend it at its end. *)
Definition fwrite (bytes : list Z) (f : FILE) : FILE :=
  mkFile (firstn (f_pos f) (f_data f) ++ bytes
            ++ skipn (f_pos f + length bytes) (f_data f))
         (f_pos f + length bytes).

(** [fseek(f, off, SEEK_SET)] and [fsetpos]. *)
Definition fseek (off : nat) (f : FILE) : FILE := mkFile (f_data f) off.

Definition fgetpos (f : FILE) : nat := f_pos f.

(** [n] bytes of [v], least significant first (the host order). *)
Fixpoint le_bytes (n : nat) (v : Z) : list Z :=
  match n with
  | O => []
  | S m => v mod 256 :: le_bytes m (v / 256)
  end.

Fixpoint le_value (bytes : list Z) : Z :=
  match bytes with
  | [] => 0
  | b :: rest => b + 256 * le_value rest
  end.

Definition read_u32 (data : list Z) (off : nat) : Z :=
  le_value (firstn 4 (skipn off data)).

Definition u8 (v : Z) : list Z := le_bytes 1 v.
Definition u16 (v : Z) : list Z := le_bytes 2 v.
Definition u32 (v : Z) : list Z := le_bytes 4 v.
(** A value of pointer size: 8 bytes. *)
Definition ptr (v : Z) : list Z := le_bytes 8 v.

Definition ptr_of (id : option Z) : list Z :=
  match id with
  | Some v => ptr v
  | None => ptr 0
  end.

(** *** The dump *)

(** The state a dump works on: the output file, the file-scope counter
    [node_count] and the zone's [node_count]. *)
Record dump_state : Set := mkDump {
  ds_file : FILE;
  node_count : Z;
  ds_zone_node_count : Z
}.

Definition dnslib_labels_dump_binary (dname : dnslib_dname_t) (f : FILE) : FILE :=
  let f := fwrite (u8 (Z.of_nat (length (dname_labels dname)))) f in
  fwrite (dname_labels dname) f.

Definition dnslib_dname_dump_binary (dname : dnslib_dname_t) (f : FILE) : FILE :=
  let f := fwrite (u8 (Z.of_nat (length (dname_name dname)))) f in
  let f := fwrite (dname_name dname) f in
  dnslib_labels_dump_binary dname f.

Section BinaryDump.

Variable lib : dnslib_library.

(** The skip list of closest enclosers the first pass has filled. *)
Variable encloser_list : skip_list_t lib.

Definition dnslib_find_wildcard (dname : dnslib_dname_t)
  : option dnslib_dname_t :=
  skip_find lib encloser_list dname.

(** One turn of the loop of [dnslib_rdata_dump_binary], for item [i].  The
    address of an item is NULL only for the first item of an RDATA without
    items; an item past the end of the array is not there to be read. *)
Definition rdata_item_dump_binary (desc : dnslib_rrtype_descriptor_t)
    (rdata : dnslib_rdata_t) (f : option FILE) (i : nat) : option FILE :=
  let? f := f in
  match rdata_items rdata, i with
  | [], O => Some f (* Item is not set *)
  | items, _ =>
      let? item := nth_error items i in
      if is_dname_wireformat (desc_wireformat desc i) then
        match item with
        | item_dname dname =>
            (* the skip list is searched only when dname->node != NULL *)
            let wildcard :=
              if dname_node dname =? 0 then None
              else dnslib_find_wildcard dname in
            match dname_node dname =? 0, wildcard with
            | false, None =>
                (* In the zone *)
                let f := fwrite [1] f in
                Some (fwrite (ptr (dname_node dname)) f)
            | _, _ =>
                (* Not in the zone *)
                let f := fwrite [0] f in
                let f := dnslib_dname_dump_binary dname f in
                match wildcard with
                | Some wildcard =>
                    let f := fwrite [1] f in
                    Some (fwrite (ptr (dname_node wildcard)) f)
                | None => Some (fwrite [0] f)
                end
            end
        | _ => None (* assert(rdata->items[i].dname != NULL) *)
        end
      else
        match item with
        | item_raw raw_length raw_bytes =>
            let n := Z.to_nat (uint16 raw_length) in
            if (n <=? length raw_bytes)%nat
            then Some (fwrite (u16 (uint16 raw_length) ++ firstn n raw_bytes) f)
            else None (* reads past the raw data *)
        | _ => None (* assert(rdata->items[i].raw_data != NULL) *)
        end
  end.

(** [dnslib_rdata_dump_binary]. *)
Definition dnslib_rdata_dump_binary (rdata : dnslib_rdata_t) (type : Z)
    (f : FILE) : option FILE :=
  match dnslib_rrtype_descriptor_by_type lib type with
  | None => None (* assert(desc != NULL) *)
  | Some desc =>
      fold_left (rdata_item_dump_binary desc rdata)
                (seq 0 (desc_length desc)) (Some f)
  end.

(** The [while (tmp_rdata->next != rrset->rdata)] loop and the dump of the
    last RDATA after it: every RDATA of the circular list is dumped and
    counted once (the count is a [uint8_t]). *)
Fixpoint rdata_list_dump_binary (rdatas : list dnslib_rdata_t) (type : Z)
    (rdata_count : Z) (f : FILE) : option (Z * FILE) :=
  match rdatas with
  | [] => Some (rdata_count, f)
  | r :: rest =>
      let? f := dnslib_rdata_dump_binary r type f in
      rdata_list_dump_binary rest type (uint8 (rdata_count + 1)) f
  end.

Definition dnslib_rrsig_set_dump_binary (rrsig : dnslib_rrsig_set_t) (f : FILE)
  : option FILE :=
  (* assert(rrsig->type == DNSLIB_RRTYPE_RRSIG) *)
  if negb (rrsig_type rrsig =? DNSLIB_RRTYPE_RRSIG) then None else
  let f := fwrite (u16 (rrsig_type rrsig)) f in
  let f := fwrite (u16 (rrsig_rclass rrsig)) f in
  let f := fwrite (u32 (rrsig_ttl rrsig)) f in
  let rrdata_count_pos := fgetpos f in
  let f := fwrite (u8 0) f in
  match rrsig_rdata rrsig with
  | [] => None (* assert(rrsig->rdata) *)
  | rdatas =>
      let? '(rdata_count, f) :=
        rdata_list_dump_binary rdatas DNSLIB_RRTYPE_RRSIG 0 f in
      let tmp_pos := fgetpos f in
      let f := fseek rrdata_count_pos f in
      let f := fwrite (u8 rdata_count) f in
      Some (fseek tmp_pos f)
  end.

Definition dnslib_rrset_dump_binary (rrset : dnslib_rrset_t) (f : FILE)
  : option FILE :=
  let f := fwrite (u16 (rrset_type rrset)) f in
  let f := fwrite (u16 (rrset_rclass rrset)) f in
  let f := fwrite (u32 (rrset_ttl rrset)) f in
  let rrdata_count_pos := fgetpos f in
  let f := fwrite (u8 0) f in
  let f := fwrite (u8 0) f in
  match rrset_rdata rrset with
  | [] => None (* tmp_rdata->next with tmp_rdata == NULL *)
  | rdatas =>
      let? '(rdata_count, f) :=
        rdata_list_dump_binary rdatas (rrset_type rrset) 0 f in
      let? '(rrsig_count, f) :=
        match rrset_rrsigs rrset with
        | Some rrsigs =>
            let? f := dnslib_rrsig_set_dump_binary rrsigs f in Some (1, f)
        | None => Some (0, f)
        end in
      let tmp_pos := fgetpos f in
      let f := fseek rrdata_count_pos f in
      let f := fwrite (u8 rdata_count) f in
      let f := fwrite (u8 rrsig_count) f in
      Some (fseek tmp_pos f)
  end.

(** The [do ... while] loop over the RRSets of a node. *)
Fixpoint rrset_list_dump_binary (rrsets : list dnslib_rrset_t)
    (rrset_count : Z) (f : FILE) : option (Z * FILE) :=
  match rrsets with
  | [] => Some (rrset_count, f)
  | rs :: rest =>
      let? f := dnslib_rrset_dump_binary rs f in
      rrset_list_dump_binary rest (uint8 (rrset_count + 1)) f
  end.

(** [dnslib_node_dump_binary], the callback of both traversals. *)
Definition dnslib_node_dump_binary (node : dnslib_node_t) (st : dump_state)
  : option dump_state :=
  let f := ds_file st in
  let node_count := uint32 (node_count st + 1) in
  let zone_node_count :=
    if negb (node_non_auth node) then uint32 (ds_zone_node_count st + 1)
    else ds_zone_node_count st in
  let f := dnslib_dname_dump_binary (node_owner node) f in
  let f := fwrite (ptr (dname_node (node_owner node))) f in
  let f := fwrite (ptr_of (node_parent node)) f in
  let f := fwrite (u8 (node_flags node)) f in
  let f := fwrite (ptr_of (node_nsec3_node node)) f in
  let rrset_count_pos := fgetpos f in
  let f := fwrite (u8 0) f in
  match node_rrsets node with
  | [] => Some (mkDump f node_count zone_node_count)
  | _ =>
      let? '(rrset_count, f) := rrset_list_dump_binary (node_rrsets node) 0 f in
      let tmp_pos := fgetpos f in
      let f := fseek rrset_count_pos f in
      let f := fwrite (u8 rrset_count) f in
      let f := fseek tmp_pos f in
      Some (mkDump f node_count zone_node_count)
  end.

(** Modelled from the spec: [dnslib_zone_tree_apply_inorder] and
    [dnslib_zone_nsec3_apply_inorder] of dnslib, with the callback above:
    every node of the tree, in order. *)
Definition tree_apply_inorder (nodes : list dnslib_node_t) (st : dump_state)
  : option dump_state :=
  fold_left (fun st node => let? st := st in dnslib_node_dump_binary node st)
            nodes (Some st).

End BinaryDump.

(** [zone_is_secure]: the apex (the first node of the normal tree) holds a
    DNSKEY RRSet. *)
Definition zone_is_secure (zone : dnslib_zone_t) : bool :=
  match zone_nodes zone with
  | apex :: _ =>
      match dnslib_node_rrset apex DNSLIB_RRTYPE_DNSKEY with
      | Some _ => true
      | None => false
      end
  | [] => false
  end.

Section ZoneDumpBinary.

Variable lib : dnslib_library.

(** [MAGIC_BYTES], of length [MAGIC_LENGTH]: defined in the header of the
    dump format. *)
Variable MAGIC : list Z.

(** [dnslib_zdump_binary].  [fopen_ok] tells whether the output file could be
    opened; [sfilename] is the source file name without its final NUL;
    [node_count0] is the value of the file-scope [node_count] on entry.  The
    result is the return value, the file written, the value of [node_count]
    on exit, the zone, and the lines logged by the checks. *)
Definition dnslib_zdump_binary (zone : dnslib_zone_t) (fopen_ok : bool)
    (do_checks : Z) (sfilename : option (list Z)) (node_count0 : Z)
  : option (Z * FILE * Z * dnslib_zone_t * list (dnslib_dname_t * sem_log)) :=
  if negb fopen_ok then Some (-1, mkFile [] 0, node_count0, zone, []) else
  let f := mkFile [] 0 in
  let zone_node_count := 0 in
  let encloser_list := skip_create_list lib compare_pointers in
  let do_checks :=
    if negb (do_checks =? 0) && zone_is_secure zone then 2 else do_checks in
  let? '(encloser_list, logged) :=
    zone_save_enclosers_sem_check lib zone encloser_list do_checks in
  (* header *)
  let header_len := length MAGIC in
  let f := fwrite MAGIC f in
  let sflen :=
    match sfilename with
    | Some s => uint32 (Z.of_nat (length s) + 1)
    | None => 0
    end in
  let f := fwrite (u32 sflen) f in
  let header_len := (header_len + 4)%nat in
  let f :=
    match sfilename with
    | Some s => fwrite (firstn (Z.to_nat sflen) (s ++ [0])) f
    | None => f
    end in
  let header_len := (header_len + Z.to_nat sflen)%nat in
  (* the counts, to be patched *)
  let f := fwrite (u32 node_count0) f in
  let f := fwrite (u32 node_count0) f in
  let f := fwrite (u32 zone_node_count) f in
  let st := mkDump f node_count0 zone_node_count in
  let? st := tree_apply_inorder lib encloser_list (zone_nodes zone) st in
  let tmp_count := node_count st in
  let st := mkDump (ds_file st) 0 (ds_zone_node_count st) in
  let? st := tree_apply_inorder lib encloser_list (zone_nsec3_nodes zone) st in
  (* update counters *)
  let f := fseek header_len (ds_file st) in
  let f := fwrite (u32 tmp_count) f in
  let f := fwrite (u32 (node_count st)) f in
  let f := fwrite (u32 (ds_zone_node_count st)) f in
  Some (0, f, node_count st,
        mkDzone (zone_nodes zone) (zone_nsec3_nodes zone)
                (ds_zone_node_count st),
        logged).

(** Offset of the three counts in the dump. *)
Definition header_length (sfilename : option (list Z)) : nat :=
  (length MAGIC + 4 +
   match sfilename with
   | Some s => Z.to_nat (uint32 (Z.of_nat (length s) + 1))
   | None => 0
   end)%nat.

End ZoneDumpBinary.

(** Authoritative nodes of a zone, over both trees. *)
Definition authoritative_nodes (zone : dnslib_zone_t) : nat :=
  length (filter (fun n => negb (node_non_auth n))
                 (zone_nodes zone ++ zone_nsec3_nodes zone)).

(* ================================================================== *)
(** ** zone-dump.c: the layout of the dump *)
(* ================================================================== *)

(** The bytes of a name, an RDATA, an RRSIG set, an RRSet and a node in the
    dump, in the order in which they end up in the file; [None] where the
    dump does not get to its end. *)
Definition dname_bytes (dname : dnslib_dname_t) : list Z :=
  u8 (Z.of_nat (length (dname_name dname))) ++ dname_name dname
  ++ u8 (Z.of_nat (length (dname_labels dname))) ++ dname_labels dname.

(** All of a list of optional pieces, one after the other. *)
Fixpoint concat_all (pieces : list (option (list Z))) : option (list Z) :=
  match pieces with
  | [] => Some []
  | p :: rest =>
      let? b := p in
      let? bs := concat_all rest in
      Some (b ++ bs)
  end.

Section DumpLayout.

Variable lib : dnslib_library.
Variable encloser_list : skip_list_t lib.

(** A name in the zone is dumped as its ID; a name outside it in full,
    followed by the ID of its closest encloser when one was saved.  Raw data
    is dumped with its length. *)
Definition rdata_item_bytes (wf : dnslib_rdata_wireformat_t)
    (item : dnslib_rdata_item_t) : option (list Z) :=
  if is_dname_wireformat wf then
    match item with
    | item_dname dname =>
        if dname_node dname =? 0 then Some ([0] ++ dname_bytes dname ++ [0])
        else
          match skip_find lib encloser_list dname with
          | Some wildcard =>
              Some ([0] ++ dname_bytes dname ++ [1]
                    ++ ptr (dname_node wildcard))
          | None => Some ([1] ++ ptr (dname_node dname))
          end
    | _ => None
    end
  else
    match item with
    | item_raw raw_length raw_bytes =>
        if (Z.to_nat (uint16 raw_length) <=? length raw_bytes)%nat
        then Some (u16 (uint16 raw_length)
                   ++ firstn (Z.to_nat (uint16 raw_length)) raw_bytes)
        else None
    | _ => None
    end.

(** The bytes of item [i] of an RDATA; an RDATA without items has no first
    item to dump, and no RDATA has items past its last. *)
Definition rdata_item_at (desc : dnslib_rrtype_descriptor_t)
    (rdata : dnslib_rdata_t) (i : nat) : option (list Z) :=
  match rdata_items rdata, i with
  | [], O => Some []
  | items, _ =>
      let? item := nth_error items i in
      rdata_item_bytes (desc_wireformat desc i) item
  end.

Definition rdata_bytes (type : Z) (rdata : dnslib_rdata_t)
  : option (list Z) :=
  let? desc := dnslib_rrtype_descriptor_by_type lib type in
  concat_all (map (rdata_item_at desc rdata) (seq 0 (desc_length desc))).

Definition rdata_list_bytes (type : Z) (rdatas : list dnslib_rdata_t)
  : option (list Z) :=
  concat_all (map (rdata_bytes type) rdatas).

Definition rrsig_set_bytes (rrsig : dnslib_rrsig_set_t) : option (list Z) :=
  if negb (rrsig_type rrsig =? DNSLIB_RRTYPE_RRSIG) then None else
  match rrsig_rdata rrsig with
  | [] => None
  | rdatas =>
      let? rd := rdata_list_bytes DNSLIB_RRTYPE_RRSIG rdatas in
      Some (u16 (rrsig_type rrsig) ++ u16 (rrsig_rclass rrsig)
            ++ u32 (rrsig_ttl rrsig)
            ++ u8 (uint8 (Z.of_nat (length rdatas)))
            ++ rd)
  end.

Definition rrset_bytes (rrset : dnslib_rrset_t) : option (list Z) :=
  match rrset_rdata rrset with
  | [] => None
  | rdatas =>
      let? rd := rdata_list_bytes (rrset_type rrset) rdatas in
      let? sig := match rrset_rrsigs rrset with
                  | Some rrsigs => rrsig_set_bytes rrsigs
                  | None => Some []
                  end in
      Some (u16 (rrset_type rrset) ++ u16 (rrset_rclass rrset)
            ++ u32 (rrset_ttl rrset)
            ++ u8 (uint8 (Z.of_nat (length rdatas)))
            ++ u8 (match rrset_rrsigs rrset with Some _ => 1 | None => 0 end)
            ++ rd ++ sig)
  end.

Definition node_bytes (node : dnslib_node_t) : option (list Z) :=
  let? body := concat_all (map rrset_bytes (node_rrsets node)) in
  Some (dname_bytes (node_owner node)
        ++ ptr (dname_node (node_owner node))
        ++ ptr_of (node_parent node)
        ++ u8 (node_flags node)
        ++ ptr_of (node_nsec3_node node)
        ++ u8 (uint8 (Z.of_nat (length (node_rrsets node))))
        ++ body).

End DumpLayout.

(** The bytes between the magic bytes and the counts: the length of the
    source file name and the name with its NUL. *)
Definition header_name (sfilename : option (list Z)) : list Z :=
  match sfilename with
  | Some s =>
      u32 (uint32 (Z.of_nat (length s) + 1))
      ++ firstn (Z.to_nat (uint32 (Z.of_nat (length s) + 1))) (s ++ [0])
  | None => u32 0
  end.

(** The file holding [data], with the stream at its end. *)
Definition file_end (data : list Z) : FILE := mkFile data (length data).


(* ================================================================== *)
(** ** zones.c: timers, the flush event, applying stored changesets *)
(* ================================================================== *)

(** [zones_jitter]: [interval * (100 - rand % ZONES_JITTER_PCT) / 100] in
    [uint32_t] arithmetic.  [ZONES_JITTER_PCT] is defined in zones.h and
    [rnd] is the value of [knot_random_uint32_t()]. *)
Definition zones_jitter (ZONES_JITTER_PCT rnd interval : Z) : Z :=
  uint32 (uint32 (uint32 interval
                  * uint32 (100 - uint32 (uint32 rnd mod uint32 ZONES_JITTER_PCT)))
          / 100).

(** [zones_flush_ev]: flush, then reschedule the event when the configured
    timeout is positive.  [e->data] is the zone (NULL: no zone);
    [next_timeout] is an [int]. *)
Definition zones_flush_ev (zone : option zone_t) (w : world)
  : knot_error * option zone_t * world :=
  match zone with
  | None => (KNOT_EINVAL, None, w)
  | Some zone =>
      let '(ret, zone, w) := zones_zonefile_sync_from_ev zone w in
      let next_timeout := to_int (dbsync_timeout (conf zone) * 1000) in
      let w :=
        if next_timeout >? 0 then emit (EvScheduleIxfrSync next_timeout) w
        else w in
      (ret, Some zone, w)
  end.

(** Keys under which the changesets of an envelope are stored. *)
Definition changeset_keys (chs : knot_changesets_t) : list Z :=
  map (fun c => ixfrdb_key_make (serial_from c) (serial_to c)) (sets chs).

(** An entry of the open transaction that has been written completely:
    validated by [journal_unmap] and still carrying TRANS. *)
Definition node_pending (k : Z) (n : journal_node_t) : Prop :=
  jn_id n = k /\
  has_flag (jn_flags n) JOURNAL_VALID = true /\
  has_flag (jn_flags n) JOURNAL_TRANS = true.

Definition keys_pending (j : journal_t) (ks : list Z) : Prop :=
  forall k, In k ks -> exists n, In n (j_nodes j) /\ node_pending k n.

(** Reference count of the zone's journal. *)
Definition journal_refs (z : zone_t) : option Z :=
  match ixfr_db z with
  | Some j => Some (j_refs j)
  | None => None
  end.

(** The journal of [z'] is that of [z] with [d] more references. *)
Definition refs_shifted (d : Z) (z z' : zone_t) : Prop :=
  match ixfr_db z, ixfr_db z' with
  | Some j, Some j' => j_refs j' = j_refs j + d
  | None, None => True
  | _, _ => False
  end.

Section ApplyingChangesets.

(** [xfrin_apply_changesets] belongs to the transfer engine, not to the
    sources: from the zone and the changesets it prepares the new contents
    (left alone when it fails). *)
Variable xfrin_apply_changesets :
  zone_t -> knot_changesets_t -> knot_error * option knot_zone_contents_t.

(** [zones_store_and_apply_chgsets].  [chs] goes straight to
    [zones_store_changesets_begin_and_store], which asserts that it is
    there.  [new_contents] is the value of [*new_contents] on entry; the log
    lines are not recorded. *)
Definition zones_store_and_apply_chgsets (chs : knot_changesets_t)
    (zone : zone_t) (new_contents : option knot_zone_contents_t) (w : world)
  : knot_error * option knot_zone_contents_t * zone_t * world :=
  let transaction := false in
  let '(ret, transaction, zone, w) :=
    zones_store_changesets_begin_and_store zone chs transaction w in
  if negb (is_ok ret) then (ret, new_contents, zone, w) else
  (* Now, try to apply the changesets to the zone. *)
  let (apply_ret, applied) := xfrin_apply_changesets zone chs in
  if negb (is_ok apply_ret) then
    let '(_, zone, w) := zones_store_changesets_rollback transaction zone w in
    (apply_ret, new_contents, zone, w)
  else
  let new_contents := applied in
  (* Commit transaction. *)
  let '(ret, zone, w) := zones_store_changesets_commit transaction zone w in
  if negb (is_ok ret) then
    (ret, new_contents, zone, xfrin_rollback_update w)
  else
  (* Switch zone contents. *)
  let '(switch_ret, zone, w) := xfrin_switch_zone zone new_contents w in
  if negb (is_ok switch_ret) then
    (KNOT_ERROR, new_contents, zone, xfrin_rollback_update w)
  else (KNOT_EOK, new_contents, zone, w).

End ApplyingChangesets.

(* ================================================================== *)
(** ** zones.c: the serialized form of a changeset *)
(* ================================================================== *)

(** Modelled from the spec: [rrset_serialize] of libknot writes the
    serialized form of the RRSet, [rrset_binary_size] bytes; there is nothing
    to serialize for NULL. *)
Definition rrset_serialize (rr : option knot_rrset_t) : option (list Z) :=
  match rr with
  | Some r => Some (rr_wire r)
  | None => None
  end.

(** What a successful [zones_serialize_and_store_chgset] leaves in the
    journal entry: the flags (a [uint32_t], copied as it lies in memory,
    which is taken to be little-endian), SOA
    'from', the RRSets of the 'remove' section, SOA 'to', the RRSets of the
    'add' section. *)
Definition changeset_entry_bytes (chs : knot_changeset_t) : option (list Z) :=
  match rrset_serialize (soa_from chs), rrset_serialize (soa_to chs) with
  | Some from_bytes, Some to_bytes =>
      Some (u32 (flags chs) ++ from_bytes
            ++ concat (map rr_wire (remove chs))
            ++ to_bytes
            ++ concat (map rr_wire (add chs)))
  | _, _ => None
  end.

Inductive knot_changeset_part_t : Set :=
| KNOT_CHANGESET_REMOVE
| KNOT_CHANGESET_ADD.

(** Modelled from the spec: [knot_changeset_add_soa] and
    [knot_changeset_add_rrset] of the changeset engine; the latter appends to
    the section (it fails only when memory runs out, which is left out). *)
Definition knot_changeset_add_soa (chs : knot_changeset_t)
    (soa : knot_rrset_t) (part : knot_changeset_part_t) : knot_changeset_t :=
  match part with
  | KNOT_CHANGESET_REMOVE =>
      mkChangeset (serial_from chs) (serial_to chs) (Some soa) (soa_to chs)
                  (remove chs) (add chs) (flags chs)
  | KNOT_CHANGESET_ADD =>
      mkChangeset (serial_from chs) (serial_to chs) (soa_from chs) (Some soa)
                  (remove chs) (add chs) (flags chs)
  end.

Definition knot_changeset_add_rrset (chs : knot_changeset_t)
    (rrset : knot_rrset_t) (part : knot_changeset_part_t)
  : knot_error * knot_changeset_t :=
  match part with
  | KNOT_CHANGESET_REMOVE =>
      (KNOT_EOK,
       mkChangeset (serial_from chs) (serial_to chs) (soa_from chs) (soa_to chs)
                   (remove chs ++ [rrset]) (add chs) (flags chs))
  | KNOT_CHANGESET_ADD =>
      (KNOT_EOK,
       mkChangeset (serial_from chs) (serial_to chs) (soa_from chs) (soa_to chs)
                   (remove chs) (add chs ++ [rrset]) (flags chs))
  end.

Definition set_flags (chs : knot_changeset_t) (fl : Z) : knot_changeset_t :=
  mkChangeset (serial_from chs) (serial_to chs) (soa_from chs) (soa_to chs)
              (remove chs) (add chs) fl.

Section ChangesetCodec.

(** [rrset_deserialize] belongs to libknot: it reads one RRSet from the
    stream and leaves the rest of it ([remaining] is decreased by what was
    read), or fails. *)
Variable rrset_deserialize : list Z -> option (knot_rrset_t * list Z).

(** [knot_rdata_soa_serial] of libknot, applied to an RRSet read from the
    journal: the serial in its SOA RDATA. *)
Variable knot_rrset_soa_serial : knot_rrset_t -> Z.

(** The loop [while (remaining > 0)] of [zones_changesets_from_binary];
    [fuel] bounds the number of its turns ([None]: more turns than that). *)
Fixpoint from_binary_loop (fuel : nat) (stream : list Z)
    (in_remove_section : bool) (chs : knot_changeset_t)
  : option (knot_error * knot_changeset_t) :=
  match stream with
  | [] => Some (KNOT_EOK, chs)
  | _ :: _ =>
      match fuel with
      | O => None
      | S fuel' =>
          (* Parse next RRSet. *)
          match rrset_deserialize stream with
          | None => Some (KNOT_EMALF, chs)
          | Some (rrset, stream') =>
              (* Check for next SOA. *)
              if rr_type rrset =? KNOT_RRTYPE_SOA then
                if in_remove_section then
                  (* Move to ADD section if in REMOVE. *)
                  from_binary_loop fuel' stream' false
                    (knot_changeset_add_soa chs rrset KNOT_CHANGESET_ADD)
                else
                  (* Final SOA. *)
                  Some (KNOT_EOK, chs)
              else
                let (ret, chs') :=
                  if in_remove_section
                  then knot_changeset_add_rrset chs rrset KNOT_CHANGESET_REMOVE
                  else knot_changeset_add_rrset chs rrset KNOT_CHANGESET_ADD in
                if negb (is_ok ret) then Some (KNOT_ERROR, chs')
                else from_binary_loop fuel' stream' in_remove_section chs'
          end
      end
  end.

(** The body of the [WALK_LIST] of [zones_changesets_from_binary] for one
    changeset with its [data] (NULL or [size] bytes).  The flags are copied
    as they lie in memory (little-endian here, as in
    [changeset_entry_bytes]).  An entry of less than four bytes makes the
    code read past it, and the first RRSet is asserted to be an SOA with the
    serial of [serial_from]: [None] where that fails.  The loop is given as
    many turns as bytes are left. *)
Definition changeset_from_binary (chs : knot_changeset_t)
    (data : option (list Z)) : option (knot_error * knot_changeset_t) :=
  match data with
  | None => Some (KNOT_EMALF, chs)
  | Some bytes =>
      if (length bytes <? 4)%nat then None else
      (* Read changeset flags. *)
      let chs := set_flags chs (le_value (firstn 4 bytes)) in
      let stream := skipn 4 bytes in
      (* Read initial changeset RRSet - SOA. *)
      match rrset_deserialize stream with
      | None => Some (KNOT_EMALF, chs)
      | Some (rrset, stream') =>
          if negb (rr_type rrset =? KNOT_RRTYPE_SOA) then None else
          if negb (serial_from chs =? knot_rrset_soa_serial rrset) then None
          else
          let chs := knot_changeset_add_soa chs rrset KNOT_CHANGESET_REMOVE in
          (* Read remaining RRSets *)
          from_binary_loop (length stream') stream' true chs
      end
  end.

(** [zones_changesets_from_binary]: the changesets of the envelope, each
    with its data, in order; the first one that cannot be parsed ends the
    walk.  The result holds the changesets as the walk leaves them. *)
Fixpoint zones_changesets_from_binary
    (chgsets : list (knot_changeset_t * option (list Z)))
  : option (knot_error * list knot_changeset_t) :=
  match chgsets with
  | [] => Some (KNOT_EOK, [])
  | (chs, data) :: rest =>
      match changeset_from_binary chs data with
      | None => None
      | Some (ret, chs') =>
          if negb (is_ok ret) then Some (ret, chs' :: map fst rest) else
          match zones_changesets_from_binary rest with
          | None => None
          | Some (ret, rest') => Some (ret, chs' :: rest')
          end
      end
  end.

End ChangesetCodec.

(** The changeset [zones_load_changesets] prepares for a journal entry: the
    serials of its key, the rest to be read from its data. *)
Definition changeset_of_key (k : Z) : knot_changeset_t :=
  mkChangeset (ixfrdb_key_from k) (ixfrdb_key_to k) None None [] [] 0.

(** A changeset as [zones_changesets_from_binary] can read it back: both
    SOAs are there and are SOA RRSets, no other RRSet of it is an SOA, no
    RRSet has an empty serialized form, and the flags are a 32-bit value. *)
Definition changeset_rrsets (chs : knot_changeset_t) : list knot_rrset_t :=
  match soa_from chs, soa_to chs with
  | Some f, Some t => f :: remove chs ++ t :: add chs
  | _, _ => remove chs ++ add chs
  end.

Definition changeset_readable (chs : knot_changeset_t) : bool :=
  match soa_from chs, soa_to chs with
  | Some f, Some t =>
      (rr_type f =? KNOT_RRTYPE_SOA) && (rr_type t =? KNOT_RRTYPE_SOA)
      && forallb (fun rr => negb (rr_type rr =? KNOT_RRTYPE_SOA))
                 (remove chs ++ add chs)
      && forallb (fun rr => negb (length (rr_wire rr) =? 0)%nat)
                 (changeset_rrsets chs)
      && (0 <=? flags chs) && (flags chs <? 2 ^ 32)
  | _, _ => false
  end.

(* ================================================================== *)
(** ** zones.c: refreshing a zone from its master *)
(* ================================================================== *)

(** Return codes: those of [knot_error], and the further codes of libknot
    that the transfer and TSIG code hands on. *)
Inductive knot_code : Set :=
| Code (e : knot_error)
| KNOT_EUPTODATE
| KNOT_TSIG_EBADKEY
| KNOT_TSIG_EBADSIG
| KNOT_TSIG_EBADTIME.

Inductive xfr_state_t : Set := XFR_IDLE | XFR_SCHED | XFR_PENDING.

Inductive knot_ns_xfr_type_t : Set :=
| XFR_TYPE_AIN | XFR_TYPE_IIN | XFR_TYPE_SOA.

Inductive xfr_flag_t : Set := XFR_FLAG_TCP | XFR_FLAG_UDP.

(** [zone->xfr_in] as the handlers use it: whether the REFRESH and EXPIRE
    timers are there (not NULL), the transfer state, whether the zone has a
    master, the bootstrap retry time and whether a TSIG key is configured
    ([tsig_key.name] is not NULL). *)
Record xfr_in_t : Set := mkXfrIn {
  xfr_timer : bool;
  xfr_expire : bool;
  xfr_state : xfr_state_t;
  xfr_has_master : bool;
  xfr_bootstrap_retry : Z;
  xfr_tsig_key_name : bool
}.

(** A zone as the transfer code sees it: the zone, whether [ZONE_DISCARDED]
    is among its flags, and [zone->xfr_in]. *)
Record xfr_zone_t : Set := mkXfrZone {
  xz_zone : zone_t;
  xz_discarded : bool;
  xz_xfr_in : xfr_in_t
}.

Definition set_xfr_state (z : xfr_zone_t) (s : xfr_state_t) : xfr_zone_t :=
  let x := xz_xfr_in z in
  mkXfrZone (xz_zone z) (xz_discarded z)
            (mkXfrIn (xfr_timer x) (xfr_expire x) s (xfr_has_master x)
                     (xfr_bootstrap_retry x) (xfr_tsig_key_name x)).

Definition set_xfr_expire (z : xfr_zone_t) (e : bool) : xfr_zone_t :=
  let x := xz_xfr_in z in
  mkXfrZone (xz_zone z) (xz_discarded z)
            (mkXfrIn (xfr_timer x) e (xfr_state x) (xfr_has_master x)
                     (xfr_bootstrap_retry x) (xfr_tsig_key_name x)).

(** A transfer request as [xfr_task_create] and the lines after it leave
    it: its type, its flags and whether it carries the zone's TSIG key. *)
Record knot_ns_xfr_t : Set := mkXfr {
  rq_type : knot_ns_xfr_type_t;
  rq_flags : xfr_flag_t;
  rq_tsig_key : bool
}.

(** What the handlers ask of the event scheduler and of the transfer
    queue, in order.  [XfrReschedule] is [evsched_schedule] of the event
    being handled; [XfrEnqueue] carries what [xfr_enqueue] returned. *)
Inductive xfr_event : Set :=
| XfrCancelRefresh
| XfrCancelExpire
| XfrScheduleRefresh (time : Z)
| XfrScheduleExpire (time : Z)
| XfrReschedule (time : Z)
| XfrEventFinished
| XfrEnqueue (rq : knot_ns_xfr_t) (ret : knot_error)
| XfrTaskFree.

(** What one call of a handler gets from outside zones.c: whether
    [xfr_task_create] returns a request, the result of [xfr_enqueue],
    whether [evsched_schedule_cb] returns an event, the result of
    [xfrin_transfer_needed], the random numbers of the two [zones_jitter]
    calls and [conf()->max_conn_idle]. *)
Record xfr_outside : Set := mkOutside {
  task_created : bool;
  enqueue_ret : knot_error;
  expire_scheduled : bool;
  transfer_needed : Z;
  rnd_expire : Z;
  rnd_refresh : Z;
  max_conn_idle : Z
}.

(** The SOA response as [zones_process_response] reads it: QTYPE, RCODE
    and message ID (a [uint16_t]). *)
Record response_t : Set := mkResponse {
  pkt_qtype : Z;
  pkt_rcode : Z;
  pkt_id : Z
}.

Definition zones_transfer_to_use (zone : option xfr_zone_t)
  : knot_ns_xfr_type_t :=
  match zone with
  | None => XFR_TYPE_AIN
  | Some z =>
      match ixfr_db (xz_zone z) with
      | None => XFR_TYPE_AIN
      | Some _ => XFR_TYPE_IIN
      end
  end.

Section InboundTransfers.

(** Macros of zones.h. *)
Variable ZONES_JITTER_PCT : Z.
Variable REFRESH_DEFAULT : Z.

(** [zones_schedule_refresh]; [time] is an [int64_t]. *)
Definition zones_schedule_refresh (zone : option xfr_zone_t) (time : Z)
    (o : xfr_outside) : knot_error * option xfr_zone_t * list xfr_event :=
  match zone with
  | None => (KNOT_EINVAL, None, [])
  | Some z =>
      (* Cancel REFRESH timer. *)
      let evs := if xfr_timer (xz_xfr_in z) then [XfrCancelRefresh] else [] in
      (* Cancel EXPIRE timer. *)
      let evs :=
        evs ++ (if xfr_expire (xz_xfr_in z) then [XfrCancelExpire] else []) in
      (* Check XFR/IN master server. *)
      let z := set_xfr_state z XFR_IDLE in
      if xfr_has_master (xz_xfr_in z) then
        (* Schedule REFRESH timer. *)
        let time :=
          if time <? 0 then
            match contents (xz_zone z) with
            | Some _ =>
                zones_jitter ZONES_JITTER_PCT (rnd_refresh o)
                             (zones_soa_refresh (xz_zone z))
            | None => xfr_bootstrap_retry (xz_xfr_in z)
            end
          else time in
        (KNOT_EOK, Some (set_xfr_state z XFR_SCHED),
         evs ++ [XfrScheduleRefresh time])
      else
        (KNOT_EOK, Some z, evs)
  end.

(** [zones_refresh_ev]: [e->data] is the zone (NULL: no zone).  With
    contents it asks the master for its SOA, without it bootstraps the
    zone.  [2 * (conf()->max_conn_idle * 1000)] is an [int] product, taken
    not to overflow. *)
Definition zones_refresh_ev (zone : option xfr_zone_t) (o : xfr_outside)
  : knot_error * option xfr_zone_t * list xfr_event :=
  match zone with
  | None => (KNOT_EINVAL, None, [])
  | Some z =>
      if xz_discarded z then (KNOT_EOK, zone, []) else
      (* Create XFR request. *)
      if negb (task_created o) then (KNOT_EINVAL, zone, []) else
      let rq :=
        mkXfr XFR_TYPE_SOA XFR_FLAG_TCP (xfr_tsig_key_name (xz_xfr_in z)) in
      (* Check for contents. *)
      match contents (xz_zone z) with
      | None =>
          (* Bootstrap over TCP. *)
          let rq := mkXfr XFR_TYPE_AIN XFR_FLAG_TCP (rq_tsig_key rq) in
          (* Check transfer state. *)
          match xfr_state (xz_xfr_in z) with
          | XFR_PENDING =>
              (KNOT_EOK, zone, [XfrEventFinished; XfrTaskFree])
          | _ =>
              let z := set_xfr_state z XFR_PENDING in
              (* Issue request. *)
              let ret := enqueue_ret o in
              if negb (is_ok ret) then
                (* Revert state. *)
                (ret, Some (set_xfr_state z XFR_SCHED),
                 [XfrEventFinished; XfrEnqueue rq ret; XfrTaskFree])
              else
                (ret, Some z, [XfrEventFinished; XfrEnqueue rq ret])
          end
      | Some _ =>
          (* Schedule EXPIRE timer on first attempt. *)
          let '(z, evs) :=
            if negb (xfr_expire (xz_xfr_in z)) then
              let expire_tmr :=
                zones_jitter ZONES_JITTER_PCT (rnd_expire o)
                             (zones_soa_expire (xz_zone z)) in
              let expire_tmr :=
                uint32 (expire_tmr + 2 * (max_conn_idle o * 1000)) in
              (set_xfr_expire z (expire_scheduled o),
               [XfrScheduleExpire expire_tmr])
            else (z, []) in
          (* Reschedule as RETRY timer. *)
          let retry_tmr :=
            zones_jitter ZONES_JITTER_PCT (rnd_refresh o)
                         (zones_soa_retry (xz_zone z)) in
          let evs := evs ++ [XfrReschedule retry_tmr] in
          (* Issue request. *)
          let ret := enqueue_ret o in
          (ret, Some z,
           evs ++ [XfrEventFinished; XfrEnqueue rq ret]
               ++ (if negb (is_ok ret) then [XfrTaskFree] else []))
      end
  end.

(** [zones_process_response].  [args] tells whether [nameserver], [from],
    [response_wire] and [rsize] are all there; [zone] is what
    [knot_zonedb_find] returns for the name in the question.  The result
    holds the zone as the call leaves it and [*rsize]. *)
Definition zones_process_response (args : bool) (exp_msgid : Z)
    (packet : option response_t) (zone : option xfr_zone_t)
    (o : xfr_outside) (rsize : Z)
  : knot_code * option xfr_zone_t * list xfr_event * Z :=
  match packet with
  | None => (Code KNOT_EINVAL, zone, [], rsize)
  | Some pkt =>
      if negb args then (Code KNOT_EINVAL, zone, [], rsize) else
      (* Declare no response. *)
      let rsize := 0 in
      if pkt_qtype pkt =? KNOT_RRTYPE_SOA then
        if negb (pkt_rcode pkt =? 0) then (Code KNOT_ERROR, zone, [], rsize)
        else
        (* Get zone contents. *)
        match zone with
        | None => (Code KNOT_EINVAL, zone, [], rsize)
        | Some z =>
            match contents (xz_zone z) with
            | None => (Code KNOT_EINVAL, zone, [], rsize)
            | Some _ =>
                (* Match ID against awaited. *)
                if negb (uint16 (pkt_id pkt) =? exp_msgid) then
                  (Code KNOT_ERROR, zone, [], rsize)
                else
                (* Check SOA SERIAL. *)
                let ret := transfer_needed o in
                if ret <? 0 then (Code KNOT_ERROR, zone, [], rsize) else
                (* No updates available. *)
                if ret =? 0 then
                  let '(_, zone', evs) :=
                    zones_schedule_refresh zone REFRESH_DEFAULT o in
                  (KNOT_EUPTODATE, zone', evs, rsize)
                else
                (* Check zone transfer state. *)
                match xfr_state (xz_xfr_in z) with
                | XFR_PENDING => (Code KNOT_EOK, zone, [], rsize)
                | _ =>
                    let z := set_xfr_state z XFR_PENDING in
                    (* Prepare XFR client transfer. *)
                    let rqtype := zones_transfer_to_use zone in
                    if negb (task_created o) then
                      (Code KNOT_ENOMEM, Some z, [], rsize)
                    else
                    let rq :=
                      mkXfr rqtype XFR_FLAG_TCP
                            (xfr_tsig_key_name (xz_xfr_in z)) in
                    let ret := enqueue_ret o in
                    if negb (is_ok ret) then
                      (* Revert state *)
                      (Code KNOT_EOK, Some (set_xfr_state z XFR_SCHED),
                       [XfrEnqueue rq ret; XfrTaskFree], rsize)
                    else
                      (Code KNOT_EOK, Some z, [XfrEnqueue rq ret], rsize)
                end
            end
        end
      else (Code KNOT_EOK, zone, [], rsize)
  end.

(** One call of a handler on a zone: the REFRESH/RETRY event, or a response
    whose question names the zone. *)
Inductive xfr_call : Set :=
| CallRefreshEv (o : xfr_outside)
| CallProcessResponse (args : bool) (exp_msgid : Z)
    (packet : option response_t) (o : xfr_outside).

Definition xfr_call_run (c : xfr_call) (zone : option xfr_zone_t)
  : option xfr_zone_t * list xfr_event :=
  match c with
  | CallRefreshEv o =>
      let '(_, zone', evs) := zones_refresh_ev zone o in (zone', evs)
  | CallProcessResponse args exp_msgid packet o =>
      let '(_, zone', evs, _) :=
        zones_process_response args exp_msgid packet zone o 0 in
      (zone', evs)
  end.

(** The calls of the list, one after the other, on the same zone. *)
Fixpoint xfr_calls_run (cs : list xfr_call) (zone : option xfr_zone_t)
  : option xfr_zone_t * list xfr_event :=
  match cs with
  | [] => (zone, [])
  | c :: rest =>
      let (zone1, evs1) := xfr_call_run c zone in
      let (zone2, evs2) := xfr_calls_run rest zone1 in
      (zone2, evs1 ++ evs2)
  end.

End InboundTransfers.

(** A zone transfer (not an SOA query) that the transfer queue accepted. *)
Definition transfer_enqueued (ev : xfr_event) : bool :=
  match ev with
  | XfrEnqueue rq KNOT_EOK =>
      match rq_type rq with
      | XFR_TYPE_SOA => false
      | _ => true
      end
  | _ => false
  end.

(** A response for which [xfrin_transfer_needed] answers 0 (the master has
    nothing newer): the only calls that can reach
    [zones_schedule_refresh]. *)
Definition no_updates_available (c : xfr_call) : bool :=
  match c with
  | CallProcessResponse _ _ _ o => transfer_needed o =? 0
  | CallRefreshEv _ => false
  end.

Definition zone_xfr_state (zone : option xfr_zone_t) : option xfr_state_t :=
  match zone with
  | Some z => Some (xfr_state (xz_xfr_in z))
  | None => None
  end.

(** The zone is there and its EXPIRE timer has been created. *)
Definition expire_armed (zone : option xfr_zone_t) : Prop :=
  exists z, zone = Some z /\ xfr_expire (xz_xfr_in z) = true.

(* ================================================================== *)
(** ** zones.c: verifying the TSIG of a query *)
(* ================================================================== *)

(** The TSIG RR of a query as [zones_verify_tsig_query] reads it: owner
    (the key name), algorithm, MAC length and time signed. *)
Record tsig_rr_t : Set := mkTsigRR {
  tsig_owner : string;
  tsig_rdata_alg : Z;
  tsig_rdata_mac_length : Z;
  tsig_rdata_time_signed : Z
}.

Record tsig_query_t : Set := mkTsigQuery {
  tsig_rr : option tsig_rr_t;
  tsig_wire : list Z
}.

Record knot_tsig_key_t : Set := mkTsigKey {
  key_name : string;
  key_algorithm : Z
}.

(** The three out-parameters: [*rcode], [*tsig_rcode] and
    [*tsig_prev_time_signed]. *)
Record tsig_out_t : Set := mkTsigOut {
  out_rcode : knot_rcode_t;
  out_tsig_rcode : Z;
  out_tsig_prev_time_signed : Z
}.

Section TsigVerification.

(** Of libknot: the digest length of an algorithm (0: not supported), the
    comparison of two names, the TSIG check itself and the three TSIG
    RCODEs. *)
Variable knot_tsig_digest_length : Z -> Z.
Variable knot_dname_cmp : string -> string -> Z.
Variable knot_tsig_server_check :
  tsig_rr_t -> list Z -> knot_tsig_key_t -> knot_code.
Variable KNOT_RCODE_BADKEY : Z.
Variable KNOT_RCODE_BADSIG : Z.
Variable KNOT_RCODE_BADTIME : Z.

Definition zones_verify_tsig_query (query : tsig_query_t)
    (key : knot_tsig_key_t) (out : tsig_out_t) : knot_code * tsig_out_t :=
  match tsig_rr query with
  | None =>
      (KNOT_TSIG_EBADKEY,
       mkTsigOut KNOT_RCODE_REFUSED (out_tsig_rcode out)
                 (out_tsig_prev_time_signed out))
  | Some rr =>
      (* 1) Check if we support the requested algorithm. *)
      let alg := tsig_rdata_alg rr in
      if knot_tsig_digest_length alg =? 0 then
        (KNOT_TSIG_EBADKEY,
         mkTsigOut KNOT_RCODE_NOTAUTH KNOT_RCODE_BADKEY
                   (out_tsig_prev_time_signed out))
      else
      let kname := tsig_owner rr in
      (* 2) Find the particular key used by the TSIG. *)
      if negb ((knot_dname_cmp (key_name key) kname =? 0)
               && (key_algorithm key =? alg)) then
        (KNOT_TSIG_EBADKEY,
         mkTsigOut KNOT_RCODE_NOTAUTH KNOT_RCODE_BADKEY
                   (out_tsig_prev_time_signed out))
      else
      (* 3) Validate the query with TSIG. *)
      let digest_max_size := knot_tsig_digest_length (key_algorithm key) in
      let mac_len := tsig_rdata_mac_length rr in
      if mac_len >? digest_max_size then
        (Code KNOT_EMALF,
         mkTsigOut KNOT_RCODE_FORMERR (out_tsig_rcode out)
                   (out_tsig_prev_time_signed out))
      else
        (* Check query TSIG. *)
        let ret := knot_tsig_server_check rr (tsig_wire query) key in
        (* Evaluate TSIG check results. *)
        (ret,
         match ret with
         | Code KNOT_EOK =>
             mkTsigOut KNOT_RCODE_NOERROR (out_tsig_rcode out)
                       (out_tsig_prev_time_signed out)
         | KNOT_TSIG_EBADKEY =>
             mkTsigOut KNOT_RCODE_NOTAUTH KNOT_RCODE_BADKEY
                       (out_tsig_prev_time_signed out)
         | KNOT_TSIG_EBADSIG =>
             mkTsigOut KNOT_RCODE_NOTAUTH KNOT_RCODE_BADSIG
                       (out_tsig_prev_time_signed out)
         | KNOT_TSIG_EBADTIME =>
             mkTsigOut KNOT_RCODE_NOTAUTH KNOT_RCODE_BADTIME
                       (tsig_rdata_time_signed rr)
         | Code KNOT_EMALF =>
             mkTsigOut KNOT_RCODE_FORMERR (out_tsig_rcode out)
                       (out_tsig_prev_time_signed out)
         | _ =>
             mkTsigOut KNOT_RCODE_SERVFAIL (out_tsig_rcode out)
                       (out_tsig_prev_time_signed out)
         end)
  end.

End TsigVerification.

(* ================================================================== *)
(** ** Example data *)
(* ================================================================== *)

Definition example_soa : soa_rdata := mkSoa 100 600 60 3600 300.

Definition example_conf : conf_zone_t :=
  mkConf "example.com." "example.com.zone" CONF_SERIAL_INCREMENT 30 false.

Definition example_contents : knot_zone_contents_t :=
  mkContents example_soa None None [].

(** Nothing scripted: every external call succeeds as far as its model
    allows. *)
Definition quiet_world : world :=
  mkWorld (fun _ => []) 1700000000 [] 1700086400 [].

(** A world in which the next calls of [c] return [rs]. *)
Definition scripted (c : ext_call) (rs : list knot_error) : world :=
  mkWorld (fun c' => if ext_call_beq c' c then rs else [])
          1700000000 [] 1700086400 [].

(** Modelled from the spec: the RFC 1982 comparison of two 32-bit serials,
    as an instance of [ns_serial_compare] for the examples: 0 when equal,
    1 when the first is ahead of the second by less than 2^31, -1
    otherwise. *)
Definition rfc1982_compare (s1 s2 : Z) : Z :=
  if s1 =? s2 then 0
  else if 0 <? to_int (s1 - s2) then 1 else -1.

(** An UPDATE adding one A record. *)
Definition example_update : knot_pkt_t :=
  mkPkt [] [mkRRSet 1 [192; 0; 2; 1]] KNOT_RCODE_REFUSED.

(** A zone with one normal node and one NSEC3 node. *)
Definition two_node_zone : dnslib_zone_t :=
  mkDzone [mkDnode (mkDname [0] [] 1) None 0 false (Some 2) []]
          [mkDnode (mkDname [1; 97; 0] [0] 2) (Some 1) 0 false None []]
          0.

Definition example_magic : list Z := [107; 110; 111; 116; 120; 120].

(** The changeset 100 -> 101 adding one RRSet. *)
Definition example_changeset : knot_changeset_t :=
  mkChangeset 100 101 (Some (mkRRSet 6 [100])) (Some (mkRRSet 6 [101]))
              [] [mkRRSet 1 [192; 0; 2; 1]] 0.

Definition example_changesets : knot_changesets_t :=
  mkChangesets [example_changeset].

(** A journal of capacity 1 whose only entry (99 -> 100) is committed and
    not flushed yet, and the zone it belongs to: contents at serial 100, the
    zonefile still at serial 99. *)
Definition full_journal : journal_t :=
  mkJournal [mkNode (ixfrdb_key_make 99 100) (Z.lor JOURNAL_VALID JOURNAL_DIRTY)]
            1 false 0.

Definition full_zone : zone_t :=
  mkZone example_conf (Some example_contents) (Some full_journal) 99 0 (Some 0) true.

(** A journal with room, and its zone. *)
Definition roomy_journal : journal_t :=
  mkJournal [mkNode (ixfrdb_key_make 99 100) (Z.lor JOURNAL_VALID JOURNAL_DIRTY)]
            8 false 0.

Definition roomy_zone : zone_t :=
  mkZone example_conf (Some example_contents) (Some roomy_journal) 99 0 (Some 0) true.

(** A zone with automatic signing whose DNSSEC timer has not been created,
    and a world whose signer has one signature to add. *)
Definition unplanned_zone : zone_t :=
  mkZone (mkConf "example.com." "example.com.zone" CONF_SERIAL_INCREMENT 30
                 true)
         (Some example_contents) (Some roomy_journal) 99 0 None true.

Definition signing_world : world :=
  mkWorld (fun _ => []) 1700000000 [mkRRSet 46 [1]] 1700086400 [].

(** A zone made of a chain of CNAMEs: node [k] is a CNAME for node [k + 1],
    for [k] from [from] to [from + len - 1]; the last target does not
    exist. *)
Definition chain_name (k : Z) : dnslib_dname_t := mkDname [1; k; 0] [0] 0.

Definition chain_cname (k : Z) : dnslib_rrset_t :=
  mkRrset DNSLIB_RRTYPE_CNAME 1 3600
          [mkRdata [item_dname (chain_name (k + 1))]] None.

Definition chain_node (k : Z) : dnslib_node_t :=
  mkDnode (chain_name k) None 0 false None [chain_cname k].

Definition chain_zone (len : nat) : dnslib_zone_t :=
  mkDzone (map (fun k => chain_node (Z.of_nat k)) (seq 0 len)) [] 0.

(** A library for the examples.  The skip list is the list of its pairs, in
    the order of insertion, names being told apart by wire form and ID; the
    descriptors are those of A, NS, CNAME and RRSIG; the search finds the
    node of a name, or else the apex as its closest encloser. *)
Definition example_skip_find (l : list (dnslib_dname_t * dnslib_dname_t))
    (d : dnslib_dname_t) : option dnslib_dname_t :=
  match find (fun kv => dname_eqb (fst kv) d
                        && (dname_node (fst kv) =? dname_node d)) l with
  | Some kv => Some (snd kv)
  | None => None
  end.

Definition example_skip_insert (l : list (dnslib_dname_t * dnslib_dname_t))
    (key value : dnslib_dname_t) : list (dnslib_dname_t * dnslib_dname_t) :=
  match example_skip_find l key with
  | Some _ => l
  | None => l ++ [(key, value)]
  end.

Definition example_descriptor (type : Z) : option dnslib_rrtype_descriptor_t :=
  if type =? 1 then
    Some (mkDescriptor 1 (fun _ => DNSLIB_RDATA_WF_OTHER))
  else if (type =? 2) || (type =? DNSLIB_RRTYPE_CNAME) then
    Some (mkDescriptor 1 (fun _ => DNSLIB_RDATA_WF_COMPRESSED_DNAME))
  else if type =? DNSLIB_RRTYPE_RRSIG then
    Some (mkDescriptor 9 (fun i => if (i =? 7)%nat
                                   then DNSLIB_RDATA_WF_LITERAL_DNAME
                                   else DNSLIB_RDATA_WF_OTHER))
  else None.

Definition example_find_dname (zone : dnslib_zone_t)
    (dname : option dnslib_dname_t)
  : Z * option dnslib_node_t * option dnslib_node_t :=
  match dname with
  | None => (0, None, None)
  | Some d =>
      match dnslib_zone_get_node zone d with
      | Some n => (1, Some n, Some n)
      | None => (0, None, hd_error (zone_nodes zone))
      end
  end.

Definition example_library : dnslib_library :=
  mkLibrary (list (dnslib_dname_t * dnslib_dname_t)) (fun _ => [])
            example_skip_insert example_skip_find
            example_descriptor [2; DNSLIB_RRTYPE_CNAME] example_find_dname.

(** A signed zone: the apex [example.] holds an A RRSet with its RRSIG; the
    node [www.example.] is a CNAME for [host.example.net.], a name outside
    the zone; one NSEC3 node without RRSets. *)
Definition apex_name : dnslib_dname_t :=
  mkDname [7; 101; 120; 97; 109; 112; 108; 101; 0] [0] 1.

Definition www_name : dnslib_dname_t :=
  mkDname [3; 119; 119; 119; 7; 101; 120; 97; 109; 112; 108; 101; 0] [0; 4] 2.

Definition host_name : dnslib_dname_t :=
  mkDname [4; 104; 111; 115; 116; 7; 101; 120; 97; 109; 112; 108; 101;
           3; 110; 101; 116; 0] [0; 5; 13] 3.

Definition apex_rrsig : dnslib_rrsig_set_t :=
  mkRrsigSet DNSLIB_RRTYPE_RRSIG 1 3600
    [mkRdata [item_raw 2 [0; 1]; item_raw 1 [5]; item_raw 1 [1];
              item_raw 4 [0; 0; 14; 16]; item_raw 4 [80; 0; 0; 0];
              item_raw 4 [79; 0; 0; 0]; item_raw 2 [48; 57];
              item_dname apex_name; item_raw 4 [222; 173; 190; 239]]].

Definition apex_a : dnslib_rrset_t :=
  mkRrset 1 1 3600
    [mkRdata [item_raw 4 [192; 0; 2; 1]]; mkRdata [item_raw 4 [192; 0; 2; 2]]]
    (Some apex_rrsig).

Definition www_cname : dnslib_rrset_t :=
  mkRrset DNSLIB_RRTYPE_CNAME 1 3600 [mkRdata [item_dname host_name]] None.

Definition apex_node : dnslib_node_t :=
  mkDnode apex_name None 0 false (Some 4) [apex_a].

Definition www_node : dnslib_node_t :=
  mkDnode www_name (Some 1) 0 false None [www_cname].

Definition signed_zone : dnslib_zone_t :=
  mkDzone [apex_node; www_node]
          [mkDnode (mkDname [1; 97; 0] [0] 4) (Some 1) 0 false None []]
          0.

(** An [xfrin_apply_changesets] that produces the contents at serial 101,
    and one that fails. *)
Definition example_apply (z : zone_t) (chs : knot_changesets_t)
  : knot_error * option knot_zone_contents_t :=
  (KNOT_EOK,
   Some (mkContents (mkSoa 101 600 60 3600 300) None None
                    [mkRRSet 1 [192; 0; 2; 1]])).

Definition failing_apply (z : zone_t) (chs : knot_changesets_t)
  : knot_error * option knot_zone_contents_t :=
  (KNOT_ENOMEM, None).

(** A serialized form that can be read back (type, length, payload), its
    reader, the serial of an SOA in that form, and a changeset whose RRSets
    are in that form. *)
Definition example_deserialize (stream : list Z)
  : option (knot_rrset_t * list Z) :=
  match stream with
  | t :: n :: rest =>
      if (Z.to_nat n <=? length rest)%nat
      then Some (mkRRSet t (t :: n :: firstn (Z.to_nat n) rest),
                 skipn (Z.to_nat n) rest)
      else None
  | _ => None
  end.

Definition example_soa_serial (rr : knot_rrset_t) : Z :=
  nth 2 (rr_wire rr) 0.

Definition wire_changeset : knot_changeset_t :=
  mkChangeset 100 101
    (Some (mkRRSet 6 [6; 1; 100])) (Some (mkRRSet 6 [6; 1; 101]))
    [mkRRSet 1 [1; 4; 192; 0; 2; 1]]
    [mkRRSet 1 [1; 4; 192; 0; 2; 2]; mkRRSet 16 [16; 2; 104; 105]]
    0.

(** A slave zone with contents and a journal, waiting for its REFRESH
    timer; an outside that grants every request (the master has a newer
    serial); the SOA response with message ID 4711. *)
Definition example_xfr_zone : xfr_zone_t :=
  mkXfrZone roomy_zone false (mkXfrIn true false XFR_SCHED true 30000 false).

Definition example_outside : xfr_outside :=
  mkOutside true KNOT_EOK true 1 7 3 60.

Definition example_response : response_t := mkResponse 6 0 4711.

(** A TSIG setting: every algorithm has a 32-byte digest, names compare
    byte by byte, and the check of the signature accepts. *)
Definition example_digest_length (alg : Z) : Z := 32.

Definition example_dname_cmp (a b : string) : Z :=
  if String.eqb a b then 0 else 1.

Definition example_server_check (rr : tsig_rr_t) (wire : list Z)
    (key : knot_tsig_key_t) : knot_code := Code KNOT_EOK.

Definition example_tsig_query : tsig_query_t :=
  mkTsigQuery (Some (mkTsigRR "key.example." 161 32 1400000000)) [0; 1].

Definition example_tsig_key : knot_tsig_key_t :=
  mkTsigKey "key.example." 161.

(* ================================================================== *)
(** * Properties *)
(* ================================================================== *)

(** ** Machine integer facts *)

Lemma uint32_id (x : Z) : is_uint32 x -> uint32 x = x.
Proof. unfold is_uint32, uint32. intros H. apply Z.mod_small. exact H. Qed.

Lemma uint64_id (x : Z) : is_uint64 x -> uint64 x = x.
Proof. unfold is_uint64, uint64. intros H. apply Z.mod_small. exact H. Qed.

Lemma is_uint32_uint64 (x : Z) : is_uint32 x -> is_uint64 x.
Proof. unfold is_uint32, is_uint64. lia. Qed.

Lemma uint32_range (x : Z) : is_uint32 (uint32 x).
Proof. unfold is_uint32, uint32. apply Z.mod_pos_bound. lia. Qed.

Lemma land_low32 (k : Z) : Z.land k 4294967295 = k mod 2 ^ 32.
Proof. change 4294967295 with (Z.ones 32). apply Z.land_ones. lia. Qed.

Lemma key_from_low32 (k : Z) : ixfrdb_key_from k = k mod 2 ^ 32.
Proof.
  unfold ixfrdb_key_from.
  change (uint64 4294967295) with 4294967295.
  rewrite land_low32. unfold uint32. apply Z.mod_mod. lia.
Qed.

Lemma key_to_high32 (k : Z) : ixfrdb_key_to k = (k / 2 ^ 32) mod 2 ^ 32.
Proof.
  unfold ixfrdb_key_to.
  change (uint64 32) with 32.
  rewrite Z.shiftr_div_pow2 by lia. reflexivity.
Qed.

Lemma shiftl32_land_low (a b : Z) :
  is_uint32 b -> Z.land (Z.shiftl a 32) b = 0.
Proof.
  intros Hb. apply Z.bits_inj'. intros n Hn.
  rewrite Z.land_spec, Z.bits_0.
  destruct (Z.ltb_spec n 32) as [Hlt | Hge].
  - rewrite Z.shiftl_spec_low by exact Hlt. reflexivity.
  - rewrite <- (Z.mod_small b (2 ^ 32)) by exact Hb.
    rewrite Z.mod_pow2_bits_high by lia.
    apply andb_false_r.
Qed.

Lemma key_make_arith (from to : Z) :
  is_uint32 from -> is_uint32 to ->
  ixfrdb_key_make from to = to * 2 ^ 32 + from.
Proof.
  intros Hf Ht. unfold ixfrdb_key_make.
  change (uint64 32) with 32.
  rewrite (uint64_id to) by (apply is_uint32_uint64; exact Ht).
  rewrite (uint64_id from) by (apply is_uint32_uint64; exact Hf).
  rewrite (uint64_id (Z.shiftl to 32)).
  - rewrite <- Z.lxor_lor by (apply shiftl32_land_low; exact Hf).
    rewrite <- Z.add_nocarry_lxor by (apply shiftl32_land_low; exact Hf).
    rewrite Z.shiftl_mul_pow2 by lia. reflexivity.
  - rewrite Z.shiftl_mul_pow2 by lia.
    unfold is_uint32, is_uint64 in *. lia.
Qed.

(** ** Journal keys *)

(** C5.  For all 32-bit serials [from] and [to], the key made from them has
    [to] in its upper and [from] in its lower 32 bits: [ixfrdb_key_from] and
    [ixfrdb_key_to] recover the pair from [ixfrdb_key_make from to]. *)
Theorem ixfrdb_key_roundtrip (from to : Z) :
  is_uint32 from -> is_uint32 to ->
  ixfrdb_key_from (ixfrdb_key_make from to) = from /\
  ixfrdb_key_to (ixfrdb_key_make from to) = to /\
  Z.shiftr (ixfrdb_key_make from to) 32 = to /\
  Z.land (ixfrdb_key_make from to) (Z.ones 32) = from /\
  is_uint64 (ixfrdb_key_make from to).
Proof.
  intros Hf Ht.
  rewrite key_from_low32, key_to_high32, Z.land_ones, Z.shiftr_div_pow2 by lia.
  rewrite (key_make_arith from to Hf Ht).
  assert (Hdiv : (to * 2 ^ 32 + from) / 2 ^ 32 = to).
  { rewrite Z.div_add_l by lia. rewrite Z.div_small by exact Hf. lia. }
  assert (Hmod : (to * 2 ^ 32 + from) mod 2 ^ 32 = from).
  { rewrite Z.add_comm, Z.mod_add by lia. apply Z.mod_small. exact Hf. }
  rewrite Hdiv, Hmod.
  repeat split; try reflexivity.
  - apply Z.mod_small. exact Ht.
  - unfold is_uint32 in *. lia.
  - unfold is_uint32 in *. lia.
Qed.

Lemma ixfrdb_key_roundtrip_witness :
  ixfrdb_key_from (ixfrdb_key_make 100 101) = 100 /\
  ixfrdb_key_to (ixfrdb_key_make 100 101) = 101 /\
  Z.shiftr (ixfrdb_key_make 100 101) 32 = 101 /\
  Z.land (ixfrdb_key_make 100 101) (Z.ones 32) = 100 /\
  is_uint64 (ixfrdb_key_make 100 101).
Proof.
  apply (ixfrdb_key_roundtrip 100 101); unfold is_uint32; lia.
Defined.

(** ** Journal key comparators *)

Lemma to_int_uint64 (x : Z) : to_int (uint64 x) = to_int x.
Proof.
  unfold to_int, uint64.
  rewrite (Z.mod_mod_divide x (2 ^ 64) (2 ^ 32)); [reflexivity |].
  exists (2 ^ 32). reflexivity.
Qed.

Lemma to_int_small (x : Z) : - 2 ^ 31 <= x < 2 ^ 31 -> to_int x = x.
Proof.
  intros Hx. unfold to_int. cbv zeta.
  destruct (Z.ltb_spec (x mod 2 ^ 32) (2 ^ 31)) as [H | H];
    Z.div_mod_to_equations; lia.
Qed.

Lemma to_int_zero_iff (x : Z) :
  - 2 ^ 32 < x < 2 ^ 32 -> (to_int x = 0 <-> x = 0).
Proof.
  intros Hx. unfold to_int. cbv zeta.
  destruct (Z.ltb_spec (x mod 2 ^ 32) (2 ^ 31)) as [H | H];
    Z.div_mod_to_equations; lia.
Qed.

Lemma key_cmp_diff (a s : Z) :
  is_uint32 a -> to_int (uint64 (uint64 a - s)) = to_int (a - s).
Proof.
  intros Ha. rewrite to_int_uint64.
  rewrite uint64_id by (apply is_uint32_uint64; exact Ha). reflexivity.
Qed.

Lemma to_int_diff_props (a s : Z) :
  is_uint32 a -> is_uint32 s ->
  (to_int (a - s) = 0 <-> a = s) /\
  (- 2 ^ 31 <= a - s < 2 ^ 31 ->
   to_int (a - s) = a - s /\ sign_orders (to_int (a - s)) a s).
Proof.
  unfold is_uint32. intros Ha Hs. split.
  - rewrite to_int_zero_iff by lia. lia.
  - intros Hd. rewrite to_int_small by exact Hd.
    unfold sign_orders. lia.
Qed.

(** C4 (as the code has it).  Both comparators return the 32-bit difference
    of the key part and the serial converted to [int]: the result is zero
    exactly when the key part equals the serial, and it is the exact
    difference (hence of the right sign) whenever the two values are less
    than 2^31 apart. *)
Theorem ixfrdb_key_cmp_match (k s : Z) :
  is_uint32 s ->
  ixfrdb_key_from_cmp k s = to_int (ixfrdb_key_from k - s) /\
  ixfrdb_key_to_cmp k s = to_int (ixfrdb_key_to k - s) /\
  (ixfrdb_key_from_cmp k s = 0 <-> ixfrdb_key_from k = s) /\
  (ixfrdb_key_to_cmp k s = 0 <-> ixfrdb_key_to k = s) /\
  (- 2 ^ 31 <= ixfrdb_key_from k - s < 2 ^ 31 ->
   ixfrdb_key_from_cmp k s = ixfrdb_key_from k - s /\
   sign_orders (ixfrdb_key_from_cmp k s) (ixfrdb_key_from k) s) /\
  (- 2 ^ 31 <= ixfrdb_key_to k - s < 2 ^ 31 ->
   ixfrdb_key_to_cmp k s = ixfrdb_key_to k - s /\
   sign_orders (ixfrdb_key_to_cmp k s) (ixfrdb_key_to k) s).
Proof.
  intros Hs.
  assert (Hf : is_uint32 (ixfrdb_key_from k)) by apply uint32_range.
  assert (Ht : is_uint32 (ixfrdb_key_to k)) by apply uint32_range.
  unfold ixfrdb_key_from_cmp, ixfrdb_key_to_cmp.
  rewrite !key_cmp_diff by assumption.
  destruct (to_int_diff_props _ _ Hf Hs) as [Hf0 Hfs].
  destruct (to_int_diff_props _ _ Ht Hs) as [Ht0 Hts].
  repeat (split; [first [reflexivity | assumption] |]).
  assumption.
Qed.

Lemma ixfrdb_key_cmp_match_witness :
  is_uint32 100 /\
  (ixfrdb_key_from_cmp (ixfrdb_key_make 100 101) 100 = 0 <->
   ixfrdb_key_from (ixfrdb_key_make 100 101) = 100) /\
  (ixfrdb_key_to_cmp (ixfrdb_key_make 100 101) 100 = 0 <->
   ixfrdb_key_to (ixfrdb_key_make 100 101) = 100).
Proof.
  assert (Hs : is_uint32 100) by (unfold is_uint32; lia).
  destruct (ixfrdb_key_cmp_match (ixfrdb_key_make 100 101) 100 Hs)
    as (_ & _ & Hfrom & Hto & _).
  exact (conj Hs (conj Hfrom Hto)).
Defined.

(** C4 (as stated) fails: the key whose low part is 2^31 compares as
    negative against serial 0, although 2^31 is above 0. *)
Lemma ixfrdb_key_from_cmp_sign_wrong :
  is_uint64 2147483648 /\ is_uint32 0 /\
  ~ sign_orders (ixfrdb_key_from_cmp 2147483648 0)
                (ixfrdb_key_from 2147483648) 0.
Proof.
  split; [unfold is_uint64; lia |].
  split; [unfold is_uint32; lia |].
  intros (Hneg & _ & _).
  assert (Hlt : ixfrdb_key_from_cmp 2147483648 0 < 0) by reflexivity.
  apply Hneg in Hlt. vm_compute in Hlt. discriminate Hlt.
Qed.

(** ** The world *)

Lemma is_ok_true (r : knot_error) : is_ok r = true -> r = KNOT_EOK.
Proof. destruct r; simpl; intros H; try discriminate H; reflexivity. Qed.

Lemma next_result_frame (c : ext_call) (w w' : world) (r : knot_error) :
  next_result c w = (r, w') ->
  w_trace w' = w_trace w /\ w_now w' = w_now w /\
  w_signatures w' = w_signatures w /\ w_refresh_at w' = w_refresh_at w.
Proof.
  unfold next_result. destruct (w_script w c); intros H; inversion H; subst;
    simpl; repeat split; reflexivity.
Qed.

(** Destructs the next external call of the goal and records that it leaves
    the trace and the clock alone. *)
Ltac ext_step :=
  match goal with
  | |- context [next_result ?c ?w] =>
      let r := fresh "r" in
      let w' := fresh "w" in
      let E := fresh "E" in
      destruct (next_result c w) as [r w'] eqn:E;
      apply next_result_frame in E;
      destruct E as (? & ? & ? & ?);
      destruct r; simpl
  end.

(** ** SOA timers *)

(** What the SOA timers compute.  Without contents every SOA timer is 0;
    with contents it is the selected 32-bit SOA field times 1000 reduced
    modulo 2^32, which is the number of milliseconds whenever the field is at
    most 4294967 seconds. *)
Theorem zones_soa_timer_value (zone : zone_t) (rr_func : soa_rdata -> Z) :
  (contents zone = None -> zones_soa_timer zone rr_func = 0) /\
  (forall zc, contents zone = Some zc ->
     zones_soa_timer zone rr_func
       = (uint32 (rr_func (apex_soa zc)) * 1000) mod 2 ^ 32 /\
     (uint32 (rr_func (apex_soa zc)) <= 4294967 ->
      zones_soa_timer zone rr_func = uint32 (rr_func (apex_soa zc)) * 1000)) /\
  zones_soa_refresh zone = zones_soa_timer zone knot_rdata_soa_refresh /\
  zones_soa_retry zone = zones_soa_timer zone knot_rdata_soa_retry /\
  zones_soa_expire zone = zones_soa_timer zone knot_rdata_soa_expire.
Proof.
  unfold zones_soa_refresh, zones_soa_retry, zones_soa_expire, zones_soa_timer.
  split; [| split; [| repeat split]].
  - intros ->. reflexivity.
  - intros zc ->. split; [reflexivity |].
    intros Hle. cbv zeta. unfold uint32 at 1.
    apply Z.mod_small.
    pose proof (uint32_range (rr_func (apex_soa zc))) as Hr.
    unfold is_uint32 in Hr. lia.
Qed.

Lemma zones_soa_timer_value_witness :
  zones_soa_refresh (mkZone example_conf (Some example_contents) None 100 0 (Some 0) true)
    = 600000 /\
  zones_soa_retry (mkZone example_conf None None 100 0 (Some 0) true) = 0.
Proof.
  split.
  - destruct (zones_soa_timer_value
                (mkZone example_conf (Some example_contents) None 100 0 (Some 0) true)
                knot_rdata_soa_refresh) as (_ & Hsome & Href & _).
    rewrite Href.
    destruct (Hsome example_contents eq_refl) as [_ Hexact].
    rewrite Hexact; [reflexivity | vm_compute; discriminate].
  - destruct (zones_soa_timer_value
                (mkZone example_conf None None 100 0 (Some 0) true)
                knot_rdata_soa_retry) as (Hnone & _ & _ & Hretry & _).
    rewrite Hretry. apply Hnone. reflexivity.
Defined.

(** C10.  The timer is documented as being in milliseconds
    ([\return Timer in miliseconds], "Convert to miliseconds"), but the
    product is formed in a [uint32_t]: for a zone whose SOA REFRESH is
    4294968 seconds [zones_soa_refresh] returns 704 instead of the
    4294968000 milliseconds the field stands for. *)
Theorem zones_soa_refresh_wraps :
  let zone := mkZone example_conf
                (Some (mkContents (mkSoa 100 4294968 60 3600 300) None None []))
                None 100 0 (Some 0) true in
  zones_soa_refresh zone = 704 /\
  zones_soa_refresh zone <> 4294968 * 1000.
Proof. split; [reflexivity | discriminate]. Qed.

(** ** Flushing the journal to the zonefile *)

Lemma zones_ixfrdb_sync_apply_clean (j : journal_t) (n : journal_node_t) :
  node_clean (snd (zones_ixfrdb_sync_apply j n)) /\
  jn_id (snd (zones_ixfrdb_sync_apply j n)) = jn_id n.
Proof.
  unfold zones_ixfrdb_sync_apply, node_clean, has_flag.
  destruct (Z.land (jn_flags n) JOURNAL_DIRTY =? 0) eqn:Hd; simpl.
  - rewrite Hd. split; reflexivity.
  - rewrite <- Z.land_assoc.
    rewrite (Z.land_comm (Z.lnot JOURNAL_DIRTY)), Z.land_lnot_diag, Z.land_0_r.
    split; reflexivity.
Qed.

Lemma journal_walk_sync_clean (j : journal_t) :
  Forall node_clean (j_nodes (journal_walk j zones_ixfrdb_sync_apply)) /\
  map jn_id (j_nodes (journal_walk j zones_ixfrdb_sync_apply))
    = map jn_id (j_nodes j).
Proof.
  unfold journal_walk. simpl.
  induction (j_nodes j) as [| n ns [IHc IHi]]; simpl.
  - split; [constructor | reflexivity].
  - destruct (zones_ixfrdb_sync_apply_clean j n) as [Hc Hi].
    split; [constructor; assumption | rewrite Hi, IHi; reflexivity].
Qed.

Lemma zonefile_writes_app (a b : list event) :
  zonefile_writes (a ++ b) = (zonefile_writes a + zonefile_writes b)%nat.
Proof. unfold zonefile_writes. rewrite filter_app, length_app. reflexivity. Qed.

(** A dump replaces the zonefile once when it succeeds and not at all when
    it fails. *)
(** Rewrites the trace and the clock of every later world into those of the
    first one. *)
Ltac frame_worlds :=
  simpl in *;
  repeat match goal with
         | H : w_trace ?w' = _ |- context [w_trace ?w'] => rewrite H
         | H : w_now ?w' = _ |- context [w_now ?w'] => rewrite H
         end.

Lemma zones_dump_zone_text_writes zc fname w r w' :
  zones_dump_zone_text zc fname w = (r, w') ->
  w_now w' = w_now w /\
  zonefile_writes (w_trace w') =
    (zonefile_writes (w_trace w) + (if is_ok r then 1 else 0))%nat.
Proof.
  unfold zones_dump_zone_text.
  repeat (ext_step;
          try (intros Heq; inversion Heq; subst; clear Heq; frame_worlds;
               split; [reflexivity |];
               unfold zonefile_writes;
               rewrite ?filter_app, ?length_app; simpl; lia)).
Qed.

Lemma soa_serial_nonneg (soa : soa_rdata) :
  (knot_rdata_soa_serial soa <? 0) = false.
Proof.
  apply Z.ltb_ge. pose proof (uint32_range (soa_serial soa)) as H.
  unfold is_uint32 in H. unfold knot_rdata_soa_serial. lia.
Qed.

Lemma soa_serial_uint32 (soa : soa_rdata) :
  uint32 (knot_rdata_soa_serial soa) = knot_rdata_soa_serial soa.
Proof. apply uint32_id. apply uint32_range. Qed.

Lemma zones_zonefile_sync_in_sync z j w zc :
  contents z = Some zc ->
  zonefile_serial z = knot_rdata_soa_serial (apex_soa zc) ->
  zones_zonefile_sync (Some z) (Some j) w = (KNOT_ERANGE, Some z, Some j, w).
Proof.
  intros Hc Hs. unfold zones_zonefile_sync.
  rewrite Hc, soa_serial_nonneg, soa_serial_uint32, Hs, Z.eqb_refl.
  reflexivity.
Qed.

(** C6.  A zone whose [zonefile_serial] equals the apex SOA serial is not
    written again: [zones_zonefile_sync] returns [KNOT_ERANGE] and changes
    nothing.  A successful flush replaces the zonefile exactly once, sets
    [zonefile_serial] to the flushed serial and leaves every journal entry
    without the DIRTY flag; a second flush right after it returns
    [KNOT_ERANGE] and writes nothing. *)
Theorem zones_zonefile_sync_idempotent
    (z : zone_t) (j : journal_t) (w : world) (zc : knot_zone_contents_t) :
  contents z = Some zc ->
  (zonefile_serial z = knot_rdata_soa_serial (apex_soa zc) ->
   zones_zonefile_sync (Some z) (Some j) w
     = (KNOT_ERANGE, Some z, Some j, w)) /\
  (forall oz oj w',
     zones_zonefile_sync (Some z) (Some j) w = (KNOT_EOK, oz, oj, w') ->
     exists z' j',
       oz = Some z' /\ oj = Some j' /\
       contents z' = contents z /\
       zonefile_serial z' = knot_rdata_soa_serial (apex_soa zc) /\
       Forall node_clean (j_nodes j') /\
       map jn_id (j_nodes j') = map jn_id (j_nodes j) /\
       zonefile_writes (w_trace w') = (zonefile_writes (w_trace w) + 1)%nat /\
       zones_zonefile_sync (Some z') (Some j') w'
         = (KNOT_ERANGE, Some z', Some j', w')).
Proof.
  intros Hc. split.
  - apply zones_zonefile_sync_in_sync. exact Hc.
  - intros oz oj w'. unfold zones_zonefile_sync.
    rewrite Hc, soa_serial_nonneg, soa_serial_uint32.
    destruct (zonefile_serial z =? knot_rdata_soa_serial (apex_soa zc));
      simpl; [discriminate |].
    destruct (zones_dump_zone_text zc (file (conf z)) w) as [ret w1] eqn:Hd.
    apply zones_dump_zone_text_writes in Hd. destruct Hd as [Hnow Hwr].
    destruct ret; simpl in *; try discriminate.
    destruct (next_result X_stat w1) as [st w2] eqn:Hst.
    apply next_result_frame in Hst. destruct Hst as (Htr & _).
    destruct st; simpl; try discriminate.
    intros Heq. inversion Heq; subst; clear Heq.
    eexists. eexists.
    split; [reflexivity |]. split; [reflexivity |].
    destruct (journal_walk_sync_clean j) as [Hclean Hids].
    repeat split; try assumption.
    + rewrite Htr. exact Hwr.
    + apply zones_zonefile_sync_in_sync with (zc := zc); simpl;
        [exact Hc | reflexivity].
Qed.

Lemma zones_zonefile_sync_idempotent_witness :
  let j := mkJournal [mkNode (ixfrdb_key_make 99 100) 6] 4 false 1 in
  let z := mkZone example_conf (Some example_contents) (Some j) 99 0 (Some 0) true in
  exists z' j' w',
    zones_zonefile_sync (Some z) (Some j) quiet_world
      = (KNOT_EOK, Some z', Some j', w') /\
    zonefile_serial z' = 100 /\
    Forall node_clean (j_nodes j') /\
    zonefile_writes (w_trace w') = 1%nat /\
    zones_zonefile_sync (Some z') (Some j') w'
      = (KNOT_ERANGE, Some z', Some j', w').
Proof.
  intros j z.
  destruct (zones_zonefile_sync_idempotent z j quiet_world example_contents
              eq_refl) as [_ Hflush].
  destruct (zones_zonefile_sync (Some z) (Some j) quiet_world)
    as [[[ret oz] oj] w'] eqn:Hrun.
  vm_compute in Hrun. inversion Hrun; subst; clear Hrun.
  destruct (Hflush _ _ _ eq_refl)
    as (z' & j' & Hz & Hj & _ & Hser & Hclean & _ & Hwr & Hagain).
  exists z', j'. eexists.
  split; [rewrite <- Hz, <- Hj; reflexivity |].
  repeat split; assumption.
Defined.

(** ** The journal: what its operations do to the committed entries *)

Ltac ext_step' :=
  match goal with
  | |- context [next_result ?c ?w] =>
      let r := fresh "r" in
      let w' := fresh "w" in
      let E := fresh "E" in
      destruct (next_result c w) as [r w'] eqn:E;
      apply next_result_frame in E;
      destruct E as (? & ? & ? & ?)
  end.

Ltac inv_pair H := inversion H; subst; clear H.

Lemma journal_retain_spec j w r j' w' :
  journal_retain j w = (r, j', w') ->
  w_trace w' = w_trace w /\ w_now w' = w_now w /\
  j_nodes j' = j_nodes j /\ j_trans j' = j_trans j.
Proof.
  unfold journal_retain. ext_step'. destruct (is_ok r0); intros H3; inv_pair H3;
    simpl; repeat split; assumption.
Qed.

Lemma journal_trans_begin_spec j w r j' w' :
  journal_trans_begin j w = (r, j', w') ->
  w_trace w' = w_trace w /\ w_now w' = w_now w /\
  j_nodes j' = j_nodes j /\
  (r = KNOT_EOK -> j_trans j' = true) /\
  (r <> KNOT_EOK -> j' = j).
Proof.
  unfold journal_trans_begin. ext_step'.
  destruct (is_ok r0) eqn:Hok; [destruct (j_trans j) |];
    intros H3; inv_pair H3; simpl; repeat split;
    try assumption; try reflexivity; try congruence;
    intros Hr; subst; simpl in *; congruence.
Qed.

Lemma visible_clear_trans_incl (ns : list journal_node_t) :
  forall k, In k (map jn_id (filter node_visible ns)) -> In k (map jn_id ns).
Proof.
  intros k Hk. apply in_map_iff in Hk. destruct Hk as (n & Hid & Hin).
  apply filter_In in Hin. apply in_map_iff. exists n. tauto.
Qed.

Lemma filter_trans_visible (ns : list journal_node_t) :
  filter node_visible
    (filter (fun n => negb (has_flag (jn_flags n) JOURNAL_TRANS)) ns)
  = filter node_visible ns.
Proof.
  induction ns as [| n ns IH]; simpl; [reflexivity |].
  unfold node_visible at 2.
  destruct (has_flag (jn_flags n) JOURNAL_TRANS) eqn:Ht; simpl.
  - rewrite andb_false_r. exact IH.
  - unfold node_visible at 1. rewrite Ht, andb_true_r.
    destruct (has_flag (jn_flags n) JOURNAL_VALID); simpl;
      rewrite IH; reflexivity.
Qed.

Lemma journal_trans_rollback_spec j w r j' w' :
  journal_trans_rollback j w = (r, j', w') ->
  w_trace w' = w_trace w /\ w_now w' = w_now w /\
  visible_ids j' = visible_ids j.
Proof.
  unfold journal_trans_rollback. ext_step'.
  destruct (is_ok r0); intros H3; inv_pair H3; simpl; repeat split;
    try assumption; try reflexivity.
  unfold visible_ids. simpl. rewrite filter_trans_visible. reflexivity.
Qed.

Lemma journal_release_visible j : visible_ids (journal_release j) = visible_ids j.
Proof. reflexivity. Qed.

Lemma visible_ids_app j ns1 ns2 :
  visible_ids (set_nodes j (ns1 ++ ns2))
  = map jn_id (filter node_visible ns1) ++ map jn_id (filter node_visible ns2).
Proof. unfold visible_ids. simpl. rewrite filter_app, map_app. reflexivity. Qed.

(** A successful [map] leaves a fresh slot at the end; inside a transaction
    the slot carries TRANS.  Nothing becomes visible. *)
Lemma journal_map_spec j key size w r j' w' :
  journal_map j key size w = (r, j', w') ->
  w_trace w' = w_trace w /\ w_now w' = w_now w /\
  j_trans j' = j_trans j /\
  incl (visible_ids j') (visible_ids j) /\
  (r = KNOT_EOK ->
   exists pre,
     j_nodes j' = pre ++ [mkNode key (if j_trans j
                                      then Z.lor JOURNAL_DIRTY JOURNAL_TRANS
                                      else JOURNAL_DIRTY)] /\
     incl (map jn_id (filter node_visible pre)) (visible_ids j)) /\
  (r <> KNOT_EOK -> j' = j).
Proof.
  unfold journal_map. ext_step'.
  destruct (is_ok r0) eqn:Hok; simpl.
  - assert (Hslot : forall ns,
      map jn_id (filter node_visible
        (ns ++ [mkNode key (if j_trans j
                            then Z.lor JOURNAL_DIRTY JOURNAL_TRANS
                            else JOURNAL_DIRTY)]))
      = map jn_id (filter node_visible ns)).
    { intros ns. rewrite filter_app, map_app. simpl.
      destruct (j_trans j); simpl; apply app_nil_r. }
    destruct (length (j_nodes j) <? j_max_nodes j)%nat.
    + intros H3; inv_pair H3. simpl. repeat split; try assumption.
      * unfold visible_ids. simpl. rewrite Hslot. apply incl_refl.
      * intros _. exists (j_nodes j). split; [reflexivity | apply incl_refl].
      * congruence.
    + destruct (j_nodes j) as [| oldest rest] eqn:Hn.
      * intros H3; inv_pair H3. repeat split; try assumption;
          try apply incl_refl; try discriminate.
      * destruct (has_flag (jn_flags oldest) JOURNAL_DIRTY
                  || has_flag (jn_flags oldest) JOURNAL_TRANS);
          intros H3; inv_pair H3; simpl; repeat split; try assumption;
          try apply incl_refl; try discriminate; try congruence.
        -- unfold visible_ids. simpl. rewrite Hslot, Hn. simpl.
           destruct (node_visible oldest); simpl;
             [apply incl_tl |]; apply incl_refl.
        -- intros _. exists rest. split; [reflexivity |].
           unfold visible_ids. rewrite Hn. simpl.
           destruct (node_visible oldest); simpl;
             [apply incl_tl |]; apply incl_refl.
  - intros H3; inv_pair H3. repeat split; try assumption;
      try apply incl_refl.
    intros ->. discriminate Hok.
Qed.

Lemma same_obs_refl w : same_obs w w.
Proof. split; reflexivity. Qed.

Lemma same_obs_trans w1 w2 w3 : same_obs w1 w2 -> same_obs w2 w3 -> same_obs w1 w3.
Proof. unfold same_obs. intros [? ?] [? ?]. split; congruence. Qed.

Lemma next_result_same_obs c w r w' : next_result c w = (r, w') -> same_obs w w'.
Proof. intros H. apply next_result_frame in H. split; tauto. Qed.

Lemma has_trans_set_valid (fl : Z) :
  has_flag (Z.lor fl JOURNAL_VALID) JOURNAL_TRANS = has_flag fl JOURNAL_TRANS.
Proof.
  unfold has_flag. rewrite Z.land_lor_distr_l.
  change (Z.land JOURNAL_VALID JOURNAL_TRANS) with 0.
  rewrite Z.lor_0_r. reflexivity.
Qed.

Lemma visible_trans_slot (pre : list journal_node_t) (slot : journal_node_t) :
  has_flag (jn_flags slot) JOURNAL_TRANS = true ->
  map jn_id (filter node_visible (pre ++ [slot]))
  = map jn_id (filter node_visible pre).
Proof.
  intros Ht. rewrite filter_app, map_app. simpl.
  unfold node_visible at 2. rewrite Ht, andb_false_r. apply app_nil_r.
Qed.

Lemma journal_unmap_same_obs j key valid w r j' w' :
  journal_unmap j key valid w = (r, j', w') ->
  same_obs w w' /\ j_trans j' = j_trans j.
Proof.
  unfold journal_unmap.
  destruct (next_result X_journal_unmap w) as [r0 w0] eqn:E.
  apply next_result_same_obs in E.
  destruct (is_ok r0); simpl;
    [destruct (rev (j_nodes j)) as [| slot before];
     [| destruct (jn_id slot =? key); [destruct valid |]] |];
    intros H; inv_pair H; split; first [assumption | reflexivity].
Qed.

(** Closing a slot of the open transaction makes nothing visible. *)
Lemma journal_unmap_spec j key valid w r j' w' pre slot :
  j_nodes j = pre ++ [slot] ->
  has_flag (jn_flags slot) JOURNAL_TRANS = true ->
  journal_unmap j key valid w = (r, j', w') ->
  incl (visible_ids j') (map jn_id (filter node_visible pre)).
Proof.
  intros Hn Ht. unfold journal_unmap.
  destruct (next_result X_journal_unmap w) as [r0 w0].
  assert (Hsame : incl (visible_ids j) (map jn_id (filter node_visible pre))).
  { unfold visible_ids. rewrite Hn, visible_trans_slot by exact Ht.
    apply incl_refl. }
  destruct (is_ok r0); simpl; [| intros H; inv_pair H; exact Hsame].
  rewrite Hn, rev_app_distr. simpl.
  destruct (jn_id slot =? key); [| intros H; inv_pair H; exact Hsame].
  destruct valid; intros H; inv_pair H; rewrite rev_involutive;
    unfold visible_ids; simpl.
  - rewrite visible_trans_slot; [apply incl_refl |].
    simpl. rewrite has_trans_set_valid. exact Ht.
  - apply incl_refl.
Qed.

Lemma serialize_rr_list_same_obs rrs : forall w r w',
  serialize_rr_list rrs w = (r, w') -> same_obs w w'.
Proof.
  induction rrs as [| rr rest IH]; simpl; intros w r w' H.
  - inv_pair H. apply same_obs_refl.
  - unfold zones_rrset_write_to_mem in H.
    destruct (next_result X_rrset_serialize w) as [r0 w0] eqn:E.
    apply next_result_same_obs in E.
    destruct (is_ok r0).
    + apply IH in H. eapply same_obs_trans; eassumption.
    + inv_pair H. exact E.
Qed.

Lemma zones_serialize_and_store_chgset_same_obs chs w r w' :
  zones_serialize_and_store_chgset chs w = (r, w') -> same_obs w w'.
Proof.
  unfold zones_serialize_and_store_chgset, zones_rrset_write_to_mem.
  destruct (next_result X_rrset_serialize w) as [r0 w0] eqn:E0.
  apply next_result_same_obs in E0.
  destruct (is_ok r0); simpl; [| intros H; inv_pair H; exact E0].
  destruct (serialize_rr_list (remove chs) w0) as [r1 w1] eqn:E1.
  apply serialize_rr_list_same_obs in E1.
  assert (S1 : same_obs w w1) by (eapply same_obs_trans; eassumption).
  destruct (is_ok r1); simpl; [| intros H; inv_pair H; exact S1].
  destruct (next_result X_rrset_serialize w1) as [r2 w2] eqn:E2.
  apply next_result_same_obs in E2.
  assert (S2 : same_obs w w2) by (eapply same_obs_trans; eassumption).
  destruct (is_ok r2); simpl; [| intros H; inv_pair H; exact S2].
  destruct (serialize_rr_list (add chs) w2) as [r3 w3] eqn:E3.
  apply serialize_rr_list_same_obs in E3.
  assert (S3 : same_obs w w3) by (eapply same_obs_trans; eassumption).
  destruct (is_ok r3); simpl; intros H; inv_pair H; exact S3.
Qed.

(** Storing one changeset inside a transaction: no event, nothing becomes
    visible, the transaction stays open. *)
Lemma zones_store_changeset_spec chs j w r j' w' :
  zones_store_changeset chs j w = (r, j', w') ->
  same_obs w w' /\ j_trans j' = j_trans j /\
  (j_trans j = true -> incl (visible_ids j') (visible_ids j)).
Proof.
  unfold zones_store_changeset.
  destruct (journal_map j _ _ w) as [[r1 j1] w1] eqn:Em.
  apply journal_map_spec in Em.
  destruct Em as (Htr & Hnow & Ht & Hincl & Hok & Hko).
  assert (S1 : same_obs w w1) by (split; assumption).
  destruct (is_ok r1) eqn:Hr1; simpl.
  - apply is_ok_true in Hr1. subst r1.
    destruct (Hok eq_refl) as (pre & Hnodes & Hpre).
    destruct (zones_serialize_and_store_chgset chs w1) as [r2 w2] eqn:Es.
    apply zones_serialize_and_store_chgset_same_obs in Es.
    destruct (journal_unmap j1 _ (is_ok r2) w2) as [[r3 j3] w3] eqn:Eu.
    pose proof (journal_unmap_same_obs _ _ _ _ _ _ _ Eu) as [S3 Ht3].
    intros H; inv_pair H.
    split; [eapply same_obs_trans; [| exact S3];
            eapply same_obs_trans; eassumption |].
    split; [congruence |].
    intros Htrans. rewrite Htrans in Hnodes.
    eapply incl_tran; [| exact Hpre].
    eapply journal_unmap_spec; [exact Hnodes | reflexivity | exact Eu].
  - intros H; inv_pair H. repeat split; try assumption.
    intros _. exact Hincl.
Qed.

Lemma store_changeset_list_spec l : forall j w r j' w',
  store_changeset_list l j w = (r, j', w') ->
  same_obs w w' /\ j_trans j' = j_trans j /\
  (j_trans j = true -> incl (visible_ids j') (visible_ids j)).
Proof.
  induction l as [| chs rest IH]; simpl; intros j w r j' w' H.
  - inv_pair H. repeat split; try reflexivity. intros _. apply incl_refl.
  - destruct (zones_store_changeset chs j w) as [[r1 j1] w1] eqn:E1.
    apply zones_store_changeset_spec in E1. destruct E1 as (S1 & T1 & I1).
    destruct (is_ok r1).
    + apply IH in H. destruct H as (S2 & T2 & I2).
      split; [eapply same_obs_trans; eassumption |].
      split; [congruence |].
      intros Ht. eapply incl_tran; [apply I2; congruence | apply I1; exact Ht].
    + inv_pair H. repeat split; try assumption; apply S1.
Qed.

(** ** Storing with a transaction, and the flush in between *)

Lemma zone_kept_refl z : zone_kept z z.
Proof. unfold zone_kept. repeat split; try reflexivity. apply incl_refl. Qed.

Lemma zone_kept_trans z1 z2 z3 : zone_kept z1 z2 -> zone_kept z2 z3 -> zone_kept z1 z3.
Proof.
  unfold zone_kept. intros (? & ? & ? & ? & I1) (? & ? & ? & ? & I2).
  repeat split; try congruence. eapply incl_tran; eassumption.
Qed.

Lemma zone_kept_set_ixfr_db z j j' :
  ixfr_db z = Some j -> incl (visible_ids j') (visible_ids j) ->
  zone_kept z (set_ixfr_db z (Some j')).
Proof.
  intros Hj Hi. unfold zone_kept. simpl. rewrite Hj.
  repeat split; try reflexivity. exact Hi.
Qed.

(** A successful begin leaves the zone with an open transaction. *)
Lemma zones_store_changesets_begin_spec z w t z' w' :
  zones_store_changesets_begin z w = (t, z', w') ->
  same_obs w w' /\ zone_kept z z' /\
  (t = true -> exists j', ixfr_db z' = Some j' /\ j_trans j' = true).
Proof.
  unfold zones_store_changesets_begin.
  destruct (ixfr_db z) as [j |] eqn:Hj.
  - destruct (journal_retain j w) as [[r1 j1] w1] eqn:E1.
    apply journal_retain_spec in E1. destruct E1 as (T1 & N1 & Hn1 & Ht1).
    destruct (is_ok r1); simpl.
    + destruct (journal_trans_begin j1 w1) as [[r2 j2] w2] eqn:E2.
      apply journal_trans_begin_spec in E2.
      destruct E2 as (T2 & N2 & Hn2 & Hok & Hko).
      assert (Hv : incl (visible_ids j2) (visible_ids j)).
      { unfold visible_ids. rewrite Hn2, Hn1. apply incl_refl. }
      destruct (is_ok r2) eqn:Hr2; simpl; intros H; inv_pair H.
      * split; [split; congruence |].
        split; [apply zone_kept_set_ixfr_db with (j := j); assumption |].
        intros _. exists j2. split; [reflexivity |].
        apply Hok. apply is_ok_true. exact Hr2.
      * split; [split; congruence |].
        split; [apply zone_kept_set_ixfr_db with (j := j); assumption |].
        discriminate.
    + intros H; inv_pair H.
      split; [split; congruence |].
      split; [| discriminate].
      apply zone_kept_set_ixfr_db with (j := j); [assumption |].
      unfold visible_ids. rewrite Hn1. apply incl_refl.
  - intros H; inv_pair H.
    split; [apply same_obs_refl |]. split; [apply zone_kept_refl | discriminate].
Qed.

Lemma zones_store_changesets_rollback_spec t z w r z' w' :
  zones_store_changesets_rollback t z w = (r, z', w') ->
  same_obs w w' /\ zone_kept z z'.
Proof.
  unfold zones_store_changesets_rollback.
  destruct t; [destruct (ixfr_db z) as [j |] eqn:Hj |].
  - destruct (journal_trans_rollback j w) as [[r1 j1] w1] eqn:E1.
    apply journal_trans_rollback_spec in E1. destruct E1 as (T1 & N1 & V1).
    intros H; inv_pair H. split; [split; assumption |].
    apply zone_kept_set_ixfr_db with (j := j); [assumption |].
    rewrite journal_release_visible, V1. apply incl_refl.
  - intros H; inv_pair H. split; [apply same_obs_refl | apply zone_kept_refl].
  - intros H; inv_pair H. split; [apply same_obs_refl | apply zone_kept_refl].
Qed.

Lemma zones_store_changesets_spec z src w r z' w' j :
  ixfr_db z = Some j -> j_trans j = true ->
  zones_store_changesets z src w = (r, z', w') ->
  same_obs w w' /\ zone_kept z z'.
Proof.
  intros Hj Ht. unfold zones_store_changesets. rewrite Hj.
  destruct src as [chgsets |].
  - destruct (store_changeset_list (sets chgsets) j w) as [[r1 j1] w1] eqn:E1.
    apply store_changeset_list_spec in E1. destruct E1 as (S1 & T1 & I1).
    intros H; inv_pair H. split; [exact S1 |].
    apply zone_kept_set_ixfr_db with (j := j); [assumption | apply I1; exact Ht].
  - intros H; inv_pair H. split; [apply same_obs_refl | apply zone_kept_refl].
Qed.

Lemma call_events_app a b : call_events (a ++ b) = call_events a ++ call_events b.
Proof. apply filter_app. Qed.

(** One attempt to store: one call recorded, nothing committed. *)
Lemma zones_store_chgsets_try_store_spec z chs w r t z' w' :
  zones_store_chgsets_try_store z chs w = (r, t, z', w') ->
  w_trace w' = w_trace w ++ [TRY_STORE] /\ w_now w' = w_now w /\
  zone_kept z z'.
Proof.
  unfold zones_store_chgsets_try_store.
  destruct (zones_store_changesets_begin z _) as [[t1 z1] w1] eqn:Eb.
  apply zones_store_changesets_begin_spec in Eb.
  destruct Eb as ([T1 N1] & K1 & Hopen). simpl in T1, N1.
  destruct t1; cbn [negb].
  - destruct (Hopen eq_refl) as (j1 & Hj1 & Ht1).
    destruct (zones_store_changesets z1 (Some chs) w1) as [[r2 z2] w2] eqn:Es.
    apply (zones_store_changesets_spec _ _ _ _ _ _ _ Hj1 Ht1) in Es.
    destruct Es as ([T2 N2] & K2).
    destruct (is_ok r2); cbn [negb].
    + intros H; inv_pair H.
      split; [unfold TRY_STORE; congruence |]. split; [congruence |].
      eapply zone_kept_trans; eassumption.
    + destruct (zones_store_changesets_rollback true z2 w2)
        as [[r3 z3] w3] eqn:Er.
      apply zones_store_changesets_rollback_spec in Er.
      destruct Er as ([T3 N3] & K3).
      intros H; inv_pair H.
      split; [unfold TRY_STORE; congruence |]. split; [congruence |].
      eapply zone_kept_trans; [| exact K3].
      eapply zone_kept_trans; eassumption.
  - intros H; inv_pair H.
    split; [unfold TRY_STORE; congruence |]. split; [congruence | exact K1].
Qed.

Lemma has_flag_clear_dirty (fl bit : Z) :
  Z.land (Z.lnot JOURNAL_DIRTY) bit = bit ->
  has_flag (Z.land fl (Z.lnot JOURNAL_DIRTY)) bit = has_flag fl bit.
Proof.
  intros Hb. unfold has_flag. rewrite <- Z.land_assoc, Hb. reflexivity.
Qed.

Lemma zones_ixfrdb_sync_apply_visible j n :
  node_visible (snd (zones_ixfrdb_sync_apply j n)) = node_visible n.
Proof.
  unfold zones_ixfrdb_sync_apply.
  destruct (Z.land (jn_flags n) JOURNAL_DIRTY =? 0); simpl; [reflexivity |].
  unfold node_visible. simpl.
  rewrite !has_flag_clear_dirty by reflexivity. reflexivity.
Qed.

Lemma journal_walk_sync_visible j :
  visible_ids (journal_walk j zones_ixfrdb_sync_apply) = visible_ids j.
Proof.
  unfold visible_ids, journal_walk. simpl.
  induction (j_nodes j) as [| n ns IH]; simpl; [reflexivity |].
  rewrite zones_ixfrdb_sync_apply_visible.
  destruct (node_visible n); simpl; rewrite IH;
    [destruct (zones_ixfrdb_sync_apply_clean j n) as [_ ->] |]; reflexivity.
Qed.

Lemma zones_dump_zone_text_calls zc fname w r w' :
  zones_dump_zone_text zc fname w = (r, w') ->
  call_events (w_trace w') = call_events (w_trace w).
Proof.
  unfold zones_dump_zone_text.
  repeat (ext_step;
          try (intros Heq; inversion Heq; subst; clear Heq; frame_worlds;
               rewrite ?call_events_app; simpl; rewrite ?app_nil_r;
               reflexivity)).
Qed.

(** A flush changes neither the installed contents nor the set of committed
    journal entries, and calls no function whose calls are counted. *)
Lemma zones_zonefile_sync_spec z j w r oz oj w' :
  zones_zonefile_sync (Some z) (Some j) w = (r, oz, oj, w') ->
  exists z' j',
    oz = Some z' /\ oj = Some j' /\
    contents z' = contents z /\ conf z' = conf z /\
    dnssec_timer z' = dnssec_timer z /\ ixfr_dbsync z' = ixfr_dbsync z /\
    ixfr_db z' = ixfr_db z /\
    visible_ids j' = visible_ids j /\
    call_events (w_trace w') = call_events (w_trace w) /\
    w_now w' = w_now w.
Proof.
  unfold zones_zonefile_sync.
  assert (Hsame : exists z' j',
            Some z = Some z' /\ Some j = Some j' /\
            contents z' = contents z /\ conf z' = conf z /\
            dnssec_timer z' = dnssec_timer z /\ ixfr_dbsync z' = ixfr_dbsync z /\
            ixfr_db z' = ixfr_db z /\ visible_ids j' = visible_ids j).
  { exists z, j. repeat split; reflexivity. }
  destruct (contents z) as [zc |] eqn:Hc.
  2:{ intros H; inv_pair H. destruct Hsame as (z' & j' & Hs).
      exists z', j'. intuition. }
  rewrite soa_serial_nonneg, soa_serial_uint32.
  destruct (zonefile_serial z =? knot_rdata_soa_serial (apex_soa zc)); simpl.
  { intros H; inv_pair H. destruct Hsame as (z' & j' & Hs).
    exists z', j'. intuition. }
  destruct (zones_dump_zone_text zc (file (conf z)) w) as [ret w1] eqn:Hd.
  pose proof (zones_dump_zone_text_calls _ _ _ _ _ Hd) as Hcalls.
  apply zones_dump_zone_text_writes in Hd. destruct Hd as [Hnow _].
  destruct (is_ok ret); cbn [negb].
  2:{ intros H; inv_pair H. destruct Hsame as (z' & j' & Hs).
      exists z', j'. intuition. }
  destruct (next_result X_stat w1) as [st w2] eqn:Hst.
  apply next_result_frame in Hst. destruct Hst as (Htr & Hn2 & _).
  destruct (is_ok st); cbn [negb]; intros H; inv_pair H.
  - eexists. eexists. split; [reflexivity |]. split; [reflexivity |].
    simpl. rewrite Hc, journal_walk_sync_visible, Htr.
    repeat split; try reflexivity; congruence.
  - destruct Hsame as (z' & j' & Hs).
    exists z', j'. rewrite Htr. intuition; congruence.
Qed.

(** A flush from the event: one call recorded, nothing committed. *)
Lemma zones_zonefile_sync_from_ev_spec z w r z' w' :
  zones_zonefile_sync_from_ev z w = (r, z', w') ->
  call_events (w_trace w') = call_events (w_trace w) ++ [FLUSH] /\
  w_now w' = w_now w /\ zone_kept z z'.
Proof.
  unfold zones_zonefile_sync_from_ev.
  assert (Hquiet : call_events
            (w_trace (emit (EvCall "zones_zonefile_sync_from_ev") w))
          = call_events (w_trace w) ++ [FLUSH]).
  { simpl. rewrite call_events_app. reflexivity. }
  destruct (contents z) as [zc |] eqn:Hc;
    [destruct (ixfr_db z) as [j |] eqn:Hj;
     [destruct (journal_is_used (Some j)) |] |];
    try (intros H; inv_pair H;
         split; [exact Hquiet |]; split; [reflexivity | apply zone_kept_refl]).
  destruct (journal_retain j _) as [[r1 j1] w1] eqn:E1.
  apply journal_retain_spec in E1. destruct E1 as (T1 & N1 & Hn1 & Ht1).
  assert (Hv1 : visible_ids j1 = visible_ids j)
    by (unfold visible_ids; rewrite Hn1; reflexivity).
  assert (Hlog : forall ww (rr : knot_error),
    call_events (w_trace
      (if is_ok rr then emit (EvLog LogAppliedDiff) ww
       else if negb (knot_error_beq rr KNOT_ERANGE)
            then emit (EvLog (LogFailedApplyDiff rr)) ww else ww))
    = call_events (w_trace ww) /\
    w_now (if is_ok rr then emit (EvLog LogAppliedDiff) ww
           else if negb (knot_error_beq rr KNOT_ERANGE)
                then emit (EvLog (LogFailedApplyDiff rr)) ww else ww)
    = w_now ww).
  { intros ww rr. destruct (is_ok rr);
      [| destruct (negb (knot_error_beq rr KNOT_ERANGE))]; simpl;
      rewrite ?call_events_app; simpl; rewrite ?app_nil_r; split; reflexivity. }
  destruct (is_ok r1).
  - destruct (zones_zonefile_sync (Some (set_ixfr_db z (Some j1))) (Some j1) w1)
      as [[[r2 oz] oj] w2] eqn:E2.
    apply zones_zonefile_sync_spec in E2.
    destruct E2 as (z2 & j2 & -> & -> & Hc2 & Hcf2 & Hd2 & Hs2 & _ & Hv2 & Hcalls & Hn2).
    intros H; inv_pair H.
    destruct (Hlog w2 r) as [-> ->].
    split; [rewrite Hcalls, T1; exact Hquiet |].
    split; [simpl in N1; congruence |].
    unfold zone_kept. simpl. rewrite Hj. simpl in *.
    repeat split; try congruence.
    change (incl (visible_ids j2) (visible_ids j)).
    rewrite Hv2, Hv1. apply incl_refl.
  - intros H; inv_pair H.
    destruct (Hlog w1 r) as [-> ->].
    split; [rewrite T1; exact Hquiet |].
    split; [simpl in N1; congruence |].
    apply zone_kept_set_ixfr_db with (j := j); [exact Hj |].
    rewrite Hv1. apply incl_refl.
Qed.

(** ** Storing changesets: empty envelopes, flush and retry *)

Lemma zones_changesets_empty_cases (chs : option knot_changesets_t) :
  zones_changesets_empty chs = true <->
  chs = None \/
  (exists c, chs = Some c /\ sets c = []) \/
  (exists c head rest, chs = Some c /\ sets c = head :: rest /\
                       knot_changeset_is_empty (Some head) = true).
Proof.
  unfold zones_changesets_empty. split.
  - destruct chs as [c |]; [| left; reflexivity].
    destruct (sets c) as [| head rest] eqn:Hs; intros H.
    + right. left. exists c. split; [reflexivity | exact Hs].
    + right. right. exists c, head, rest. repeat split; assumption.
  - intros [-> | [(c & -> & Hs) | (c & head & rest & -> & Hs & He)]];
      [reflexivity | rewrite Hs; reflexivity | rewrite Hs; exact He].
Qed.

(** C9 (as the code has it).  An envelope that is there and is empty
    (without a changeset, or with an empty first changeset) makes
    [zones_store_changesets_begin_and_store] return [KNOT_EINVAL] at once:
    the zone, its journal, the transaction pointer and the world are as
    before, so no transaction was begun and nothing was written. *)
Theorem empty_changesets_not_stored
    (zone : zone_t) (chs : knot_changesets_t) (transaction : bool)
    (w : world) :
  sets chs = [] \/
  (exists head rest, sets chs = head :: rest /\
                     knot_changeset_is_empty (Some head) = true) ->
  zones_store_changesets_begin_and_store zone chs transaction w
    = (KNOT_EINVAL, transaction, zone, w) /\
  begin_and_store_call zone (Some chs) transaction w
    = Some (KNOT_EINVAL, transaction, zone, w).
Proof.
  intros H.
  assert (He : zones_changesets_empty (Some chs) = true).
  { apply zones_changesets_empty_cases. right.
    destruct H as [Hs | (head & rest & Hs & Hh)].
    - left. exists chs. split; [reflexivity | exact Hs].
    - right. exists chs, head, rest. repeat split; assumption. }
  unfold begin_and_store_call, assert_nonnull,
    zones_store_changesets_begin_and_store.
  rewrite He. split; reflexivity.
Qed.

Lemma empty_changesets_not_stored_witness :
  zones_store_changesets_begin_and_store roomy_zone
    (mkChangesets [mkChangeset 100 100 None None [] [] 0]) false
    quiet_world
  = (KNOT_EINVAL, false, roomy_zone, quiet_world).
Proof.
  apply empty_changesets_not_stored.
  right. exists (mkChangeset 100 100 None None [] [] 0), [].
  split; reflexivity.
Defined.

(** C9 (as stated) fails for the NULL envelope.  [zones_changesets_empty]
    would find it empty, but [assert(chgsets != NULL)] comes first: the call
    does not return [KNOT_EINVAL], it does not return. *)
Lemma null_changesets_stop_at_the_assertion :
  zones_changesets_empty None = true /\
  begin_and_store_call roomy_zone None false quiet_world = None /\
  begin_and_store_call roomy_zone None false quiet_world
  <> Some (KNOT_EINVAL, false, roomy_zone, quiet_world).
Proof.
  split; [reflexivity |]. split; [reflexivity | discriminate].
Qed.

Lemma knot_error_beq_ebusy (r : knot_error) :
  (knot_error_beq r KNOT_EBUSY = true -> r = KNOT_EBUSY) /\
  (knot_error_beq r KNOT_EBUSY = false -> r <> KNOT_EBUSY).
Proof. destruct r; simpl; split; intros H; congruence. Qed.

(** C2 (as the code has it).  For a non-empty envelope the first attempt to
    store decides: any result but [KNOT_EBUSY] is returned as it is, after
    that single attempt and without a flush.  On [KNOT_EBUSY] the journal is
    flushed exactly once; when the flush fails its error is returned and the
    store is not attempted again; when it succeeds the store is attempted
    exactly once more and the result of that attempt is returned, whatever
    it is. *)
Theorem begin_and_store_flush_retry
    (zone : zone_t) (chs : knot_changesets_t) (transaction : bool) (w : world)
    (ret : knot_error) (t' : bool) (z' : zone_t) (w' : world) :
  zones_changesets_empty (Some chs) = false ->
  zones_store_changesets_begin_and_store zone chs transaction w
    = (ret, t', z', w') ->
  exists r1 t1 z1 w1,
    zones_store_chgsets_try_store zone chs w = (r1, t1, z1, w1) /\
    ((r1 <> KNOT_EBUSY /\ ret = r1 /\
      call_events (w_trace w') = call_events (w_trace w) ++ [TRY_STORE]) \/
     (r1 = KNOT_EBUSY /\
      exists rf z2 w2,
        zones_zonefile_sync_from_ev z1 (emit (EvLog LogJournalFull) w1)
          = (rf, z2, w2) /\
        ((rf <> KNOT_EOK /\ ret = rf /\
          call_events (w_trace w')
            = call_events (w_trace w) ++ [TRY_STORE; FLUSH]) \/
         (rf = KNOT_EOK /\
          zones_store_chgsets_try_store z2 chs w2 = (ret, t', z', w') /\
          call_events (w_trace w')
            = call_events (w_trace w) ++ [TRY_STORE; FLUSH; TRY_STORE])))).
Proof.
  intros Hne. unfold zones_store_changesets_begin_and_store. rewrite Hne.
  destruct (zones_store_chgsets_try_store zone chs w)
    as [[[r1 t1] z1] w1] eqn:E1.
  intros Hrun.
  exists r1, t1, z1, w1. split; [reflexivity |].
  pose proof (zones_store_chgsets_try_store_spec _ _ _ _ _ _ _ E1)
    as (T1 & _ & _).
  assert (C1 : call_events (w_trace w1) = call_events (w_trace w) ++ [TRY_STORE]).
  { rewrite T1, call_events_app. reflexivity. }
  destruct (knot_error_beq r1 KNOT_EBUSY) eqn:Hb.
  - apply knot_error_beq_ebusy in Hb. right. split; [exact Hb |].
    destruct (zones_zonefile_sync_from_ev z1 (emit (EvLog LogJournalFull) w1))
      as [[rf z2] w2] eqn:E2.
    exists rf, z2, w2. split; [reflexivity |].
    pose proof (zones_zonefile_sync_from_ev_spec _ _ _ _ _ E2) as (C2 & _ & _).
    simpl in C2. rewrite call_events_app in C2. simpl in C2.
    rewrite app_nil_r, C1, <- app_assoc in C2. simpl in C2.
    destruct (is_ok rf) eqn:Hrf; cbn [negb] in Hrun.
    + apply is_ok_true in Hrf. right.
      split; [exact Hrf |]. split; [exact Hrun |].
      pose proof (zones_store_chgsets_try_store_spec _ _ _ _ _ _ _ Hrun)
        as (T3 & _ & _).
      rewrite T3, call_events_app, C2, <- app_assoc. reflexivity.
    + inv_pair Hrun. left.
      split; [intros ->; discriminate Hrf |]. split; [reflexivity |].
      simpl. rewrite call_events_app. simpl. rewrite app_nil_r. exact C2.
  - apply knot_error_beq_ebusy in Hb. inv_pair Hrun. left.
    split; [exact Hb |]. split; [reflexivity | exact C1].
Qed.

Lemma begin_and_store_flush_retry_witness :
  exists t' z' w',
    zones_changesets_empty (Some example_changesets) = false /\
    zones_store_changesets_begin_and_store full_zone example_changesets
      false quiet_world = (KNOT_EOK, t', z', w') /\
    call_events (w_trace w') = [TRY_STORE; FLUSH; TRY_STORE] /\
    zonefile_writes (w_trace w') = 1%nat /\
    journal_committed (ixfr_db z') = [] /\
    t' = true.
Proof.
  destruct (zones_store_changesets_begin_and_store full_zone
              example_changesets false quiet_world)
    as [[[ret t'] z'] w'] eqn:Hrun.
  pose proof (begin_and_store_flush_retry full_zone example_changesets false
                quiet_world ret t' z' w' eq_refl Hrun)
    as (r1 & t1 & z1 & w1 & Hfirst & Hcases).
  vm_compute in Hfirst. inv_pair Hfirst.
  destruct Hcases as [(Hnb & _) | (_ & rf & z2 & w2 & Hflush & Hcases)];
    [exfalso; apply Hnb; reflexivity |].
  vm_compute in Hflush. inv_pair Hflush.
  destruct Hcases as [(Hnok & _) | (_ & Hsecond & Hcalls)];
    [exfalso; apply Hnok; reflexivity |].
  vm_compute in Hsecond. inv_pair Hsecond.
  eexists. eexists. eexists.
  split; [reflexivity |]. split; [reflexivity |].
  split; [exact Hcalls |]. repeat split; reflexivity.
Defined.

(** C2 (as stated) fails: the journal is full, so the store fails with
    [KNOT_EBUSY]; the flush cannot create its temporary file; the store is
    not attempted a second time. *)
Lemma begin_and_store_no_retry_after_failed_flush :
  let w := scripted X_mkstemp [KNOT_EACCES] in
  exists t1 z1 w1 t' z' w',
    zones_store_chgsets_try_store full_zone example_changesets w
      = (KNOT_EBUSY, t1, z1, w1) /\
    zones_store_changesets_begin_and_store full_zone example_changesets
      false w = (KNOT_EWRITABLE, t', z', w') /\
    call_events (w_trace w') = [TRY_STORE; FLUSH].
Proof.
  intros w.
  eexists. eexists. eexists. eexists. eexists. eexists.
  split; [vm_compute; reflexivity |].
  split; [vm_compute; reflexivity |].
  reflexivity.
Qed.

(** ** Choosing the next serial *)

(** C3.  [zones_next_serial] returns the old serial plus one modulo 2^32
    under the increment policy and the current time truncated to 32 bits
    under the unixtime policy.  When the comparison does not find the old
    serial lower than the new one, a warning with both serials is logged;
    the new serial is returned all the same, and nothing else changes. *)
Theorem zones_next_serial_policy
    (ns_serial_compare : Z -> Z -> Z) (zone : zone_t) (w : world) :
  let old_serial := knot_zone_serial (contents zone) in
  let new_serial := fst (zones_next_serial ns_serial_compare zone w) in
  let w' := snd (zones_next_serial ns_serial_compare zone w) in
  (serial_policy (conf zone) = CONF_SERIAL_INCREMENT ->
   new_serial = (old_serial + 1) mod 2 ^ 32) /\
  (serial_policy (conf zone) = CONF_SERIAL_UNIXTIME ->
   new_serial = w_now w mod 2 ^ 32) /\
  (ns_serial_compare old_serial new_serial >= 0 ->
   w' = emit (EvLog (LogSerialNotGreater old_serial new_serial)) w) /\
  (ns_serial_compare old_serial new_serial < 0 -> w' = w).
Proof.
  unfold zones_next_serial, zones_serial_policy. cbv zeta. simpl fst. simpl snd.
  repeat split.
  - intros ->. unfold uint32. apply Z.add_mod_idemp_l. lia.
  - intros ->. reflexivity.
  - intros Hge.
    destruct (Z.geb_spec
      (ns_serial_compare (knot_zone_serial (contents zone))
         match serial_policy (conf zone) with
         | CONF_SERIAL_INCREMENT =>
             uint32 (uint32 (knot_zone_serial (contents zone)) + 1)
         | CONF_SERIAL_UNIXTIME => uint32 (w_now w)
         end) 0); [reflexivity | lia].
  - intros Hlt.
    destruct (Z.geb_spec
      (ns_serial_compare (knot_zone_serial (contents zone))
         match serial_policy (conf zone) with
         | CONF_SERIAL_INCREMENT =>
             uint32 (uint32 (knot_zone_serial (contents zone)) + 1)
         | CONF_SERIAL_UNIXTIME => uint32 (w_now w)
         end) 0); [lia | reflexivity].
Qed.

Lemma zones_next_serial_policy_witness :
  let inc := mkZone example_conf (Some example_contents) None 100 0 (Some 0) true in
  let unx := mkZone (mkConf "example.com." "example.com.zone"
                            CONF_SERIAL_UNIXTIME 30 false)
                    (Some (mkContents (mkSoa 1700003600 600 60 3600 300)
                                      None None []))
                    None 100 0 (Some 0) true in
  zones_next_serial rfc1982_compare inc quiet_world = (101, quiet_world) /\
  zones_next_serial rfc1982_compare unx quiet_world
    = (1700000000,
       emit (EvLog (LogSerialNotGreater 1700003600 1700000000)) quiet_world).
Proof.
  intros inc unx. split.
  - destruct (zones_next_serial_policy rfc1982_compare inc quiet_world)
      as (Hinc & _ & _ & Hquiet).
    rewrite (surjective_pairing (zones_next_serial rfc1982_compare inc quiet_world)).
    rewrite Hinc by reflexivity.
    rewrite Hquiet by (vm_compute; reflexivity).
    reflexivity.
  - destruct (zones_next_serial_policy rfc1982_compare unx quiet_world)
      as (_ & Hunx & Hwarn & _).
    rewrite (surjective_pairing (zones_next_serial rfc1982_compare unx quiet_world)).
    rewrite Hunx by reflexivity.
    rewrite Hwarn by (vm_compute; discriminate).
    reflexivity.
Defined.

(** ** The UPDATE path: what a failure leaves behind *)

Lemma begin_and_store_kept zone chs tr w ret t' z' w' :
  zones_store_changesets_begin_and_store zone chs tr w = (ret, t', z', w') ->
  zone_kept zone z'.
Proof.
  unfold zones_store_changesets_begin_and_store.
  destruct (zones_changesets_empty (Some chs));
    [intros H; inv_pair H; apply zone_kept_refl |].
  destruct (zones_store_chgsets_try_store zone chs w) as [[[r1 t1] z1] w1] eqn:E1.
  apply zones_store_chgsets_try_store_spec in E1. destruct E1 as (_ & _ & K1).
  destruct (knot_error_beq r1 KNOT_EBUSY);
    [| intros H; inv_pair H; exact K1].
  destruct (zones_zonefile_sync_from_ev z1 _) as [[rf z2] w2] eqn:E2.
  apply zones_zonefile_sync_from_ev_spec in E2. destruct E2 as (_ & _ & K2).
  destruct (is_ok rf); cbn [negb]; intros H.
  - apply zones_store_chgsets_try_store_spec in H. destruct H as (_ & _ & K3).
    eapply zone_kept_trans; [| exact K3]. eapply zone_kept_trans; eassumption.
  - inv_pair H. eapply zone_kept_trans; eassumption.
Qed.

Lemma merge_and_store_kept zone diff_chs sec_chs tr w ret chs' t' z' w' :
  zones_merge_and_store_changesets zone diff_chs sec_chs tr w
    = Some (ret, chs', t', z', w') ->
  zone_kept zone z'.
Proof.
  unfold zones_merge_and_store_changesets.
  destruct (zones_changesets_empty diff_chs && zones_changesets_empty sec_chs);
    [intros H; inv_pair H; apply zone_kept_refl |].
  destruct (negb (zones_changesets_empty diff_chs)
            && zones_changesets_empty sec_chs).
  { destruct diff_chs as [dchs |];
      cbn [obind begin_and_store_call assert_nonnull]; [| discriminate].
    destruct (zones_store_changesets_begin_and_store zone dchs tr w)
      as [[[r1 t1] z1] w1] eqn:E1.
    intros H; inv_pair H. eapply begin_and_store_kept; exact E1. }
  destruct (zones_changesets_empty diff_chs
            && negb (zones_changesets_empty sec_chs)).
  { destruct sec_chs as [schs |];
      cbn [obind begin_and_store_call assert_nonnull]; [| discriminate].
    destruct (zones_store_changesets_begin_and_store zone schs tr w)
      as [[[r1 t1] z1] w1] eqn:E1.
    intros H; inv_pair H. eapply begin_and_store_kept; exact E1. }
  destruct diff_chs as [dchs |]; cbn [obind]; [| discriminate].
  destruct sec_chs as [schs |]; cbn [obind]; [| discriminate].
  destruct (knot_changesets_get_last dchs) as [diff_ch |]; cbn [obind];
    [| discriminate].
  destruct (knot_changesets_get_last schs) as [sec_ch |]; cbn [obind];
    [| discriminate].
  destruct (negb (serial_to diff_ch =? serial_from sec_ch)); [discriminate |].
  destruct (knot_changeset_merge diff_ch sec_ch w) as [[r1 merged] w1].
  destruct (is_ok r1); cbn [negb];
    [| intros H; inv_pair H; apply zone_kept_refl].
  destruct (negb (serial_to merged =? serial_to sec_ch)); [discriminate |].
  destruct (negb (same_soa (soa_to merged) (soa_to sec_ch)));
    [discriminate |].
  cbn [obind begin_and_store_call assert_nonnull].
  destruct (zones_store_changesets_begin_and_store zone _ tr w1)
    as [[[r2 t2] z2] w2] eqn:E2.
  intros H; inv_pair H. eapply begin_and_store_kept; exact E2.
Qed.

(** A commit does not touch the contents; a failed commit commits nothing. *)
Lemma zones_store_changesets_commit_spec t z w r z' w' :
  zones_store_changesets_commit t z w = (r, z', w') ->
  contents z' = contents z /\ conf z' = conf z /\
  ixfr_dbsync z' = ixfr_dbsync z /\
  (r <> KNOT_EOK -> zone_kept z z').
Proof.
  unfold zones_store_changesets_commit.
  destruct t; [destruct (ixfr_db z) as [j |] eqn:Hj |];
    try (intros H; inv_pair H;
         split; [reflexivity |]; split; [reflexivity |];
         split; [reflexivity |]; intros _; apply zone_kept_refl).
  unfold journal_trans_commit.
  destruct (next_result X_journal_trans_commit w) as [r0 w0].
  destruct (is_ok r0) eqn:Hok; intros H; inv_pair H; simpl;
    (split; [reflexivity |]; split; [reflexivity |]; split; [reflexivity |]).
  - intros Hne. exfalso. apply Hne. reflexivity.
  - intros _. apply zone_kept_set_ixfr_db with (j := j);
      [exact Hj | apply incl_refl].
Qed.

Lemma replan_zone_sign_after_ddns_kept z refresh_at w r z' w' :
  replan_zone_sign_after_ddns z refresh_at w = Some (r, z', w') ->
  contents z' = contents z /\ conf z' = conf z /\
  ixfr_dbsync z' = ixfr_dbsync z /\ ixfr_db z' = ixfr_db z.
Proof.
  unfold replan_zone_sign_after_ddns, zones_cancel_dnssec, zones_schedule_dnssec.
  destruct (dnssec_timer z) as [tv_sec |]; cbn [obind]; [| discriminate].
  destruct (tv_sec <=? refresh_at);
    [| destruct (refresh_at <=? w_now (emit EvCancelDnssec w))];
    intros H; inv_pair H; repeat split; reflexivity.
Qed.

(** With the timer created the replanning has a result. *)
Lemma replan_zone_sign_after_ddns_returns z refresh_at w :
  dnssec_timer z <> None ->
  exists r, replan_zone_sign_after_ddns z refresh_at w = Some r.
Proof.
  unfold replan_zone_sign_after_ddns. intros Ht.
  destruct (dnssec_timer z) as [tv_sec |]; [| destruct Ht; reflexivity].
  cbn [obind].
  destruct (tv_sec <=? refresh_at); [eexists; reflexivity |].
  destruct (zones_cancel_dnssec z w) as [? ?]. eexists; reflexivity.
Qed.

Lemma zone_kept_committed z z' :
  zone_kept z z' ->
  contents z' = contents z /\
  incl (journal_committed (ixfr_db z')) (journal_committed (ixfr_db z)).
Proof. unfold zone_kept. tauto. Qed.

(** One step through the straight-line part of [zones_process_update_auth]
    held in hypothesis [H]. *)
Ltac update_step H :=
  match type of H with
  | context [if negb (is_ok ?r) then _ else _] =>
      destruct (is_ok r) eqn:?
  | context [if is_ok ?r1 && is_ok ?r2 then _ else _] =>
      destruct (is_ok r1 && is_ok r2)
  | context [next_result ?c ?w] =>
      let r := fresh "r" in
      let w' := fresh "w" in
      destruct (next_result c w) as [r w']
  | context [zones_next_serial ?f ?z ?w] =>
      let s := fresh "new_serial" in
      let w' := fresh "w" in
      destruct (zones_next_serial f z w) as [s w']
  end;
  cbn [negb] in H.


(** The same UPDATE without a failure: the journal gets the committed entry
    100 -> 101 and the new snapshot (serial 101) is installed. *)
Example zones_process_update_auth_applies :
  exists z' w',
    zones_process_update_auth rfc1982_compare roomy_zone example_update
      KNOT_RCODE_SERVFAIL quiet_world
      = Some (KNOT_EOK, KNOT_RCODE_NOERROR, z', w') /\
    knot_zone_serial (contents z') = 101 /\
    journal_committed (ixfr_db z')
      = [ixfrdb_key_make 99 100; ixfrdb_key_make 100 101] /\
    w_trace w' = [TRY_STORE; EvSwitchZone true; EvLog LogUpdateFinished].
Proof.
  eexists. eexists. split; [vm_compute; reflexivity |].
  repeat split; reflexivity.
Qed.

(** ** CNAME chains *)

(** The loop leaves because its condition is false, never because the
    model ran out of turns: [MAX_CNAME_CYCLE_DEPTH - i] turns are enough. *)
Lemma cname_chain_loop_exit (zone : dnslib_zone_t) :
  forall fuel i d,
    i + Z.of_nat fuel = MAX_CNAME_CYCLE_DEPTH ->
    let (i', d') := cname_chain_loop fuel zone i d in
    i <= i' <= MAX_CNAME_CYCLE_DEPTH /\
    (i' >= MAX_CNAME_CYCLE_DEPTH \/ d' = None).
Proof.
  unfold MAX_CNAME_CYCLE_DEPTH.
  induction fuel as [| fuel IH]; intros i d Hi; simpl.
  - split; lia.
  - destruct d as [x |]; [| split; [lia | right; reflexivity]].
    unfold MAX_CNAME_CYCLE_DEPTH.
    destruct (Z.ltb_spec i 15) as [Hlt | Hge]; [| lia].
    specialize (IH (i + 1) (cname_chain_next zone x)).
    destruct (cname_chain_loop fuel zone (i + 1) (cname_chain_next zone x))
      as [i' d'].
    destruct IH as [Hr Hex]; [lia |]. split; [lia | exact Hex].
Qed.

(** With [fuel] turns left, the loop leaves below the bound exactly when
    the chain ends within [fuel - 1] lookups. *)
Lemma cname_chain_loop_below_bound (zone : dnslib_zone_t) :
  forall fuel i d,
    i + Z.of_nat fuel = MAX_CNAME_CYCLE_DEPTH ->
    (fst (cname_chain_loop fuel zone i d) <? MAX_CNAME_CYCLE_DEPTH)
    = match fuel with
      | O => false
      | S m => chain_ends_within m zone d
      end.
Proof.
  unfold MAX_CNAME_CYCLE_DEPTH.
  induction fuel as [| fuel IH]; intros i d Hi; simpl.
  - apply Z.ltb_ge. lia.
  - destruct d as [x |]; simpl.
    + unfold MAX_CNAME_CYCLE_DEPTH.
      destruct (Z.ltb_spec i 15) as [Hlt | Hge]; [| lia].
      rewrite IH by lia. destruct fuel; reflexivity.
    + destruct fuel; apply Z.ltb_lt; lia.
Qed.

(** The walk from the target [d] of the first CNAME record. *)
Lemma check_cname_cycles_in_zone_walk
    (zone : dnslib_zone_t) (rrset : dnslib_rrset_t) (d : dnslib_dname_t) :
  dnslib_rdata_cname_name (dnslib_rrset_rdata rrset) = Some d ->
  check_cname_cycles_in_zone zone rrset
  = Some (if chain_ends_within 14 zone (Some d) then 0 else -1).
Proof.
  intros Hd. unfold check_cname_cycles_in_zone.
  destruct (dnslib_rrset_rdata rrset) as [r |] eqn:Hr; [| discriminate Hd].
  rewrite Hd.
  pose proof (cname_chain_loop_below_bound zone
                (Z.to_nat MAX_CNAME_CYCLE_DEPTH) 0 (Some d) eq_refl) as Hb.
  change (Z.to_nat MAX_CNAME_CYCLE_DEPTH) with 15%nat in *.
  cbv beta iota in Hb.
  destruct (cname_chain_loop 15 zone 0 (Some d)) as [i d']. cbn [fst] in Hb.
  f_equal.
  destruct (chain_ends_within 14 zone (Some d)).
  - apply Z.ltb_lt in Hb.
    destruct (Z.geb_spec i MAX_CNAME_CYCLE_DEPTH); [lia | reflexivity].
  - apply Z.ltb_ge in Hb.
    destruct (Z.geb_spec i MAX_CNAME_CYCLE_DEPTH); [reflexivity | lia].
Qed.

(** The two assertions: an RRSet without RDATA, or whose first RDATA holds
    no name, stops the program. *)
Lemma check_cname_cycles_in_zone_asserts
    (zone : dnslib_zone_t) (rrset : dnslib_rrset_t) :
  dnslib_rdata_cname_name (dnslib_rrset_rdata rrset) = None ->
  check_cname_cycles_in_zone zone rrset = None.
Proof.
  intros Hd. unfold check_cname_cycles_in_zone.
  destruct (dnslib_rrset_rdata rrset) as [r |]; [| reflexivity].
  rewrite Hd. reflexivity.
Qed.

(** C7 (as the code has it).  For a CNAME RRSet whose first record holds a
    target, [check_cname_cycles_in_zone] follows the chain through both
    trees, returns 0 for every chain that ends within 14 lookups, and
    reports a cycle (-1) exactly for the chains that do not: the counter is
    compared with [MAX_CNAME_CYCLE_DEPTH] after the last lookup, and it is
    one more than the number of lookups a chain needs to end. *)
Theorem check_cname_cycles_in_zone_spec
    (zone : dnslib_zone_t) (rrset : dnslib_rrset_t) (d : dnslib_dname_t) :
  dnslib_rdata_cname_name (dnslib_rrset_rdata rrset) = Some d ->
  (chain_ends_within 14 zone (Some d) = true ->
   check_cname_cycles_in_zone zone rrset = Some 0) /\
  (chain_ends_within 14 zone (Some d) = false ->
   check_cname_cycles_in_zone zone rrset = Some (-1)) /\
  (check_cname_cycles_in_zone zone rrset = Some 0 \/
   check_cname_cycles_in_zone zone rrset = Some (-1)).
Proof.
  intros Hd.
  rewrite (check_cname_cycles_in_zone_walk zone rrset d Hd).
  destruct (chain_ends_within 14 zone (Some d)).
  - split; [reflexivity |]. split; [discriminate | left; reflexivity].
  - split; [discriminate |]. split; [reflexivity | right; reflexivity].
Qed.

Lemma check_cname_cycles_in_zone_spec_witness :
  check_cname_cycles_in_zone (chain_zone 3) (chain_cname 0) = Some 0 /\
  check_cname_cycles_in_zone (chain_zone 20) (chain_cname 0) = Some (-1).
Proof.
  split.
  - apply (check_cname_cycles_in_zone_spec (chain_zone 3) (chain_cname 0)
             (chain_name 1) eq_refl).
    vm_compute. reflexivity.
  - apply (check_cname_cycles_in_zone_spec (chain_zone 20) (chain_cname 0)
             (chain_name 1) eq_refl).
    vm_compute. reflexivity.
Defined.

(** C7 (as stated) fails.  The chain c0 -> c1 -> ... -> c15, where c15 is
    not in the zone, leaves the zone at the 15th lookup, within the bound
    of 15; yet [check_cname_cycles_in_zone] reports it as a cycle, and the
    checked dump logs c0.  One CNAME less and the chain passes. *)
Lemma check_cname_cycles_at_depth_15 :
  chain_ends_within (Z.to_nat MAX_CNAME_CYCLE_DEPTH) (chain_zone 15)
    (dnslib_rdata_cname_name (dnslib_rrset_rdata (chain_cname 0))) = true /\
  check_cname_cycles_in_zone (chain_zone 15) (chain_cname 0) = Some (-1) /\
  option_map snd
    (dnslib_zone_save_enclosers_in_tree example_library (chain_zone 15)
       (skip_create_list example_library compare_pointers) 1 (chain_node 0))
  = Some [SemCnameCycle] /\
  check_cname_cycles_in_zone (chain_zone 14) (chain_cname 0) = Some 0.
Proof. repeat split; vm_compute; reflexivity. Qed.

(** The walk also looks into the NSEC3 tree: a CNAME found there continues
    the chain. *)
Example cname_chain_through_nsec3_tree :
  let zone := mkDzone [chain_node 0] [chain_node 1] 0 in
  cname_chain_next zone (chain_name 1) = Some (chain_name 2) /\
  check_cname_cycles_in_zone zone (chain_cname 0) = Some 0.
Proof. split; vm_compute; reflexivity. Qed.

(** ** The binary dump: files and machine words *)

Lemma fwrite_at_end bytes f :
  f_pos f = length (f_data f) ->
  fwrite bytes f = mkFile (f_data f ++ bytes) (length (f_data f ++ bytes)).
Proof.
  intros Hp. unfold fwrite. rewrite Hp.
  rewrite firstn_all, skipn_all2 by lia.
  rewrite app_nil_r, length_app. reflexivity.
Qed.

Lemma firstn_exact {A} (l1 l2 : list A) n :
  length l1 = n -> firstn n (l1 ++ l2) = l1.
Proof.
  intros <-. rewrite firstn_app, firstn_all, Nat.sub_diag. simpl.
  apply app_nil_r.
Qed.

Lemma skipn_exact {A} (l1 l2 : list A) n :
  length l1 = n -> skipn n (l1 ++ l2) = l2.
Proof.
  intros <-. rewrite skipn_app, skipn_all, Nat.sub_diag. reflexivity.
Qed.

Lemma fwrite_file_end (d bytes : list Z) :
  fwrite bytes (file_end d) = file_end (d ++ bytes).
Proof. unfold file_end. apply fwrite_at_end. reflexivity. Qed.

(** Writing over [old] in the middle of a file replaces it. *)
Lemma fwrite_over (pre old new post : list Z) :
  length old = length new ->
  fwrite new (mkFile (pre ++ old ++ post) (length pre))
  = mkFile (pre ++ new ++ post) (length pre + length new).
Proof.
  intros Hlen. unfold fwrite. cbn [f_data f_pos]. f_equal.
  rewrite firstn_exact by reflexivity.
  rewrite (app_assoc pre old post), <- Hlen.
  rewrite skipn_exact by (rewrite length_app; reflexivity).
  reflexivity.
Qed.

Lemma le_bytes_length n v : length (le_bytes n v) = n.
Proof. revert v. induction n as [| n IH]; intros v; simpl; [| rewrite IH]; reflexivity. Qed.

Lemma le_value_le_bytes n v : le_value (le_bytes n v) = v mod 256 ^ Z.of_nat n.
Proof.
  revert v. induction n as [| n IH]; intros v.
  - simpl. rewrite Z.mod_1_r. reflexivity.
  - cbn [le_bytes le_value]. rewrite IH.
    rewrite Nat2Z.inj_succ, Z.pow_succ_r by lia.
    rewrite Z.rem_mul_r by lia. reflexivity.
Qed.

Lemma read_back_u32 v : le_value (u32 v) = uint32 v.
Proof. unfold u32, uint32. rewrite le_value_le_bytes. reflexivity. Qed.

(** A word in a file is read back at its offset. *)
Lemma read_u32_at (pre w post : list Z) :
  length w = 4%nat ->
  read_u32 (pre ++ w ++ post) (length pre) = le_value w.
Proof.
  intros Hw. unfold read_u32.
  rewrite skipn_exact by reflexivity.
  rewrite firstn_exact by exact Hw. reflexivity.
Qed.

Lemma uint32_add_l a b : uint32 (uint32 a + b) = uint32 (a + b).
Proof. unfold uint32. apply Z.add_mod_idemp_l. lia. Qed.

Lemma uint32_uint32 a : uint32 (uint32 a) = uint32 a.
Proof. unfold uint32. apply Z.mod_mod. lia. Qed.

Lemma uint8_uint8 a : uint8 (uint8 a) = uint8 a.
Proof. unfold uint8. apply Z.mod_mod. lia. Qed.

Lemma uint8_add_l a b : uint8 (uint8 a + b) = uint8 (a + b).
Proof. unfold uint8. apply Z.add_mod_idemp_l. lia. Qed.

Lemma u8_uint8 v : u8 (uint8 v) = u8 v.
Proof. unfold u8, uint8. cbn [le_bytes]. rewrite Z.mod_mod by lia. reflexivity. Qed.

Lemma u8_length v : length (u8 v) = 1%nat.
Proof. reflexivity. Qed.

Lemma le_bytes_mod n : forall v,
  le_bytes n (v mod 256 ^ Z.of_nat n) = le_bytes n v.
Proof.
  induction n as [| n IH]; intros v; [reflexivity |].
  cbn [le_bytes].
  rewrite Nat2Z.inj_succ, Z.pow_succ_r by lia.
  assert (Hp : 0 < 256 ^ Z.of_nat n) by (apply Z.pow_pos_nonneg; lia).
  rewrite Z.rem_mul_r by lia.
  rewrite (Z.mul_comm 256 ((v / 256) mod 256 ^ Z.of_nat n)).
  f_equal.
  - rewrite Z.mod_add by lia. apply Z.mod_mod. lia.
  - rewrite Z.div_add by lia.
    rewrite (Z.div_small (v mod 256) 256) by (apply Z.mod_pos_bound; lia).
    rewrite Z.add_0_l. apply IH.
Qed.

Lemma u32_uint32 v : u32 (uint32 v) = u32 v.
Proof. unfold u32, uint32. apply (le_bytes_mod 4). Qed.

(** ** The binary dump: what the traversal writes *)

Lemma concat_all_app (ps qs : list (option (list Z))) :
  concat_all (ps ++ qs)
  = (let? a := concat_all ps in
     let? b := concat_all qs in
     Some (a ++ b)).
Proof.
  induction ps as [| p ps IH]; cbn [app concat_all obind].
  - destruct (concat_all qs); reflexivity.
  - destruct p as [b |]; cbn [obind]; [| reflexivity].
    rewrite IH.
    destruct (concat_all ps) as [a |]; cbn [obind]; [| reflexivity].
    destruct (concat_all qs) as [c |]; cbn [obind]; [| reflexivity].
    rewrite app_assoc. reflexivity.
Qed.

Lemma dnslib_dname_dump_bytes dname d :
  dnslib_dname_dump_binary dname (file_end d)
  = file_end (d ++ dname_bytes dname).
Proof.
  unfold dnslib_dname_dump_binary, dnslib_labels_dump_binary. cbv zeta.
  rewrite !fwrite_file_end. unfold dname_bytes.
  rewrite <- !app_assoc. reflexivity.
Qed.

Section DumpBytes.

Variable lib : dnslib_library.
Variable encloser_list : skip_list_t lib.

(** One item: the dump appends its bytes, or stops where they are not
    defined. *)
Lemma rdata_item_dump_bytes desc rdata d i :
  rdata_item_dump_binary lib encloser_list desc rdata (Some (file_end d)) i
  = option_map (fun bs => file_end (d ++ bs))
               (rdata_item_at lib encloser_list desc rdata i).
Proof.
  unfold rdata_item_dump_binary, rdata_item_at, rdata_item_bytes,
    dnslib_find_wildcard.
  cbn [obind].
  destruct (rdata_items rdata) as [| it items] eqn:Hit.
  - destruct i as [| i].
    + cbn [option_map]. rewrite app_nil_r. reflexivity.
    + cbn [nth_error obind option_map]. reflexivity.
  - assert (Hgoal :
      (let? item := nth_error (it :: items) i in
       if is_dname_wireformat (desc_wireformat desc i) then
         match item with
         | item_dname dname =>
             let wildcard :=
               if dname_node dname =? 0 then None
               else skip_find lib encloser_list dname in
             match dname_node dname =? 0, wildcard with
             | false, None =>
                 Some (fwrite (ptr (dname_node dname))
                              (fwrite [1] (file_end d)))
             | _, _ =>
                 match wildcard with
                 | Some wildcard =>
                     Some (fwrite (ptr (dname_node wildcard))
                             (fwrite [1]
                                (dnslib_dname_dump_binary dname
                                   (fwrite [0] (file_end d)))))
                 | None =>
                     Some (fwrite [0]
                             (dnslib_dname_dump_binary dname
                                (fwrite [0] (file_end d))))
                 end
             end
         | _ => None
         end
       else
         match item with
         | item_raw raw_length raw_bytes =>
             if (Z.to_nat (uint16 raw_length) <=? length raw_bytes)%nat
             then Some (fwrite (u16 (uint16 raw_length)
                                ++ firstn (Z.to_nat (uint16 raw_length))
                                          raw_bytes) (file_end d))
             else None
         | _ => None
         end)
      = option_map (fun bs => file_end (d ++ bs))
          (let? item := nth_error (it :: items) i in
           if is_dname_wireformat (desc_wireformat desc i) then
             match item with
             | item_dname dname =>
                 if dname_node dname =? 0
                 then Some ([0] ++ dname_bytes dname ++ [0])
                 else
                   match skip_find lib encloser_list dname with
                   | Some wildcard =>
                       Some ([0] ++ dname_bytes dname ++ [1]
                             ++ ptr (dname_node wildcard))
                   | None => Some ([1] ++ ptr (dname_node dname))
                   end
             | _ => None
             end
           else
             match item with
             | item_raw raw_length raw_bytes =>
                 if (Z.to_nat (uint16 raw_length) <=? length raw_bytes)%nat
                 then Some (u16 (uint16 raw_length)
                            ++ firstn (Z.to_nat (uint16 raw_length))
                                      raw_bytes)
                 else None
             | _ => None
             end)).
    { destruct (nth_error (it :: items) i) as [item |]; cbn [obind];
        [| reflexivity].
      destruct (is_dname_wireformat (desc_wireformat desc i)).
      - destruct item as [| dname | len raw]; try reflexivity.
        cbv zeta.
        destruct (dname_node dname =? 0).
        + cbn [option_map].
          rewrite fwrite_file_end, dnslib_dname_dump_bytes, fwrite_file_end.
          rewrite <- !app_assoc. reflexivity.
        + destruct (skip_find lib encloser_list dname) as [wc |];
            cbn [option_map].
          * rewrite fwrite_file_end, dnslib_dname_dump_bytes,
              !fwrite_file_end.
            rewrite <- !app_assoc. reflexivity.
          * rewrite !fwrite_file_end. rewrite <- !app_assoc. reflexivity.
      - destruct item as [| dname | len raw]; try reflexivity.
        destruct (Z.to_nat (uint16 len) <=? length raw)%nat;
          [| reflexivity].
        cbn [option_map]. rewrite fwrite_file_end. reflexivity. }
    destruct i as [| i]; exact Hgoal.
Qed.

Lemma rdata_item_dump_stopped desc rdata idxs :
  fold_left (rdata_item_dump_binary lib encloser_list desc rdata) idxs None
  = None.
Proof. induction idxs as [| i idxs IH]; [reflexivity | exact IH]. Qed.

Lemma rdata_items_dump_bytes desc rdata idxs : forall d,
  fold_left (rdata_item_dump_binary lib encloser_list desc rdata) idxs
            (Some (file_end d))
  = option_map (fun bs => file_end (d ++ bs))
      (concat_all (map (rdata_item_at lib encloser_list desc rdata) idxs)).
Proof.
  induction idxs as [| i idxs IH]; intros d.
  - cbn [fold_left map concat_all option_map]. rewrite app_nil_r.
    reflexivity.
  - cbn [fold_left map concat_all]. rewrite rdata_item_dump_bytes.
    destruct (rdata_item_at lib encloser_list desc rdata i) as [b |];
      cbn [option_map obind].
    + rewrite IH.
      destruct (concat_all (map _ idxs)) as [bs |]; cbn [option_map obind];
        [| reflexivity].
      rewrite app_assoc. reflexivity.
    + apply rdata_item_dump_stopped.
Qed.

Lemma dnslib_rdata_dump_bytes rdata type d :
  dnslib_rdata_dump_binary lib encloser_list rdata type (file_end d)
  = option_map (fun bs => file_end (d ++ bs))
               (rdata_bytes lib encloser_list type rdata).
Proof.
  unfold dnslib_rdata_dump_binary, rdata_bytes.
  destruct (dnslib_rrtype_descriptor_by_type lib type) as [desc |];
    cbn [obind]; [| reflexivity].
  apply rdata_items_dump_bytes.
Qed.

Lemma rdata_list_dump_bytes type rdatas : forall c d,
  rdata_list_dump_binary lib encloser_list rdatas type (uint8 c) (file_end d)
  = option_map (fun bs => (uint8 (c + Z.of_nat (length rdatas)),
                           file_end (d ++ bs)))
               (rdata_list_bytes lib encloser_list type rdatas).
Proof.
  unfold rdata_list_bytes.
  induction rdatas as [| r rest IH]; intros c d.
  - cbn [rdata_list_dump_binary length map concat_all option_map].
    rewrite Z.add_0_r, app_nil_r. reflexivity.
  - cbn [rdata_list_dump_binary map concat_all].
    rewrite dnslib_rdata_dump_bytes.
    destruct (rdata_bytes lib encloser_list type r) as [b |];
      cbn [option_map obind]; [| reflexivity].
    rewrite uint8_add_l, IH.
    destruct (concat_all (map _ rest)) as [bs |]; cbn [option_map obind];
      [| reflexivity].
    cbn [length]. rewrite app_assoc. do 3 f_equal. lia.
Qed.

Lemma dnslib_rrsig_set_dump_bytes rrsig d :
  dnslib_rrsig_set_dump_binary lib encloser_list rrsig (file_end d)
  = option_map (fun bs => file_end (d ++ bs))
               (rrsig_set_bytes lib encloser_list rrsig).
Proof.
  unfold dnslib_rrsig_set_dump_binary, rrsig_set_bytes, fgetpos.
  destruct (negb (rrsig_type rrsig =? DNSLIB_RRTYPE_RRSIG)); [reflexivity |].
  cbv zeta. rewrite !fwrite_file_end.
  set (pre := ((d ++ u16 (rrsig_type rrsig)) ++ u16 (rrsig_rclass rrsig))
              ++ u32 (rrsig_ttl rrsig)).
  destruct (rrsig_rdata rrsig) as [| r rest] eqn:Hrd; [reflexivity |].
  pose proof (rdata_list_dump_bytes DNSLIB_RRTYPE_RRSIG (r :: rest) 0
                (pre ++ u8 0)) as Hr.
  change (uint8 0) with 0 in Hr. rewrite Hr, Z.add_0_l. clear Hr.
  destruct (rdata_list_bytes lib encloser_list DNSLIB_RRTYPE_RRSIG (r :: rest))
    as [rd |]; cbn [option_map obind]; [| reflexivity].
  unfold file_end, fseek. cbn [f_pos f_data].
  rewrite <- (app_assoc pre).
  rewrite (fwrite_over pre (u8 0) (u8 _) _) by reflexivity.
  cbn [f_data]. subst pre.
  rewrite <- !app_assoc. rewrite u8_uint8.
  do 2 f_equal. rewrite !length_app, !u8_length. reflexivity.
Qed.

Lemma dnslib_rrset_dump_bytes (rrset : dnslib_rrset_t) (d : list Z) :
  dnslib_rrset_dump_binary lib encloser_list rrset (file_end d)
  = option_map (fun bs => file_end (d ++ bs))
               (rrset_bytes lib encloser_list rrset).
Proof.
  unfold dnslib_rrset_dump_binary, rrset_bytes, fgetpos. cbv zeta.
  rewrite !fwrite_file_end.
  set (pre := ((d ++ u16 (rrset_type rrset)) ++ u16 (rrset_rclass rrset))
              ++ u32 (rrset_ttl rrset)).
  destruct (rrset_rdata rrset) as [| r rest] eqn:Hrd; [reflexivity |].
  pose proof (rdata_list_dump_bytes (rrset_type rrset) (r :: rest) 0
                ((pre ++ u8 0) ++ u8 0)) as Hr.
  change (uint8 0) with 0 in Hr. rewrite Hr, Z.add_0_l. clear Hr.
  destruct (rdata_list_bytes lib encloser_list (rrset_type rrset) (r :: rest))
    as [rd |]; cbn [option_map obind]; [| reflexivity].
  set (n := uint8 (Z.of_nat (length (r :: rest)))).
  assert (Hsig :
            (match rrset_rrsigs rrset with
             | Some rrsigs =>
                 let? f := dnslib_rrsig_set_dump_binary lib encloser_list
                             rrsigs
                             (file_end (((pre ++ u8 0) ++ u8 0) ++ rd)) in
                 Some (1, f)
             | None => Some (0, file_end (((pre ++ u8 0) ++ u8 0) ++ rd))
             end)
            = option_map
                (fun sig =>
                   (match rrset_rrsigs rrset with Some _ => 1 | None => 0 end,
                    file_end ((((pre ++ u8 0) ++ u8 0) ++ rd) ++ sig)))
                (match rrset_rrsigs rrset with
                 | Some rrsigs => rrsig_set_bytes lib encloser_list rrsigs
                 | None => Some []
                 end)).
  { destruct (rrset_rrsigs rrset) as [rrsigs |].
    - rewrite dnslib_rrsig_set_dump_bytes.
      destruct (rrsig_set_bytes lib encloser_list rrsigs); reflexivity.
    - cbn [option_map]. rewrite app_nil_r. reflexivity. }
  rewrite Hsig. clear Hsig.
  set (c := match rrset_rrsigs rrset with Some _ => 1 | None => 0 end).
  destruct (match rrset_rrsigs rrset with
            | Some rrsigs => rrsig_set_bytes lib encloser_list rrsigs
            | None => Some []
            end) as [sig |]; cbn [option_map obind]; [| reflexivity].
  unfold file_end at 1 2 3. unfold fseek at 2. cbn [f_pos f_data].
  replace ((((pre ++ u8 0) ++ u8 0) ++ rd) ++ sig)
    with (pre ++ u8 0 ++ (u8 0 ++ rd ++ sig))
    by (rewrite <- !app_assoc; reflexivity).
  rewrite (fwrite_over pre (u8 0) (u8 n) _) by reflexivity.
  replace (pre ++ u8 n ++ u8 0 ++ rd ++ sig)
    with ((pre ++ u8 n) ++ u8 0 ++ (rd ++ sig))
    by (rewrite <- !app_assoc; reflexivity).
  replace (length pre + length (u8 n))%nat with (length (pre ++ u8 n))
    by (rewrite length_app; reflexivity).
  rewrite (fwrite_over (pre ++ u8 n) (u8 0) (u8 c) _) by reflexivity.
  unfold fseek, file_end. cbn [f_data].
  subst pre n. rewrite u8_uint8. rewrite <- !app_assoc.
  do 2 f_equal. rewrite !length_app, !u8_length. reflexivity.
Qed.

Lemma rrset_list_dump_bytes rrsets : forall c d,
  rrset_list_dump_binary lib encloser_list rrsets (uint8 c) (file_end d)
  = option_map (fun bs => (uint8 (c + Z.of_nat (length rrsets)),
                           file_end (d ++ bs)))
               (concat_all (map (rrset_bytes lib encloser_list) rrsets)).
Proof.
  induction rrsets as [| rs rest IH]; intros c d.
  - cbn [rrset_list_dump_binary length map concat_all option_map].
    rewrite Z.add_0_r, app_nil_r. reflexivity.
  - cbn [rrset_list_dump_binary map concat_all].
    rewrite dnslib_rrset_dump_bytes.
    destruct (rrset_bytes lib encloser_list rs) as [b |];
      cbn [option_map obind]; [| reflexivity].
    rewrite uint8_add_l, IH.
    destruct (concat_all (map _ rest)) as [bs |]; cbn [option_map obind];
      [| reflexivity].
    cbn [length]. rewrite app_assoc. do 3 f_equal. lia.
Qed.

Lemma dnslib_node_dump_bytes
    (node : dnslib_node_t) (d : list Z) (nc znc : Z) :
  dnslib_node_dump_binary lib encloser_list node (mkDump (file_end d) nc znc)
  = option_map
      (fun bs =>
         mkDump (file_end (d ++ bs)) (uint32 (nc + 1))
                (if negb (node_non_auth node) then uint32 (znc + 1) else znc))
      (node_bytes lib encloser_list node).
Proof.
  unfold dnslib_node_dump_binary, node_bytes, fgetpos. cbv zeta.
  cbn [ds_file node_count ds_zone_node_count].
  rewrite dnslib_dname_dump_bytes, !fwrite_file_end.
  set (pre := (((d ++ dname_bytes (node_owner node))
                ++ ptr (dname_node (node_owner node)))
               ++ ptr_of (node_parent node)) ++ u8 (node_flags node)).
  set (pre' := pre ++ ptr_of (node_nsec3_node node)).
  destruct (node_rrsets node) as [| rs rest] eqn:Hrs.
  - cbn [length map concat_all obind option_map Z.of_nat].
    change (uint8 0) with 0.
    subst pre' pre. rewrite <- !app_assoc, app_nil_r. reflexivity.
  - pose proof (rrset_list_dump_bytes (rs :: rest) 0 (pre' ++ u8 0)) as Hr.
    change (uint8 0) with 0 in Hr. rewrite Hr, Z.add_0_l. clear Hr.
    destruct (concat_all (map (rrset_bytes lib encloser_list) (rs :: rest)))
      as [body |]; cbn [option_map obind]; [| reflexivity].
    set (n := uint8 (Z.of_nat (length (rs :: rest)))).
    unfold file_end, fseek. cbn [f_pos f_data].
    rewrite <- (app_assoc pre').
    rewrite (fwrite_over pre' (u8 0) (u8 n) _) by reflexivity.
    cbn [f_data].
    subst pre' pre n. rewrite u8_uint8, <- !app_assoc.
    do 2 f_equal. rewrite !length_app, !u8_length. reflexivity.
Qed.

Lemma tree_apply_inorder_stopped nodes :
  fold_left (fun st node =>
               let? st := st in
               dnslib_node_dump_binary lib encloser_list node st)
            nodes None
  = None.
Proof. induction nodes as [| n nodes IH]; [reflexivity | exact IH]. Qed.

(** A traversal appends the bytes of the nodes visited, adds their number to
    [node_count] and the number of authoritative ones to the zone's count
    (modulo 2^32); it stops where a node cannot be dumped. *)
Lemma tree_apply_inorder_bytes nodes : forall d nc znc,
  match concat_all (map (node_bytes lib encloser_list) nodes) with
  | Some bs =>
      exists st,
        tree_apply_inorder lib encloser_list nodes (mkDump (file_end d) nc znc)
          = Some st /\
        ds_file st = file_end (d ++ bs) /\
        uint32 (node_count st) = uint32 (nc + Z.of_nat (length nodes)) /\
        uint32 (ds_zone_node_count st)
          = uint32 (znc + Z.of_nat (length (filter (fun n => negb (node_non_auth n))
                                                   nodes))) /\
        (is_uint32 nc -> is_uint32 (node_count st)) /\
        (is_uint32 znc -> is_uint32 (ds_zone_node_count st))
  | None =>
      tree_apply_inorder lib encloser_list nodes (mkDump (file_end d) nc znc)
        = None
  end.
Proof.
  unfold tree_apply_inorder.
  induction nodes as [| n rest IH]; intros d nc znc.
  - cbn [map concat_all fold_left length filter]. eexists.
    split; [reflexivity |]. cbn [ds_file node_count ds_zone_node_count].
    rewrite app_nil_r, !Z.add_0_r.
    split; [reflexivity |]. split; [reflexivity |]. split; [reflexivity |].
    split; intros H; exact H.
  - cbn [map concat_all fold_left obind].
    rewrite dnslib_node_dump_bytes.
    destruct (node_bytes lib encloser_list n) as [b |];
      cbn [option_map obind]; [| apply tree_apply_inorder_stopped].
    specialize (IH (d ++ b) (uint32 (nc + 1))
                   (if negb (node_non_auth n) then uint32 (znc + 1) else znc)).
    destruct (concat_all (map (node_bytes lib encloser_list) rest))
      as [bs |]; cbn [obind]; [| exact IH].
    destruct IH as (st & Hst & Hf & Hn & Hz & Hnr & Hzr).
    exists st. split; [exact Hst |].
    split; [rewrite Hf, app_assoc; reflexivity |].
    cbn [length filter].
    split; [rewrite Hn, uint32_add_l; f_equal; lia |].
    split.
    { rewrite Hz. destruct (negb (node_non_auth n)); cbn [length];
        [rewrite uint32_add_l |]; f_equal; lia. }
    split; [intros _; apply Hnr; apply uint32_range |].
    intros Hr. apply Hzr.
    destruct (negb (node_non_auth n)); [apply uint32_range | exact Hr].
Qed.

End DumpBytes.

(** ** The binary dump: counters and header *)

Lemma source_name_length (s : list Z) :
  length (firstn (Z.to_nat (uint32 (Z.of_nat (length s) + 1))) (s ++ [0]))
  = Z.to_nat (uint32 (Z.of_nat (length s) + 1)).
Proof.
  apply firstn_length_le. rewrite length_app. cbn [length].
  assert (H : uint32 (Z.of_nat (length s) + 1) <= Z.of_nat (length s) + 1).
  { unfold uint32. apply Z.mod_le; lia. }
  lia.
Qed.

Lemma header_name_length (MAGIC : list Z) (sfilename : option (list Z)) :
  length (MAGIC ++ header_name sfilename) = header_length MAGIC sfilename.
Proof.
  unfold header_name, header_length. rewrite length_app.
  destruct sfilename as [s |].
  - rewrite length_app, source_name_length. unfold u32.
    rewrite le_bytes_length. lia.
  - unfold u32. rewrite le_bytes_length. lia.
Qed.

(** What a dump comes to.  It stops where the first pass stops, or where a
    node cannot be dumped.  Otherwise it returns 0 and leaves the file made
    of the header, the three counts patched in after the traversals, and
    the nodes of the two trees; the first count starts from the value of
    [node_count] on entry. *)
Lemma dnslib_zdump_binary_run
    (lib : dnslib_library) (MAGIC : list Z) (zone : dnslib_zone_t)
    (do_checks : Z) (sfilename : option (list Z)) (node_count0 : Z) :
  let checks :=
    if negb (do_checks =? 0) && zone_is_secure zone then 2 else do_checks in
  match zone_save_enclosers_sem_check lib zone (skip_create_list lib compare_pointers)
          checks with
  | None =>
      dnslib_zdump_binary lib MAGIC zone true do_checks sfilename node_count0
      = None
  | Some (encloser_list, logged) =>
      match concat_all (map (node_bytes lib encloser_list) (zone_nodes zone)),
            concat_all (map (node_bytes lib encloser_list)
                            (zone_nsec3_nodes zone)) with
      | Some B1, Some B2 =>
          exists f,
            dnslib_zdump_binary lib MAGIC zone true do_checks sfilename
              node_count0
            = Some (0, f, uint32 (Z.of_nat (length (zone_nsec3_nodes zone))),
                    mkDzone (zone_nodes zone) (zone_nsec3_nodes zone)
                      (uint32 (Z.of_nat (authoritative_nodes zone))),
                    logged) /\
            f_data f =
              (MAGIC ++ header_name sfilename)
              ++ u32 (node_count0 + Z.of_nat (length (zone_nodes zone)))
              ++ u32 (Z.of_nat (length (zone_nsec3_nodes zone)))
              ++ u32 (Z.of_nat (authoritative_nodes zone))
              ++ B1 ++ B2
      | _, _ =>
          dnslib_zdump_binary lib MAGIC zone true do_checks sfilename
            node_count0
          = None
      end
  end.
Proof.
  intros checks. unfold dnslib_zdump_binary. cbn [negb]. cbv zeta.
  fold checks.
  destruct (zone_save_enclosers_sem_check lib zone (skip_create_list lib compare_pointers)
              checks) as [[encloser_list logged] |]; cbn [obind];
    [| reflexivity].
  set (sflen := match sfilename with
                | Some s => uint32 (Z.of_nat (length s) + 1)
                | None => 0
                end).
  change (mkFile [] 0) with (file_end []).
  rewrite !fwrite_file_end. cbn [app].
  set (hdr := MAGIC ++ header_name sfilename).
  assert (Hhdr : match sfilename with
                 | Some s =>
                     fwrite (firstn (Z.to_nat sflen) (s ++ [0]))
                            (file_end (MAGIC ++ u32 sflen))
                 | None => file_end (MAGIC ++ u32 sflen)
                 end = file_end hdr).
  { subst hdr sflen. unfold header_name. destruct sfilename as [s |].
    - rewrite fwrite_file_end, <- app_assoc. reflexivity.
    - reflexivity. }
  rewrite Hhdr. clear Hhdr.
  assert (Hlen : (length MAGIC + 4 + Z.to_nat sflen)%nat = length hdr).
  { subst hdr. rewrite header_name_length. unfold header_length.
    subst sflen. destruct sfilename; reflexivity. }
  rewrite Hlen. clear Hlen.
  rewrite !fwrite_file_end.
  set (D0 := ((hdr ++ u32 node_count0) ++ u32 node_count0) ++ u32 0).
  pose proof (tree_apply_inorder_bytes lib encloser_list (zone_nodes zone)
                D0 node_count0 0) as H1.
  destruct (concat_all (map (node_bytes lib encloser_list) (zone_nodes zone)))
    as [B1 |].
  2:{ rewrite H1. cbn [obind]. reflexivity. }
  destruct H1 as (st1 & -> & Hf1 & Hn1 & Hz1 & _ & Hzr1). cbn [obind].
  rewrite Hf1.
  pose proof (tree_apply_inorder_bytes lib encloser_list
                (zone_nsec3_nodes zone) (D0 ++ B1) 0
                (ds_zone_node_count st1)) as H2.
  destruct (concat_all (map (node_bytes lib encloser_list)
                            (zone_nsec3_nodes zone))) as [B2 |].
  2:{ rewrite H2. cbn [obind]. reflexivity. }
  destruct H2 as (st2 & -> & Hf2 & Hn2 & Hz2 & Hnr2 & Hzr2). cbn [obind].
  rewrite Hf2.
  assert (Hr0 : is_uint32 0) by (unfold is_uint32; lia).
  rewrite Z.add_0_l in Hn2, Hz1.
  assert (Hc2 : node_count st2
                = uint32 (Z.of_nat (length (zone_nsec3_nodes zone)))).
  { rewrite <- Hn2. symmetry. apply uint32_id. apply Hnr2. exact Hr0. }
  assert (Hzu : is_uint32 (ds_zone_node_count st2)) by (apply Hzr2, Hzr1, Hr0).
  assert (Hc3 : ds_zone_node_count st2
                = uint32 (Z.of_nat (authoritative_nodes zone))).
  { rewrite <- (uint32_id _ Hzu), Hz2.
    rewrite <- uint32_add_l, Hz1, uint32_add_l.
    unfold authoritative_nodes. rewrite filter_app, length_app.
    f_equal. lia. }
  rewrite <- (u32_uint32 (node_count st1)), Hn1, u32_uint32.
  rewrite Hc2, Hc3, !u32_uint32.
  set (c1 := u32 (node_count0 + Z.of_nat (length (zone_nodes zone)))).
  set (c2 := u32 (Z.of_nat (length (zone_nsec3_nodes zone)))).
  set (c3 := u32 (Z.of_nat (authoritative_nodes zone))).
  unfold fseek, file_end. cbn [f_data].
  subst D0.
  replace (((((hdr ++ u32 node_count0) ++ u32 node_count0) ++ u32 0) ++ B1)
           ++ B2)
    with (hdr ++ u32 node_count0 ++ (u32 node_count0 ++ u32 0 ++ B1 ++ B2))
    by (rewrite <- !app_assoc; reflexivity).
  rewrite (fwrite_over hdr (u32 node_count0) c1 _) by reflexivity.
  replace (hdr ++ c1 ++ u32 node_count0 ++ u32 0 ++ B1 ++ B2)
    with ((hdr ++ c1) ++ u32 node_count0 ++ (u32 0 ++ B1 ++ B2))
    by (rewrite <- !app_assoc; reflexivity).
  replace (length hdr + length c1)%nat with (length (hdr ++ c1))
    by (rewrite length_app; reflexivity).
  rewrite (fwrite_over (hdr ++ c1) (u32 node_count0) c2 _) by reflexivity.
  replace ((hdr ++ c1) ++ c2 ++ u32 0 ++ B1 ++ B2)
    with (((hdr ++ c1) ++ c2) ++ u32 0 ++ (B1 ++ B2))
    by (rewrite <- !app_assoc; reflexivity).
  replace (length (hdr ++ c1) + length c2)%nat
    with (length ((hdr ++ c1) ++ c2))
    by (rewrite (length_app (hdr ++ c1)); reflexivity).
  rewrite (fwrite_over ((hdr ++ c1) ++ c2) (u32 0) c3 _) by reflexivity.
  eexists. split; [reflexivity |].
  cbn [f_data]. rewrite <- !app_assoc. reflexivity.
Qed.

(** What the three counts of the header hold after a dump that got to its
    end: the second is the number of NSEC3 nodes and the third the number of
    authoritative nodes, but the first is the number of normal nodes plus
    the value [node_count] had on entry (all modulo 2^32). *)
Lemma dnslib_zdump_binary_counts
    (lib : dnslib_library) (MAGIC : list Z) (zone : dnslib_zone_t)
    (do_checks : Z) (sfilename : option (list Z)) (node_count0 : Z)
    (ret : Z) (f : FILE) (nc : Z) (z' : dnslib_zone_t)
    (logged : list (dnslib_dname_t * sem_log)) :
  dnslib_zdump_binary lib MAGIC zone true do_checks sfilename node_count0
    = Some (ret, f, nc, z', logged) ->
  ret = 0 /\
  nc = uint32 (Z.of_nat (length (zone_nsec3_nodes zone))) /\
  read_u32 (f_data f) (header_length MAGIC sfilename)
    = uint32 (node_count0 + Z.of_nat (length (zone_nodes zone))) /\
  read_u32 (f_data f) (header_length MAGIC sfilename + 4)
    = uint32 (Z.of_nat (length (zone_nsec3_nodes zone))) /\
  read_u32 (f_data f) (header_length MAGIC sfilename + 8)
    = uint32 (Z.of_nat (authoritative_nodes zone)) /\
  zone_node_count z' = uint32 (Z.of_nat (authoritative_nodes zone)).
Proof.
  intros Hrun.
  pose proof (dnslib_zdump_binary_run lib MAGIC zone do_checks sfilename
                node_count0) as H.
  cbv zeta in H.
  destruct (zone_save_enclosers_sem_check lib zone (skip_create_list lib compare_pointers) _)
    as [[encloser_list lg] |]; [| congruence].
  destruct (concat_all (map (node_bytes lib encloser_list) (zone_nodes zone)))
    as [B1 |]; [| congruence].
  destruct (concat_all (map (node_bytes lib encloser_list)
                            (zone_nsec3_nodes zone)))
    as [B2 |]; [| congruence].
  destruct H as (f0 & Hdump & Hdata).
  rewrite Hdump in Hrun. inversion Hrun; subst. clear Hrun.
  rewrite Hdata, <- (header_name_length MAGIC sfilename).
  set (hdr := MAGIC ++ header_name sfilename).
  set (c1 := u32 (node_count0 + Z.of_nat (length (zone_nodes zone)))).
  set (c2 := u32 (Z.of_nat (length (zone_nsec3_nodes zone)))).
  set (c3 := u32 (Z.of_nat (authoritative_nodes zone))).
  assert (L1 : length c1 = 4%nat) by apply le_bytes_length.
  assert (L2 : length c2 = 4%nat) by apply le_bytes_length.
  assert (L3 : length c3 = 4%nat) by apply le_bytes_length.
  split; [reflexivity |]. split; [reflexivity |].
  split; [rewrite read_u32_at by exact L1; apply read_back_u32 |].
  split.
  { replace (hdr ++ c1 ++ c2 ++ c3 ++ B1 ++ B2)
      with ((hdr ++ c1) ++ c2 ++ (c3 ++ B1 ++ B2))
      by (rewrite <- !app_assoc; reflexivity).
    replace (length hdr + 4)%nat with (length (hdr ++ c1))
      by (rewrite length_app, L1; reflexivity).
    rewrite read_u32_at by exact L2. apply read_back_u32. }
  split; [| reflexivity].
  replace (hdr ++ c1 ++ c2 ++ c3 ++ B1 ++ B2)
    with (((hdr ++ c1) ++ c2) ++ c3 ++ (B1 ++ B2))
    by (rewrite <- !app_assoc; reflexivity).
  replace (length hdr + 8)%nat with (length ((hdr ++ c1) ++ c2))
    by (rewrite !length_app, L1, L2; lia).
  rewrite read_u32_at by exact L3. apply read_back_u32.
Qed.

(** C8.  Two dumps of one zone in one process.  The zone has one normal
    node and one NSEC3 node, both authoritative.  The first dump writes the
    counts 1, 1 and 2.  The second dump starts with the [node_count] the
    first one left (the NSEC3 nodes it counted) and writes 2 as the number of
    normal nodes, although it wrote one. *)
Theorem dnslib_zdump_binary_twice :
  exists f1 node_count1 zone1 f2 node_count2 zone2,
    dnslib_zdump_binary example_library example_magic two_node_zone true 0
      None 0
    = Some (0, f1, node_count1, zone1, []) /\
    dnslib_zdump_binary example_library example_magic zone1 true 0 None
      node_count1
    = Some (0, f2, node_count2, zone2, []) /\
    let off := header_length example_magic None in
    (read_u32 (f_data f1) off, read_u32 (f_data f1) (off + 4),
     read_u32 (f_data f1) (off + 8)) = (1, 1, 2) /\
    (read_u32 (f_data f2) off, read_u32 (f_data f2) (off + 4),
     read_u32 (f_data f2) (off + 8)) = (2, 1, 2) /\
    length (zone_nodes zone1) = 1%nat /\
    length (zone_nsec3_nodes zone1) = 1%nat /\
    authoritative_nodes zone1 = 2%nat /\
    node_count1 = 1.
Proof.
  do 6 eexists.
  split; [vm_compute; reflexivity |].
  split; [vm_compute; reflexivity |].
  vm_compute. repeat split; reflexivity.
Qed.

(* ================================================================== *)
(** * Further properties of the code *)
(* ================================================================== *)

(** ** Journal keys as an encoding of serial pairs *)

Lemma key_make_parts (from to : Z) :
  is_uint32 from -> is_uint32 to ->
  ixfrdb_key_from (ixfrdb_key_make from to) = from /\
  ixfrdb_key_to (ixfrdb_key_make from to) = to.
Proof.
  intros Hf Ht.
  rewrite key_from_low32, key_to_high32, (key_make_arith from to Hf Ht).
  unfold is_uint32 in *. split.
  - rewrite Z.add_comm, Z.mod_add by lia. apply Z.mod_small. exact Hf.
  - rewrite Z.div_add_l by lia. rewrite (Z.div_small from) by exact Hf.
    rewrite Z.add_0_r. apply Z.mod_small. exact Ht.
Qed.

(** X1.  [ixfrdb_key_make] is injective on pairs of 32-bit serials: two
    changesets get the same journal key only when they agree on both
    [serial_from] and [serial_to]. *)
Theorem ixfrdb_key_make_injective (f t f' t' : Z) :
  is_uint32 f -> is_uint32 t -> is_uint32 f' -> is_uint32 t' ->
  (ixfrdb_key_make f t = ixfrdb_key_make f' t' <-> f = f' /\ t = t').
Proof.
  intros Hf Ht Hf' Ht'.
  rewrite (key_make_arith f t Hf Ht), (key_make_arith f' t' Hf' Ht').
  unfold is_uint32 in *. split.
  - intros H. lia.
  - intros [-> ->]. reflexivity.
Qed.

Lemma ixfrdb_key_make_injective_witness :
  ixfrdb_key_make 100 101 = ixfrdb_key_make 100 101 <-> 100 = 100 /\ 101 = 101.
Proof.
  apply (ixfrdb_key_make_injective 100 101 100 101);
    unfold is_uint32; lia.
Defined.

(** X2.  As 64-bit numbers the keys are ordered by [serial_to] first and by
    [serial_from] among keys with the same [serial_to]. *)
Theorem ixfrdb_key_make_order (f t f' t' : Z) :
  is_uint32 f -> is_uint32 t -> is_uint32 f' -> is_uint32 t' ->
  (ixfrdb_key_make f t < ixfrdb_key_make f' t'
   <-> t < t' \/ (t = t' /\ f < f')).
Proof.
  intros Hf Ht Hf' Ht'.
  rewrite (key_make_arith f t Hf Ht), (key_make_arith f' t' Hf' Ht').
  unfold is_uint32 in *. lia.
Qed.

Lemma ixfrdb_key_make_order_witness :
  ixfrdb_key_make 200 101 < ixfrdb_key_make 100 102
  <-> 101 < 102 \/ (101 = 102 /\ 200 < 100).
Proof.
  apply (ixfrdb_key_make_order 200 101 100 102); unfold is_uint32; lia.
Defined.

(** X3.  On a key made from the serials [f] and [t], the comparator
    [ixfrdb_key_from_cmp] returns 0 exactly for the serial [f] and
    [ixfrdb_key_to_cmp] exactly for the serial [t]: a fetch by either serial
    matches the entries stored for it and no others. *)
Theorem ixfrdb_key_cmp_on_made_key (f t s : Z) :
  is_uint32 f -> is_uint32 t -> is_uint32 s ->
  (ixfrdb_key_from_cmp (ixfrdb_key_make f t) s = 0 <-> f = s) /\
  (ixfrdb_key_to_cmp (ixfrdb_key_make f t) s = 0 <-> t = s).
Proof.
  intros Hf Ht Hs.
  destruct (key_make_parts f t Hf Ht) as [Hfrom Hto].
  unfold ixfrdb_key_from_cmp, ixfrdb_key_to_cmp.
  rewrite Hfrom, Hto.
  rewrite (key_cmp_diff f s Hf), (key_cmp_diff t s Ht).
  split.
  - exact (proj1 (to_int_diff_props f s Hf Hs)).
  - exact (proj1 (to_int_diff_props t s Ht Hs)).
Qed.

Lemma ixfrdb_key_cmp_on_made_key_witness :
  (ixfrdb_key_from_cmp (ixfrdb_key_make 100 101) 100 = 0 <-> 100 = 100) /\
  (ixfrdb_key_to_cmp (ixfrdb_key_make 100 101) 100 = 0 <-> 101 = 100).
Proof.
  apply (ixfrdb_key_cmp_on_made_key 100 101 100); unfold is_uint32; lia.
Defined.

(** X4.  Decoding a 64-bit key and encoding the two serials again gives the
    key back: every key is the key of the pair it decodes to. *)
Theorem ixfrdb_key_decode_encode (k : Z) :
  is_uint64 k ->
  is_uint32 (ixfrdb_key_from k) /\ is_uint32 (ixfrdb_key_to k) /\
  ixfrdb_key_make (ixfrdb_key_from k) (ixfrdb_key_to k) = k.
Proof.
  intros Hk.
  assert (Hf : is_uint32 (ixfrdb_key_from k)) by apply uint32_range.
  assert (Ht : is_uint32 (ixfrdb_key_to k)) by apply uint32_range.
  split; [exact Hf | split; [exact Ht |]].
  rewrite (key_make_arith _ _ Hf Ht), key_from_low32, key_to_high32.
  unfold is_uint64 in Hk.
  rewrite (Z.mod_small (k / 2 ^ 32)).
  - rewrite Z.mul_comm. symmetry. apply Z.div_mod. lia.
  - split.
    + apply Z.div_pos; lia.
    + apply Z.div_lt_upper_bound; lia.
Qed.

Lemma ixfrdb_key_decode_encode_witness :
  is_uint32 (ixfrdb_key_from 433791697000) /\
  is_uint32 (ixfrdb_key_to 433791697000) /\
  ixfrdb_key_make (ixfrdb_key_from 433791697000)
                  (ixfrdb_key_to 433791697000) = 433791697000.
Proof.
  apply (ixfrdb_key_decode_encode 433791697000); unfold is_uint64; lia.
Defined.

(** ** The jitter of the transfer timers *)

(** X5.  With a jitter percentage between 1 and 100, [zones_jitter] never
    returns more than 42949672 ms, whatever the interval: the product is
    formed in 32 bits before the division by 100.  For an interval of at most
    42949672 ms the result is the interval reduced by [rnd mod
    ZONES_JITTER_PCT] percent, so it lies between [interval * (101 -
    ZONES_JITTER_PCT) / 100] and the interval. *)
Theorem zones_jitter_bounds (pct rnd interval : Z) :
  0 < pct <= 100 -> is_uint32 rnd -> is_uint32 interval ->
  0 <= zones_jitter pct rnd interval <= 42949672 /\
  (interval <= 42949672 ->
   zones_jitter pct rnd interval = interval * (100 - rnd mod pct) / 100 /\
   interval * (101 - pct) / 100 <= zones_jitter pct rnd interval <= interval).
Proof.
  intros Hp Hr Hi. unfold zones_jitter.
  assert (Hpu : is_uint32 pct) by (unfold is_uint32; lia).
  rewrite (uint32_id pct Hpu), (uint32_id rnd Hr), (uint32_id interval Hi).
  assert (Hm : 0 <= rnd mod pct < pct) by (apply Z.mod_pos_bound; lia).
  rewrite (uint32_id (rnd mod pct)) by (unfold is_uint32; lia).
  rewrite (uint32_id (100 - rnd mod pct)) by (unfold is_uint32; lia).
  set (r := rnd mod pct) in *.
  assert (Hq : 0 <= uint32 (interval * (100 - r)) / 100 <= 42949672).
  { pose proof (uint32_range (interval * (100 - r))) as Hu.
    unfold is_uint32 in Hu. split.
    - apply Z.div_pos; lia.
    - apply Z.lt_succ_r. apply Z.div_lt_upper_bound; lia. }
  rewrite (uint32_id (uint32 (interval * (100 - r)) / 100))
    by (unfold is_uint32; lia).
  split; [exact Hq |].
  intros Hsmall. unfold is_uint32 in Hi.
  assert (Hlo : interval * (101 - pct) <= interval * (100 - r))
    by (apply Z.mul_le_mono_nonneg_l; lia).
  assert (Hhi : interval * (100 - r) <= interval * 100)
    by (apply Z.mul_le_mono_nonneg_l; lia).
  assert (H0 : 0 <= interval * (100 - r)) by (apply Z.mul_nonneg_nonneg; lia).
  rewrite (uint32_id (interval * (100 - r))) by (unfold is_uint32; lia).
  split; [reflexivity | split].
  - apply Z.div_le_mono; [lia | exact Hlo].
  - apply Z.div_le_upper_bound; lia.
Qed.

Lemma zones_jitter_bounds_witness :
  0 <= zones_jitter 10 7 600000 <= 42949672 /\
  (600000 <= 42949672 ->
   zones_jitter 10 7 600000 = 600000 * (100 - 7 mod 10) / 100 /\
   600000 * (101 - 10) / 100 <= zones_jitter 10 7 600000 <= 600000).
Proof.
  apply (zones_jitter_bounds 10 7 600000); unfold is_uint32; lia.
Defined.

(** ** Entries of an open transaction *)

Lemma is_ok_false_not_eok (r : knot_error) : is_ok r = false -> r <> KNOT_EOK.
Proof. intros H E. subst r. discriminate H. Qed.

Lemma has_flag_set_valid (fl : Z) :
  has_flag (Z.lor fl JOURNAL_VALID) JOURNAL_VALID = true.
Proof.
  unfold has_flag. rewrite Z.land_lor_distr_l.
  change (Z.land JOURNAL_VALID JOURNAL_VALID) with 2.
  destruct (Z.lor (Z.land fl JOURNAL_VALID) 2 =? 0) eqn:E; [| reflexivity].
  apply Z.eqb_eq in E. apply Z.lor_eq_0_iff in E. destruct E as [_ E].
  discriminate E.
Qed.

Lemma has_flag_clear_trans (fl : Z) :
  has_flag (Z.land fl (Z.lnot JOURNAL_TRANS)) JOURNAL_VALID
    = has_flag fl JOURNAL_VALID /\
  has_flag (Z.land fl (Z.lnot JOURNAL_TRANS)) JOURNAL_TRANS = false.
Proof.
  unfold has_flag. rewrite <- !Z.land_assoc.
  change (Z.land (Z.lnot JOURNAL_TRANS) JOURNAL_VALID) with JOURNAL_VALID.
  change (Z.land (Z.lnot JOURNAL_TRANS) JOURNAL_TRANS) with 0.
  rewrite Z.land_0_r. split; reflexivity.
Qed.

Lemma journal_map_pending j key size w j' w' ks :
  journal_map j key size w = (KNOT_EOK, j', w') ->
  j_trans j = true -> keys_pending j ks ->
  exists pre,
    j_nodes j' = pre ++ [mkNode key (Z.lor JOURNAL_DIRTY JOURNAL_TRANS)] /\
    (forall k, In k ks -> exists n, In n pre /\ node_pending k n).
Proof.
  unfold journal_map. intros H Ht Hp. rewrite Ht in H.
  destruct (next_result X_journal_map w) as [r w1].
  destruct (is_ok r) eqn:Hr; cbn [negb] in H.
  2:{ inversion H; subst. discriminate Hr. }
  destruct (length (j_nodes j) <? j_max_nodes j)%nat.
  - inversion H; subst. exists (j_nodes j). split; [reflexivity | exact Hp].
  - destruct (j_nodes j) as [| oldest rest] eqn:Hn; [discriminate H |].
    destruct (has_flag (jn_flags oldest) JOURNAL_DIRTY
              || has_flag (jn_flags oldest) JOURNAL_TRANS) eqn:Hfl;
      [discriminate H |].
    inversion H; subst. exists rest. split; [reflexivity |].
    intros k Hk. destruct (Hp k Hk) as (n & Hin & Hpend).
    exists n. split; [| exact Hpend].
    rewrite Hn in Hin.
    destruct Hin as [-> | Hin]; [| exact Hin].
    apply orb_false_iff in Hfl. destruct Hfl as [_ Hfl].
    destruct Hpend as (_ & _ & Htr). congruence.
Qed.

Lemma journal_unmap_validates j key w j' w' pre slot :
  j_nodes j = pre ++ [slot] -> jn_id slot = key ->
  journal_unmap j key true w = (KNOT_EOK, j', w') ->
  j_nodes j' = pre ++ [set_flag JOURNAL_VALID slot].
Proof.
  unfold journal_unmap. intros Hn Hid H. rewrite Hn, rev_unit in H.
  destruct (next_result X_journal_unmap w) as [r w1].
  destruct (is_ok r) eqn:Hr; cbn [negb] in H.
  - rewrite Hid, Z.eqb_refl, rev_involutive in H. inversion H; subst.
    reflexivity.
  - inversion H; subst. discriminate Hr.
Qed.

Lemma zones_store_changeset_pending chs j w j' w' ks :
  zones_store_changeset chs j w = (KNOT_EOK, j', w') ->
  j_trans j = true -> keys_pending j ks ->
  keys_pending j' (ks ++ [ixfrdb_key_make (serial_from chs) (serial_to chs)]).
Proof.
  unfold zones_store_changeset. intros H Ht Hp. revert H.
  destruct (journal_map j _ _ w) as [[r1 j1] w1] eqn:Em.
  destruct (is_ok r1) eqn:Hr1; cbn [negb].
  2:{ intros H. inversion H; subst. discriminate Hr1. }
  apply is_ok_true in Hr1. subst r1.
  destruct (journal_map_pending _ _ _ _ _ _ ks Em Ht Hp) as (pre & Hn1 & Hpre).
  destruct (zones_serialize_and_store_chgset chs w1) as [r2 w2].
  destruct (is_ok r2) eqn:Hr2.
  2:{ destruct (journal_unmap j1 _ false w2) as [[r3 j3] w3].
      cbn [andb]. intros H. inversion H; subst. discriminate Hr2. }
  destruct (journal_unmap j1 _ true w2) as [[r3 j3] w3] eqn:Eu.
  destruct (is_ok r3) eqn:Hr3; cbn [andb negb]; intros H; inversion H; subst.
  2:{ discriminate Hr3. }
  apply is_ok_true in Hr3. subst r3.
  apply (journal_unmap_validates _ _ _ _ _ _ _ Hn1 eq_refl) in Eu.
  intros k Hk. rewrite Eu. apply in_app_or in Hk. destruct Hk as [Hk | Hk].
  - destruct (Hpre k Hk) as (n & Hin & Hpend). exists n.
    split; [apply in_or_app; left; exact Hin | exact Hpend].
  - destruct Hk as [<- | []].
    eexists. split; [apply in_or_app; right; left; reflexivity |].
    unfold node_pending, set_flag. cbn [jn_id jn_flags].
    split; [reflexivity |]. split; [apply has_flag_set_valid |].
    rewrite has_trans_set_valid. reflexivity.
Qed.

Lemma store_changeset_list_pending l : forall j w j' w' ks,
  store_changeset_list l j w = (KNOT_EOK, j', w') ->
  j_trans j = true -> keys_pending j ks ->
  keys_pending j'
    (ks ++ map (fun c => ixfrdb_key_make (serial_from c) (serial_to c)) l).
Proof.
  induction l as [| chs rest IH]; intros j w j' w' ks H Ht Hp.
  - simpl in H. inversion H; subst. rewrite app_nil_r. exact Hp.
  - cbn [store_changeset_list] in H.
    destruct (zones_store_changeset chs j w) as [[r1 j1] w1] eqn:E1.
    destruct (is_ok r1) eqn:Hr1.
    2:{ inversion H; subst. discriminate Hr1. }
    apply is_ok_true in Hr1. subst r1.
    pose proof (zones_store_changeset_pending _ _ _ _ _ ks E1 Ht Hp) as Hp1.
    apply zones_store_changeset_spec in E1. destruct E1 as (_ & Ht1 & _).
    rewrite Ht in Ht1.
    specialize (IH j1 w1 j' w' _ H Ht1 Hp1).
    cbn [map]. rewrite <- app_assoc in IH. exact IH.
Qed.

(** After [trans_commit], what was pending is committed. *)
Lemma journal_trans_commit_pending j w j' w' ks :
  journal_trans_commit j w = (KNOT_EOK, j', w') ->
  keys_pending j ks -> incl ks (visible_ids j').
Proof.
  unfold journal_trans_commit. intros H Hp.
  destruct (next_result X_journal_trans_commit w) as [r w1].
  destruct (is_ok r) eqn:Hr.
  2:{ inversion H; subst. discriminate Hr. }
  inversion H; subst. intros k Hk.
  destruct (Hp k Hk) as (n & Hin & Hid & Hv & Ht).
  unfold visible_ids. cbn [j_nodes set_trans set_nodes].
  apply in_map_iff. exists (clear_flag JOURNAL_TRANS n).
  split; [exact Hid |].
  apply filter_In. split; [apply in_map; exact Hin |].
  unfold node_visible, clear_flag. cbn [jn_flags].
  destruct (has_flag_clear_trans (jn_flags n)) as [E1 E2].
  rewrite E1, E2, Hv. reflexivity.
Qed.

(** ** The reference count of the journal *)

Lemma journal_retain_refs j w r j' w' :
  journal_retain j w = (r, j', w') ->
  j_refs j' = j_refs j + (if is_ok r then 1 else 0).
Proof.
  unfold journal_retain. destruct (next_result X_journal_retain w) as [r1 w1].
  destruct (is_ok r1) eqn:Hr; intros H; inversion H; subst.
  - cbn. reflexivity.
  - rewrite Hr. lia.
Qed.

Lemma journal_trans_begin_refs j w r j' w' :
  journal_trans_begin j w = (r, j', w') -> j_refs j' = j_refs j.
Proof.
  unfold journal_trans_begin.
  destruct (next_result X_journal_trans_begin w) as [r1 w1].
  destruct (is_ok r1); [destruct (j_trans j) |];
    intros H; inversion H; subst; reflexivity.
Qed.

Lemma journal_trans_commit_refs j w r j' w' :
  journal_trans_commit j w = (r, j', w') -> j_refs j' = j_refs j.
Proof.
  unfold journal_trans_commit.
  destruct (next_result X_journal_trans_commit w) as [r1 w1].
  destruct (is_ok r1); intros H; inversion H; subst; reflexivity.
Qed.

Lemma journal_trans_rollback_refs j w r j' w' :
  journal_trans_rollback j w = (r, j', w') -> j_refs j' = j_refs j.
Proof.
  unfold journal_trans_rollback.
  destruct (next_result X_journal_trans_rollback w) as [r1 w1].
  destruct (is_ok r1); intros H; inversion H; subst; reflexivity.
Qed.

Lemma journal_map_refs j key size w r j' w' :
  journal_map j key size w = (r, j', w') -> j_refs j' = j_refs j.
Proof.
  unfold journal_map. destruct (next_result X_journal_map w) as [r1 w1].
  destruct (is_ok r1); cbn [negb];
    [| intros H; inversion H; subst; reflexivity].
  destruct (length (j_nodes j) <? j_max_nodes j)%nat;
    [intros H; inversion H; subst; reflexivity |].
  destruct (j_nodes j) as [| oldest rest];
    [intros H; inversion H; subst; reflexivity |].
  destruct (has_flag (jn_flags oldest) JOURNAL_DIRTY
            || has_flag (jn_flags oldest) JOURNAL_TRANS);
    intros H; inversion H; subst; reflexivity.
Qed.

Lemma journal_unmap_refs j key valid w r j' w' :
  journal_unmap j key valid w = (r, j', w') -> j_refs j' = j_refs j.
Proof.
  unfold journal_unmap. destruct (next_result X_journal_unmap w) as [r1 w1].
  destruct (is_ok r1); cbn [negb];
    [| intros H; inversion H; subst; reflexivity].
  destruct (rev (j_nodes j)) as [| slot before];
    [intros H; inversion H; subst; reflexivity |].
  destruct (jn_id slot =? key); [destruct valid |];
    intros H; inversion H; subst; reflexivity.
Qed.

Lemma zones_store_changeset_refs chs j w r j' w' :
  zones_store_changeset chs j w = (r, j', w') -> j_refs j' = j_refs j.
Proof.
  unfold zones_store_changeset.
  destruct (journal_map j _ _ w) as [[r1 j1] w1] eqn:Em.
  apply journal_map_refs in Em.
  destruct (is_ok r1); cbn [negb];
    [| intros H; inversion H; subst; exact Em].
  destruct (zones_serialize_and_store_chgset chs w1) as [r2 w2].
  destruct (journal_unmap j1 _ (is_ok r2) w2) as [[r3 j3] w3] eqn:Eu.
  apply journal_unmap_refs in Eu.
  intros H; inversion H; subst. congruence.
Qed.

Lemma store_changeset_list_refs l : forall j w r j' w',
  store_changeset_list l j w = (r, j', w') -> j_refs j' = j_refs j.
Proof.
  induction l as [| chs rest IH]; intros j w r j' w' H.
  - simpl in H. inversion H; subst. reflexivity.
  - cbn [store_changeset_list] in H.
    destruct (zones_store_changeset chs j w) as [[r1 j1] w1] eqn:E1.
    apply zones_store_changeset_refs in E1.
    destruct (is_ok r1).
    + apply IH in H. congruence.
    + inversion H; subst. exact E1.
Qed.

Lemma refs_shifted_refl z : refs_shifted 0 z z.
Proof. unfold refs_shifted. destruct (ixfr_db z); [lia | exact I]. Qed.

Lemma refs_shifted_trans d1 d2 z1 z2 z3 :
  refs_shifted d1 z1 z2 -> refs_shifted d2 z2 z3 ->
  refs_shifted (d1 + d2) z1 z3.
Proof.
  unfold refs_shifted.
  destruct (ixfr_db z1), (ixfr_db z2), (ixfr_db z3); try tauto. lia.
Qed.

Lemma refs_shifted_0 z z' : refs_shifted 0 z z' -> journal_refs z' = journal_refs z.
Proof.
  unfold refs_shifted, journal_refs.
  destruct (ixfr_db z), (ixfr_db z'); try tauto.
  intros H. f_equal. lia.
Qed.

Lemma refs_shifted_set z j j' d :
  ixfr_db z = Some j -> j_refs j' = j_refs j + d ->
  refs_shifted d z (set_ixfr_db z (Some j')).
Proof. intros Hj H. unfold refs_shifted. rewrite Hj. exact H. Qed.

Lemma zones_store_changesets_begin_refs z w t z' w' :
  zones_store_changesets_begin z w = (t, z', w') ->
  refs_shifted (if t then 1 else 0) z z'.
Proof.
  unfold zones_store_changesets_begin.
  destruct (ixfr_db z) as [j |] eqn:Hj.
  - destruct (journal_retain j w) as [[r1 j1] w1] eqn:E1.
    apply journal_retain_refs in E1.
    destruct (is_ok r1); cbn [negb].
    + destruct (journal_trans_begin j1 w1) as [[r2 j2] w2] eqn:E2.
      apply journal_trans_begin_refs in E2.
      destruct (is_ok r2); cbn [negb]; intros H; inversion H; subst;
        apply (refs_shifted_set _ _ _ _ Hj); cbn; lia.
    + intros H; inversion H; subst.
      apply (refs_shifted_set _ _ _ _ Hj); lia.
  - intros H; inversion H; subst. unfold refs_shifted. rewrite Hj. exact I.
Qed.

Lemma zones_store_changesets_refs z src w r z' w' :
  zones_store_changesets z src w = (r, z', w') -> refs_shifted 0 z z'.
Proof.
  unfold zones_store_changesets.
  destruct src as [chgsets |]; [destruct (ixfr_db z) as [j |] eqn:Hj |].
  - destruct (store_changeset_list (sets chgsets) j w) as [[r1 j1] w1] eqn:E1.
    apply store_changeset_list_refs in E1.
    intros H; inversion H; subst. apply (refs_shifted_set _ _ _ _ Hj). lia.
  - intros H; inversion H; subst. apply refs_shifted_refl.
  - intros H; inversion H; subst. apply refs_shifted_refl.
Qed.

Lemma zones_store_changesets_rollback_refs z w r z' w' :
  zones_store_changesets_rollback true z w = (r, z', w') ->
  refs_shifted (-1) z z'.
Proof.
  unfold zones_store_changesets_rollback.
  destruct (ixfr_db z) as [j |] eqn:Hj.
  - destruct (journal_trans_rollback j w) as [[r1 j1] w1] eqn:E1.
    apply journal_trans_rollback_refs in E1.
    intros H; inversion H; subst. apply (refs_shifted_set _ _ _ _ Hj).
    cbn. lia.
  - intros H; inversion H; subst. unfold refs_shifted. rewrite Hj. exact I.
Qed.

Lemma zones_store_changesets_commit_refs z w r z' w' :
  zones_store_changesets_commit true z w = (r, z', w') ->
  refs_shifted (-1) z z'.
Proof.
  unfold zones_store_changesets_commit.
  destruct (ixfr_db z) as [j |] eqn:Hj.
  - destruct (journal_trans_commit j w) as [[r1 j1] w1] eqn:E1.
    apply journal_trans_commit_refs in E1.
    intros H; inversion H; subst. apply (refs_shifted_set _ _ _ _ Hj).
    cbn. lia.
  - intros H; inversion H; subst. unfold refs_shifted. rewrite Hj. exact I.
Qed.

(** One attempt to store: the handle is non-NULL exactly on success, the
    journal is retained exactly then, and on success every changeset of the
    envelope is a complete entry of the open transaction. *)
Lemma zones_store_chgsets_try_store_result z chs w r t z' w' :
  zones_store_chgsets_try_store z chs w = (r, t, z', w') ->
  (t = true <-> r = KNOT_EOK) /\
  refs_shifted (if t then 1 else 0) z z' /\
  (r = KNOT_EOK ->
   exists j', ixfr_db z' = Some j' /\ j_trans j' = true /\
              keys_pending j' (changeset_keys chs)).
Proof.
  unfold zones_store_chgsets_try_store.
  destruct (zones_store_changesets_begin z _) as [[t1 z1] w1] eqn:Eb.
  pose proof (zones_store_changesets_begin_refs _ _ _ _ _ Eb) as R1.
  apply zones_store_changesets_begin_spec in Eb.
  destruct Eb as (_ & _ & Hopen).
  destruct t1; cbn [negb].
  2:{ intros H; inversion H; subst.
      split; [split; discriminate |]. split; [exact R1 | discriminate]. }
  destruct (Hopen eq_refl) as (j1 & Hj1 & Ht1).
  destruct (zones_store_changesets z1 (Some chs) w1) as [[r2 z2] w2] eqn:Es.
  pose proof (zones_store_changesets_refs _ _ _ _ _ _ Es) as R2.
  pose proof (refs_shifted_trans _ _ _ _ _ R1 R2) as R12.
  destruct (is_ok r2) eqn:Hr2; cbn [negb].
  - intros H; inversion H; subst.
    split; [split; reflexivity |]. split; [exact R12 |]. intros _.
    apply is_ok_true in Hr2. subst r2.
    unfold zones_store_changesets in Es. rewrite Hj1 in Es.
    destruct (store_changeset_list (sets chs) j1 w1) as [[r3 j3] w3] eqn:El.
    inversion Es; subst.
    exists j3. split; [reflexivity |].
    pose proof (store_changeset_list_spec _ _ _ _ _ _ El) as (_ & Ht3 & _).
    split; [congruence |].
    apply (store_changeset_list_pending _ _ _ _ _ [] El Ht1).
    intros k [].
  - destruct (zones_store_changesets_rollback true z2 w2)
      as [[r3 z3] w3] eqn:Er.
    apply zones_store_changesets_rollback_refs in Er.
    intros H; inversion H; subst.
    split; [split; [discriminate |] |].
    { intros E. subst. discriminate Hr2. }
    split.
    + apply (refs_shifted_trans _ _ _ _ _ R12 Er).
    + intros E. subst. discriminate Hr2.
Qed.

Lemma zones_zonefile_sync_refs z j w r oz oj w' :
  zones_zonefile_sync (Some z) (Some j) w = (r, oz, oj, w') ->
  exists j', oj = Some j' /\ j_refs j' = j_refs j.
Proof.
  unfold zones_zonefile_sync.
  destruct (contents z) as [zc |];
    [| intros H; inversion H; subst; eexists; split; reflexivity].
  rewrite soa_serial_nonneg.
  destruct (negb (zonefile_serial z =? _));
    [| intros H; inversion H; subst; eexists; split; reflexivity].
  destruct (zones_dump_zone_text zc _ w) as [r1 w1].
  destruct (is_ok r1); cbn [negb];
    [| intros H; inversion H; subst; eexists; split; reflexivity].
  destruct (next_result X_stat w1) as [r2 w2].
  destruct (is_ok r2); cbn [negb];
    intros H; inversion H; subst; eexists; split; reflexivity.
Qed.

Lemma zones_zonefile_sync_from_ev_refs z w r z' w' :
  zones_zonefile_sync_from_ev z w = (r, z', w') -> refs_shifted 0 z z'.
Proof.
  unfold zones_zonefile_sync_from_ev.
  destruct (contents z) as [zc |];
    [| intros H; inversion H; subst; apply refs_shifted_refl].
  destruct (ixfr_db z) as [j |] eqn:Hj;
    [| intros H; inversion H; subst; apply refs_shifted_refl].
  destruct (journal_is_used (Some j));
    [| intros H; inversion H; subst; apply refs_shifted_refl].
  destruct (journal_retain j _) as [[r1 j1] w1] eqn:E1.
  apply journal_retain_refs in E1.
  destruct (is_ok r1) eqn:Hr1.
  - destruct (zones_zonefile_sync _ (Some j1) w1) as [[[r2 oz] oj] w2] eqn:E2.
    pose proof (zones_zonefile_sync_refs _ _ _ _ _ _ _ E2) as (j2 & -> & Hj2).
    apply zones_zonefile_sync_spec in E2.
    destruct E2 as (z2 & j2' & -> & Hoj & _).
    intros H; inversion H; subst.
    unfold refs_shifted. rewrite Hj. cbn. lia.
  - intros H; inversion H; subst.
    unfold refs_shifted. rewrite Hj. cbn. lia.
Qed.

Lemma begin_and_store_result z chs w r t' z' w' :
  zones_store_changesets_begin_and_store z chs false w = (r, t', z', w') ->
  (t' = true <-> r = KNOT_EOK) /\
  refs_shifted (if t' then 1 else 0) z z' /\
  (r = KNOT_EOK ->
   zones_changesets_empty (Some chs) = false /\
   exists j', ixfr_db z' = Some j' /\ j_trans j' = true /\
              keys_pending j' (changeset_keys chs)).
Proof.
  unfold zones_store_changesets_begin_and_store.
  destruct (zones_changesets_empty (Some chs)).
  { intros H; inversion H; subst.
    split; [split; discriminate |]. split; [apply refs_shifted_refl |].
    discriminate. }
  destruct (zones_store_chgsets_try_store z chs w) as [[[r1 t1] z1] w1] eqn:E1.
  apply zones_store_chgsets_try_store_result in E1.
  destruct E1 as (Hiff1 & R1 & P1).
  destruct (knot_error_beq r1 KNOT_EBUSY) eqn:Hb.
  - apply knot_error_beq_ebusy in Hb. subst r1.
    assert (Ht1 : t1 = false).
    { destruct t1; [| reflexivity].
      destruct Hiff1 as [Hiff1 _]. discriminate (Hiff1 eq_refl). }
    subst t1.
    destruct (zones_zonefile_sync_from_ev z1 _) as [[rf z2] w2] eqn:Ef.
    apply zones_zonefile_sync_from_ev_refs in Ef.
    pose proof (refs_shifted_trans _ _ _ _ _ R1 Ef) as R12.
    destruct (is_ok rf) eqn:Hrf; cbn [negb].
    + intros E2. apply zones_store_chgsets_try_store_result in E2.
      destruct E2 as (Hiff2 & R2 & P2).
      split; [exact Hiff2 |]. split.
      * apply (refs_shifted_trans _ _ _ _ _ R12 R2).
      * intros Hr. destruct (P2 Hr) as (j' & ? & ? & ?).
        split; [reflexivity |]. exists j'. repeat split; assumption.
    + intros H; inversion H; subst.
      split; [split; [discriminate |] |].
      { intros E. subst. discriminate Hrf. }
      split; [exact R12 |].
      intros E. subst. discriminate Hrf.
  - intros H; inversion H; subst.
    split; [exact Hiff1 |]. split; [exact R1 |].
    intros Hr. destruct (P1 Hr) as (j' & ? & ? & ?).
    split; [reflexivity |]. exists j'. repeat split; assumption.
Qed.

Lemma zones_store_changesets_commit_pending z w z' w' j ks :
  ixfr_db z = Some j -> keys_pending j ks ->
  zones_store_changesets_commit true z w = (KNOT_EOK, z', w') ->
  incl ks (journal_committed (ixfr_db z')).
Proof.
  intros Hj Hp. unfold zones_store_changesets_commit. rewrite Hj.
  destruct (journal_trans_commit j w) as [[r1 j1] w1] eqn:E1.
  intros H; inversion H; subst.
  apply (journal_trans_commit_pending _ _ _ _ ks) in E1; [| exact Hp].
  exact E1.
Qed.

(** ** Storing changesets: the transaction handle *)



(** X7.  Store, then commit.  When [zones_store_changesets_begin_and_store]
    and the following [zones_store_changesets_commit] both return
    [KNOT_EOK], every changeset of the envelope is a committed journal entry
    under the key made of its serials, the journal holds as many references
    as before the store, and the installed contents are still the old
    ones. *)
Theorem store_then_commit
    (zone : zone_t) (c : knot_changesets_t) (w : world)
    (t' : bool) (z' : zone_t) (w' : world) (z'' : zone_t) (w'' : world) :
  zones_store_changesets_begin_and_store zone c false w
    = (KNOT_EOK, t', z', w') ->
  zones_store_changesets_commit t' z' w' = (KNOT_EOK, z'', w'') ->
  incl (changeset_keys c) (journal_committed (ixfr_db z'')) /\
  journal_refs z'' = journal_refs zone /\
  contents z'' = contents zone.
Proof.
  intros Hstore Hcommit.
  pose proof (begin_and_store_kept _ _ _ _ _ _ _ _ Hstore) as Hk.
  apply zone_kept_committed in Hk. destruct Hk as [Hc _].
  apply begin_and_store_result in Hstore. destruct Hstore as (Hiff & R & P).
  assert (Ht' : t' = true) by (apply Hiff; reflexivity). subst t'.
  destruct (P eq_refl) as (_ & j' & Hj' & _ & Hp).
  pose proof (zones_store_changesets_commit_refs _ _ _ _ _ Hcommit) as R2.
  pose proof (zones_store_changesets_commit_spec _ _ _ _ _ _ Hcommit)
    as (Hc2 & _).
  split; [| split].
  - apply (zones_store_changesets_commit_pending _ _ _ _ _ _ Hj' Hp Hcommit).
  - apply refs_shifted_0.
    apply (refs_shifted_trans _ _ _ _ _ R R2).
  - congruence.
Qed.

Lemma store_then_commit_witness :
  exists t' z' w' z'' w'',
    zones_store_changesets_begin_and_store roomy_zone example_changesets
      false quiet_world = (KNOT_EOK, t', z', w') /\
    zones_store_changesets_commit t' z' w' = (KNOT_EOK, z'', w'') /\
    In (ixfrdb_key_make 100 101) (journal_committed (ixfr_db z'')) /\
    journal_refs z'' = Some 0.
Proof.
  destruct (zones_store_changesets_begin_and_store roomy_zone
              example_changesets false quiet_world)
    as [[[ret t'] z'] w'] eqn:Hstore.
  destruct (zones_store_changesets_commit t' z' w') as [[ret2 z''] w'']
    eqn:Hcommit.
  assert (Hret : ret = KNOT_EOK /\ ret2 = KNOT_EOK).
  { vm_compute in Hstore. inversion Hstore; subst.
    vm_compute in Hcommit. inversion Hcommit. split; reflexivity. }
  destruct Hret as [-> ->].
  destruct (store_then_commit _ _ _ _ _ _ _ _ Hstore Hcommit)
    as (Hin & Hrefs & _).
  exists t', z', w', z'', w''.
  split; [reflexivity |]. split; [exact Hcommit |]. split.
  - apply Hin. left. reflexivity.
  - rewrite Hrefs. reflexivity.
Defined.

(** X8.  Store, then roll back.  After a successful
    [zones_store_changesets_begin_and_store], whatever
    [zones_store_changesets_rollback] returns, no entry has become committed
    that was not committed before the store, the journal holds as many
    references as before, and the installed contents are the old ones. *)
Theorem store_then_rollback
    (zone : zone_t) (c : knot_changesets_t) (w : world)
    (t' : bool) (z' : zone_t) (w' : world)
    (r : knot_error) (z'' : zone_t) (w'' : world) :
  zones_store_changesets_begin_and_store zone c false w
    = (KNOT_EOK, t', z', w') ->
  zones_store_changesets_rollback t' z' w' = (r, z'', w'') ->
  incl (journal_committed (ixfr_db z'')) (journal_committed (ixfr_db zone)) /\
  journal_refs z'' = journal_refs zone /\
  contents z'' = contents zone.
Proof.
  intros Hstore Hroll.
  pose proof (begin_and_store_kept _ _ _ _ _ _ _ _ Hstore) as Hk.
  apply begin_and_store_result in Hstore. destruct Hstore as (Hiff & R & _).
  assert (Ht' : t' = true) by (apply Hiff; reflexivity). subst t'.
  pose proof (zones_store_changesets_rollback_refs _ _ _ _ _ Hroll) as R2.
  apply zones_store_changesets_rollback_spec in Hroll.
  destruct Hroll as [_ Hk2].
  pose proof (zone_kept_trans _ _ _ Hk Hk2) as Hk3.
  apply zone_kept_committed in Hk3. destruct Hk3 as [Hc Hi].
  split; [exact Hi |]. split; [| exact Hc].
  apply refs_shifted_0. apply (refs_shifted_trans _ _ _ _ _ R R2).
Qed.

Lemma store_then_rollback_witness :
  exists t' z' w' r z'' w'',
    zones_store_changesets_begin_and_store roomy_zone example_changesets
      false quiet_world = (KNOT_EOK, t', z', w') /\
    zones_store_changesets_rollback t' z' w' = (r, z'', w'') /\
    incl (journal_committed (ixfr_db z''))
         (journal_committed (ixfr_db roomy_zone)) /\
    journal_refs z'' = Some 0.
Proof.
  destruct (zones_store_changesets_begin_and_store roomy_zone
              example_changesets false quiet_world)
    as [[[ret t'] z'] w'] eqn:Hstore.
  destruct (zones_store_changesets_rollback t' z' w') as [[r z''] w'']
    eqn:Hroll.
  assert (Hret : ret = KNOT_EOK).
  { vm_compute in Hstore. inversion Hstore. reflexivity. }
  subst ret.
  destruct (store_then_rollback _ _ _ _ _ _ _ _ _ Hstore Hroll)
    as (Hin & Hrefs & _).
  exists t', z', w', r, z'', w''.
  split; [reflexivity |]. split; [exact Hroll |]. split; [exact Hin |].
  rewrite Hrefs. reflexivity.
Defined.

(** ** Storing and applying changesets (IXFR, zone signing) *)

Lemma xfrin_switch_zone_spec z nc w r z' w' :
  xfrin_switch_zone z nc w = (r, z', w') ->
  ixfr_db z' = ixfr_db z /\
  (r = KNOT_EOK ->
   contents z' = nc /\ exists w1, w' = emit (EvSwitchZone true) w1) /\
  (r <> KNOT_EOK ->
   z' = z /\ exists w1, w' = emit (EvSwitchZone false) w1).
Proof.
  unfold xfrin_switch_zone.
  destruct (next_result X_switch_zone w) as [r1 w1].
  destruct (is_ok r1) eqn:Hr; intros H; inversion H; subst.
  - split; [reflexivity |]. split.
    + intros _. split; [reflexivity | eexists; reflexivity].
    + intros Hne. destruct Hne. reflexivity.
  - split; [reflexivity |]. split.
    + intros E. subst. discriminate Hr.
    + intros _. split; [reflexivity | eexists; reflexivity].
Qed.

(** X9.  A failing [zones_store_and_apply_chgsets] leaves the old contents
    installed and the journal with as many references as before.  Unless the
    failure is that of the contents switch, no journal entry has become
    committed.  When the switch fails, [KNOT_ERROR] is returned after the
    update was rolled back, with the journal commit already done: every
    changeset of the envelope is a committed journal entry under the key
    made of its serials. *)
Theorem zones_store_and_apply_chgsets_failure
    (apply : zone_t -> knot_changesets_t
             -> knot_error * option knot_zone_contents_t)
    (chs : knot_changesets_t) (zone : zone_t)
    (nc : option knot_zone_contents_t) (w : world)
    (ret : knot_error) (nc' : option knot_zone_contents_t)
    (z' : zone_t) (w' : world) :
  zones_store_and_apply_chgsets apply chs zone nc w = (ret, nc', z', w') ->
  ret <> KNOT_EOK ->
  contents z' = contents zone /\
  journal_refs z' = journal_refs zone /\
  (incl (journal_committed (ixfr_db z')) (journal_committed (ixfr_db zone)) \/
   (ret = KNOT_ERROR /\
    (exists pre, w_trace w' = pre ++ [EvSwitchZone false; EvRollbackUpdate]) /\
    incl (changeset_keys chs) (journal_committed (ixfr_db z')))).
Proof.
  unfold zones_store_and_apply_chgsets. intros Hrun Hne.
  destruct (zones_store_changesets_begin_and_store zone chs false w)
    as [[[r1 t1] z1] w1] eqn:Es.
  pose proof (begin_and_store_kept _ _ _ _ _ _ _ _ Es) as K1.
  apply begin_and_store_result in Es. destruct Es as (Hiff & R1 & P1).
  destruct (is_ok r1) eqn:Hr1; cbn [negb] in Hrun.
  2:{ inversion Hrun; subst.
      assert (Ht : t1 = false).
      { destruct t1; [| reflexivity]. destruct Hne. apply Hiff. reflexivity. }
      subst t1. apply zone_kept_committed in K1. destruct K1 as [Hc Hi].
      split; [exact Hc |]. split; [apply refs_shifted_0; exact R1 |].
      left. exact Hi. }
  apply is_ok_true in Hr1. subst r1.
  assert (Ht : t1 = true) by (apply Hiff; reflexivity). subst t1.
  destruct (P1 eq_refl) as (_ & j1 & Hj1 & _ & Hp).
  destruct (apply z1 chs) as [apply_ret applied].
  destruct (is_ok apply_ret) eqn:Ha; cbn [negb] in Hrun.
  2:{ destruct (zones_store_changesets_rollback true z1 w1)
        as [[r2 z2] w2] eqn:Er.
      inversion Hrun; subst.
      pose proof (zones_store_changesets_rollback_refs _ _ _ _ _ Er) as R2.
      apply zones_store_changesets_rollback_spec in Er. destruct Er as [_ K2].
      pose proof (zone_kept_trans _ _ _ K1 K2) as K.
      apply zone_kept_committed in K. destruct K as [Hc Hi].
      split; [exact Hc |]. split; [| left; exact Hi].
      apply refs_shifted_0. apply (refs_shifted_trans _ _ _ _ _ R1 R2). }
  destruct (zones_store_changesets_commit true z1 w1) as [[r2 z2] w2] eqn:Ec.
  pose proof (zones_store_changesets_commit_refs _ _ _ _ _ Ec) as R2.
  pose proof (refs_shifted_trans _ _ _ _ _ R1 R2) as R12.
  pose proof (zones_store_changesets_commit_spec _ _ _ _ _ _ Ec)
    as (Hc2 & _ & _ & Hk2).
  apply zone_kept_committed in K1. destruct K1 as [Hc1 Hi1].
  destruct (is_ok r2) eqn:Hr2; cbn [negb] in Hrun.
  2:{ inversion Hrun; subst.
      split; [congruence |]. split; [apply refs_shifted_0; exact R12 |].
      left. apply is_ok_false_not_eok in Hr2.
      apply Hk2 in Hr2. apply zone_kept_committed in Hr2.
      destruct Hr2 as [_ Hi2]. eapply incl_tran; eassumption. }
  apply is_ok_true in Hr2. subst r2.
  pose proof (zones_store_changesets_commit_pending _ _ _ _ _ _ Hj1 Hp Ec)
    as Hin.
  destruct (xfrin_switch_zone z2 applied w2) as [[r3 z3] w3] eqn:Esw.
  apply xfrin_switch_zone_spec in Esw. destruct Esw as (Hdb & _ & Hko).
  destruct (is_ok r3) eqn:Hr3; cbn [negb] in Hrun.
  { inversion Hrun; subst. destruct Hne. reflexivity. }
  inversion Hrun; subst.
  apply is_ok_false_not_eok in Hr3.
  destruct (Hko Hr3) as (-> & w0 & ->).
  split; [congruence |]. split; [apply refs_shifted_0; exact R12 |].
  right. split; [reflexivity |]. split; [| exact Hin].
  exists (w_trace w0). unfold xfrin_rollback_update, emit. cbn [w_trace].
  rewrite <- app_assoc. reflexivity.
Qed.

Lemma zones_store_and_apply_chgsets_failure_witness :
  exists nc' z' w',
    zones_store_and_apply_chgsets example_apply example_changesets
      roomy_zone None (scripted X_switch_zone [KNOT_ENOMEM])
    = (KNOT_ERROR, nc', z', w') /\
    knot_zone_serial (contents z') = 100 /\
    journal_refs z' = journal_refs roomy_zone /\
    In (ixfrdb_key_make 100 101) (journal_committed (ixfr_db z')) /\
    ~ In (ixfrdb_key_make 100 101) (journal_committed (ixfr_db roomy_zone)).
Proof.
  destruct (zones_store_and_apply_chgsets example_apply example_changesets
              roomy_zone None (scripted X_switch_zone [KNOT_ENOMEM]))
    as [[[ret nc'] z'] w'] eqn:Hrun.
  assert (Hret : ret = KNOT_ERROR).
  { vm_compute in Hrun. inversion Hrun. reflexivity. }
  assert (Hne : ret <> KNOT_EOK) by (rewrite Hret; discriminate).
  assert (Hnew : ~ In (ixfrdb_key_make 100 101)
                      (journal_committed (ixfr_db roomy_zone))).
  { vm_compute. intros [H | []]. discriminate H. }
  destruct (zones_store_and_apply_chgsets_failure _ _ _ _ _ _ _ _ _ Hrun Hne)
    as (Hc & Hrefs & [Hi | (_ & _ & Hin)]).
  - exfalso. apply Hnew. apply Hi.
    vm_compute in Hrun. inversion Hrun; subst. vm_compute.
    right. left. reflexivity.
  - subst ret. exists nc', z', w'.
    split; [reflexivity |]. split; [rewrite Hc; reflexivity |].
    split; [exact Hrefs |]. split; [| exact Hnew].
    apply Hin. left. reflexivity.
Defined.

(** X10.  A successful [zones_store_and_apply_chgsets] has stored a
    non-empty envelope, applied it to the zone, committed the journal and
    then switched the contents: the contents installed are the ones
    [xfrin_apply_changesets] prepared, every changeset of the envelope is a
    committed journal entry under the key made of its serials, the journal
    holds as many references as before, and the switch is the last thing
    that happened. *)
Theorem zones_store_and_apply_chgsets_success
    (apply : zone_t -> knot_changesets_t
             -> knot_error * option knot_zone_contents_t)
    (chs : knot_changesets_t) (zone : zone_t)
    (nc : option knot_zone_contents_t) (w : world)
    (nc' : option knot_zone_contents_t) (z' : zone_t) (w' : world) :
  zones_store_and_apply_chgsets apply chs zone nc w = (KNOT_EOK, nc', z', w') ->
  exists z1,
    zones_changesets_empty (Some chs) = false /\
    contents z1 = contents zone /\ apply z1 chs = (KNOT_EOK, nc') /\
    contents z' = nc' /\
    incl (changeset_keys chs) (journal_committed (ixfr_db z')) /\
    journal_refs z' = journal_refs zone /\
    exists pre, w_trace w' = pre ++ [EvSwitchZone true].
Proof.
  unfold zones_store_and_apply_chgsets. intros Hrun.
  destruct (zones_changesets_empty (Some chs)) eqn:Hempty.
  { unfold zones_store_changesets_begin_and_store in Hrun.
    rewrite Hempty in Hrun. cbn in Hrun. discriminate Hrun. }
  destruct (zones_store_changesets_begin_and_store zone chs false w)
    as [[[r1 t1] z1] w1] eqn:Es.
  pose proof (begin_and_store_kept _ _ _ _ _ _ _ _ Es) as K1.
  apply begin_and_store_result in Es. destruct Es as (Hiff & R1 & P1).
  destruct (is_ok r1) eqn:Hr1; cbn [negb] in Hrun.
  2:{ inversion Hrun; subst. discriminate Hr1. }
  apply is_ok_true in Hr1. subst r1.
  assert (Ht : t1 = true) by (apply Hiff; reflexivity). subst t1.
  destruct (P1 eq_refl) as (_ & j1 & Hj1 & _ & Hp).
  destruct (apply z1 chs) as [apply_ret applied] eqn:Ea.
  destruct (is_ok apply_ret) eqn:Ha; cbn [negb] in Hrun.
  2:{ destruct (zones_store_changesets_rollback true z1 w1) as [[r2 z2] w2].
      inversion Hrun; subst. discriminate Ha. }
  apply is_ok_true in Ha. subst apply_ret.
  destruct (zones_store_changesets_commit true z1 w1) as [[r2 z2] w2] eqn:Ec.
  pose proof (zones_store_changesets_commit_refs _ _ _ _ _ Ec) as R2.
  pose proof (refs_shifted_trans _ _ _ _ _ R1 R2) as R12.
  destruct (is_ok r2) eqn:Hr2; cbn [negb] in Hrun.
  2:{ inversion Hrun; subst. discriminate Hr2. }
  apply is_ok_true in Hr2. subst r2.
  pose proof (zones_store_changesets_commit_pending _ _ _ _ _ _ Hj1 Hp Ec)
    as Hin.
  destruct (xfrin_switch_zone z2 applied w2) as [[r3 z3] w3] eqn:Esw.
  apply xfrin_switch_zone_spec in Esw. destruct Esw as (Hdb & Hok & _).
  destruct (is_ok r3) eqn:Hr3; cbn [negb] in Hrun.
  2:{ inversion Hrun. }
  apply is_ok_true in Hr3. subst r3. inversion Hrun; subst.
  destruct (Hok eq_refl) as (Hc3 & w0 & ->).
  apply zone_kept_committed in K1. destruct K1 as [Hc1 _].
  exists z1.
  split; [reflexivity |].
  split; [exact Hc1 |]. split; [exact Ea |]. split; [exact Hc3 |].
  split; [rewrite Hdb; exact Hin |].
  split.
  - unfold journal_refs. rewrite Hdb. apply refs_shifted_0. exact R12.
  - exists (w_trace w0). reflexivity.
Qed.

Lemma zones_store_and_apply_chgsets_success_witness :
  exists nc' z' w',
    zones_store_and_apply_chgsets example_apply example_changesets
      roomy_zone None quiet_world = (KNOT_EOK, nc', z', w') /\
    knot_zone_serial (contents z') = 101 /\
    In (ixfrdb_key_make 100 101) (journal_committed (ixfr_db z')) /\
    journal_refs z' = Some 0.
Proof.
  destruct (zones_store_and_apply_chgsets example_apply
              example_changesets roomy_zone None quiet_world)
    as [[[ret nc'] z'] w'] eqn:Hrun.
  assert (Hret : ret = KNOT_EOK).
  { vm_compute in Hrun. inversion Hrun. reflexivity. }
  subst ret.
  destruct (zones_store_and_apply_chgsets_success _ _ _ _ _ _ _ _ Hrun)
    as (z1 & _ & _ & Ha & Hcont & Hin & Hrefs & _).
  exists nc', z', w'.
  split; [reflexivity |].
  split; [rewrite Hcont; unfold example_apply in Ha; inversion Ha; reflexivity |].
  split; [apply Hin; left; reflexivity |].
  rewrite Hrefs. reflexivity.
Defined.

(** ** The flush: failures, and the flush event *)

(** X11.  [zones_dump_zone_text] replaces the zonefile only by renaming a
    completely written temporary file over it: a run that returns
    [KNOT_EOK] writes the temporary file and then replaces the zonefile, both
    at the serial of the dumped contents; a failed run leaves the zonefile
    alone (at most the temporary file was written). *)
Theorem zones_dump_zone_text_atomic
    (zc : knot_zone_contents_t) (fname : string) (w : world)
    (r : knot_error) (w' : world) :
  zones_dump_zone_text zc fname w = (r, w') ->
  let serial := knot_zone_serial (Some zc) in
  (r = KNOT_EOK /\
   w_trace w' = w_trace w ++ [EvTmpfileWrite fname serial;
                              EvZonefileReplace fname serial]) \/
  (r <> KNOT_EOK /\
   (w_trace w' = w_trace w \/
    w_trace w' = w_trace w ++ [EvTmpfileWrite fname serial])).
Proof.
  intros H serial. unfold zones_dump_zone_text in H. revert H.
  destruct (next_result X_mkstemp w) as [r1 w1] eqn:E1.
  apply next_result_frame in E1. destruct E1 as (T1 & _).
  destruct (is_ok r1); cbn [negb].
  2:{ intros H; inversion H; subst. right. split; [discriminate |].
      left. exact T1. }
  destruct (next_result X_fdopen w1) as [r2 w2] eqn:E2.
  apply next_result_frame in E2. destruct E2 as (T2 & _).
  destruct (is_ok r2); cbn [negb].
  2:{ intros H; inversion H; subst. right. split; [discriminate |].
      left. congruence. }
  destruct (next_result X_zone_dump_text w2) as [r3 w3] eqn:E3.
  apply next_result_frame in E3. destruct E3 as (T3 & _).
  destruct (is_ok r3); cbn [negb].
  2:{ intros H; inversion H; subst. right. split; [discriminate |].
      left. congruence. }
  destruct (next_result X_rename (emit _ w3)) as [r4 w4] eqn:E4.
  apply next_result_frame in E4. destruct E4 as (T4 & _).
  cbn [emit w_trace] in T4.
  destruct (is_ok r4); cbn [negb]; intros H; inversion H; subst.
  - left. split; [reflexivity |]. cbn [emit w_trace].
    rewrite T4, T3, T2, T1, <- app_assoc. reflexivity.
  - right. split; [discriminate |]. right.
    rewrite T4, T3, T2, T1. reflexivity.
Qed.

Lemma zones_dump_zone_text_atomic_witness :
  exists w',
    zones_dump_zone_text example_contents "example.com.zone"
      (scripted X_rename [KNOT_EACCES]) = (KNOT_ERROR, w') /\
    w_trace w' = [EvTmpfileWrite "example.com.zone" 100].
Proof.
  destruct (zones_dump_zone_text example_contents "example.com.zone"
              (scripted X_rename [KNOT_EACCES])) as [r w'] eqn:Hrun.
  assert (Hr : r = KNOT_ERROR).
  { vm_compute in Hrun. inversion Hrun. reflexivity. }
  destruct (zones_dump_zone_text_atomic _ _ _ _ _ Hrun)
    as [[He _] | [_ [Ht | Ht]]].
  - rewrite Hr in He. discriminate He.
  - exfalso. vm_compute in Hrun. inversion Hrun; subst.
    cbn in Ht. discriminate Ht.
  - subst r. exists w'. split; [reflexivity | exact Ht].
Defined.

(** X12.  A [zones_zonefile_sync] that does not return [KNOT_EOK] changes
    neither the zone nor the journal: [zonefile_serial] is not advanced and
    no DIRTY flag is cleared.  A NULL zone, a NULL journal or a zone
    without contents gives [KNOT_EINVAL] with nothing done; [KNOT_ERANGE] is
    returned only when the zonefile is at the serial of the contents, again
    with nothing done. *)
Theorem zones_zonefile_sync_failure
    (zone : option zone_t) (journal : option journal_t) (w : world)
    (r : knot_error) (oz : option zone_t) (oj : option journal_t)
    (w' : world) :
  zones_zonefile_sync zone journal w = (r, oz, oj, w') ->
  r <> KNOT_EOK ->
  oz = zone /\ oj = journal /\
  ((zone = None \/ journal = None \/
    exists z, zone = Some z /\ contents z = None) ->
   r = KNOT_EINVAL /\ w' = w) /\
  (r = KNOT_ERANGE ->
   w' = w /\
   exists z zc, zone = Some z /\ contents z = Some zc /\
                zonefile_serial z = knot_rdata_soa_serial (apex_soa zc)).
Proof.
  unfold zones_zonefile_sync. intros H Hne. revert H.
  destruct zone as [z |].
  2:{ intros H; inversion H; subst. repeat split; try reflexivity.
      discriminate. }
  destruct journal as [j |].
  2:{ intros H; inversion H; subst. repeat split; try reflexivity.
      discriminate. }
  destruct (contents z) as [zc |] eqn:Hc.
  2:{ intros H; inversion H; subst. repeat split; try reflexivity.
      discriminate. }
  assert (Hnull : (Some z = None \/ @Some journal_t j = None \/
                   exists z0, Some z = Some z0 /\ contents z0 = None) -> False).
  { intros [E | [E | (z0 & E & Hc0)]]; try discriminate E.
    inversion E; subst. congruence. }
  rewrite soa_serial_nonneg, soa_serial_uint32.
  destruct (zonefile_serial z =? _) eqn:Hs; cbn [negb].
  { intros H; inversion H; subst. apply Z.eqb_eq in Hs.
    split; [reflexivity |]. split; [reflexivity |].
    split; [intros E; destruct (Hnull E) |].
    intros _. split; [reflexivity |]. exists z, zc. repeat split; assumption. }
  destruct (zones_dump_zone_text zc _ w) as [r1 w1] eqn:Ed.
  assert (Hd : r1 <> KNOT_ERANGE).
  { unfold zones_dump_zone_text in Ed.
    repeat match type of Ed with
           | context [next_result ?c ?w0] =>
               destruct (next_result c w0) as [? ?]
           | context [if negb (is_ok ?x) then _ else _] =>
               destruct (is_ok x); cbn [negb] in Ed
           end;
      inversion Ed; subst; discriminate. }
  destruct (is_ok r1) eqn:Hr1; cbn [negb].
  2:{ intros H; inversion H; subst.
      split; [reflexivity |]. split; [reflexivity |].
      split; [intros E; destruct (Hnull E) |].
      intros E. destruct (Hd E). }
  destruct (next_result X_stat w1) as [r2 w2].
  destruct (is_ok r2); cbn [negb]; intros H; inversion H; subst.
  - destruct Hne. reflexivity.
  - split; [reflexivity |]. split; [reflexivity |].
    split; [intros E; destruct (Hnull E) |]. discriminate.
Qed.

Lemma zones_zonefile_sync_failure_witness :
  exists w',
    zones_zonefile_sync (Some full_zone) (Some full_journal)
      (scripted X_stat [KNOT_EACCES])
    = (KNOT_ERROR, Some full_zone, Some full_journal, w') /\
    zonefile_writes (w_trace w') = 1%nat.
Proof.
  destruct (zones_zonefile_sync (Some full_zone) (Some full_journal)
              (scripted X_stat [KNOT_EACCES])) as [[[r oz] oj] w'] eqn:Hrun.
  assert (Hr : r = KNOT_ERROR /\ zonefile_writes (w_trace w') = 1%nat).
  { vm_compute in Hrun. inversion Hrun. split; reflexivity. }
  destruct Hr as [Hr Hw].
  assert (Hne : r <> KNOT_EOK) by (rewrite Hr; discriminate).
  destruct (zones_zonefile_sync_failure _ _ _ _ _ _ _ Hrun Hne)
    as (-> & -> & _).
  subst r. exists w'. split; [reflexivity | exact Hw].
Defined.

(** X13.  [zones_flush_ev] returns what the flush returns and, whatever
    that is, schedules itself again after [dbsync_timeout] seconds exactly
    when the configured timeout is positive; with a timeout of 0 (or a
    negative one) the event is not rescheduled.  (The timeout is taken small
    enough for its milliseconds to fit an [int].) *)
Theorem zones_flush_ev_reschedules
    (zone : zone_t) (w : world) (r : knot_error) (oz : option zone_t)
    (w' : world) :
  - 2147483 <= dbsync_timeout (conf zone) <= 2147483 ->
  zones_flush_ev (Some zone) w = (r, oz, w') ->
  exists z1 w1,
    zones_zonefile_sync_from_ev zone w = (r, z1, w1) /\ oz = Some z1 /\
    (0 < dbsync_timeout (conf zone) ->
     w' = emit (EvScheduleIxfrSync (dbsync_timeout (conf zone) * 1000)) w1) /\
    (dbsync_timeout (conf zone) <= 0 -> w' = w1).
Proof.
  intros Hrange. unfold zones_flush_ev.
  destruct (zones_zonefile_sync_from_ev zone w) as [[r1 z1] w1] eqn:Ef.
  pose proof (zones_zonefile_sync_from_ev_spec _ _ _ _ _ Ef) as (_ & _ & Hk).
  destruct Hk as (_ & Hconf & _). rewrite Hconf.
  rewrite to_int_small by lia.
  intros H. exists z1, w1. split; [congruence |].
  destruct (dbsync_timeout (conf zone) * 1000 >? 0) eqn:Hpos;
    inversion H; subst; split; try reflexivity.
  - split; [reflexivity | lia].
  - split; [lia | reflexivity].
Qed.

Lemma zones_flush_ev_reschedules_witness :
  exists oz w',
    zones_flush_ev (Some roomy_zone) (scripted X_mkstemp [KNOT_EACCES])
      = (KNOT_EWRITABLE, oz, w') /\
    exists w1, w' = emit (EvScheduleIxfrSync 30000) w1.
Proof.
  destruct (zones_flush_ev (Some roomy_zone) (scripted X_mkstemp [KNOT_EACCES]))
    as [[r oz] w'] eqn:Hrun.
  assert (Hr : r = KNOT_EWRITABLE).
  { vm_compute in Hrun. inversion Hrun. reflexivity. }
  assert (Hrange : - 2147483 <= dbsync_timeout (conf roomy_zone) <= 2147483)
    by (cbn; lia).
  destruct (zones_flush_ev_reschedules _ _ _ _ _ Hrange Hrun)
    as (z1 & w1 & _ & _ & Hpos & _).
  subst r. exists oz, w'. split; [reflexivity |].
  exists w1. apply Hpos. cbn. lia.
Defined.

(** ** The UPDATE path: what a success leaves behind *)

Lemma knot_changeset_merge_serials a b w r merged w' :
  knot_changeset_merge a b w = (r, merged, w') ->
  r = KNOT_EOK ->
  serial_from merged = serial_from a /\ serial_to merged = serial_to b.
Proof.
  unfold knot_changeset_merge.
  destruct (next_result X_changeset_merge w) as [r0 w0].
  destruct (is_ok r0) eqn:Hr0; cbn [negb]; intros H; inv_pair H.
  - intros _. split; reflexivity.
  - intros E. subst. discriminate Hr0.
Qed.

Lemma merge_and_store_result zone diff_chs sec_chs w ret chs' t' z' w' :
  zones_merge_and_store_changesets zone diff_chs sec_chs false w
    = Some (ret, chs', t', z', w') ->
  refs_shifted (if t' then 1 else 0) zone z' /\
  (ret <> KNOT_EOK -> t' = false) /\
  (ret = KNOT_EOK -> zones_changesets_empty diff_chs = false ->
   t' = true /\
   exists c j', chs' = Some c /\ ixfr_db z' = Some j' /\
                keys_pending j' (changeset_keys c)) /\
  (zones_changesets_empty sec_chs = true -> chs' = diff_chs) /\
  (ret = KNOT_EOK -> zones_changesets_empty diff_chs = false ->
   zones_changesets_empty sec_chs = false ->
   exists dchs schs diff_ch sec_ch merged,
     diff_chs = Some dchs /\ sec_chs = Some schs /\
     knot_changesets_get_last dchs = Some diff_ch /\
     knot_changesets_get_last schs = Some sec_ch /\
     chs' = Some (set_last dchs merged) /\
     serial_from merged = serial_from diff_ch /\
     serial_to merged = serial_to sec_ch).
Proof.
  unfold zones_merge_and_store_changesets.
  assert (Hstore : forall chs w0 r1 t1 z1 w1,
            zones_store_changesets_begin_and_store zone chs false w0
              = (r1, t1, z1, w1) ->
            refs_shifted (if t1 then 1 else 0) zone z1 /\
            (r1 <> KNOT_EOK -> t1 = false) /\
            (r1 = KNOT_EOK ->
             t1 = true /\
             exists c j', Some chs = Some c /\ ixfr_db z1 = Some j' /\
                          keys_pending j' (changeset_keys c))).
  { intros chs w0 r1 t1 z1 w1 E.
    apply begin_and_store_result in E. destruct E as (Hiff & R & P).
    split; [exact R |]. split.
    - intros Hne. destruct t1; [| reflexivity].
      destruct Hne. apply Hiff. reflexivity.
    - intros Hok. split; [apply Hiff; exact Hok |].
      destruct (P Hok) as (_ & j' & ? & _ & ?).
      exists chs, j'. repeat split; assumption. }
  destruct (zones_changesets_empty diff_chs) eqn:Hd;
    destruct (zones_changesets_empty sec_chs) eqn:Hs; cbn [andb negb].
  - intros H; inv_pair H.
    split; [apply refs_shifted_refl |]. split; [reflexivity |].
    split; [discriminate |]. split; [reflexivity | discriminate].
  - destruct sec_chs as [schs |]; [| discriminate Hs].
    cbn [obind begin_and_store_call assert_nonnull].
    destruct (zones_store_changesets_begin_and_store zone schs false w)
      as [[[r1 t1] z1] w1] eqn:E1.
    apply Hstore in E1. destruct E1 as (R & Hf & _).
    intros H; inv_pair H.
    split; [exact R |]. split; [exact Hf |].
    split; [discriminate |]. split; [discriminate | discriminate].
  - destruct diff_chs as [dchs |]; [| discriminate Hd].
    cbn [obind begin_and_store_call assert_nonnull].
    destruct (zones_store_changesets_begin_and_store zone dchs false w)
      as [[[r1 t1] z1] w1] eqn:E1.
    apply Hstore in E1. destruct E1 as (R & Hf & Hok).
    intros H; inv_pair H.
    split; [exact R |]. split; [exact Hf |].
    split; [intros E _; apply Hok; exact E |].
    split; [reflexivity | discriminate].
  - destruct diff_chs as [dchs |]; [| discriminate Hd].
    destruct sec_chs as [schs |]; [| discriminate Hs].
    cbn [obind].
    destruct (knot_changesets_get_last dchs) as [diff_ch |] eqn:Hld;
      cbn [obind]; [| discriminate].
    destruct (knot_changesets_get_last schs) as [sec_ch |] eqn:Hls;
      cbn [obind]; [| discriminate].
    destruct (negb (serial_to diff_ch =? serial_from sec_ch));
      [discriminate |].
    destruct (knot_changeset_merge diff_ch sec_ch w) as [[r0 merged] w0]
      eqn:Em.
    pose proof (knot_changeset_merge_serials _ _ _ _ _ _ Em) as Hm.
    destruct (is_ok r0) eqn:Hr0; cbn [negb].
    2:{ intros H; inv_pair H.
        split; [apply refs_shifted_refl |]. split; [reflexivity |].
        split; [intros E; subst; discriminate Hr0 |].
        split; [discriminate |]. intros E; subst; discriminate Hr0. }
    apply is_ok_true in Hr0. destruct (Hm Hr0) as [Hmf Hmt].
    destruct (negb (serial_to merged =? serial_to sec_ch)); [discriminate |].
    destruct (negb (same_soa (soa_to merged) (soa_to sec_ch)));
      [discriminate |].
    cbn [obind begin_and_store_call assert_nonnull].
    destruct (zones_store_changesets_begin_and_store zone _ false w0)
      as [[[r1 t1] z1] w1] eqn:E1.
    apply Hstore in E1. destruct E1 as (R & Hf & Hok).
    intros H; inv_pair H.
    split; [exact R |]. split; [exact Hf |].
    split; [intros E _; apply Hok; exact E |].
    split; [discriminate |].
    intros _ _ _. exists dchs, schs, diff_ch, sec_ch, merged.
    repeat split; assumption.
Qed.

Lemma update_commit_and_switch_result z nc t rc w ret rc' z' w' :
  update_commit_and_switch z nc t rc w = (ret, rc', z', w') ->
  (t = true -> refs_shifted (-1) z z') /\
  (t = false -> ixfr_db z' = ixfr_db z) /\
  (ret = KNOT_EOK ->
   rc' = KNOT_RCODE_NOERROR /\ contents z' = nc /\
   In (EvSwitchZone true) (w_trace w') /\
   (t = true -> forall j ks, ixfr_db z = Some j -> keys_pending j ks ->
                             incl ks (journal_committed (ixfr_db z')))).
Proof.
  unfold update_commit_and_switch.
  assert (Hcommit : exists r1 z1 w1,
            (if t then zones_store_changesets_commit t z w
             else (KNOT_EOK, z, w)) = (r1, z1, w1) /\
            (t = true -> refs_shifted (-1) z z1) /\
            (t = false -> z1 = z) /\
            (r1 = KNOT_EOK -> t = true ->
             forall j ks, ixfr_db z = Some j -> keys_pending j ks ->
                          incl ks (journal_committed (ixfr_db z1)))).
  { destruct t.
    - destruct (zones_store_changesets_commit true z w) as [[r1 z1] w1] eqn:Ec.
      exists r1, z1, w1. split; [reflexivity |].
      split; [intros _; eapply zones_store_changesets_commit_refs; exact Ec |].
      split; [discriminate |].
      intros -> _ j ks Hj Hp.
      eapply zones_store_changesets_commit_pending; eassumption.
    - exists KNOT_EOK, z, w. split; [reflexivity |].
      split; [discriminate |]. split; [reflexivity | discriminate]. }
  destruct Hcommit as (r1 & z1 & w1 & -> & R1 & Hsame & Hpend).
  destruct (is_ok r1) eqn:Hr1; cbn [negb].
  2:{ intros H; inv_pair H. split; [exact R1 |].
      split; [intros Ht; rewrite (Hsame Ht); reflexivity |].
      intros E. subst. discriminate Hr1. }
  apply is_ok_true in Hr1. subst r1.
  destruct (xfrin_switch_zone z1 nc w1) as [[r2 z2] w2] eqn:Esw.
  apply xfrin_switch_zone_spec in Esw. destruct Esw as (Hdb & Hok & Hko).
  assert (R2 : t = true -> refs_shifted (-1) z z2).
  { intros Ht. specialize (R1 Ht). unfold refs_shifted in *.
    rewrite Hdb. exact R1. }
  assert (S2 : t = false -> ixfr_db z2 = ixfr_db z).
  { intros Ht. rewrite Hdb, (Hsame Ht). reflexivity. }
  destruct (is_ok r2) eqn:Hr2; cbn [negb].
  2:{ intros H; inv_pair H. split; [exact R2 |]. split; [exact S2 |].
      discriminate. }
  apply is_ok_true in Hr2. subst r2.
  destruct (Hok eq_refl) as (Hc & w0 & ->).
  intros H; inv_pair H.
  split; [exact R2 |]. split; [exact S2 |]. intros _.
  split; [reflexivity |]. split; [reflexivity |]. split.
  - assert (Hin : In (EvSwitchZone true)
                     (w_trace (emit (EvLog LogUpdateFinished)
                                    (emit (EvSwitchZone true) w0)))).
    { cbn [emit w_trace]. apply in_or_app. left. apply in_or_app. right.
      left. reflexivity. }
    destruct (dbsync_timeout (conf z') =? 0); [| exact Hin].
    unfold zones_schedule_ixfr_sync.
    destruct (ixfr_dbsync z'); [| exact Hin].
    cbn [emit w_trace] in *. apply in_or_app. left. exact Hin.
  - intros Ht j ks Hj Hp. rewrite Hdb. apply (Hpend eq_refl Ht j ks Hj Hp).
Qed.

Lemma knot_ns_process_update_applied query old_contents chgsets rcode
    new_serial w nc chs' rc' w' :
  knot_ns_process_update query old_contents chgsets rcode new_serial w
    = (UPDATE_APPLIED, nc, chs', rc', w') ->
  exists old ch,
    old_contents = Some old /\
    nc = Some (updated_contents old query new_serial) /\
    chs' = mkChangesets [ch] /\
    serial_from ch = knot_zone_serial old_contents /\
    serial_to ch = new_serial /\
    zones_changesets_empty (Some chs') = false /\
    rc' = rcode.
Proof.
  unfold knot_ns_process_update.
  destruct (next_result X_ns_process_update w) as [r w1].
  destruct (is_ok r); cbn [negb]; [| discriminate].
  destruct old_contents as [old |]; [| discriminate].
  destruct (upd_remove query) as [| r1 rs] eqn:Hrm;
    destruct (upd_add query) as [| a1 as'] eqn:Had;
    try discriminate;
    intros H; inv_pair H; eexists; eexists;
      repeat split; reflexivity.
Qed.

Lemma dnssec_sign_serial call sec_ch new_serial w r sec_ch' refresh_at w' :
  dnssec_sign call sec_ch new_serial w = (r, sec_ch', refresh_at, w') ->
  sec_ch' = sec_ch \/ (serial_to sec_ch' = new_serial /\ add sec_ch' <> []).
Proof.
  unfold dnssec_sign. destruct (next_result call w) as [r1 w1].
  destruct (is_ok r1); cbn [negb]; [| intros H; inv_pair H; left; reflexivity].
  destruct (w_signatures w1) as [| s sigs];
    intros H; inv_pair H; [left; reflexivity |].
  right. split; [reflexivity | discriminate].
Qed.

Lemma zones_next_serial_fst ns zone w w1 :
  w_now w1 = w_now w ->
  fst (zones_next_serial ns zone w1) = fst (zones_next_serial ns zone w).
Proof.
  intros Hnow. unfold zones_next_serial. cbn [fst]. rewrite Hnow. reflexivity.
Qed.

Lemma zones_next_serial_uint32 ns zone w :
  uint32 (fst (zones_next_serial ns zone w)) = fst (zones_next_serial ns zone w).
Proof.
  unfold zones_next_serial. cbn [fst].
  destruct (zones_serial_policy zone); apply uint32_uint32.
Qed.

Lemma knot_ns_process_update_failed query old_contents chgsets rcode
    new_serial w e nc chs' rc' w' :
  knot_ns_process_update query old_contents chgsets rcode new_serial w
    = (UPDATE_FAILED e, nc, chs', rc', w') ->
  e <> KNOT_EOK.
Proof.
  unfold knot_ns_process_update.
  destruct (next_result X_ns_process_update w) as [r w1].
  destruct (is_ok r) eqn:Hr; cbn [negb].
  - destruct old_contents as [old |]; [| intros H; inv_pair H; discriminate].
    destruct (upd_remove query); destruct (upd_add query); discriminate.
  - intros H; inv_pair H. apply is_ok_false_not_eok. exact Hr.
Qed.

Ltac eok_absurd H :=
  inversion H; subst;
  match goal with
  | E : is_ok KNOT_EOK = false |- _ => discriminate E
  end.

Lemma set_last_singleton c c' :
  set_last (mkChangesets [c]) c' = mkChangesets [c'].
Proof. reflexivity. Qed.

(** ** The UPDATE path: the assertions on the merged changesets hold *)

Lemma same_soa_refl (a : option knot_rrset_t) : same_soa a a = true.
Proof.
  destruct a as [x |]; [| reflexivity].
  unfold same_soa, knot_rrset_equal. rewrite Z.eqb_refl.
  destruct (list_eq_dec Z.eq_dec (rr_wire x) (rr_wire x)) as [_ | Hn];
    [reflexivity | destruct Hn; reflexivity].
Qed.

Lemma dnssec_sign_from call sec_ch new_serial w r sec_ch' refresh_at w' :
  dnssec_sign call sec_ch new_serial w = (r, sec_ch', refresh_at, w') ->
  sec_ch' = sec_ch \/ serial_from sec_ch' = new_serial.
Proof.
  unfold dnssec_sign. destruct (next_result call w) as [r1 w1].
  destruct (is_ok r1); cbn [negb]; [| intros H; inv_pair H; left; reflexivity].
  destruct (w_signatures w1) as [| s sigs];
    intros H; inv_pair H; [left; reflexivity | right; reflexivity].
Qed.

(** The DNSSEC changeset of an update is empty or starts at the serial the
    changeset of the update ends at; merging keeps the end of the second
    changeset: none of the three assertions fails. *)
Lemma merge_and_store_returns zone ch sc sec_chs tr w :
  sec_chs = None \/ sec_chs = Some (mkChangesets [sc]) ->
  sc = empty_changeset \/ serial_from sc = serial_to ch ->
  exists r,
    zones_merge_and_store_changesets zone (Some (mkChangesets [ch])) sec_chs
      tr w = Some r.
Proof.
  intros Hsec Hsc. unfold zones_merge_and_store_changesets.
  destruct (zones_changesets_empty (Some (mkChangesets [ch]))) eqn:Ha;
    destruct (zones_changesets_empty sec_chs) eqn:Hb; cbn [andb negb].
  - eexists; reflexivity.
  - destruct Hsec as [-> | ->]; [discriminate Hb |].
    cbn [obind begin_and_store_call assert_nonnull].
    destruct (zones_store_changesets_begin_and_store zone _ tr w)
      as [[[? ?] ?] ?].
    eexists; reflexivity.
  - cbn [obind begin_and_store_call assert_nonnull].
    destruct (zones_store_changesets_begin_and_store zone _ tr w)
      as [[[? ?] ?] ?].
    eexists; reflexivity.
  - destruct Hsec as [-> | ->]; [discriminate Hb |].
    cbn [obind knot_changesets_get_last sets rev app].
    destruct Hsc as [-> | Hfrom]; [discriminate Hb |].
    rewrite Hfrom, Z.eqb_refl. cbn [negb].
    unfold knot_changeset_merge.
    destruct (next_result X_changeset_merge w) as [r0 w0].
    destruct (is_ok r0) eqn:Hr0; cbn [negb]; cbv beta iota.
    + change (is_ok KNOT_EOK) with true. cbn [negb serial_to soa_to].
      rewrite Z.eqb_refl, same_soa_refl.
      cbn [negb obind begin_and_store_call assert_nonnull].
      destruct (zones_store_changesets_begin_and_store zone _ tr w0)
        as [[[? ?] ?] ?].
      eexists; reflexivity.
    + rewrite Hr0. cbn [negb]. eexists; reflexivity.
Qed.

Ltac returns_step :=
  match goal with
  | |- exists r, Some _ = Some r => eexists; reflexivity
  | |- context [if negb (is_ok ?r) then _ else _] =>
      destruct (is_ok r); cbn [negb]
  | |- context [next_result ?c ?w] => destruct (next_result c w) as [? ?]
  | |- context [zones_store_changesets_rollback ?t ?z ?w] =>
      destruct (zones_store_changesets_rollback t z w) as [[? ?] ?]
  end.

(** [zones_process_update_auth] returns for every zone whose DNSSEC timer
    has been created: the changesets it hands to
    [zones_merge_and_store_changesets] pass the assertions. *)
Lemma zones_process_update_auth_returns
    (ns_serial_compare : Z -> Z -> Z) (zone : zone_t) (query : knot_pkt_t)
    (rcode : knot_rcode_t) (w : world) :
  dnssec_timer zone <> None ->
  exists r,
    zones_process_update_auth ns_serial_compare zone query rcode w = Some r.
Proof.
  intros Htimer.
  unfold zones_process_update_auth.
  repeat returns_step.
  destruct (zones_next_serial ns_serial_compare zone _) as [ns w3].
  destruct (knot_ns_process_update query (contents zone) _ _ _ _)
    as [[[[res nc] chgsets] rcode1] w4] eqn:Eu.
  destruct res; [| eexists; reflexivity | eexists; reflexivity].
  apply knot_ns_process_update_applied in Eu.
  destruct Eu as (old & ch & Hold & -> & -> & Hfrom & Hto & Hne & ->).
  match goal with
  | |- context [match ?e with pair _ _ => _ end] =>
      match e with
      | context [dnssec_enable] =>
          destruct e as [[alloc_failed sec_chs] w5] eqn:Ealloc
      end
  end.
  assert (Hsec : alloc_failed = false ->
                 sec_chs = None \/
                 sec_chs = Some (mkChangesets [empty_changeset])).
  { destruct (dnssec_enable (conf zone)).
    - destruct (next_result X_changesets_create w4) as [ra wa].
      destruct (next_result X_changesets_create_changeset wa) as [rb wb].
      destruct (is_ok ra && is_ok rb); inv_pair Ealloc;
        [right; reflexivity | discriminate].
    - inv_pair Ealloc. left. reflexivity. }
  destruct alloc_failed; [eexists; reflexivity |].
  specialize (Hsec eq_refl). clear Ealloc.
  repeat returns_step.
  match goal with
  | |- context [match ?e with pair _ _ => _ end] =>
      match e with
      | context [dnssec_sign] =>
          destruct e as [[[ret1 sec_chs0] refresh_at] w7] eqn:Esign
      end
  end.
  assert (Hsec0 : exists sc,
            (sec_chs0 = None \/ sec_chs0 = Some (mkChangesets [sc])) /\
            (sc = empty_changeset \/ serial_from sc = serial_to ch)).
  { rewrite Hold in Esign.
    destruct Hsec as [-> | ->].
    - exists empty_changeset.
      destruct (dnssec_enable (conf zone)); inv_pair Esign;
        (split; left; reflexivity).
    - destruct (dnssec_enable (conf zone)).
      + cbn [knot_changesets_get_last sets rev app] in Esign.
        match type of Esign with
        | context [dnssec_sign ?c ?e ?n ?w0] =>
            destruct (dnssec_sign c e n w0) as [[[rs sc] ra] ws] eqn:Ed
        end.
        inv_pair Esign. exists sc. split; [right; reflexivity |].
        apply dnssec_sign_from in Ed.
        destruct Ed as [-> | H]; [left; reflexivity | right; congruence].
      + inv_pair Esign. exists empty_changeset.
        split; [right; reflexivity | left; reflexivity]. }
  clear Esign Hsec. destruct Hsec0 as (sc & Hs0 & Hsc).
  repeat returns_step.
  destruct (merge_and_store_returns zone ch sc sec_chs0 false w7 Hs0 Hsc)
    as ([[[[ret2 chgsets'] transaction] z1] w8] & Em).
  rewrite Em. apply merge_and_store_kept in Em.
  destruct Em as (_ & _ & Ht1 & _).
  cbn [obind].
  repeat returns_step;
    destruct (negb (knot_changeset_is_empty _)); repeat returns_step;
    rewrite Ht1;
    (destruct (dnssec_timer zone) as [tv_sec |] eqn:Et;
      [| destruct Htimer; reflexivity]);
    cbn [obind];
    match goal with
    | |- context [replan_zone_sign_after_ddns ?z ?r ?w0] =>
        destruct (replan_zone_sign_after_ddns_returns z r w0)
          as [[[? ?] ?] ->]; [congruence |]
    end;
    cbn [obind]; repeat returns_step.
Qed.

(** Without the timer the next signing cannot be planned:
    [zones_schedule_dnssec] answers [KNOT_EAGAIN] and cancelling does
    nothing, and an update that brings new signatures stops at the
    assertion of the timer.  With the timer the same update is applied and
    the signing replanned for the time the signer asked for. *)
Example update_without_dnssec_timer :
  zones_schedule_dnssec unplanned_zone 1700086400 signing_world
    = (KNOT_EAGAIN, unplanned_zone, signing_world) /\
  zones_cancel_dnssec unplanned_zone signing_world
    = (KNOT_EOK, signing_world) /\
  replan_zone_sign_after_ddns unplanned_zone 1700086400 signing_world
    = None /\
  zones_process_update_auth rfc1982_compare unplanned_zone example_update
    KNOT_RCODE_NOERROR signing_world = None /\
  exists rc z' w',
    zones_process_update_auth rfc1982_compare
      (set_dnssec_timer unplanned_zone (Some 1700090000)) example_update
      KNOT_RCODE_NOERROR signing_world = Some (KNOT_EOK, rc, z', w') /\
    dnssec_timer z' = Some 1700086400 /\
    In (EvScheduleDnssec 86400000) (w_trace w').
Proof.
  repeat (split; [vm_compute; reflexivity |]).
  do 3 eexists. split; [vm_compute; reflexivity |].
  split; [reflexivity |].
  vm_compute. tauto.
Qed.

(** ** The UPDATE path: a failure after the journal was written to *)










(** X14.  What [KNOT_EOK] from [zones_process_update_auth] means.  Either
    the changesets could not be allocated (the RCODE is SERVFAIL and the zone
    is untouched), or the update changes nothing (NOERROR, zone untouched),
    or the update was applied: then the RCODE is NOERROR, the installed
    contents carry the serial chosen by [zones_next_serial], the journal
    holds a committed entry from the old serial to the new one, the journal
    has as many references as before, and the contents were switched. *)
Theorem update_eok_outcomes
    (ns_serial_compare : Z -> Z -> Z) (zone : zone_t) (query : knot_pkt_t)
    (rcode : knot_rcode_t) (w : world)
    (rc : knot_rcode_t) (z' : zone_t) (w' : world) :
  zones_process_update_auth ns_serial_compare zone query rcode w
    = Some (KNOT_EOK, rc, z', w') ->
  let old_serial := knot_zone_serial (contents zone) in
  let new_serial := fst (zones_next_serial ns_serial_compare zone w) in
  (rc = KNOT_RCODE_SERVFAIL /\ z' = zone) \/
  (rc = KNOT_RCODE_NOERROR /\ z' = zone /\
   exists pre, w_trace w' = pre ++ [EvLog LogUpdateNoChange]) \/
  (rc = KNOT_RCODE_NOERROR /\
   contents z' <> None /\
   knot_zone_serial (contents z') = new_serial /\
   In (ixfrdb_key_make old_serial new_serial)
      (journal_committed (ixfr_db z')) /\
   journal_refs z' = journal_refs zone /\
   In (EvSwitchZone true) (w_trace w')).
Proof.
  intros Hrun old_serial new_serial.
  unfold zones_process_update_auth in Hrun.
  destruct (next_result X_changesets_create w) as [r1 w1] eqn:E1.
  apply next_result_frame in E1. destruct E1 as (_ & N1 & _).
  destruct (is_ok r1); cbn [negb] in Hrun.
  2:{ inv_pair Hrun. left. split; reflexivity. }
  destruct (next_result X_changesets_create_changeset w1) as [r2 w2] eqn:E2.
  apply next_result_frame in E2. destruct E2 as (_ & N2 & _).
  destruct (is_ok r2); cbn [negb] in Hrun; [| discriminate Hrun].
  destruct (zones_next_serial ns_serial_compare zone w2) as [ns w3] eqn:Ens.
  assert (Hns : ns = new_serial).
  { unfold new_serial.
    rewrite <- (zones_next_serial_fst ns_serial_compare zone w w2)
      by congruence.
    rewrite Ens. reflexivity. }
  destruct (knot_ns_process_update query (contents zone) _ _ _ _)
    as [[[[res nc] chgsets] rcode1] w4] eqn:Eu.
  destruct res.
  2:{ inv_pair Hrun. right. left. split; [reflexivity |].
      split; [reflexivity |]. eexists. reflexivity. }
  2:{ inv_pair Hrun. apply knot_ns_process_update_failed in Eu.
      destruct Eu. reflexivity. }
  apply knot_ns_process_update_applied in Eu.
  destruct Eu as (old & ch & Hold & -> & -> & Hfrom & Hto & Hne & ->).
  right. right.
  match type of Hrun with
  | match ?e with pair _ _ => _ end = _ =>
      destruct e as [[alloc_failed sec_chs] w5] eqn:Ealloc
  end.
  assert (Hsec : alloc_failed = false ->
                 sec_chs = None \/
                 sec_chs = Some (mkChangesets [empty_changeset])).
  { destruct (dnssec_enable (conf zone)).
    - destruct (next_result X_changesets_create w4) as [ra wa].
      destruct (next_result X_changesets_create_changeset wa) as [rb wb].
      destruct (is_ok ra && is_ok rb); inv_pair Ealloc;
        [right; reflexivity | discriminate].
    - inv_pair Ealloc. left. reflexivity. }
  destruct alloc_failed; [discriminate Hrun |].
  specialize (Hsec eq_refl). clear Ealloc.
  update_step Hrun.
  update_step Hrun; [| discriminate Hrun].
  match type of Hrun with
  | match ?e with pair _ _ => _ end = _ =>
      destruct e as [[[ret1 sec_chs0] refresh_at] w7] eqn:Esign
  end.
  assert (Hsec0 : sec_chs0 = None \/
                  exists sc, sec_chs0 = Some (mkChangesets [sc]) /\
                             (sc = empty_changeset \/
                              (serial_to sc = ns /\ add sc <> []))).
  { rewrite Hold in Esign.
    destruct Hsec as [-> | ->].
    - destruct (dnssec_enable (conf zone)); inv_pair Esign; left; reflexivity.
    - destruct (dnssec_enable (conf zone)).
      + cbn [knot_changesets_get_last sets rev app] in Esign.
        destruct (dnssec_sign _ empty_changeset ns w0)
          as [[[rs sc] ra] ws] eqn:Ed.
        inv_pair Esign. right. exists sc. split; [reflexivity |].
        apply dnssec_sign_serial in Ed.
        destruct Ed as [-> | H]; [left; reflexivity | right; exact H].
      + inv_pair Esign. right. exists empty_changeset.
        split; [reflexivity | left; reflexivity]. }
  clear Esign.
  update_step Hrun; [| eok_absurd Hrun].
  destruct (zones_merge_and_store_changesets zone _ _ _ _)
    as [[[[[ret2 chgsets'] transaction] z1] w8] |] eqn:Em;
    cbn [obind] in Hrun; [| discriminate Hrun].
  pose proof (merge_and_store_kept _ _ _ _ _ _ _ _ _ _ Em) as K1.
  apply merge_and_store_result in Em.
  destruct Em as (R1 & _ & Hok & Hsecempty & Hmerged).
  update_step Hrun; [| eok_absurd Hrun].
  match goal with
  | E : is_ok ret2 = true |- _ => apply is_ok_true in E; subst ret2
  end.
  destruct (Hok eq_refl Hne) as (-> & c & j1 & -> & Hj1 & Hp).
  cbn iota in R1.
  assert (Hkeys : changeset_keys c = [ixfrdb_key_make old_serial ns]).
  { destruct (zones_changesets_empty sec_chs0) eqn:Hse.
    - specialize (Hsecempty eq_refl). inversion Hsecempty; subst c.
      unfold changeset_keys. cbn [sets map]. rewrite Hfrom, Hto. reflexivity.
    - destruct (Hmerged eq_refl Hne eq_refl)
        as (dchs & schs & diff_ch & sec_ch & merged
            & Hd & Hs & Hld & Hls & Hc & Hmf & Hmt).
      inversion Hd; subst dchs. cbn in Hld. inversion Hld; subst diff_ch.
      inversion Hc; subst c.
      destruct Hsec0 as [-> | (sc & -> & Hsc)]; [discriminate Hs |].
      inversion Hs; subst schs. cbn in Hls. inversion Hls; subst sec_ch.
      destruct Hsc as [-> | [Hsct _]]; [cbn in Hse; discriminate Hse |].
      unfold changeset_keys. cbn [set_last sets removelast app map].
      rewrite Hmf, Hmt, Hfrom, Hsct. reflexivity. }
  rewrite Hkeys in Hp. clear Hkeys Hok Hsecempty Hmerged.
  assert (Hfinish : forall z2 nc,
            ixfr_db z2 = ixfr_db z1 ->
            knot_zone_serial nc = uint32 ns -> nc <> None ->
            forall w9,
            update_commit_and_switch z2 nc true KNOT_RCODE_SERVFAIL w9
              = (KNOT_EOK, rc, z', w') ->
            rc = KNOT_RCODE_NOERROR /\
            contents z' <> None /\
            knot_zone_serial (contents z') = new_serial /\
            In (ixfrdb_key_make old_serial new_serial)
               (journal_committed (ixfr_db z')) /\
            journal_refs z' = journal_refs zone /\
            In (EvSwitchZone true) (w_trace w')).
  { intros z2 nc Hdb Hser Hnn w9 Hcs.
    apply update_commit_and_switch_result in Hcs.
    destruct Hcs as (R2 & _ & Hres).
    destruct (Hres eq_refl) as (Hrc & Hc & Hsw & Hcommitted).
    split; [exact Hrc |]. split; [rewrite Hc; exact Hnn |].
    split; [rewrite Hc, Hser, Hns; apply zones_next_serial_uint32 |].
    split.
    - rewrite <- Hns.
      assert (Hj2 : ixfr_db z2 = Some j1) by congruence.
      apply (Hcommitted eq_refl j1 _ Hj2 Hp). left. reflexivity.
    - split; [| exact Hsw].
      apply refs_shifted_0.
      assert (R12 : refs_shifted 1 zone z2).
      { unfold refs_shifted in *. rewrite Hdb. exact R1. }
      apply (refs_shifted_trans _ _ _ _ _ R12 (R2 eq_refl)). }
  assert (Hupd : knot_zone_serial (Some (updated_contents old query ns))
                 = uint32 ns) by reflexivity.
  destruct (negb (knot_changeset_is_empty _)).
  - (* new signatures *)
    update_step Hrun.
    update_step Hrun.
    2:{ destruct (zones_store_changesets_rollback true z1 _) as [[? ?] ?].
        eok_absurd Hrun. }
    destruct (dnssec_timer z1) as [tv_sec |]; cbn [obind] in Hrun;
      [| discriminate Hrun].
    destruct (replan_zone_sign_after_ddns z1 refresh_at _)
      as [[[ret3 z2] w9] |] eqn:Ep; cbn [obind] in Hrun;
      [| discriminate Hrun].
    apply replan_zone_sign_after_ddns_kept in Ep.
    destruct Ep as (_ & _ & _ & Hj2).
    update_step Hrun.
    2:{ destruct (zones_store_changesets_rollback true z2 _) as [[? ?] ?].
        eok_absurd Hrun. }
    injection Hrun as Hrun.
    revert Hrun. apply Hfinish; [exact Hj2 | |].
    + destruct (match sec_chs0 with
                | Some schs => knot_changesets_get_last schs
                | None => None
                end); exact Hupd.
    + destruct (match sec_chs0 with
                | Some schs => knot_changesets_get_last schs
                | None => None
                end); discriminate.
  - (* no new signatures *)
    update_step Hrun.
    update_step Hrun.
    2:{ destruct (zones_store_changesets_rollback true z1 _) as [[? ?] ?].
        eok_absurd Hrun. }
    injection Hrun as Hrun.
    revert Hrun. apply Hfinish; [reflexivity | exact Hupd | discriminate].
Qed.

Lemma update_eok_outcomes_witness :
  exists rc z' w',
    zones_process_update_auth rfc1982_compare roomy_zone example_update
      KNOT_RCODE_SERVFAIL quiet_world = Some (KNOT_EOK, rc, z', w') /\
    rc = KNOT_RCODE_NOERROR /\
    knot_zone_serial (contents z') = 101 /\
    In (ixfrdb_key_make 100 101) (journal_committed (ixfr_db z')) /\
    journal_refs z' = Some 0.
Proof.
  destruct (zones_process_update_auth rfc1982_compare roomy_zone example_update
              KNOT_RCODE_SERVFAIL quiet_world)
    as [[[[ret rc] z'] w'] |] eqn:Hrun;
    [| vm_compute in Hrun; discriminate Hrun].
  assert (Hret : ret = KNOT_EOK /\ z' <> roomy_zone).
  { vm_compute in Hrun. inversion Hrun. split; [reflexivity | discriminate]. }
  destruct Hret as [-> Hz].
  destruct (update_eok_outcomes _ _ _ _ _ _ _ _ Hrun)
    as [[_ E] | [(_ & E & _) | (Hrc & _ & Hser & Hin & Hrefs & _)]];
    [destruct (Hz E) | destruct (Hz E) |].
  exists rc, z', w'.
  split; [reflexivity |]. split; [exact Hrc |].
  split; [exact Hser |]. split; [exact Hin |].
  rewrite Hrefs. reflexivity.
Defined.

(** X15.  On every path through [zones_process_update_auth], successful or
    not, the journal is released as often as it was retained: after the call
    it holds as many references as before. *)
Theorem update_keeps_journal_refs
    (ns_serial_compare : Z -> Z -> Z) (zone : zone_t) (query : knot_pkt_t)
    (rcode : knot_rcode_t) (w : world)
    (ret : knot_error) (rc : knot_rcode_t) (z' : zone_t) (w' : world) :
  zones_process_update_auth ns_serial_compare zone query rcode w
    = Some (ret, rc, z', w') ->
  journal_refs z' = journal_refs zone.
Proof.
  intros Hrun. unfold zones_process_update_auth in Hrun.
  update_step Hrun.
  update_step Hrun; [| inv_pair Hrun; reflexivity].
  update_step Hrun.
  update_step Hrun; [| inv_pair Hrun; reflexivity].
  update_step Hrun.
  destruct (knot_ns_process_update query (contents zone) _ _ _ _)
    as [[[[res nc] chgsets] rcode1] w4] eqn:Eu.
  destruct res; [| inv_pair Hrun; reflexivity | inv_pair Hrun; reflexivity].
  apply knot_ns_process_update_applied in Eu.
  destruct Eu as (old & ch & _ & -> & -> & _ & _ & Hne & ->).
  match type of Hrun with
  | match ?e with pair _ _ => _ end = _ =>
      destruct e as [[alloc_failed sec_chs] w5]
  end.
  destruct alloc_failed; [inv_pair Hrun; reflexivity |].
  update_step Hrun.
  update_step Hrun; [| inv_pair Hrun; reflexivity].
  match type of Hrun with
  | match ?e with pair _ _ => _ end = _ =>
      destruct e as [[[ret1 sec_chs0] refresh_at] w7]
  end.
  update_step Hrun; [| inv_pair Hrun; reflexivity].
  destruct (zones_merge_and_store_changesets zone _ _ _ _)
    as [[[[[ret2 chgsets'] transaction] z1] w8] |] eqn:Em;
    cbn [obind] in Hrun; [| discriminate Hrun].
  apply merge_and_store_result in Em.
  destruct Em as (R1 & Hfail & Hok & _).
  update_step Hrun.
  2:{ inv_pair Hrun.
      match goal with
      | E : is_ok _ = false |- _ => apply is_ok_false_not_eok in E;
                                    rewrite (Hfail E) in R1
      end.
      apply refs_shifted_0. exact R1. }
  match goal with
  | E : is_ok ret2 = true |- _ => apply is_ok_true in E; subst ret2
  end.
  destruct (Hok eq_refl Hne) as (-> & _). cbn iota in R1.
  assert (Hroll : forall z2 w9 r3 z3 w10,
            ixfr_db z2 = ixfr_db z1 ->
            zones_store_changesets_rollback true z2 w9 = (r3, z3, w10) ->
            journal_refs z3 = journal_refs zone).
  { intros z2 w9 r3 z3 w10 Hdb Er.
    apply zones_store_changesets_rollback_refs in Er.
    apply refs_shifted_0.
    assert (R12 : refs_shifted 1 zone z2).
    { unfold refs_shifted in *. rewrite Hdb. exact R1. }
    apply (refs_shifted_trans _ _ _ _ _ R12 Er). }
  assert (Hfinish : forall z2 nc rc0 w9,
            ixfr_db z2 = ixfr_db z1 ->
            update_commit_and_switch z2 nc true rc0 w9 = (ret, rc, z', w') ->
            journal_refs z' = journal_refs zone).
  { intros z2 nc rc0 w9 Hdb Hcs.
    apply update_commit_and_switch_result in Hcs.
    destruct Hcs as (R2 & _).
    apply refs_shifted_0.
    assert (R12 : refs_shifted 1 zone z2).
    { unfold refs_shifted in *. rewrite Hdb. exact R1. }
    apply (refs_shifted_trans _ _ _ _ _ R12 (R2 eq_refl)). }
  destruct (negb (knot_changeset_is_empty _)).
  - update_step Hrun.
    update_step Hrun.
    2:{ destruct (zones_store_changesets_rollback true z1 _)
          as [[r3 z3] w10] eqn:Er.
        inv_pair Hrun. eapply Hroll; [reflexivity | exact Er]. }
    destruct (dnssec_timer z1) as [tv_sec |]; cbn [obind] in Hrun;
      [| discriminate Hrun].
    destruct (replan_zone_sign_after_ddns z1 refresh_at _)
      as [[[ret3 z2] w9] |] eqn:Ep; cbn [obind] in Hrun;
      [| discriminate Hrun].
    apply replan_zone_sign_after_ddns_kept in Ep.
    destruct Ep as (_ & _ & _ & Hj2).
    update_step Hrun.
    2:{ destruct (zones_store_changesets_rollback true z2 _)
          as [[r3 z3] w10] eqn:Er.
        inv_pair Hrun. eapply Hroll; [exact Hj2 | exact Er]. }
    injection Hrun as Hrun.
    eapply Hfinish; [exact Hj2 | exact Hrun].
  - update_step Hrun.
    update_step Hrun.
    2:{ destruct (zones_store_changesets_rollback true z1 _)
          as [[r3 z3] w10] eqn:Er.
        inv_pair Hrun. eapply Hroll; [reflexivity | exact Er]. }
    injection Hrun as Hrun.
    eapply Hfinish; [reflexivity | exact Hrun].
Qed.

Lemma update_keeps_journal_refs_witness :
  exists ret rc z' w',
    zones_process_update_auth rfc1982_compare roomy_zone example_update
      KNOT_RCODE_SERVFAIL (scripted X_adjust_nsec3_pointers [KNOT_ENOMEM])
      = Some (ret, rc, z', w') /\
    journal_refs z' = Some 0.
Proof.
  destruct (zones_process_update_auth rfc1982_compare roomy_zone example_update
              KNOT_RCODE_SERVFAIL
              (scripted X_adjust_nsec3_pointers [KNOT_ENOMEM]))
    as [[[[ret rc] z'] w'] |] eqn:Hrun;
    [| vm_compute in Hrun; discriminate Hrun].
  pose proof (update_keeps_journal_refs _ _ _ _ _ _ _ _ _ Hrun) as Hrefs.
  exists ret, rc, z', w'. split; [reflexivity |].
  rewrite Hrefs. reflexivity.
Defined.

(** ** zone-dump.c: the order of pointers *)

(** X16.  [compare_pointers] is a total order on pointers: it returns 0
    exactly for equal pointers, -1 exactly when the first is the lower
    address and 1 exactly when it is the higher one; swapping the arguments
    negates the result, and the order is transitive.  (Unlike the journal key
    comparators it compares instead of subtracting.) *)
Theorem compare_pointers_total_order (p q r : Z) :
  is_uint64 p -> is_uint64 q -> is_uint64 r ->
  (compare_pointers p q = 0 <-> p = q) /\
  (compare_pointers p q = -1 <-> p < q) /\
  (compare_pointers p q = 1 <-> p > q) /\
  compare_pointers q p = - compare_pointers p q /\
  (compare_pointers p q <= 0 -> compare_pointers q r <= 0 ->
   compare_pointers p r <= 0).
Proof.
  intros Hp Hq Hr. unfold compare_pointers.
  rewrite (uint64_id p Hp), (uint64_id q Hq), (uint64_id r Hr).
  destruct (p =? q) eqn:Epq; destruct (p <? q) eqn:Lpq;
    destruct (q =? p) eqn:Eqp; destruct (q <? p) eqn:Lqp;
    destruct (q =? r) eqn:Eqr; destruct (q <? r) eqn:Lqr;
    destruct (p =? r) eqn:Epr; destruct (p <? r) eqn:Lpr;
    rewrite ?Z.eqb_eq, ?Z.eqb_neq, ?Z.ltb_lt, ?Z.ltb_ge in *;
    try lia; repeat split; intros; try lia.
Qed.

Lemma compare_pointers_total_order_witness :
  compare_pointers 4096 8192 = -1 /\ compare_pointers 8192 4096 = 1.
Proof.
  assert (H1 : is_uint64 4096) by (unfold is_uint64; lia).
  assert (H2 : is_uint64 8192) by (unfold is_uint64; lia).
  destruct (compare_pointers_total_order 4096 8192 8192 H1 H2 H2)
    as (_ & Hlt & _ & Hneg & _).
  split; [apply Hlt; lia |].
  rewrite Hneg. replace (compare_pointers 4096 8192) with (-1); [reflexivity |].
  symmetry. apply Hlt. lia.
Defined.

(** ** zone-dump.c: RRSIGs of an RRSet *)

Lemma check_rrsig_loop_exit
    (check : dnslib_rdata_t -> dnslib_rdata_t -> dnslib_rrset_t
             -> dnslib_rrsig_set_t -> dnslib_rrset_t -> Z)
    (rrset : dnslib_rrset_t) (rrsigs : dnslib_rrsig_set_t)
    (dnskey : dnslib_rrset_t) :
  forall rest_rdata tmp_rdata tmp_rrsig rest_rrsig,
    let pairs := combine (tmp_rdata :: rest_rdata) (tmp_rrsig :: rest_rrsig) in
    let ok := fun p : dnslib_rdata_t * dnslib_rdata_t =>
                check (fst p) (snd p) rrset rrsigs dnskey = 0 in
    match check_rrsig_loop check rrset rrsigs dnskey
            tmp_rdata rest_rdata tmp_rrsig rest_rrsig with
    | inl v => v = -3 /\ ~ Forall ok pairs
    | inr (a, b) => (a = None \/ b = None) /\ Forall ok pairs
    end.
Proof.
  induction rest_rdata as [| next_rdata rest_rdata' IH];
    intros tmp_rdata tmp_rrsig rest_rrsig pairs ok;
    cbn [check_rrsig_loop];
    destruct (check tmp_rdata tmp_rrsig rrset rrsigs dnskey =? 0) eqn:Hc;
    cbn [negb].
  - apply Z.eqb_eq in Hc. split; [left; reflexivity |].
    subst pairs. cbn [combine]. constructor; [exact Hc | constructor].
  - apply Z.eqb_neq in Hc. split; [reflexivity |].
    intros HF. inversion HF; subst. contradiction.
  - apply Z.eqb_eq in Hc.
    destruct rest_rrsig as [| next_rrsig rest_rrsig'].
    + split; [right; reflexivity |].
      subst pairs. cbn [combine]. constructor; [exact Hc | constructor].
    + specialize (IH next_rdata next_rrsig rest_rrsig'). cbv zeta in IH.
      destruct (check_rrsig_loop check rrset rrsigs dnskey
                  next_rdata rest_rdata' next_rrsig rest_rrsig')
        as [v | [a b]].
      * destruct IH as [Hv Hn]. split; [exact Hv |].
        intros HF. apply Hn. subst pairs. cbn [combine] in HF.
        inversion HF; subst. assumption.
      * destruct IH as [Hab HF]. split; [exact Hab |].
        subst pairs. cbn [combine]. constructor; [exact Hc | exact HF].
  - apply Z.eqb_neq in Hc. split; [reflexivity |].
    intros HF. subst pairs. cbn [combine] in HF.
    inversion HF; subst. contradiction.
Qed.

(** X17.  [check_rrsig_in_rrset] never returns -4 ("not all records are
    signed"): when the loop is left, one of the two cursors is NULL.  It
    returns 0 exactly when the RRSet has an RRSIG set that is not signed
    itself, both have RDATA, and every RDATA that has an RRSIG RDATA at the
    same position passes [check_rrsig_rdata] with it; RDATA beyond the
    last RRSIG RDATA are not looked at. *)
Theorem check_rrsig_in_rrset_results
    (check : dnslib_rdata_t -> dnslib_rdata_t -> dnslib_rrset_t
             -> dnslib_rrsig_set_t -> dnslib_rrset_t -> Z)
    (signed : dnslib_rrsig_set_t -> bool)
    (rrset dnskey_rrset : dnslib_rrset_t) :
  check_rrsig_in_rrset check signed rrset dnskey_rrset <> Some (-4) /\
  (check_rrsig_in_rrset check signed rrset dnskey_rrset = Some 0 <->
   exists rrsigs,
     rrset_rrsigs rrset = Some rrsigs /\ signed rrsigs = false /\
     rrset_rdata rrset <> [] /\ rrsig_rdata rrsigs <> [] /\
     Forall (fun p => check (fst p) (snd p) rrset rrsigs dnskey_rrset = 0)
            (combine (rrset_rdata rrset) (rrsig_rdata rrsigs))).
Proof.
  unfold check_rrsig_in_rrset.
  destruct (rrset_rrsigs rrset) as [rrsigs |].
  2:{ split; [discriminate |]. split; [discriminate |].
      intros (rs & E & _). discriminate E. }
  destruct (signed rrsigs) eqn:Hs.
  { split; [discriminate |]. split; [discriminate |].
    intros (rs & E & Hs' & _). inversion E; subst. congruence. }
  destruct (rrset_rdata rrset) as [| tmp_rdata rest_rdata].
  { split; [discriminate |]. split; [discriminate |].
    intros (rs & _ & _ & Hn & _). destruct Hn. reflexivity. }
  destruct (rrsig_rdata rrsigs) as [| tmp_rrsig rest_rrsig] eqn:Hrs.
  { split; [discriminate |]. split; [discriminate |].
    intros (rs & E & _ & _ & Hn & _). inversion E; subst.
    destruct Hn. exact Hrs. }
  pose proof (check_rrsig_loop_exit check rrset rrsigs dnskey_rrset
                rest_rdata tmp_rdata tmp_rrsig rest_rrsig) as Hloop.
  cbv zeta in Hloop.
  destruct (check_rrsig_loop check rrset rrsigs dnskey_rrset
              tmp_rdata rest_rdata tmp_rrsig rest_rrsig) as [v | [a b]].
  - destruct Hloop as [-> Hn]. split; [discriminate |].
    split; [discriminate |].
    intros (rs & E & _ & _ & _ & HF). inversion E; subst.
    rewrite Hrs in HF. contradiction.
  - destruct Hloop as [Hab HF].
    assert (Hex : exists rs,
              Some rrsigs = Some rs /\ signed rs = false /\
              tmp_rdata :: rest_rdata <> [] /\ rrsig_rdata rs <> [] /\
              Forall (fun p => check (fst p) (snd p) rrset rs dnskey_rrset = 0)
                     (combine (tmp_rdata :: rest_rdata) (rrsig_rdata rs))).
    { exists rrsigs. rewrite Hrs.
      repeat split; try assumption; discriminate. }
    destruct a as [a |]; destruct b as [b |];
      try (destruct Hab as [E | E]; discriminate E);
      (split; [discriminate | split; [intros _; exact Hex | reflexivity]]).
Qed.

(** ** zone-dump.c: the semantic checks of a node *)

(** X18.  [dnslib_zone_save_enclosers_in_tree] on a node whose closest
    enclosers could be saved.  With checks off it logs nothing.  With checks
    on it gets to its end only on a node that holds a CNAME RRSet whose
    first record holds a target: on a node without CNAME RRSet the test for
    a second CNAME record reads through a NULL pointer, and on a CNAME RRSet
    without RDATA or without a target [check_cname_cycles_in_zone] stops at
    an assertion.  Where it gets to its end, the CNAME cycle is logged
    exactly when the chain does not end within 14 lookups, and a second
    CNAME record exactly when the RRSet has more than one RDATA. *)
Theorem dnslib_zone_save_enclosers_in_tree_defined
    (lib : dnslib_library) (zone : dnslib_zone_t)
    (encloser_list encloser_list' : skip_list_t lib)
    (node : dnslib_node_t) (do_checks : Z) :
  save_enclosers_types lib node zone encloser_list = Some encloser_list' ->
  (do_checks = 0 ->
   dnslib_zone_save_enclosers_in_tree lib zone encloser_list do_checks node
   = Some (encloser_list', [])) /\
  (do_checks <> 0 ->
   match dnslib_node_rrset node DNSLIB_RRTYPE_CNAME with
   | None =>
       dnslib_zone_save_enclosers_in_tree lib zone encloser_list do_checks
         node = None
   | Some rs =>
       match dnslib_rdata_cname_name (dnslib_rrset_rdata rs) with
       | None =>
           dnslib_zone_save_enclosers_in_tree lib zone encloser_list
             do_checks node = None
       | Some d =>
           exists logs,
             dnslib_zone_save_enclosers_in_tree lib zone encloser_list
               do_checks node = Some (encloser_list', logs) /\
             (In SemCnameCycle logs
              <-> chain_ends_within 14 zone (Some d) = false) /\
             (In SemMoreThanOneCname logs
              <-> (1 < length (rrset_rdata rs))%nat)
       end
   end).
Proof.
  intros Hsave. unfold dnslib_zone_save_enclosers_in_tree.
  rewrite Hsave. cbn [obind].
  destruct (do_checks =? 0) eqn:Hd.
  { apply Z.eqb_eq in Hd. split; [reflexivity | intros Hn; contradiction]. }
  apply Z.eqb_neq in Hd.
  split; [intros E; contradiction | intros _].
  destruct (dnslib_node_rrset node DNSLIB_RRTYPE_CNAME) as [rs |];
    [| reflexivity].
  destruct (dnslib_rdata_cname_name (dnslib_rrset_rdata rs)) as [d |] eqn:Hname.
  2:{ rewrite (check_cname_cycles_in_zone_asserts zone rs Hname).
      reflexivity. }
  rewrite (check_cname_cycles_in_zone_walk zone rs d Hname). cbn [obind].
  set (others := if negb (Z.of_nat (length (node_rrsets node)) =? 1)
                    && (do_checks =? 1)
                 then [SemMoreThanOneRRSet]
                 else if negb (Z.of_nat (length (node_rrsets node)) =? 1)
                      then match dnslib_node_rrset node DNSLIB_RRTYPE_RRSIG,
                                 dnslib_node_rrset node DNSLIB_RRTYPE_NSEC with
                           | None, None => [SemOtherRecordsWithCname]
                           | _, _ => []
                           end
                      else []).
  assert (Ho : ~ In SemCnameCycle others /\ ~ In SemMoreThanOneCname others).
  { subst others.
    destruct (negb (Z.of_nat (length (node_rrsets node)) =? 1));
      destruct (do_checks =? 1); cbn [andb];
      try destruct (dnslib_node_rrset node DNSLIB_RRTYPE_RRSIG);
      try destruct (dnslib_node_rrset node DNSLIB_RRTYPE_NSEC);
      split; intros H; simpl in H; intuition congruence. }
  destruct Ho as [Ho1 Ho2].
  set (cycle := if negb ((if chain_ends_within 14 zone (Some d)
                          then 0 else -1) =? 0)
                then [SemCnameCycle] else []).
  assert (Hc : (In SemCnameCycle cycle
                <-> chain_ends_within 14 zone (Some d) = false) /\
               ~ In SemMoreThanOneCname cycle).
  { subst cycle.
    destruct (chain_ends_within 14 zone (Some d)); cbn [Z.eqb negb].
    - split; [| intros []].
      split; [intros [] | intros Hn; discriminate Hn].
    - split; [| intros [E | []]; discriminate E].
      split; [intros _; reflexivity | intros _; left; reflexivity]. }
  destruct Hc as [Hc1 Hc2].
  destruct (rrset_rdata rs) as [| r1 [| r2 rest]] eqn:Hrd.
  - unfold dnslib_rrset_rdata in Hname. rewrite Hrd in Hname.
    discriminate Hname.
  - eexists. split; [reflexivity |]. cbn [length]. split.
    + rewrite in_app_iff. split; [intros [H1 | H1]; [apply Hc1; exact H1 |
                                                      contradiction] |].
      intros Hn. left. apply Hc1. exact Hn.
    + rewrite in_app_iff. split; [intros [H1 | H1]; contradiction | lia].
  - eexists. split; [reflexivity |]. cbn [length]. split.
    + rewrite !in_app_iff. split.
      * intros [H1 | [H1 | [H1 | []]]];
          [apply Hc1; exact H1 | contradiction | discriminate H1].
      * intros Hn. left. apply Hc1. exact Hn.
    + rewrite !in_app_iff. split; [intros _; lia |].
      intros _. right. right. left. reflexivity.
Qed.

Lemma dnslib_zone_save_enclosers_in_tree_defined_witness :
  (exists logs,
     dnslib_zone_save_enclosers_in_tree example_library (chain_zone 20)
       (skip_create_list example_library compare_pointers) 1 (chain_node 0)
     = Some (skip_create_list example_library compare_pointers, logs) /\
     In SemCnameCycle logs) /\
  dnslib_zone_save_enclosers_in_tree example_library signed_zone
    (skip_create_list example_library compare_pointers) 1 apex_node = None.
Proof.
  split.
  - assert (Hsave : save_enclosers_types example_library (chain_node 0)
                      (chain_zone 20) (skip_create_list example_library compare_pointers)
                    = Some (skip_create_list example_library compare_pointers))
      by (vm_compute; reflexivity).
    assert (Hon : 1 <> 0) by discriminate.
    destruct (proj2 (dnslib_zone_save_enclosers_in_tree_defined
                       example_library (chain_zone 20) _ _ (chain_node 0) 1
                       Hsave) Hon)
      as (logs & Hrun & Hcycle & _).
    exists logs. split; [exact Hrun |].
    apply Hcycle. vm_compute. reflexivity.
  - assert (Hsave : save_enclosers_types example_library apex_node
                      signed_zone (skip_create_list example_library compare_pointers)
                    = Some (skip_create_list example_library compare_pointers))
      by (vm_compute; reflexivity).
    assert (Hon : 1 <> 0) by discriminate.
    exact (proj2 (dnslib_zone_save_enclosers_in_tree_defined
                    example_library signed_zone _ _ apex_node 1 Hsave) Hon).
Defined.

(** ** zone-dump.c: the bytes of the dump *)

(** X19.  For an RRSet with RDATA, [dnslib_rrset_dump_binary], started at
    the end of the file, appends the bytes of the RRSet and leaves the stream
    at the new end: the type, the class and the TTL, then the number of RDATA
    (modulo 256) and the number of RRSIG sets (0 or 1) in the two bytes it
    reserved before it knew them, then the RDATA as
    [dnslib_rdata_dump_binary] writes them (names in the zone as IDs, other
    names in full with their closest encloser, raw data with its length)
    and the RRSIG set, which has the type RRSIG and RDATA of its own.  The
    bytes written before are untouched. *)
Theorem dnslib_rrset_dump_binary_bytes
    (lib : dnslib_library) (encloser_list : skip_list_t lib)
    (rrset : dnslib_rrset_t) (d rd sig : list Z) :
  rrset_rdata rrset <> [] ->
  rdata_list_bytes lib encloser_list (rrset_type rrset) (rrset_rdata rrset)
    = Some rd ->
  match rrset_rrsigs rrset with
  | Some rrsigs => rrsig_set_bytes lib encloser_list rrsigs
  | None => Some []
  end = Some sig ->
  let bytes :=
    u16 (rrset_type rrset) ++ u16 (rrset_rclass rrset)
    ++ u32 (rrset_ttl rrset)
    ++ u8 (uint8 (Z.of_nat (length (rrset_rdata rrset))))
    ++ u8 (match rrset_rrsigs rrset with Some _ => 1 | None => 0 end)
    ++ rd ++ sig in
  dnslib_rrset_dump_binary lib encloser_list rrset (file_end d)
  = Some (file_end (d ++ bytes)) /\
  length bytes = (10 + length rd + length sig)%nat.
Proof.
  intros Hne Hrd Hsig bytes. split.
  - rewrite dnslib_rrset_dump_bytes. unfold rrset_bytes.
    destruct (rrset_rdata rrset) as [| r rest] eqn:E;
      [destruct Hne; reflexivity |].
    rewrite Hrd. cbn [obind]. rewrite Hsig. cbn [obind option_map].
    reflexivity.
  - subst bytes. rewrite !length_app. unfold u16, u32, u8.
    rewrite !le_bytes_length. lia.
Qed.

Lemma dnslib_rrset_dump_binary_bytes_witness :
  exists bytes,
    dnslib_rrset_dump_binary example_library [] apex_a (file_end [1; 2; 3])
    = Some (file_end ([1; 2; 3] ++ bytes)) /\
    length bytes = 78%nat /\
    firstn 10 bytes = [1; 0; 1; 0; 16; 14; 0; 0; 2; 1].
Proof.
  assert (Hne : rrset_rdata apex_a <> []) by discriminate.
  destruct (dnslib_rrset_dump_binary_bytes example_library [] apex_a
              [1; 2; 3]
              [4; 0; 192; 0; 2; 1; 4; 0; 192; 0; 2; 2]
              (u16 46 ++ u16 1 ++ u32 3600 ++ [1]
               ++ [2; 0; 0; 1; 1; 0; 5; 1; 0; 1; 4; 0; 0; 0; 14; 16;
                   4; 0; 80; 0; 0; 0; 4; 0; 79; 0; 0; 0; 2; 0; 48; 57]
               ++ [1] ++ ptr 1 ++ [4; 0; 222; 173; 190; 239])
              Hne eq_refl eq_refl) as [Hrun Hlen].
  eexists. split; [exact Hrun |]. split; [exact Hlen | reflexivity].
Defined.

(** X20.  For a node whose RRSets can be dumped, [dnslib_node_dump_binary],
    started at the end of the file, appends the bytes of the node and leaves
    the stream at the new end: the owner, the IDs of the owner, of the parent
    and of the NSEC3 node around the flags, the number of RRSets (modulo 256)
    in the byte reserved for it, and the RRSets in order.  It counts the node
    in [node_count], and in the zone's count when the node is
    authoritative. *)
Theorem dnslib_node_dump_binary_bytes
    (lib : dnslib_library) (encloser_list : skip_list_t lib)
    (node : dnslib_node_t) (d body : list Z) (nc znc : Z) :
  concat_all (map (rrset_bytes lib encloser_list) (node_rrsets node))
    = Some body ->
  dnslib_node_dump_binary lib encloser_list node (mkDump (file_end d) nc znc)
  = Some (mkDump
            (file_end
               (d ++ dname_bytes (node_owner node)
                ++ ptr (dname_node (node_owner node))
                ++ ptr_of (node_parent node)
                ++ u8 (node_flags node)
                ++ ptr_of (node_nsec3_node node)
                ++ u8 (uint8 (Z.of_nat (length (node_rrsets node))))
                ++ body))
            (uint32 (nc + 1))
            (if negb (node_non_auth node) then uint32 (znc + 1) else znc)).
Proof.
  intros Hbody. rewrite dnslib_node_dump_bytes. unfold node_bytes.
  rewrite Hbody. reflexivity.
Qed.

Lemma dnslib_node_dump_binary_bytes_witness :
  exists bytes,
    dnslib_node_dump_binary example_library [(host_name, apex_name)] www_node
      (mkDump (file_end [1; 2; 3]) 0 0)
    = Some (mkDump (file_end ([1; 2; 3] ++ bytes)) 1 1) /\
    skipn 43 bytes
    = [DNSLIB_RRTYPE_CNAME; 0; 1; 0; 16; 14; 0; 0; 1; 0; 0]
      ++ dname_bytes host_name ++ [1] ++ ptr 1.
Proof.
  eexists. split.
  - apply (dnslib_node_dump_binary_bytes example_library
             [(host_name, apex_name)] www_node [1; 2; 3]).
    vm_compute. reflexivity.
  - vm_compute. reflexivity.
Defined.

(** X21.  The file [dnslib_zdump_binary] leaves behind when the pass before
    the dump gets to its end and every node can be dumped: the magic bytes,
    the length of the source file name and the name with its NUL, the three
    counts patched in after the traversals (normal nodes counted from the
    value of [node_count] on entry, NSEC3 nodes, authoritative nodes), then
    the nodes of the normal tree and the nodes of the NSEC3 tree, each in
    order and each as [dnslib_node_dump_binary] lays it out with the closest
    enclosers the first pass saved.  Patching the counts changes no other
    byte. *)
Theorem dnslib_zdump_binary_bytes
    (lib : dnslib_library) (MAGIC : list Z) (zone : dnslib_zone_t)
    (do_checks : Z) (sfilename : option (list Z)) (node_count0 : Z)
    (encloser_list : skip_list_t lib)
    (logged : list (dnslib_dname_t * sem_log)) (B1 B2 : list Z) :
  zone_save_enclosers_sem_check lib zone (skip_create_list lib compare_pointers)
    (if negb (do_checks =? 0) && zone_is_secure zone then 2 else do_checks)
    = Some (encloser_list, logged) ->
  concat_all (map (node_bytes lib encloser_list) (zone_nodes zone))
    = Some B1 ->
  concat_all (map (node_bytes lib encloser_list) (zone_nsec3_nodes zone))
    = Some B2 ->
  let sflen := match sfilename with
               | Some s => uint32 (Z.of_nat (length s) + 1)
               | None => 0
               end in
  let name := match sfilename with
              | Some s => firstn (Z.to_nat sflen) (s ++ [0])
              | None => []
              end in
  exists f,
    dnslib_zdump_binary lib MAGIC zone true do_checks sfilename node_count0
    = Some (0, f, uint32 (Z.of_nat (length (zone_nsec3_nodes zone))),
            mkDzone (zone_nodes zone) (zone_nsec3_nodes zone)
                    (uint32 (Z.of_nat (authoritative_nodes zone))),
            logged) /\
    f_data f =
      MAGIC ++ u32 sflen ++ name
      ++ u32 (node_count0 + Z.of_nat (length (zone_nodes zone)))
      ++ u32 (Z.of_nat (length (zone_nsec3_nodes zone)))
      ++ u32 (Z.of_nat (authoritative_nodes zone))
      ++ B1 ++ B2.
Proof.
  intros Hpass H1 H2 sflen name.
  pose proof (dnslib_zdump_binary_run lib MAGIC zone do_checks sfilename
                node_count0) as H.
  cbv zeta in H. rewrite Hpass, H1, H2 in H.
  destruct H as (f & Hrun & Hdata).
  exists f. split; [exact Hrun |].
  rewrite Hdata. unfold header_name. subst name sflen.
  destruct sfilename as [s |]; rewrite <- !app_assoc; reflexivity.
Qed.

Lemma dnslib_zdump_binary_bytes_witness :
  exists f B1 B2,
    dnslib_zdump_binary example_library example_magic signed_zone true 0
      (Some [122]) 0
    = Some (0, f, 1,
            mkDzone (zone_nodes signed_zone) (zone_nsec3_nodes signed_zone) 3,
            []) /\
    f_data f =
      example_magic ++ u32 2 ++ [122; 0] ++ u32 2 ++ u32 1 ++ u32 3
      ++ B1 ++ B2 /\
    length B1 = 202%nat /\ length B2 = 32%nat.
Proof.
  edestruct (dnslib_zdump_binary_bytes example_library example_magic
               signed_zone 0 (Some [122]) 0 [(host_name, apex_name)] [])
    as (f & Hrun & Hdata).
  - vm_compute. reflexivity.
  - vm_compute. reflexivity.
  - vm_compute. reflexivity.
  - exists f. do 2 eexists.
    split; [exact Hrun |]. split; [exact Hdata |].
    split; vm_compute; reflexivity.
Defined.

(** ** zone-dump.c: which CNAME chains are reported *)

Lemma chain_ends_within_mono (zone : dnslib_zone_t) :
  forall n d, chain_ends_within n zone d = true ->
              chain_ends_within (S n) zone d = true.
Proof.
  induction n as [| n IH]; intros d H.
  - destruct d as [x |]; [discriminate H | reflexivity].
  - destruct d as [x |]; [| reflexivity].
    cbn [chain_ends_within] in *. apply IH. exact H.
Qed.

(** X22.  For a CNAME RRSet whose first record holds a target,
    [check_cname_cycles_in_zone] returns 0 exactly when the chain that
    starts with the target ends within 14 lookups (a lookup finds no node
    in either tree, or a node without CNAME).  So a chain that never ends,
    such as a CNAME loop, is always reported, and a chain that ends within
    fewer lookups is never reported. *)
Theorem check_cname_cycles_in_zone_iff
    (zone : dnslib_zone_t) (rrset : dnslib_rrset_t) (d : dnslib_dname_t) :
  dnslib_rdata_cname_name (dnslib_rrset_rdata rrset) = Some d ->
  (check_cname_cycles_in_zone zone rrset = Some 0
   <-> chain_ends_within 14 zone (Some d) = true) /\
  ((forall n, chain_ends_within n zone (Some d) = false) ->
   check_cname_cycles_in_zone zone rrset = Some (-1)) /\
  (forall n, (n <= 14)%nat -> chain_ends_within n zone (Some d) = true ->
             check_cname_cycles_in_zone zone rrset = Some 0).
Proof.
  intros Hd.
  rewrite (check_cname_cycles_in_zone_walk zone rrset d Hd).
  destruct (chain_ends_within 14 zone (Some d)) eqn:H14.
  - split; [split; reflexivity |].
    split; [intros Hall; rewrite Hall in H14; discriminate H14 |].
    intros; reflexivity.
  - split; [split; discriminate |].
    split; [intros _; reflexivity |].
    intros n Hn Hends. exfalso.
    assert (Hup : forall k,
              chain_ends_within (k + n) zone (Some d) = true).
    { induction k as [| k IHk]; [exact Hends |].
      apply chain_ends_within_mono. exact IHk. }
    specialize (Hup (14 - n)%nat).
    replace (14 - n + n)%nat with 14%nat in Hup by lia.
    congruence.
Qed.

Lemma check_cname_cycles_in_zone_iff_witness :
  check_cname_cycles_in_zone (chain_zone 3) (chain_cname 0) = Some 0.
Proof.
  destruct (check_cname_cycles_in_zone_iff (chain_zone 3) (chain_cname 0)
              (chain_name 1) eq_refl) as (_ & _ & H).
  apply (H 3%nat); [lia | vm_compute; reflexivity].
Defined.

(** ** The serialized form of a changeset: size and round trip *)

Lemma binary_size_fold (l : list knot_rrset_t) : forall a,
  fold_left (fun acc rr => acc + rrset_binary_size (Some rr)) l a
  = a + Z.of_nat (length (concat (map rr_wire l))).
Proof.
  induction l as [| rr rest IH]; intros a.
  - cbn. lia.
  - cbn [fold_left map concat]. rewrite IH, length_app.
    cbn [rrset_binary_size]. lia.
Qed.

Lemma wire_length_ge (l : list knot_rrset_t) :
  forallb (fun rr => negb (length (rr_wire rr) =? 0)%nat) l = true ->
  (length l <= length (concat (map rr_wire l)))%nat.
Proof.
  induction l as [| rr rest IH]; intros H; [apply Nat.le_refl |].
  cbn [forallb] in H. apply andb_true_iff in H. destruct H as [Hrr Hrest].
  cbn [map concat length]. rewrite length_app.
  apply negb_true_iff, Nat.eqb_neq in Hrr.
  specialize (IH Hrest). lia.
Qed.

Section CodecProperties.

Variable deser : list Z -> option (knot_rrset_t * list Z).

(** The ADD section is read to the end of the stream. *)
Lemma from_binary_loop_add (adds : list knot_rrset_t) :
  forall fuel chs,
    (length adds <= fuel)%nat ->
    forallb (fun rr => negb (rr_type rr =? KNOT_RRTYPE_SOA)) adds = true ->
    forallb (fun rr => negb (length (rr_wire rr) =? 0)%nat) adds = true ->
    (forall rr rest, In rr adds -> deser (rr_wire rr ++ rest) = Some (rr, rest)) ->
    from_binary_loop deser fuel (concat (map rr_wire adds)) false chs
    = Some (KNOT_EOK,
            mkChangeset (serial_from chs) (serial_to chs) (soa_from chs)
                        (soa_to chs) (remove chs) (add chs ++ adds) (flags chs)).
Proof.
  induction adds as [| rr rest IH]; intros fuel chs Hfuel Hsoa Hwire Hdeser.
  - cbn [map concat]. rewrite app_nil_r. destruct chs, fuel; reflexivity.
  - cbn [forallb] in Hsoa, Hwire.
    apply andb_true_iff in Hsoa. destruct Hsoa as [Hs1 Hs2].
    apply andb_true_iff in Hwire. destruct Hwire as [Hw1 Hw2].
    apply negb_true_iff in Hs1.
    apply negb_true_iff, Nat.eqb_neq in Hw1.
    destruct fuel as [| fuel]; [cbn in Hfuel; lia |].
    cbn [map concat].
    pose proof (Hdeser rr (concat (map rr_wire rest)) (or_introl eq_refl))
      as Hd.
    destruct (rr_wire rr) as [| b bs] eqn:Hrw; [destruct Hw1; reflexivity |].
    cbn [app from_binary_loop]. cbn [app] in Hd. rewrite Hd, Hs1.
    cbn [knot_changeset_add_rrset is_ok knot_error_beq negb].
    rewrite IH.
    + cbn [serial_from serial_to soa_from soa_to remove add flags].
      rewrite <- app_assoc. reflexivity.
    + cbn [length] in Hfuel. lia.
    + exact Hs2.
    + exact Hw2.
    + intros rr' rest' Hin. apply Hdeser. right. exact Hin.
Qed.

(** The REMOVE section ends at the first SOA, which opens the ADD section. *)
Lemma from_binary_loop_remove (removes adds : list knot_rrset_t)
    (soa : knot_rrset_t) :
  forall fuel chs,
    (length removes + 1 + length adds <= fuel)%nat ->
    rr_type soa = KNOT_RRTYPE_SOA -> rr_wire soa <> [] ->
    forallb (fun rr => negb (rr_type rr =? KNOT_RRTYPE_SOA)) (removes ++ adds)
      = true ->
    forallb (fun rr => negb (length (rr_wire rr) =? 0)%nat) (removes ++ adds)
      = true ->
    (forall rr rest, In rr (removes ++ soa :: adds) ->
                     deser (rr_wire rr ++ rest) = Some (rr, rest)) ->
    from_binary_loop deser fuel
      (concat (map rr_wire removes) ++ rr_wire soa ++ concat (map rr_wire adds))
      true chs
    = Some (KNOT_EOK,
            mkChangeset (serial_from chs) (serial_to chs) (soa_from chs)
                        (Some soa) (remove chs ++ removes) (add chs ++ adds)
                        (flags chs)).
Proof.
  induction removes as [| rr rest IH];
    intros fuel chs Hfuel Htype Hsw Hsoa Hwire Hdeser.
  - cbn [map concat app] in *.
    destruct fuel as [| fuel]; [cbn in Hfuel; lia |].
    pose proof (Hdeser soa (concat (map rr_wire adds)) (or_introl eq_refl))
      as Hd.
    destruct (rr_wire soa) as [| b bs] eqn:Hrw; [destruct Hsw; reflexivity |].
    cbn [app from_binary_loop]. cbn [app] in Hd. rewrite Hd, Htype.
    rewrite Z.eqb_refl.
    rewrite from_binary_loop_add.
    + cbn [knot_changeset_add_soa serial_from serial_to soa_from soa_to
           remove add flags].
      rewrite app_nil_r. reflexivity.
    + cbn [length] in Hfuel. lia.
    + exact Hsoa.
    + exact Hwire.
    + intros rr' rest' Hin. apply Hdeser. right. exact Hin.
  - cbn [app forallb] in Hsoa, Hwire.
    apply andb_true_iff in Hsoa. destruct Hsoa as [Hs1 Hs2].
    apply andb_true_iff in Hwire. destruct Hwire as [Hw1 Hw2].
    apply negb_true_iff in Hs1.
    apply negb_true_iff, Nat.eqb_neq in Hw1.
    destruct fuel as [| fuel]; [cbn in Hfuel; lia |].
    cbn [map concat]. rewrite <- app_assoc.
    pose proof (Hdeser rr (concat (map rr_wire rest) ++ rr_wire soa
                           ++ concat (map rr_wire adds))
                  (or_introl eq_refl)) as Hd.
    destruct (rr_wire rr) as [| b bs] eqn:Hrw; [destruct Hw1; reflexivity |].
    cbn [app from_binary_loop]. cbn [app] in Hd. rewrite Hd, Hs1.
    cbn [knot_changeset_add_rrset is_ok knot_error_beq negb].
    rewrite IH.
    + cbn [serial_from serial_to soa_from soa_to remove add flags].
      rewrite <- app_assoc. reflexivity.
    + cbn [length] in Hfuel. lia.
    + exact Htype.
    + exact Hsw.
    + exact Hs2.
    + exact Hw2.
    + intros rr' rest' Hin. apply Hdeser. right. exact Hin.
Qed.

End CodecProperties.

(** X23.  The journal entry of a changeset can be read back.  For a
    changeset with both SOAs, no other SOA RRSet among its removals and
    additions, no RRSet with an empty serialized form and 32-bit flags and
    serials, whose SOA 'from' carries the serial [serial_from], and for an
    [rrset_deserialize] that reads back what [rrset_serialize] wrote for
    each of its RRSets: the entry
    [zones_serialize_and_store_chgset] writes has exactly the size
    [zones_changeset_binary_size] computes, and
    [zones_changesets_from_binary], applied to the changeset prepared from
    the journal key and to that entry, returns [KNOT_EOK] with the changeset
    itself: flags, both SOAs, and removals and additions in their order. *)
Theorem changeset_entry_roundtrip
    (rrset_deserialize : list Z -> option (knot_rrset_t * list Z))
    (knot_rrset_soa_serial : knot_rrset_t -> Z)
    (chs : knot_changeset_t) :
  changeset_readable chs = true ->
  is_uint32 (serial_from chs) -> is_uint32 (serial_to chs) ->
  (forall f, soa_from chs = Some f ->
             knot_rrset_soa_serial f = serial_from chs) ->
  (forall rr rest, In rr (changeset_rrsets chs) ->
                   rrset_deserialize (rr_wire rr ++ rest) = Some (rr, rest)) ->
  exists bytes,
    changeset_entry_bytes chs = Some bytes /\
    Z.of_nat (length bytes) = zones_changeset_binary_size chs /\
    changeset_from_binary rrset_deserialize knot_rrset_soa_serial
      (changeset_of_key (ixfrdb_key_make (serial_from chs) (serial_to chs)))
      (Some bytes)
    = Some (KNOT_EOK, chs).
Proof.
  unfold changeset_readable, changeset_rrsets, changeset_entry_bytes.
  intros Hread Hsf Hst Hserial Hdeser.
  destruct chs as [sfrom sto [f |] [t |] removes adds fl];
    cbn [soa_from soa_to remove add flags serial_from serial_to
         rrset_serialize] in *;
    try discriminate Hread.
  repeat (apply andb_true_iff in Hread; destruct Hread as [Hread ?]).
  match goal with H : (fl <? 2 ^ 32) = true |- _ => apply Z.ltb_lt in H end.
  match goal with H : (0 <=? fl) = true |- _ => apply Z.leb_le in H end.
  apply Z.eqb_eq in Hread.
  match goal with
  | H : (rr_type t =? KNOT_RRTYPE_SOA) = true |- _ => apply Z.eqb_eq in H
  end.
  match goal with
  | H : forallb _ (f :: removes ++ t :: adds) = true |- _ =>
      rename H into Hwire
  end.
  match goal with
  | H : forallb _ (removes ++ adds) = true |- _ => rename H into Hnosoa
  end.
  assert (Hwf : rr_wire f <> [] /\ rr_wire t <> [] /\
                forallb (fun rr => negb (length (rr_wire rr) =? 0)%nat)
                        (removes ++ adds) = true).
  { cbn [forallb] in Hwire. apply andb_true_iff in Hwire.
    destruct Hwire as [Hf Hrest].
    rewrite forallb_app in Hrest. apply andb_true_iff in Hrest.
    destruct Hrest as [Hrm Hta]. cbn [forallb] in Hta.
    apply andb_true_iff in Hta. destruct Hta as [Ht Had].
    apply negb_true_iff, Nat.eqb_neq in Hf.
    apply negb_true_iff, Nat.eqb_neq in Ht.
    split; [intros E; rewrite E in Hf; apply Hf; reflexivity |].
    split; [intros E; rewrite E in Ht; apply Ht; reflexivity |].
    rewrite forallb_app, Hrm, Had. reflexivity. }
  destruct Hwf as (Hfw & Htw & Hwire').
  eexists. split; [reflexivity |]. split.
  - unfold zones_changeset_binary_size.
    cbn [soa_from soa_to remove add rrset_binary_size].
    rewrite !binary_size_fold, !length_app. unfold u32.
    rewrite le_bytes_length. lia.
  - unfold changeset_from_binary, changeset_of_key.
    destruct (key_make_parts sfrom sto Hsf Hst) as [-> ->].
    assert (Hlen : (length (u32 fl ++ rr_wire f
                            ++ concat (map rr_wire removes) ++ rr_wire t
                            ++ concat (map rr_wire adds)) <? 4)%nat = false).
    { apply Nat.ltb_ge. rewrite length_app. unfold u32.
      rewrite le_bytes_length. lia. }
    rewrite Hlen.
    rewrite firstn_exact by (unfold u32; apply le_bytes_length).
    rewrite skipn_exact by (unfold u32; apply le_bytes_length).
    rewrite read_back_u32, uint32_id by (unfold is_uint32; lia).
    rewrite (Hdeser f _ (or_introl eq_refl)).
    cbn [set_flags serial_from].
    rewrite Hread, (Hserial f eq_refl), !Z.eqb_refl. cbn [negb].
    rewrite (from_binary_loop_remove rrset_deserialize removes adds t).
    + reflexivity.
    + rewrite !length_app.
      pose proof (wire_length_ge (removes ++ adds) Hwire') as Hge.
      rewrite map_app, concat_app, !length_app in Hge.
      assert (Htl : (1 <= length (rr_wire t))%nat).
      { destruct (rr_wire t); [destruct Htw; reflexivity | cbn; lia]. }
      lia.
    + assumption.
    + exact Htw.
    + exact Hnosoa.
    + exact Hwire'.
    + intros rr rest Hin. apply Hdeser. right. exact Hin.
Qed.

Lemma changeset_entry_roundtrip_witness :
  exists bytes,
    changeset_entry_bytes wire_changeset = Some bytes /\
    Z.of_nat (length bytes) = zones_changeset_binary_size wire_changeset /\
    changeset_from_binary example_deserialize example_soa_serial
      (changeset_of_key (ixfrdb_key_make 100 101)) (Some bytes)
    = Some (KNOT_EOK, wire_changeset).
Proof.
  apply (changeset_entry_roundtrip example_deserialize example_soa_serial
           wire_changeset).
  - vm_compute. reflexivity.
  - unfold is_uint32. cbn. lia.
  - unfold is_uint32. cbn. lia.
  - intros f Hf. cbn in Hf. inversion Hf. reflexivity.
  - intros rr rest Hin. cbn in Hin.
    repeat (destruct Hin as [<- | Hin]; [reflexivity |]).
    destruct Hin.
Defined.

(** ** Refreshing a zone from its master *)

Lemma zones_schedule_refresh_events pct zone time o r zone' evs :
  zones_schedule_refresh pct zone time o = (r, zone', evs) ->
  (forall ev, In ev evs ->
     ev = XfrCancelRefresh \/ ev = XfrCancelExpire \/
     exists t, ev = XfrScheduleRefresh t) /\
  (forall z, zone = Some z ->
     exists z', zone' = Some z' /\
       xfr_expire (xz_xfr_in z') = xfr_expire (xz_xfr_in z) /\
       xfr_state (xz_xfr_in z') <> XFR_PENDING) /\
  (zone = None -> zone' = None /\ evs = []).
Proof.
  unfold zones_schedule_refresh. intros H.
  destruct zone as [z |].
  - cbn [set_xfr_state xz_xfr_in xfr_has_master xz_zone xfr_bootstrap_retry]
      in H.
    destruct (xfr_has_master (xz_xfr_in z)); inversion H; subst; clear H;
      (split; [| split]).
    + intros ev Hin. rewrite !in_app_iff in Hin.
      destruct Hin as [[Hin | Hin] | Hin].
      * destruct (xfr_timer (xz_xfr_in z)); simpl in Hin; intuition.
      * destruct (xfr_expire (xz_xfr_in z)); simpl in Hin; intuition.
      * simpl in Hin. destruct Hin as [<- | []]. right. right. eexists.
        reflexivity.
    + intros z0 E. inversion E; subst. eexists. split; [reflexivity |].
      cbn. split; [reflexivity | discriminate].
    + discriminate.
    + intros ev Hin. rewrite in_app_iff in Hin.
      destruct Hin as [Hin | Hin].
      * destruct (xfr_timer (xz_xfr_in z)); simpl in Hin; intuition.
      * destruct (xfr_expire (xz_xfr_in z)); simpl in Hin; intuition.
    + intros z0 E. inversion E; subst. eexists. split; [reflexivity |].
      cbn. split; [reflexivity | discriminate].
    + discriminate.
  - inversion H; subst. split; [| split].
    + intros ev [].
    + discriminate.
    + intros _. split; reflexivity.
Qed.

(** X24.  [zones_process_response] hands a request to the transfer queue
    only for a NOERROR response to an SOA query with the awaited ID, for a
    zone with contents whose master has a newer serial, and only while no
    transfer is pending.  The request is the one [zones_transfer_to_use]
    chooses (IXFR with a journal, AXFR without), over TCP.  Afterwards the
    state is [XFR_PENDING] when the queue took the request and [XFR_SCHED]
    when it did not; the function returns [KNOT_EOK] in both cases, with
    [*rsize] set to 0. *)
Theorem zones_process_response_enqueue pct rd args exp_msgid packet zone o
    rsize ret zone' evs rsize' rq r :
  zones_process_response pct rd args exp_msgid packet zone o rsize
  = (ret, zone', evs, rsize') ->
  In (XfrEnqueue rq r) evs ->
  (exists pkt, packet = Some pkt /\ pkt_qtype pkt = KNOT_RRTYPE_SOA /\
               pkt_rcode pkt = 0 /\ uint16 (pkt_id pkt) = exp_msgid) /\
  (exists z c, zone = Some z /\ contents (xz_zone z) = Some c) /\
  0 < transfer_needed o /\
  zone_xfr_state zone <> Some XFR_PENDING /\
  r = enqueue_ret o /\
  rq_type rq = zones_transfer_to_use zone /\ rq_flags rq = XFR_FLAG_TCP /\
  zone_xfr_state zone'
  = Some (if is_ok r then XFR_PENDING else XFR_SCHED) /\
  ret = Code KNOT_EOK /\ rsize' = 0.
Proof.
  unfold zones_process_response. intros H Hin.
  destruct packet as [pkt |]; [| inversion H; subst; destruct Hin].
  destruct args; cbn [negb] in H; [| inversion H; subst; destruct Hin].
  destruct (pkt_qtype pkt =? KNOT_RRTYPE_SOA) eqn:Hq;
    [| inversion H; subst; destruct Hin].
  destruct (pkt_rcode pkt =? 0) eqn:Hrc; cbn [negb] in H;
    [| inversion H; subst; destruct Hin].
  destruct zone as [z |]; [| inversion H; subst; destruct Hin].
  destruct (contents (xz_zone z)) as [c |] eqn:Hc;
    [| inversion H; subst; destruct Hin].
  destruct (uint16 (pkt_id pkt) =? exp_msgid) eqn:Hid; cbn [negb] in H;
    [| inversion H; subst; destruct Hin].
  destruct (transfer_needed o <? 0) eqn:Hneg;
    [inversion H; subst; destruct Hin |].
  destruct (transfer_needed o =? 0) eqn:Hzero.
  { destruct (zones_schedule_refresh pct (Some z) rd o) as [[r0 z0] evs0]
      eqn:Hs.
    inversion H; subst.
    destruct (zones_schedule_refresh_events _ _ _ _ _ _ _ Hs) as [Hev _].
    destruct (Hev _ Hin) as [E | [E | [t E]]]; discriminate E. }
  apply Z.eqb_eq in Hq, Hrc, Hid. apply Z.ltb_ge in Hneg.
  apply Z.eqb_neq in Hzero.
  assert (Hpre :
    (exists pkt0, Some pkt = Some pkt0 /\ pkt_qtype pkt0 = KNOT_RRTYPE_SOA /\
                  pkt_rcode pkt0 = 0 /\ uint16 (pkt_id pkt0) = exp_msgid) /\
    (exists z0 c0, Some z = Some z0 /\ contents (xz_zone z0) = Some c0) /\
    0 < transfer_needed o).
  { split; [exists pkt; auto |]. split; [exists z, c; auto | lia]. }
  destruct Hpre as (Hp1 & Hp2 & Hp3).
  destruct (xfr_state (xz_xfr_in z)) eqn:Hst;
    try (inversion H; subst; destruct Hin; fail);
    (destruct (task_created o); cbn [negb] in H;
     [| inversion H; subst; destruct Hin]);
    (destruct (is_ok (enqueue_ret o)) eqn:Hok; cbn [negb] in H;
     inversion H; subst; clear H;
     simpl in Hin;
     repeat match goal with
            | Hx : _ \/ _ |- _ => destruct Hx as [Hx | Hx]
            | Hx : False |- _ => destruct Hx
            end;
     try discriminate;
     match goal with Hx : XfrEnqueue _ _ = XfrEnqueue _ _ |- _ =>
       inversion Hx; subst; clear Hx end;
     rewrite Hok;
     repeat split; auto; cbn [zone_xfr_state]; rewrite Hst; discriminate).
Qed.

Lemma zones_process_response_enqueue_witness :
  zone_xfr_state
    (snd (fst (fst (zones_process_response 10 (-1) true 4711
                      (Some example_response) (Some example_xfr_zone)
                      example_outside 512))))
  = Some XFR_PENDING.
Proof.
  destruct (zones_process_response 10 (-1) true 4711 (Some example_response)
              (Some example_xfr_zone) example_outside 512)
    as [[[ret zone'] evs] rsize'] eqn:Hrun.
  pose proof (zones_process_response_enqueue 10 (-1) true 4711
                (Some example_response) (Some example_xfr_zone)
                example_outside 512 ret zone' evs rsize'
                (mkXfr XFR_TYPE_IIN XFR_FLAG_TCP false) KNOT_EOK Hrun) as H.
  assert (Hin : In (XfrEnqueue (mkXfr XFR_TYPE_IIN XFR_FLAG_TCP false)
                               KNOT_EOK) evs).
  { vm_compute in Hrun. inversion Hrun. left. reflexivity. }
  destruct (H Hin) as (_ & _ & _ & _ & _ & _ & _ & Hstate & _).
  exact Hstate.
Defined.

(** What one call does to the transfer state, when it is not a response
    that finds the zone up to date. *)
Lemma xfr_call_run_step pct rd c zone zone1 evs1 :
  no_updates_available c = false ->
  xfr_call_run pct rd c zone = (zone1, evs1) ->
  (length (filter transfer_enqueued evs1) <= 1)%nat /\
  (zone_xfr_state zone = Some XFR_PENDING ->
   zone_xfr_state zone1 = Some XFR_PENDING /\
   filter transfer_enqueued evs1 = []) /\
  (filter transfer_enqueued evs1 <> [] ->
   zone_xfr_state zone1 = Some XFR_PENDING).
Proof.
  intros Hno Hrun. destruct c as [o | args exp_msgid packet o].
  - unfold xfr_call_run, zones_refresh_ev in Hrun.
    destruct zone as [z |]; [| inversion Hrun; subst; cbn; intuition;
                                 discriminate].
    destruct (xz_discarded z);
      [inversion Hrun; subst; cbn; intuition; discriminate |].
    destruct (task_created o); cbn [negb] in Hrun;
      [| inversion Hrun; subst; cbn; intuition; discriminate].
    destruct (contents (xz_zone z)) as [c |].
    + destruct (xfr_expire (xz_xfr_in z)) eqn:He; cbn [negb] in Hrun;
        inversion Hrun; subst; clear Hrun;
        rewrite ?filter_app; cbn [filter transfer_enqueued rq_type app];
        destruct (enqueue_ret o); cbn [is_ok knot_error_beq negb filter
                                       transfer_enqueued app length];
        cbn; intuition; try discriminate; try congruence.
    + destruct (xfr_state (xz_xfr_in z)) eqn:Hst;
        try (inversion Hrun; subst; clear Hrun; cbn; rewrite ?Hst;
             intuition; discriminate);
        (destruct (enqueue_ret o) eqn:Hen; cbn [is_ok knot_error_beq negb]
           in Hrun;
         inversion Hrun; subst; clear Hrun; cbn; rewrite ?Hst;
         intuition; try discriminate; try congruence).
  - cbn [no_updates_available] in Hno.
    unfold xfr_call_run, zones_process_response in Hrun.
    rewrite Hno in Hrun.
    destruct packet as [pkt |];
      [| inversion Hrun; subst; cbn; intuition; discriminate].
    destruct args; cbn [negb] in Hrun;
      [| inversion Hrun; subst; cbn; intuition; discriminate].
    destruct (pkt_qtype pkt =? KNOT_RRTYPE_SOA);
      [| inversion Hrun; subst; cbn; intuition; discriminate].
    destruct (pkt_rcode pkt =? 0); cbn [negb] in Hrun;
      [| inversion Hrun; subst; cbn; intuition; discriminate].
    destruct zone as [z |];
      [| inversion Hrun; subst; cbn; intuition; discriminate].
    destruct (contents (xz_zone z));
      [| inversion Hrun; subst; cbn; intuition; discriminate].
    destruct (uint16 (pkt_id pkt) =? exp_msgid); cbn [negb] in Hrun;
      [| inversion Hrun; subst; cbn; intuition; discriminate].
    destruct (transfer_needed o <? 0);
      [inversion Hrun; subst; cbn; intuition; discriminate |].
    destruct (xfr_state (xz_xfr_in z)) eqn:Hst;
      try (inversion Hrun; subst; clear Hrun; cbn; rewrite ?Hst;
           intuition; discriminate);
      (destruct (task_created o); cbn [negb] in Hrun;
       [| inversion Hrun; subst; clear Hrun; cbn; rewrite ?Hst;
          intuition; discriminate]);
      (destruct (enqueue_ret o) eqn:Hen; cbn [is_ok knot_error_beq negb]
         in Hrun;
       inversion Hrun; subst; clear Hrun; cbn; rewrite ?Hst;
       destruct (ixfr_db (xz_zone z));
       cbn; intuition; try discriminate; try congruence).
Qed.

(** X25.  The transfer state keeps the handlers from asking twice: over
    any sequence of REFRESH/RETRY events and responses for one zone, none
    of them a response that finds the zone up to date (which resets the
    state through [zones_schedule_refresh]), the transfer queue accepts at
    most one zone transfer (AXFR or IXFR), and none when a transfer was
    pending at the start; once one is accepted the state is [XFR_PENDING]
    at the end.  SOA queries are not counted: a RETRY event sends one
    whatever the state. *)
Theorem at_most_one_transfer pct rd calls zone zone' evs :
  forallb (fun c => negb (no_updates_available c)) calls = true ->
  xfr_calls_run pct rd calls zone = (zone', evs) ->
  (length (filter transfer_enqueued evs) <= 1)%nat /\
  (zone_xfr_state zone = Some XFR_PENDING ->
   zone_xfr_state zone' = Some XFR_PENDING /\
   filter transfer_enqueued evs = []) /\
  (filter transfer_enqueued evs <> [] ->
   zone_xfr_state zone' = Some XFR_PENDING).
Proof.
  revert zone zone' evs.
  induction calls as [| c rest IH]; intros zone zone' evs Hall Hrun.
  - inversion Hrun; subst. cbn. intuition.
  - cbn [forallb] in Hall. apply andb_true_iff in Hall.
    destruct Hall as [Hc Hrest]. apply negb_true_iff in Hc.
    cbn [xfr_calls_run] in Hrun.
    destruct (xfr_call_run pct rd c zone) as [zone1 evs1] eqn:H1.
    destruct (xfr_calls_run pct rd rest zone1) as [zone2 evs2] eqn:H2.
    inversion Hrun; subst; clear Hrun.
    destruct (xfr_call_run_step _ _ _ _ _ _ Hc H1) as (Hlen1 & Hpend1 & Hfin1).
    destruct (IH _ _ _ Hrest H2) as (Hlen2 & Hpend2 & Hfin2).
    rewrite filter_app.
    destruct (filter transfer_enqueued evs1) as [| e1 f1] eqn:Hf1.
    + cbn [app]. split; [exact Hlen2 |]. split; [| exact Hfin2].
      intros Hp. destruct (Hpend1 Hp) as [Hp1 _]. exact (Hpend2 Hp1).
    + assert (Hz1 : zone_xfr_state zone1 = Some XFR_PENDING)
        by (apply Hfin1; discriminate).
      destruct (Hpend2 Hz1) as [Hz2 Hf2]. rewrite Hf2, app_nil_r.
      split; [exact Hlen1 |]. split.
      * intros Hp. destruct (Hpend1 Hp) as [_ Hnil]. discriminate Hnil.
      * intros _. exact Hz2.
Qed.

Lemma at_most_one_transfer_witness :
  (length (filter transfer_enqueued
     (snd (xfr_calls_run 10 (-1)
             [CallProcessResponse true 4711 (Some example_response)
                example_outside;
              CallRefreshEv example_outside;
              CallProcessResponse true 4711 (Some example_response)
                example_outside]
             (Some example_xfr_zone)))) <= 1)%nat.
Proof.
  destruct (xfr_calls_run 10 (-1)
              [CallProcessResponse true 4711 (Some example_response)
                 example_outside;
               CallRefreshEv example_outside;
               CallProcessResponse true 4711 (Some example_response)
                 example_outside]
              (Some example_xfr_zone)) as [zone' evs] eqn:Hrun.
  cbn [snd].
  apply (fun Hall =>
           proj1 (at_most_one_transfer 10 (-1) _ _ _ _ Hall Hrun)).
  reflexivity.
Defined.

Lemma xfr_call_run_expire pct rd c zone zone1 evs1 :
  expire_armed zone ->
  xfr_call_run pct rd c zone = (zone1, evs1) ->
  expire_armed zone1 /\ forall t, ~ In (XfrScheduleExpire t) evs1.
Proof.
  intros (z & -> & He) Hrun. unfold expire_armed.
  destruct c as [o | args exp_msgid packet o].
  - unfold xfr_call_run, zones_refresh_ev in Hrun. rewrite He in Hrun.
    cbn [negb] in Hrun.
    destruct (xz_discarded z);
      [inversion Hrun; subst; split; [eauto | intros t []] |].
    destruct (task_created o); cbn [negb] in Hrun;
      [| inversion Hrun; subst; split; [eauto | intros t []]].
    destruct (contents (xz_zone z)).
    + inversion Hrun; subst; clear Hrun. split; [eauto |].
      intros t Hin. cbn in Hin.
      destruct Hin as [Hin | [Hin | [Hin | Hin]]]; try discriminate Hin.
      destruct (is_ok (enqueue_ret o)); cbn in Hin;
        [destruct Hin | destruct Hin as [Hin | []]; discriminate Hin].
    + destruct (xfr_state (xz_xfr_in z));
        try (inversion Hrun; subst; clear Hrun; split; [eauto |];
             intros t Hin; cbn in Hin; intuition discriminate);
        (destruct (is_ok (enqueue_ret o)); cbn [negb] in Hrun;
         inversion Hrun; subst; clear Hrun;
         (split; [eexists; split; [reflexivity | exact He] |]);
         intros t Hin; cbn in Hin; intuition discriminate).
  - unfold xfr_call_run in Hrun.
    destruct (zones_process_response pct rd args exp_msgid packet (Some z)
                o 0) as [[[ret zone'] evs] rsize'] eqn:Hp.
    inversion Hrun; subst; clear Hrun.
    unfold zones_process_response in Hp.
    destruct packet as [pkt |];
      [| inversion Hp; subst; split; [eauto | intros t []]].
    destruct args; cbn [negb] in Hp;
      [| inversion Hp; subst; split; [eauto | intros t []]].
    destruct (pkt_qtype pkt =? KNOT_RRTYPE_SOA);
      [| inversion Hp; subst; split; [eauto | intros t []]].
    destruct (pkt_rcode pkt =? 0); cbn [negb] in Hp;
      [| inversion Hp; subst; split; [eauto | intros t []]].
    destruct (contents (xz_zone z));
      [| inversion Hp; subst; split; [eauto | intros t []]].
    destruct (uint16 (pkt_id pkt) =? exp_msgid); cbn [negb] in Hp;
      [| inversion Hp; subst; split; [eauto | intros t []]].
    destruct (transfer_needed o <? 0);
      [inversion Hp; subst; split; [eauto | intros t []] |].
    destruct (transfer_needed o =? 0).
    { destruct (zones_schedule_refresh pct (Some z) rd o) as [[r0 z0] evs0]
        eqn:Hs.
      inversion Hp; subst; clear Hp.
      destruct (zones_schedule_refresh_events _ _ _ _ _ _ _ Hs)
        as (Hev & Hz & _).
      destruct (Hz z eq_refl) as (z' & -> & Hexp & _). split.
      - exists z'. split; [reflexivity | congruence].
      - intros t Hin. destruct (Hev _ Hin) as [E | [E | [t' E]]];
          discriminate E. }
    destruct (xfr_state (xz_xfr_in z));
      try (inversion Hp; subst; clear Hp; split; [eauto |];
           intros t Hin; cbn in Hin; intuition discriminate);
      (destruct (task_created o); cbn [negb] in Hp;
       [| inversion Hp; subst; clear Hp;
          (split; [eexists; split; [reflexivity | exact He] |]);
          intros t Hin; cbn in Hin; intuition discriminate]);
      (destruct (is_ok (enqueue_ret o)); cbn [negb] in Hp;
       inversion Hp; subst; clear Hp;
       (split; [eexists; split; [reflexivity | exact He] |]);
       intros t Hin; cbn in Hin; intuition discriminate).
Qed.

(** X26.  The EXPIRE timer is armed once.  [zones_refresh_ev] schedules it
    only while [zone->xfr_in.expire] is NULL, and nothing in these handlers
    sets the pointer back: [zones_schedule_refresh] cancels the timer and
    leaves the pointer.  So from a zone whose EXPIRE timer is there, no
    sequence of REFRESH/RETRY events and responses (those that find the
    zone up to date included) schedules EXPIRE again. *)
Theorem expire_timer_armed_once pct rd calls z zone' evs :
  xfr_expire (xz_xfr_in z) = true ->
  xfr_calls_run pct rd calls (Some z) = (zone', evs) ->
  (exists z', zone' = Some z' /\ xfr_expire (xz_xfr_in z') = true) /\
  forall t, ~ In (XfrScheduleExpire t) evs.
Proof.
  intros He.
  assert (Ha : expire_armed (Some z)) by (exists z; auto).
  clear He. revert Ha. generalize (Some z) as zone. clear z.
  revert zone' evs.
  induction calls as [| c rest IH]; intros zone' evs zone Ha Hrun.
  - inversion Hrun; subst. split; [exact Ha | intros t []].
  - cbn [xfr_calls_run] in Hrun.
    destruct (xfr_call_run pct rd c zone) as [zone1 evs1] eqn:H1.
    destruct (xfr_calls_run pct rd rest zone1) as [zone2 evs2] eqn:H2.
    inversion Hrun; subst; clear Hrun.
    destruct (xfr_call_run_expire _ _ _ _ _ _ Ha H1) as [Ha1 Hn1].
    destruct (IH _ _ _ Ha1 H2) as [Ha2 Hn2].
    split; [exact Ha2 |].
    intros t Hin. apply in_app_or in Hin.
    destruct Hin as [Hin | Hin]; [exact (Hn1 t Hin) | exact (Hn2 t Hin)].
Qed.

Lemma expire_timer_armed_once_witness :
  expire_armed
    (fst (xfr_calls_run 10 (-1)
            [CallRefreshEv example_outside;
             CallProcessResponse true 4711 (Some example_response)
               (mkOutside true KNOT_EOK true 0 7 3 60);
             CallRefreshEv example_outside]
            (Some (set_xfr_expire example_xfr_zone true)))).
Proof.
  destruct (xfr_calls_run 10 (-1)
              [CallRefreshEv example_outside;
               CallProcessResponse true 4711 (Some example_response)
                 (mkOutside true KNOT_EOK true 0 7 3 60);
               CallRefreshEv example_outside]
              (Some (set_xfr_expire example_xfr_zone true)))
    as [zone' evs] eqn:Hrun.
  cbn [fst].
  apply (fun He =>
           proj1 (expire_timer_armed_once 10 (-1) _ _ _ _ He Hrun)).
  reflexivity.
Defined.

(** ** Verifying the TSIG of a query *)

(** X27.  [zones_verify_tsig_query] always writes [*rcode], and writes
    [KNOT_RCODE_NOERROR] exactly when it returns [KNOT_EOK].  It returns
    [KNOT_EOK] only for a query that carries a TSIG RR of a supported
    algorithm, whose key name and algorithm are those of the given key,
    whose MAC is not longer than the digest, and which
    [knot_tsig_server_check] accepts.  [*tsig_rcode] is written only
    together with [KNOT_RCODE_NOTAUTH], and [*tsig_prev_time_signed] only
    when [KNOT_TSIG_EBADTIME] is returned. *)
Theorem zones_verify_tsig_query_table
    (digest_length : Z -> Z) (dname_cmp : string -> string -> Z)
    (server_check : tsig_rr_t -> list Z -> knot_tsig_key_t -> knot_code)
    (BADKEY BADSIG BADTIME : Z) query key out ret out' :
  zones_verify_tsig_query digest_length dname_cmp server_check
                          BADKEY BADSIG BADTIME query key out
  = (ret, out') ->
  (out_rcode out' = KNOT_RCODE_NOERROR <-> ret = Code KNOT_EOK) /\
  (ret = Code KNOT_EOK ->
   exists rr,
     tsig_rr query = Some rr /\
     digest_length (tsig_rdata_alg rr) <> 0 /\
     dname_cmp (key_name key) (tsig_owner rr) = 0 /\
     key_algorithm key = tsig_rdata_alg rr /\
     tsig_rdata_mac_length rr <= digest_length (key_algorithm key) /\
     server_check rr (tsig_wire query) key = Code KNOT_EOK) /\
  (out_rcode out' <> KNOT_RCODE_NOTAUTH ->
   out_tsig_rcode out' = out_tsig_rcode out) /\
  (ret <> KNOT_TSIG_EBADTIME ->
   out_tsig_prev_time_signed out' = out_tsig_prev_time_signed out).
Proof.
  unfold zones_verify_tsig_query. intros H.
  destruct (tsig_rr query) as [rr |];
    [| inversion H; subst; cbn; intuition; discriminate].
  destruct (digest_length (tsig_rdata_alg rr) =? 0) eqn:Hd;
    [inversion H; subst; cbn; intuition; discriminate |].
  destruct (dname_cmp (key_name key) (tsig_owner rr) =? 0) eqn:Hn;
    cbn [andb negb] in H;
    [| inversion H; subst; cbn; intuition; discriminate].
  destruct (key_algorithm key =? tsig_rdata_alg rr) eqn:Ha;
    cbn [andb negb] in H;
    [| inversion H; subst; cbn; intuition; discriminate].
  destruct (tsig_rdata_mac_length rr >? digest_length (key_algorithm key))
    eqn:Hm;
    [inversion H; subst; cbn; intuition; discriminate |].
  apply Z.eqb_neq in Hd. apply Z.eqb_eq in Hn, Ha.
  assert (Hle : tsig_rdata_mac_length rr <= digest_length (key_algorithm key))
    by (rewrite Z.gtb_ltb in Hm; apply Z.ltb_ge in Hm; exact Hm).
  inversion H; subst; clear H.
  destruct (server_check rr (tsig_wire query) key) as [[] | | | |] eqn:Hc;
    cbn; (split; [split; intros E; try discriminate E; reflexivity |]);
    (split; [intros E; try discriminate E; exists rr; auto 7 |]);
    (split; [intros E; try reflexivity; destruct E; reflexivity |]);
    intros E; try reflexivity; destruct E; reflexivity.
Qed.

Lemma zones_verify_tsig_query_table_witness :
  out_rcode
    (snd (zones_verify_tsig_query example_digest_length example_dname_cmp
            example_server_check 17 16 18 example_tsig_query
            example_tsig_key (mkTsigOut KNOT_RCODE_SERVFAIL 0 0)))
  = KNOT_RCODE_NOERROR.
Proof.
  destruct (zones_verify_tsig_query example_digest_length example_dname_cmp
              example_server_check 17 16 18 example_tsig_query
              example_tsig_key (mkTsigOut KNOT_RCODE_SERVFAIL 0 0))
    as [ret out'] eqn:Hrun.
  cbn [snd].
  apply (proj1 (zones_verify_tsig_query_table example_digest_length
                  example_dname_cmp example_server_check 17 16 18 _ _ _ _ _
                  Hrun)).
  vm_compute in Hrun. inversion Hrun. reflexivity.
Defined.
